(** * ARQV30 execution engine: a shallow embedding and its checked properties

    The development follows the Python sources of the repository:

    - [services/component_orchestrator.py]   (module [ComponentOrchestrator])
    - [services/ai_manager.py]               (module [AIManager])
    - [services/google_api_rotation.py]      (module [GoogleAPIRotation])
    - [services/production_search_manager.py] (module [ProductionSearchManager])
    - [services/production_content_extractor.py]
                                              (module [ProductionContentExtractor])
    - [services/super_orchestrator.py] and [routes/analysis.py]
                                              (module [AnalysisRoutes])

    Python values are embedded in [Py.PyVal]; a [dict] is an association list
    in insertion order, because the orchestrator and the provider managers
    iterate over their dicts.  Code that can raise returns [Py.result]. *)

From Stdlib Require Import ZArith String Ascii List Bool Lia DecimalString.
From Stdlib Require Import Permutation Sorted.
From Stdlib Require Import Uint63 PrimFloat.
From stdpp Require Import base option list gmap strings.

#[local] Open Scope Z_scope.

(** ** Python values *)

Module Py.

(** *** Strings

    A Python [str] is a sequence of code points.  A Rocq [string] is read here
    as the sequence of its characters' codes (0..255), so [String.length] is
    Python's [len] on this range.  Literals with an accented letter are built
    with [chr]. *)

Definition chr (n : nat) : string := String (ascii_of_nat n) EmptyString.

Definition code (c : ascii) : nat := nat_of_ascii c.

(** [str.isspace] on code points below 256. *)
Definition is_space (c : ascii) : bool :=
  let n := code c in
  ((9 <=? n) && (n <=? 13) || (28 <=? n) && (n <=? 32) || (n =? 133) || (n =? 160))%nat.

Fixpoint lstrip (s : string) : string :=
  match s with
  | EmptyString => EmptyString
  | String c r => if is_space c then lstrip r else s
  end.

Fixpoint string_rev_onto (s acc : string) : string :=
  match s with
  | EmptyString => acc
  | String c r => string_rev_onto r (String c acc)
  end.

Definition string_rev (s : string) : string := string_rev_onto s EmptyString.

Definition rstrip (s : string) : string := string_rev (lstrip (string_rev s)).

(** [s.strip()] *)
Definition strip (s : string) : string := rstrip (lstrip s).

(** [len(s)] *)
Definition len (s : string) : Z := Z.of_nat (String.length s).

(** [s.lower()] on code points below 256: A-Z and the accented capitals. *)
Definition lower_char (c : ascii) : ascii :=
  let n := code c in
  if ((65 <=? n) && (n <=? 90) || (192 <=? n) && (n <=? 222) && negb (n =? 215))%nat
  then ascii_of_nat (n + 32) else c.

Fixpoint lower (s : string) : string :=
  match s with
  | EmptyString => EmptyString
  | String c r => String (lower_char c) (lower r)
  end.

(** [needle in hay] for two strings *)
Fixpoint contains (needle hay : string) : bool :=
  String.prefix needle hay ||
  match hay with
  | EmptyString => false
  | String _ r => contains needle r
  end.

Fixpoint join (sep : string) (l : list string) : string :=
  match l with
  | [] => EmptyString
  | [x] => x
  | x :: r => x +:+ sep +:+ join sep r
  end.

(** [str(z)] for an [int] *)
Definition str_of_Z (z : Z) : string := NilZero.string_of_int (Z.to_int z).

(** *** Exceptions and results *)

Record exn := Exn { exn_class : string; exn_str : string }.

Inductive result (A : Type) : Type :=
| Ok (a : A)
| Raise (e : exn).
Arguments Ok {A} a.
Arguments Raise {A} e.

Definition bind {A B} (r : result A) (k : A -> result B) : result B :=
  match r with
  | Ok a => k a
  | Raise e => Raise e
  end.

Notation "'let*' x ':=' r 'in' k" := (bind r (fun x => k))
  (at level 10, x name, r at level 100, k at level 200).

(** *** Dicts in insertion order *)

Definition dict (V : Type) : Type := list (string * V).

Fixpoint dict_get {V} (k : string) (d : dict V) : option V :=
  match d with
  | [] => None
  | (k', v) :: r => if String.eqb k k' then Some v else dict_get k r
  end.

(** [d[k] = v]: an existing key keeps its place, a new key goes last. *)
Fixpoint dict_set {V} (k : string) (v : V) (d : dict V) : dict V :=
  match d with
  | [] => [(k, v)]
  | (k', v') :: r =>
      if String.eqb k k' then (k, v) :: r else (k', v') :: dict_set k v r
  end.

Definition dict_mem {V} (k : string) (d : dict V) : bool :=
  match dict_get k d with Some _ => true | None => false end.

Definition dict_keys {V} (d : dict V) : list string := map fst d.

Definition dict_values {V} (d : dict V) : list V := map snd d.

(** [d.update(u)] *)
Definition dict_update {V} (d u : dict V) : dict V :=
  fold_left (fun acc kv => dict_set (fst kv) (snd kv) acc) u d.

(** [d[k]] as an expression: a missing key raises [KeyError]. *)
Definition item {V} (k : string) (d : dict V) : result V :=
  match dict_get k d with
  | Some v => Ok v
  | None => Raise (Exn "KeyError" ("'" +:+ k +:+ "'"))
  end.

(** A dict display [{k1: v1, k2: v2, ...}] *)
Definition dict_of {V} (l : list (string * V)) : dict V := dict_update [] l.

(** *** Values *)

#[warnings="-register-all"]
Inductive PyVal : Type :=
| PNone
| PBool (b : bool)
| PInt (z : Z)
| PFloat (f : float)
| PStr (s : string)
| PList (l : list PyVal)
| PDict (d : list (string * PyVal))
| PObj (str_text repr_text : string) (truth : bool).
(* [PObj] is any other object (a tuple, a type, a client), given by what
   [str], [repr] and [bool] return on it. *)

Inductive py_type : Type :=
| T_NoneType | T_bool | T_int | T_float | T_str | T_list | T_dict | T_object.

Definition py_type_eqb (a b : py_type) : bool :=
  match a, b with
  | T_NoneType, T_NoneType | T_bool, T_bool | T_int, T_int | T_float, T_float
  | T_str, T_str | T_list, T_list | T_dict, T_dict | T_object, T_object => true
  | _, _ => false
  end.

Definition type_of (v : PyVal) : py_type :=
  match v with
  | PNone => T_NoneType
  | PBool _ => T_bool
  | PInt _ => T_int
  | PFloat _ => T_float
  | PStr _ => T_str
  | PList _ => T_list
  | PDict _ => T_dict
  | PObj _ _ _ => T_object
  end.

Definition type_name (t : py_type) : string :=
  match t with
  | T_NoneType => "NoneType"
  | T_bool => "bool"
  | T_int => "int"
  | T_float => "float"
  | T_str => "str"
  | T_list => "list"
  | T_dict => "dict"
  | T_object => "object"
  end.

(** [isinstance(v, t)]: [bool] is a subclass of [int], everything is an
    [object]. *)
Definition isinstance (v : PyVal) (t : py_type) : bool :=
  py_type_eqb (type_of v) t
  || py_type_eqb t T_object
  || (py_type_eqb (type_of v) T_bool && py_type_eqb t T_int).

(** [bool(v)] *)
Definition truthy (v : PyVal) : bool :=
  match v with
  | PNone => false
  | PBool b => b
  | PInt z => negb (Z.eqb z 0)
  | PFloat f => negb (PrimFloat.eqb f 0%float)
  | PStr s => negb (String.eqb s "")
  | PList l => match l with [] => false | _ => true end
  | PDict d => match d with [] => false | _ => true end
  | PObj _ _ t => t
  end.

(** [a or b]; [b] is given lazily by the callers where it can raise. *)
Definition py_or (a b : PyVal) : PyVal := if truthy a then a else b.

Section Repr.

(** The shortest round-trip printing of a float is left to the interpreter. *)
Variable float_repr : float -> string.

Definition hex_digit (n : nat) : string :=
  String (ascii_of_nat (if (n <? 10)%nat then 48 + n else 87 + n)) EmptyString.

Definition printable (n : nat) : bool :=
  ((32 <=? n) && (n <? 127) || (161 <=? n) && negb (n =? 173))%nat.

Definition dquote : ascii := ascii_of_nat 34.

Definition repr_char (quote : ascii) (c : ascii) : string :=
  let n := code c in
  if Ascii.eqb c quote || Ascii.eqb c "\"%char then String "\"%char (String c EmptyString)
  else if (n =? 9)%nat then "\t"
  else if (n =? 10)%nat then "\n"
  else if (n =? 13)%nat then "\r"
  else if printable n then String c EmptyString
  else "\x" +:+ hex_digit (n / 16) +:+ hex_digit (n mod 16).

Fixpoint repr_chars (quote : ascii) (s : string) : string :=
  match s with
  | EmptyString => EmptyString
  | String c r => repr_char quote c +:+ repr_chars quote r
  end.

(** [repr(s)] for a [str]: single quotes unless the text has one and no
    double quote. *)
Definition repr_str (s : string) : string :=
  let quote :=
    if contains "'" s && negb (contains (String dquote EmptyString) s)
    then dquote else "'"%char in
  String quote (repr_chars quote s) +:+ String quote EmptyString.

Fixpoint repr (v : PyVal) : string :=
  match v with
  | PNone => "None"
  | PBool b => if b then "True" else "False"
  | PInt z => str_of_Z z
  | PFloat f => float_repr f
  | PStr s => repr_str s
  | PList l => "[" +:+ join ", " (map repr l) +:+ "]"
  | PDict d =>
      "{" +:+ join ", " (map (fun '(k, x) => repr_str k +:+ ": " +:+ repr x) d) +:+ "}"
  | PObj _ r _ => r
  end.

(** [str(v)], also what an f-string field prints. *)
Definition str (v : PyVal) : string :=
  match v with
  | PStr s => s
  | PObj s _ _ => s
  | _ => repr v
  end.

End Repr.

(** [x.get(k, default)] on a value: only a dict has the method. *)
Definition get_method (x : PyVal) (k : string) (dflt : PyVal) : result PyVal :=
  match x with
  | PDict d => Ok (default dflt (dict_get k d))
  | _ => Raise (Exn "AttributeError"
                  ("'" +:+ type_name (type_of x) +:+ "' object has no attribute 'get'"))
  end.

(** [x.update(u)] on a value. *)
Definition update_method (x : PyVal) (u : dict PyVal) : result PyVal :=
  match x with
  | PDict d => Ok (PDict (dict_update d u))
  | _ => Raise (Exn "AttributeError"
                  ("'" +:+ type_name (type_of x) +:+ "' object has no attribute 'update'"))
  end.

(** *** Sizes, membership and subscripts

    An object of another class ([PObj]) is taken to have none of the
    special methods below. *)

(** [len(x)] *)
Definition py_len (x : PyVal) : result Z :=
  match x with
  | PStr s => Ok (len s)
  | PList l => Ok (Z.of_nat (length l))
  | PDict d => Ok (Z.of_nat (length d))
  | _ => Raise (Exn "TypeError"
                  ("object of type '" +:+ type_name (type_of x) +:+ "' has no len()"))
  end.

(** [v == s] for a string [s] *)
Definition eq_str (s : string) (v : PyVal) : bool :=
  match v with PStr x => String.eqb x s | _ => false end.

(** [k in x] for a string [k] *)
Definition py_in (k : string) (x : PyVal) : result bool :=
  match x with
  | PDict d => Ok (dict_mem k d)
  | PList l => Ok (existsb (eq_str k) l)
  | PStr s => Ok (contains k s)
  | _ => Raise (Exn "TypeError"
                  ("argument of type '" +:+ type_name (type_of x) +:+ "' is not iterable"))
  end.

(** [x[k]] for a string [k] *)
Definition subscript (x : PyVal) (k : string) : result PyVal :=
  match x with
  | PDict d => item k d
  | PList _ => Raise (Exn "TypeError" "list indices must be integers or slices, not str")
  | PStr _ => Raise (Exn "TypeError" "string indices must be integers, not 'str'")
  | _ => Raise (Exn "TypeError"
                  ("'" +:+ type_name (type_of x) +:+ "' object is not subscriptable"))
  end.

(** [range(n)] *)
Definition range (n : nat) : list Z := map Z.of_nat (seq 0 n).

(** [l[i]] for a list: a negative index counts from the end. *)
Definition list_index {A} (l : list A) (i : Z) : option A :=
  let n := Z.of_nat (length l) in
  if (0 <=? i) && (i <? n) then nth_error l (Z.to_nat i)
  else if (i <? 0) && (0 <=? n + i) then nth_error l (Z.to_nat (n + i))
  else None.

(** [x[i]] for an integer [i]; a dict of this embedding has no integer key. *)
Definition subscript_index (x : PyVal) (i : Z) : result PyVal :=
  match x with
  | PList l =>
      match list_index l i with
      | Some v => Ok v
      | None => Raise (Exn "IndexError" "list index out of range")
      end
  | PStr s =>
      match list_index (list_ascii_of_string s) i with
      | Some c => Ok (PStr (String c EmptyString))
      | None => Raise (Exn "IndexError" "string index out of range")
      end
  | PDict _ => Raise (Exn "KeyError" (str_of_Z i))
  | _ => Raise (Exn "TypeError"
                  ("'" +:+ type_name (type_of x) +:+ "' object is not subscriptable"))
  end.

End Py.

(** ** services/component_orchestrator.py *)

Module ComponentOrchestrator.
Import Py.

(** An executor is a callable on the component's input dict; it returns a
    value or raises.  A run calls each executor at most once, so an executor
    is given by its outcome on the input it receives. *)
Definition Executor : Type := PyVal -> result PyVal.

(** [progress_callback: Optional[Callable]] *)
Definition ProgressCallback : Type := option (Z -> string -> result unit).

(** One value of [self.component_registry]. *)
Record component_entry := {
  executor : Executor;
  dependencies : list string;
  validation_rules : dict PyVal;
  required : bool;
  status : string
}.

(** The fields set by [__init__]. *)
Record orchestrator := {
  component_registry : dict component_entry;
  execution_order : list string;
  self_validation_rules : dict PyVal;
  component_results : dict PyVal;
  execution_stats : dict PyVal;
  components : dict Executor
}.

Definition __init__ : orchestrator :=
  {| component_registry := [];
     execution_order := [];
     self_validation_rules := [];
     component_results := [];
     execution_stats := [];
     components := [] |}.

(** [register_component]: [dependencies] and [validation_rules] default to
    [None]; the method has no return value and no failure path. *)
Definition register_component (self : orchestrator) (name : string)
    (executor : Executor) (dependencies : option (list string))
    (validation_rules : option (dict PyVal)) (required : bool) : orchestrator :=
  {| component_registry :=
       dict_set name
         {| executor := executor;
            dependencies := default [] dependencies;
            validation_rules := default [] validation_rules;
            required := required;
            status := "pending" |}
         (component_registry self);
     execution_order :=
       if existsb (String.eqb name) (execution_order self)
       then execution_order self
       else execution_order self ++ [name];
     self_validation_rules := self_validation_rules self;
     component_results := component_results self;
     execution_stats := execution_stats self;
     components := dict_set name executor (components self) |}.

(** A sequence of [register_component] calls on a fresh orchestrator, as
    [SuperOrchestrator._register_all_components] makes. *)
Record registration := {
  reg_name : string;
  reg_executor : Executor;
  reg_dependencies : option (list string);
  reg_validation_rules : option (dict PyVal);
  reg_required : bool
}.

Definition register (self : orchestrator) (r : registration) : orchestrator :=
  register_component self (reg_name r) (reg_executor r) (reg_dependencies r)
    (reg_validation_rules r) (reg_required r).

Definition register_all (regs : list registration) : orchestrator :=
  fold_left register regs __init__.

(** The names of a list in the order of their first occurrence. *)
Definition first_seen (names : list string) : list string :=
  fold_left
    (fun seen name => if existsb (String.eqb name) seen then seen else seen ++ [name])
    names [].

(** The progress callback returns at step [n] of the loop. *)
Definition callback_returns (progress_callback : ProgressCallback) (n : Z)
    (name : string) : Prop :=
  match progress_callback with
  | Some f => exists u, f (n + 1) ("Executando " +:+ name +:+ "...") = Ok u
  | None => True
  end.

(** What the run does to the outside, in order. *)
Inductive event : Type :=
| EvProgress (step : Z) (message : string)
| EvInvoke (component : string) (input : PyVal)
| EvSave (etapa : string) (dados : PyVal) (categoria : string).

Definition invoked (log : list event) : list string :=
  omap (fun ev => match ev with EvInvoke c _ => Some c | _ => None end) log.

Section Run.

Variable float_repr : float -> string.
(** [services.auto_save_manager.salvar_etapa] is not part of these sources:
    it is given by whether it returns or raises. *)
Variable salvar_etapa : string -> PyVal -> string -> result unit.
(** [time.time()] at the end of the run. *)
Variable time_time : float.

Definition _prepare_base_data (data : dict PyVal) : result (dict PyVal) :=
  let base_data := data in
  let* segmento :=
    (let a := default PNone (dict_get "segmento" base_data) in
     if truthy a then Ok a
     else get_method (default (PDict []) (dict_get "context_data" base_data))
            "segmento" (PStr "mercado")) in
  let base_data := dict_set "segmento" segmento base_data in
  let* produto :=
    (let a := default PNone (dict_get "produto" base_data) in
     if truthy a then Ok a
     else get_method (default (PDict []) (dict_get "context_data" base_data))
            "produto" (PStr "produto")) in
  let base_data := dict_set "produto" produto base_data in
  let base_data :=
    if dict_mem "context_data" base_data then base_data
    else dict_set "context_data" (PDict []) base_data in
  let* context_data :=
    update_method (default PNone (dict_get "context_data" base_data))
      [("segmento", segmento); ("produto", produto)] in
  let base_data := dict_set "context_data" context_data base_data in
  let base_data :=
    if negb (dict_mem "avatar_data" base_data)
       || negb (truthy (default PNone (dict_get "avatar_data" base_data)))
    then
      dict_set "avatar_data"
        (PDict
           [("nome", PStr ("Avatar " +:+ str float_repr segmento));
            ("dores_viscerais",
              PList [PStr ("Dificuldades em " +:+ str float_repr segmento);
                     PStr "Falta de crescimento";
                     PStr ("Concorr" +:+ chr 234 +:+ "ncia intensa")]);
            ("desejos_secretos",
              PList [PStr ("Dominar " +:+ str float_repr segmento);
                     PStr "Crescimento acelerado";
                     PStr ("Lideran" +:+ chr 231 +:+ "a de mercado")])])
        base_data
    else base_data in
  Ok base_data.

Definition _prepare_component_data (base_data : dict PyVal)
    (component_name : string) : dict PyVal :=
  let component_data := base_data in
  if String.eqb component_name "mental_drivers" then
    dict_set "data"
      (PDict
         [("avatar_data", default (PDict []) (dict_get "avatar_data" component_data));
          ("context_data", default (PDict []) (dict_get "context_data" component_data));
          ("session_id", default PNone (dict_get "session_id" component_data))])
      component_data
  else component_data.

(** [len(result)] where [result] is a list. *)
Definition list_len (v : PyVal) : Z :=
  match v with PList l => Z.of_nat (length l) | _ => 0 end.

Definition _normalize_component_result (component_name : string)
    (result : PyVal) : PyVal :=
  if isinstance result T_list then
    PDict [("success", PBool true);
           ("data", result);
           ("total_items", PInt (list_len result));
           ("component", PStr component_name)]
  else if negb (isinstance result T_dict) then
    PDict [("success", PBool false);
           ("data", PStr (str float_repr result));
           ("component", PStr component_name);
           ("converted", PBool true)]
  else result.

(** [d.get(k)] on a value known to be a dict (guarded by [isinstance]). *)
Definition dict_field (k : string) (v : PyVal) : PyVal :=
  match v with PDict d => default PNone (dict_get k d) | _ => PNone end.

Definition _validate_component_result (component_name : string)
    (result : PyVal) (expected_type : py_type) : bool :=
  if negb (isinstance result expected_type) then
    if isinstance result T_list && py_type_eqb expected_type T_dict then true
    else false
  else if isinstance result T_dict
          && truthy (dict_field "error" result)
          && negb (truthy (dict_field "fallback_used" result))
  then false
  else true.

(** The state of the loop of [execute_components]. *)
Record loop_state := {
  results : dict PyVal;
  components_executed : Z;
  log : list event
}.

Definition error_result (message component_name : string) : PyVal :=
  PDict [("error", PStr message); ("component", PStr component_name)].

(** The [except Exception as e] branch. *)
Definition on_exception (component_name : string) (e : exn)
    (results : dict PyVal) (executed : Z) (log : list event) : loop_state :=
  {| results := dict_set component_name (error_result (exn_str e) component_name) results;
     components_executed := executed + 1;
     log := log |}.

(** One turn of [for component_name, component_func in self.components.items()]. *)
Definition run_component (progress_callback : ProgressCallback)
    (base_data : dict PyVal) (st : loop_state)
    (item : string * Executor) : loop_state :=
  let component_name := fst item in
  let component_func := snd item in
  let message := "Executando " +:+ component_name +:+ "..." in
  let called :=
    match progress_callback with
    | Some f => (f (components_executed st + 1) message,
                 log st ++ [EvProgress (components_executed st + 1) message])
    | None => (Ok tt, log st)
    end in
  match fst called with
  | Raise e => on_exception component_name e (results st) (components_executed st) (snd called)
  | Ok _ =>
      let component_data := _prepare_component_data base_data component_name in
      let log2 := snd called ++ [EvInvoke component_name (PDict component_data)] in
      match component_func (PDict component_data) with
      | Raise e => on_exception component_name e (results st) (components_executed st) log2
      | Ok result =>
          let result := _normalize_component_result component_name result in
          if _validate_component_result component_name result T_dict then
            let results1 := dict_set component_name result (results st) in
            let etapa := "componente_" +:+ component_name in
            let log3 := log2 ++ [EvSave etapa result "analise_completa"] in
            match salvar_etapa etapa result "analise_completa" with
            | Raise e => on_exception component_name e results1 (components_executed st) log3
            | Ok _ =>
                {| results := results1;
                   components_executed := components_executed st + 1;
                   log := log3 |}
            end
          else
            {| results :=
                 dict_set component_name
                   (error_result
                      ("Falha na valida" +:+ chr 231 +:+ chr 227 +:+ "o de " +:+ component_name)
                      component_name)
                   (results st);
               components_executed := components_executed st + 1;
               log := log2 |}
      end
  end.

Definition run_components (progress_callback : ProgressCallback)
    (base_data : dict PyVal) (items : dict Executor) : loop_state :=
  fold_left (run_component progress_callback base_data) items
    {| results := []; components_executed := 0; log := [] |}.

(** One turn, run from an empty result map at step [n]. *)
Definition turn (progress_callback : ProgressCallback) (base_data : dict PyVal)
    (n : Z) (item : string * Executor) : loop_state :=
  run_component progress_callback base_data
    {| results := []; components_executed := n; log := [] |} item.

(** The entry a turn writes for its component, and what it does. *)
Definition entry_of (progress_callback : ProgressCallback) (base_data : dict PyVal)
    (n : Z) (item : string * Executor) : PyVal :=
  default PNone (dict_get (fst item) (results (turn progress_callback base_data n item))).

Definition events_of (progress_callback : ProgressCallback) (base_data : dict PyVal)
    (n : Z) (item : string * Executor) : list event :=
  log (turn progress_callback base_data n item).

(** The result map and the log of the whole loop, turn by turn. *)
Fixpoint entries (progress_callback : ProgressCallback) (base_data : dict PyVal)
    (n : Z) (items : dict Executor) : dict PyVal :=
  match items with
  | [] => []
  | item :: rest =>
      (fst item, entry_of progress_callback base_data n item)
        :: entries progress_callback base_data (n + 1) rest
  end.

Fixpoint events (progress_callback : ProgressCallback) (base_data : dict PyVal)
    (n : Z) (items : dict Executor) : list event :=
  match items with
  | [] => []
  | item :: rest =>
      events_of progress_callback base_data n item
        ++ events progress_callback base_data (n + 1) rest
  end.

(** [sum(1 for result in results.values() if not result.get('error'))] *)
Fixpoint count_successful (values : list PyVal) : result Z :=
  match values with
  | [] => Ok 0
  | v :: rest =>
      let* e := get_method v "error" PNone in
      let* n := count_successful rest in
      Ok ((if truthy e then 0 else 1) + n)
  end.

(** [{name: 'success' if not result.get('error') else 'failed' for ...}] *)
Fixpoint components_status (items : dict PyVal) : result (dict PyVal) :=
  match items with
  | [] => Ok []
  | (name, v) :: rest =>
      let* e := get_method v "error" PNone in
      let* d := components_status rest in
      Ok (dict_update [(name, PStr (if truthy e then "failed" else "success"))] d)
  end.

(** [float(z)] for an int, rounded to the nearest float as Python does.  The
    value is Python's for [- 2^63 < z < 2^63]; the counts of this module are
    lengths of lists, and the statements that convert a free field bound it. *)
Definition float_of_Z (z : Z) : float :=
  if z <? 0 then PrimFloat.opp (PrimFloat.of_uint63 (Uint63.of_Z (- z)))
  else PrimFloat.of_uint63 (Uint63.of_Z z).

(** [(successful / total * 100) if total > 0 else 0] *)
Definition success_rate (successful total : Z) : PyVal :=
  if 0 <? total
  then PFloat (PrimFloat.mul (PrimFloat.div (float_of_Z successful) (float_of_Z total))
                 (float_of_Z 100))
  else PInt 0.

Definition execute_components (self : orchestrator) (data : dict PyVal)
    (progress_callback : ProgressCallback) : list event * result PyVal :=
  match _prepare_base_data data with
  | Raise e => ([], Raise e)
  | Ok base_data =>
      let st := run_components progress_callback base_data (components self) in
      let report :=
        let* successful_components := count_successful (dict_values (results st)) in
        let total_components := Z.of_nat (length (results st)) in
        let* statuses := components_status (results st) in
        Ok (PDict
              [("components_executed", PInt total_components);
               ("successful_components", PInt successful_components);
               ("success_rate", success_rate successful_components total_components);
               ("results", PDict (results st));
               ("execution_summary",
                 PDict [("total_time", PFloat time_time);
                        ("components_status", PDict statuses)])]) in
      match report with
      | Raise e => (log st, Raise e)
      | Ok report =>
          let log1 := log st ++ [EvSave "component_orchestrator_report" report "analise_completa"] in
          match salvar_etapa "component_orchestrator_report" report "analise_completa" with
          | Raise e => (log1, Raise e)
          | Ok _ => (log1, Ok report)
          end
      end
  end.

End Run.

(** Reading a report. *)
Definition report_results (report : PyVal) : dict PyVal :=
  match dict_field "results" report with PDict d => d | _ => [] end.

Definition report_status (report : PyVal) : dict PyVal :=
  match dict_field "components_status" (dict_field "execution_summary" report) with
  | PDict d => d
  | _ => []
  end.

(** The status the report gives to an entry of the result map. *)
Definition status_of (entry : PyVal) : PyVal :=
  PStr (if truthy (dict_field "error" entry) then "failed" else "success").

Definition is_dict (v : PyVal) : Prop := exists d, v = PDict d.

(** The three records of a registration stay aligned. *)
Definition aligned (self : orchestrator) : Prop :=
  List.NoDup (dict_keys (components self)) /\
  dict_keys (component_registry self) = dict_keys (components self) /\
  execution_order self = dict_keys (components self).

(** *** The status inquiries *)

(** [self.component_registry.get(component_name, {}).get('status', 'not_found')];
    every entry of the registry has a ['status']. *)
Definition get_component_status (self : orchestrator) (component_name : string) : string :=
  match dict_get component_name (component_registry self) with
  | Some component => status component
  | None => "not_found"
  end.

(** [len([c for c in self.component_registry.values() if c['status'] == s])] *)
Definition count_with_status (s : string) (self : orchestrator) : Z :=
  Z.of_nat
    (length (List.filter (fun c => String.eqb (status c) s)
               (dict_values (component_registry self)))).

(** The dict [get_components_status] returns. *)
Record components_status_dict := {
  cs_total_components : Z;
  cs_successful_components : Z;
  cs_failed_components : Z;
  cs_components_detail : dict component_entry
}.

Definition get_components_status (self : orchestrator) : components_status_dict :=
  {| cs_total_components := Z.of_nat (length (component_registry self));
     cs_successful_components := count_with_status "success" self;
     cs_failed_components := count_with_status "failed" self;
     cs_components_detail := component_registry self |}.

(** The loop of [get_execution_summary] that counts the statuses. *)
Definition status_breakdown (self : orchestrator) : dict Z :=
  fold_left
    (fun status_counts entry =>
       let status := status (snd entry) in
       dict_set status (default 0 (dict_get status status_counts) + 1) status_counts)
    (component_registry self) [].

Definition get_execution_summary (self : orchestrator) : PyVal :=
  let status_counts := status_breakdown self in
  let total := Z.of_nat (length (component_registry self)) in
  PDict
    [("total_components", PInt total);
     ("status_breakdown", PDict (map (fun kv => (fst kv, PInt (snd kv))) status_counts));
     ("success_rate",
       match component_registry self with
       | [] => PInt 0
       | _ =>
           PFloat (PrimFloat.mul
                     (PrimFloat.div
                        (float_of_Z (default 0 (dict_get "success" status_counts)))
                        (float_of_Z total))
                     (float_of_Z 100))
       end)].

(** *** The legacy wrapper *)

(** [_create_component_fallback]; [now] is [datetime.now().isoformat()]. *)
Definition _create_component_fallback (component_name error_msg now : string) : PyVal :=
  PDict [("status", PStr "fallback");
         ("component", PStr component_name);
         ("error", PStr error_msg);
         ("fallback_used", PBool true);
         ("timestamp", PStr now);
         ("message",
           PStr ("Componente " +:+ component_name
                 +:+ " executado com fallback devido a erro"))].

(** [execute_component_safely(component_name, component_func, *args, **kwargs)] *)
Definition execute_component_safely (component_name : string)
    (component_func : list PyVal -> dict PyVal -> result PyVal)
    (args : list PyVal) (kwargs : dict PyVal) (now : string) : PyVal :=
  match component_func args kwargs with
  | Ok result => result
  | Raise e => _create_component_fallback component_name (exn_str e) now
  end.

(** *** [_execute_mental_drivers] *)

Section MentalDrivers.

Variable float_repr : float -> string.
(** [mental_drivers_architect.generate_custom_drivers(avatar_data,
    context_data, session_id=...)], the imported module or its mock. *)
Variable generate_custom_drivers : PyVal -> PyVal -> PyVal -> result PyVal.

(** The items a [**x] in a dict display contributes. *)
Definition mapping_items (x : PyVal) : result (dict PyVal) :=
  match x with
  | PDict d => Ok d
  | _ => Raise (Exn "TypeError"
                  ("'" +:+ type_name (type_of x) +:+ "' object is not a mapping"))
  end.

(** The [try] block. *)
Definition mental_drivers_try (data : dict PyVal) : result PyVal :=
  let* segmento :=
    (let a := default PNone (dict_get "segmento" data) in
     if truthy a then Ok a
     else get_method (default (PDict []) (dict_get "context_data" data))
            "segmento" (PStr "mercado")) in
  let* produto :=
    (let a := default PNone (dict_get "produto" data) in
     if truthy a then Ok a
     else get_method (default (PDict []) (dict_get "context_data" data))
            "produto" (PStr "produto")) in
  let* given := mapping_items (default (PDict []) (dict_get "context_data" data)) in
  let context_data := dict_update [("segmento", segmento); ("produto", produto)] given in
  let avatar_data := default (PDict []) (dict_get "avatar_data" data) in
  let avatar_data :=
    if negb (truthy avatar_data) then
      PDict
        [("nome", PStr ("Avatar " +:+ str float_repr segmento));
         ("dores_viscerais",
           PList [PStr ("Dificuldades em " +:+ str float_repr segmento);
                  PStr "Falta de resultados";
                  PStr ("Concorr" +:+ chr 234 +:+ "ncia alta")]);
         ("desejos_secretos",
           PList [PStr ("Dominar " +:+ str float_repr segmento);
                  PStr "Crescer rapidamente";
                  PStr ("Ser refer" +:+ chr 234 +:+ "ncia")])]
    else avatar_data in
  let* result :=
    generate_custom_drivers avatar_data (PDict context_data)
      (default PNone (dict_get "session_id" data)) in
  if isinstance result T_list then
    Ok (PDict [("success", PBool true);
               ("drivers_customizados", result);
               ("total_drivers", PInt (list_len result))])
  else if isinstance result T_dict then Ok result
  else Ok (PDict [("error",
                    PStr ("Formato inv" +:+ chr 225
                          +:+ "lido retornado pelo driver generator"))]).

Definition _execute_mental_drivers (data : dict PyVal) : PyVal :=
  match mental_drivers_try data with
  | Ok result => result
  | Raise e =>
      PDict
        [("error", PStr (exn_str e));
         ("fallback_used", PBool true);
         ("drivers_basicos",
           PList
             [PDict
                [("nome",
                   PStr ("Urg" +:+ chr 234 +:+ "ncia "
                         +:+ str float_repr
                               (default (PStr "Mercado") (dict_get "segmento" data))));
                 ("gatilho_central", PStr "Tempo limitado para agir");
                 ("definicao_visceral",
                   PStr ("Cada dia perdido " +:+ chr 233 +:+ " oportunidade que n"
                         +:+ chr 227 +:+ "o volta"))]])]
  end.

End MentalDrivers.

(** No entry of the registry has left the status [register_component] gave
    it. *)
Definition all_pending (self : orchestrator) : Prop :=
  Forall (fun entry : string * component_entry => status (snd entry) = "pending")
    (component_registry self).

(** *** What [_prepare_base_data] reads *)

(** The context of a request: its ['context_data'] when that is a dict. *)
Definition context_of (data : dict PyVal) : dict PyVal :=
  match dict_get "context_data" data with Some (PDict c) => c | _ => [] end.

(** The request has no ['context_data'], or one that is a dict. *)
Definition context_usable (data : dict PyVal) : Prop :=
  match dict_get "context_data" data with
  | Some (PDict _) | None => True
  | Some _ => False
  end.

(** [data.get(key) or context.get(key, fallback)] *)
Definition chosen (key fallback : string) (data : dict PyVal) : PyVal :=
  let a := default PNone (dict_get key data) in
  if truthy a then a else default (PStr fallback) (dict_get key (context_of data)).

End ComponentOrchestrator.

(** ** services/ai_manager.py *)

Module AIManager.
Import Py.

(** One value of [self.providers].  [p_last_failure_time] is what
    [provider.get('last_failure_time')] reads: no code of the module stores
    that key in a provider dict, so [__init__] leaves it absent ([None]). *)
Record provider := {
  client : PyVal;
  available : bool;
  priority : Z;
  error_count : Z;
  model : option string;
  models : list string;
  current_model_index : Z;
  max_errors : Z;
  last_success : option float;
  consecutive_failures : Z;
  p_last_failure_time : option float
}.

Definition set_available (b : bool) (p : provider) : provider :=
  {| client := client p; available := b; priority := priority p;
     error_count := error_count p; model := model p; models := models p;
     current_model_index := current_model_index p; max_errors := max_errors p;
     last_success := last_success p;
     consecutive_failures := consecutive_failures p;
     p_last_failure_time := p_last_failure_time p |}.

Definition set_error_count (n : Z) (p : provider) : provider :=
  {| client := client p; available := available p; priority := priority p;
     error_count := n; model := model p; models := models p;
     current_model_index := current_model_index p; max_errors := max_errors p;
     last_success := last_success p;
     consecutive_failures := consecutive_failures p;
     p_last_failure_time := p_last_failure_time p |}.

Definition set_consecutive_failures (n : Z) (p : provider) : provider :=
  {| client := client p; available := available p; priority := priority p;
     error_count := error_count p; model := model p; models := models p;
     current_model_index := current_model_index p; max_errors := max_errors p;
     last_success := last_success p;
     consecutive_failures := n;
     p_last_failure_time := p_last_failure_time p |}.

Definition set_last_success (t : option float) (p : provider) : provider :=
  {| client := client p; available := available p; priority := priority p;
     error_count := error_count p; model := model p; models := models p;
     current_model_index := current_model_index p; max_errors := max_errors p;
     last_success := t;
     consecutive_failures := consecutive_failures p;
     p_last_failure_time := p_last_failure_time p |}.

Definition set_client (c : PyVal) (p : provider) : provider :=
  {| client := c; available := available p; priority := priority p;
     error_count := error_count p; model := model p; models := models p;
     current_model_index := current_model_index p; max_errors := max_errors p;
     last_success := last_success p;
     consecutive_failures := consecutive_failures p;
     p_last_failure_time := p_last_failure_time p |}.

(** The manager's fields. *)
Record manager := {
  providers : dict provider;
  provider_failures : dict Z;
  last_error : dict (option string);
  provider_enabled : dict bool;
  last_failure_time : dict (option float);
  max_failures : Z
}.

Definition with_providers (d : dict provider) (m : manager) : manager :=
  {| providers := d; provider_failures := provider_failures m;
     last_error := last_error m; provider_enabled := provider_enabled m;
     last_failure_time := last_failure_time m; max_failures := max_failures m |}.

Definition with_provider_failures (d : dict Z) (m : manager) : manager :=
  {| providers := providers m; provider_failures := d;
     last_error := last_error m; provider_enabled := provider_enabled m;
     last_failure_time := last_failure_time m; max_failures := max_failures m |}.

Definition with_last_error (d : dict (option string)) (m : manager) : manager :=
  {| providers := providers m; provider_failures := provider_failures m;
     last_error := d; provider_enabled := provider_enabled m;
     last_failure_time := last_failure_time m; max_failures := max_failures m |}.

Definition with_provider_enabled (d : dict bool) (m : manager) : manager :=
  {| providers := providers m; provider_failures := provider_failures m;
     last_error := last_error m; provider_enabled := d;
     last_failure_time := last_failure_time m; max_failures := max_failures m |}.

Definition with_last_failure_time (d : dict (option float)) (m : manager) : manager :=
  {| providers := providers m; provider_failures := provider_failures m;
     last_error := last_error m; provider_enabled := provider_enabled m;
     last_failure_time := d; max_failures := max_failures m |}.

(** [self.providers[name][field] = ...] for a name that is in the dict. *)
Definition update_provider (name : string) (f : provider -> provider)
    (m : manager) : manager :=
  match dict_get name (providers m) with
  | Some p => with_providers (dict_set name (f p) (providers m)) m
  | None => m
  end.

Definition new_provider (prio : Z) (mdl : option string) (mdls : list string)
    (max_err : Z) : provider :=
  {| client := PNone; available := false; priority := prio; error_count := 0;
     model := mdl; models := mdls; current_model_index := 0;
     max_errors := max_err; last_success := None; consecutive_failures := 0;
     p_last_failure_time := None |}.

(** The table of [__init__], before [initialize_providers]. *)
Definition initial_providers : dict provider :=
  [("gemini", new_provider 1 (Some "gemini-2.0-flash-exp") [] 2);
   ("groq", new_provider 2 (Some "llama3-70b-8192") [] 2);
   ("openai", new_provider 3 (Some "gpt-3.5-turbo") [] 2);
   ("huggingface",
     new_provider 4 None ["HuggingFaceH4/zephyr-7b-beta"; "google/flan-t5-base"] 3)].

(** What [initialize_providers] finds in the process environment. *)
Record environment := {
  HAS_GEMINI : bool;
  HAS_OPENAI : bool;
  HAS_GROQ_CLIENT : bool;
  gemini_key : bool;
  openai_key : bool;
  groq_enabled : bool;
  hf_key : option string
}.

Definition enable_with (c : PyVal) (p : provider) : provider :=
  set_available true (set_client c p).

Definition a_client (what : string) : PyVal := PObj what what true.

Definition initialize_providers (env : environment) (m : manager) : manager :=
  let m := if HAS_GEMINI env && gemini_key env
           then update_provider "gemini" (enable_with (a_client "GenerativeModel")) m
           else m in
  let m := if HAS_OPENAI env && openai_key env
           then update_provider "openai" (enable_with (a_client "OpenAI")) m
           else m in
  let m := if HAS_GROQ_CLIENT env && groq_enabled env
           then update_provider "groq" (enable_with (a_client "groq_client")) m
           else m in
  let m := match hf_key env with
           | Some key =>
               if truthy (PStr key)
               then update_provider "huggingface"
                      (enable_with
                         (PDict [("api_key", PStr key);
                                 ("base_url",
                                  PStr "https://api-inference.huggingface.co/models/")])) m
               else m
           | None => m
           end in
  m.

Definition __init__ (env : environment) : manager :=
  initialize_providers env
    {| providers := initial_providers;
       provider_failures := map (fun kv => (fst kv, 0)) initial_providers;
       last_error := map (fun kv => (fst kv, None)) initial_providers;
       provider_enabled := map (fun kv => (fst kv, true)) initial_providers;
       last_failure_time := map (fun kv => (fst kv, None)) initial_providers;
       max_failures := 3 |}.

(** *** Sorting as [list.sort(key=...)] does: stable, by [<] on the keys *)

Definition key_lt (a b : Z * Z) : bool :=
  (fst a <? fst b) || ((fst a =? fst b) && (snd a <? snd b)).

Fixpoint insert_by {A} (key : A -> Z * Z) (x : A) (l : list A) : list A :=
  match l with
  | [] => [x]
  | y :: r => if key_lt (key y) (key x) then y :: insert_by key x r else x :: y :: r
  end.

Definition sort_by {A} (key : A -> Z * Z) (l : list A) : list A :=
  foldr (insert_by key) [] l.

(** The keys of a sort are computed first, in list order; one that raises
    aborts the sort. *)
Fixpoint with_keys {A} (key : A -> result (Z * Z)) (l : list A)
    : result (list ((Z * Z) * A)) :=
  match l with
  | [] => Ok []
  | x :: r =>
      let* k := key x in
      let* rest := with_keys key r in
      Ok ((k, x) :: rest)
  end.

Definition sort_with {A} (key : A -> result (Z * Z)) (l : list A) : result (list A) :=
  let* keyed := with_keys key l in
  Ok (map snd (sort_by fst keyed)).

(** A list comprehension [[x for x in l if cond(x)]] whose condition can
    raise. *)
Fixpoint filter_r {A} (cond : A -> result bool) (l : list A) : result (list A) :=
  match l with
  | [] => Ok []
  | x :: r =>
      let* b := cond x in
      let* rest := filter_r cond r in
      Ok (if b then x :: rest else rest)
  end.

Section Selection.

Variable env : environment.

Definition cooldown_duration : float := 600%float.

(** [provider.get('last_failure_time') and
     current_time - provider['last_failure_time'] > cooldown_duration] *)
Definition cooldown_expired (current_time : float) (p : provider) : bool :=
  match p_last_failure_time p with
  | Some t => negb (PrimFloat.eqb t 0%float)
              && PrimFloat.ltb cooldown_duration (PrimFloat.sub current_time t)
  | None => false
  end.

(** The body of the rehabilitation loop for one provider name. *)
Definition rehabilitate (current_time : float) (name : string) (m : manager) : manager :=
  match dict_get name (providers m) with
  | Some p =>
      if negb (available p) && cooldown_expired current_time p then
        let m := update_provider name (set_available true) m in
        let m := with_provider_enabled (dict_set name true (provider_enabled m)) m in
        let m := with_provider_failures (dict_set name 0 (provider_failures m)) m in
        let m := with_last_error (dict_set name None (last_error m)) m in
        with_last_failure_time (dict_set name None (last_failure_time m)) m
      else m
  | None => m
  end.

(** In [get_best_provider] the loop body ends with a chain that sets
    [available] once more for the libraries that are installed. *)
Definition rehabilitate_best (current_time : float) (name : string) (m : manager) : manager :=
  match dict_get name (providers m) with
  | Some p =>
      if negb (available p) && cooldown_expired current_time p then
        let m := rehabilitate current_time name m in
        if String.eqb name "gemini" && HAS_GEMINI env
           || String.eqb name "groq" && HAS_GROQ_CLIENT env
           || String.eqb name "openai" && HAS_OPENAI env
           || String.eqb name "huggingface"
        then update_provider name (set_available true) m
        else m
      else m
  | None => m
  end.

(** [provider['available'] and self.provider_enabled[name]
     and self.provider_failures[name] < self.max_failures] *)
Definition is_candidate (m : manager) (np : string * provider) : result bool :=
  if available (snd np) then
    let* enabled := item (fst np) (provider_enabled m) in
    if enabled : bool then
      let* failures := item (fst np) (provider_failures m) in
      Ok (failures <? max_failures m)
    else Ok false
  else Ok false.

(** [p['available'] and self.provider_enabled[name]] *)
Definition is_enabled (m : manager) (np : string * provider) : result bool :=
  if available (snd np) then item (fst np) (provider_enabled m) else Ok false.

(** [lambda x: (x[1]['priority'], self.provider_failures[x[0]])] *)
Definition sort_key (m : manager) (np : string * provider) : result (Z * Z) :=
  let* failures := item (fst np) (provider_failures m) in
  Ok (priority (snd np), failures).

(** The body of the reset loop of [get_best_provider] for one name. *)
Definition reset_failures (name : string) (m : manager) : result manager :=
  match dict_get name (providers m) with
  | Some p =>
      if negb (available p) then Ok m
      else
        let* failures := item name (provider_failures m) in
        if 0 <? failures then
          let m := update_provider name (set_error_count 0) m in
          let m := with_provider_failures (dict_set name 0 (provider_failures m)) m in
          let m := with_last_error (dict_set name None (last_error m)) m in
          let m := with_last_failure_time (dict_set name None (last_failure_time m)) m in
          Ok (with_provider_enabled (dict_set name true (provider_enabled m)) m)
        else Ok m
  | None => Ok m
  end.

Fixpoint reset_all (names : list string) (m : manager) : result manager :=
  match names with
  | [] => Ok m
  | name :: rest =>
      let* m := reset_failures name m in
      reset_all rest m
  end.

(** The ranked candidates of [get_best_provider], after its rehabilitation
    and reset steps; the method returns the name of the first. *)
Definition ranked_providers (self : manager) (current_time : float)
    : result (manager * list (string * provider)) :=
  let names := dict_keys (providers self) in
  let self := foldl (fun m name => rehabilitate_best current_time name m) self names in
  let* available_providers := filter_r (is_candidate self) (providers self) in
  let* selected :=
    match available_providers with
    | [] =>
        let* self := reset_all names self in
        let* again := filter_r (is_enabled self) (providers self) in
        Ok (self, again)
    | _ => Ok (self, available_providers)
    end in
  let self := fst selected in
  match snd selected with
  | [] => Ok (self, [])
  | available_providers =>
      let* sorted := sort_with (sort_key self) available_providers in
      Ok (self, sorted)
  end.

Definition get_best_provider (self : manager) (current_time : float)
    : result (manager * option string) :=
  let* r := ranked_providers self current_time in
  Ok (fst r, head (map fst (snd r))).

(** [_get_next_available_provider(exclude)] with [prompt=None], the call of
    [_handle_provider_failure]: it returns a provider name. *)
Definition _get_next_available_provider (self : manager) (exclude : list string)
    (current_time : float) : result (manager * option string) :=
  let names := dict_keys (providers self) in
  let self := foldl (fun m name => rehabilitate current_time name m) self names in
  let* available_providers :=
    filter_r
      (fun np => if existsb (String.eqb (fst np)) exclude then Ok false
                 else is_candidate self np)
      (providers self) in
  match available_providers with
  | [] => Ok (self, None)
  | _ =>
      let* sorted := sort_with (sort_key self) available_providers in
      Ok (self, head (map fst sorted))
  end.

End Selection.

(** [_record_success]; [now] is the [time.time()] it reads. *)
Definition _record_success (self : manager) (provider_name : string)
    (now : float) : manager :=
  if dict_mem provider_name (providers self) then
    let self := update_provider provider_name (set_consecutive_failures 0) self in
    let self := with_provider_failures (dict_set provider_name 0 (provider_failures self)) self in
    let self := with_last_error (dict_set provider_name None (last_error self)) self in
    let self := with_last_failure_time (dict_set provider_name None (last_failure_time self)) self in
    let self := with_provider_enabled (dict_set provider_name true (provider_enabled self)) self in
    update_provider provider_name (set_last_success (Some now)) self
  else self.

(** The test of the rate-limit branch. *)
Definition is_rate_limit (error_str : string) : bool :=
  contains "429" error_str
  || contains "Too Many Requests" error_str
  || contains "rate limit" (lower error_str).

(** [min(120 * (2 ** min(failures, 6)), 3600)] *)
Definition backoff_time (failures : Z) : Z :=
  Z.min (120 * 2 ^ Z.min failures 6) 3600.

(** What [_handle_provider_failure] leaves behind: the manager, the backoff
    it computed (the value goes to the log line only), the seconds it slept
    and the provider name it returns. *)
Record failure_outcome := {
  after : manager;
  logged_backoff : option Z;
  slept : Z;
  next_provider : option string
}.

(** [_handle_provider_failure]; [now] and [later] are the clock readings of
    the method and of the scan for the next provider. *)
Definition _handle_provider_failure (env : environment) (self : manager)
    (provider_name : string) (error : exn) (now later : float)
    : result failure_outcome :=
  let error_str := exn_str error in
  let* failures := item provider_name (provider_failures self) in
  let failures := failures + 1 in
  let self := with_provider_failures (dict_set provider_name failures (provider_failures self)) self in
  let self := with_last_error (dict_set provider_name (Some error_str) (last_error self)) self in
  let* p := item provider_name (providers self) in
  let self := update_provider provider_name (set_error_count (error_count p + 1)) self in
  let branch :=
    if is_rate_limit error_str then
      let self := with_provider_enabled (dict_set provider_name false (provider_enabled self)) self in
      let self := with_last_failure_time (dict_set provider_name (Some now) (last_failure_time self)) self in
      (self, Some (backoff_time failures), 2)
    else if max_failures self <=? failures then
      let self := with_provider_enabled (dict_set provider_name false (provider_enabled self)) self in
      let self := with_last_failure_time (dict_set provider_name (Some now) (last_failure_time self)) self in
      (self, None, 0)
    else (self, None, 0) in
  let* r := _get_next_available_provider (fst (fst branch)) [provider_name] later in
  Ok {| after := fst r;
        logged_backoff := snd (fst branch);
        slept := snd branch;
        next_provider := snd r |}.

Definition opt_float (t : option float) : PyVal :=
  match t with Some f => PFloat f | None => PNone end.

(** [get_provider_status] *)
Definition get_provider_status (self : manager) : dict PyVal :=
  dict_of
    (map
       (fun np =>
          let name := fst np in
          let p := snd np in
          (name,
           PDict
             [("available",
                PBool (available p && default true (dict_get name (provider_enabled self))));
              ("priority", PInt (priority p));
              ("error_count", PInt (error_count p));
              ("consecutive_failures",
                PInt (default 0 (dict_get name (provider_failures self))));
              ("last_success", opt_float (last_success p));
              ("last_failure_time",
                opt_float (default None (dict_get name (last_failure_time self))));
              ("enabled", PBool (default true (dict_get name (provider_enabled self))));
              ("max_errors", PInt (max_errors p));
              ("model", PStr (default "N/A" (model p)))]))
       (providers self)).

(** The states the manager goes through: it starts from [__init__] and is
    changed by the three methods above. *)
Inductive reachable (env : environment) : manager -> Prop :=
| reach_init : reachable env (__init__ env)
| reach_success (self : manager) (name : string) (now : float) :
    reachable env self -> reachable env (_record_success self name now)
| reach_failure (self : manager) (name : string) (error : exn) (now later : float)
    (out : failure_outcome) :
    reachable env self ->
    _handle_provider_failure env self name error now later = Ok out ->
    reachable env (after out)
| reach_best (self self' : manager) (t : float) (best : option string) :
    reachable env self ->
    get_best_provider env self t = Ok (self', best) ->
    reachable env self'.

(** The four side tables have the keys of [self.providers], each once, and
    no provider dict has a ['last_failure_time'] key. *)
Record invariant (self : manager) : Prop := {
  inv_nodup : List.NoDup (dict_keys (providers self));
  inv_failures : dict_keys (provider_failures self) = dict_keys (providers self);
  inv_error : dict_keys (last_error self) = dict_keys (providers self);
  inv_enabled : dict_keys (provider_enabled self) = dict_keys (providers self);
  inv_time : dict_keys (last_failure_time self) = dict_keys (providers self);
  inv_no_key : Forall (fun np => p_last_failure_time (snd np) = None) (providers self)
}.

(** The keys [get_provider_status] reports for a provider. *)
Definition status_keys : list string :=
  ["available"; "priority"; "error_count"; "consecutive_failures"; "last_success";
   "last_failure_time"; "enabled"; "max_errors"; "model"].

(** The tests and the sort key of the selection, read off a state whose
    tables are aligned. *)
Definition enabled_of (self : manager) (name : string) : bool :=
  default false (dict_get name (provider_enabled self)).

Definition failures_of (self : manager) (name : string) : Z :=
  default 0 (dict_get name (provider_failures self)).

Definition candidate (self : manager) (np : string * provider) : bool :=
  available (snd np) && enabled_of self (fst np)
  && (failures_of self (fst np) <? max_failures self).

Definition usable (self : manager) (np : string * provider) : bool :=
  available (snd np) && enabled_of self (fst np).

Definition rank (self : manager) (np : string * provider) : Z * Z :=
  (priority (snd np), failures_of self (fst np)).

(** The order of the sort keys: tuples compare lexicographically. *)
Definition key_le (a b : Z * Z) : Prop :=
  fst a < fst b \/ (fst a = fst b /\ snd a <= snd b).

Definition key_eqb (a b : Z * Z) : bool := (fst a =? fst b) && (snd a =? snd b).

(** Elements of one sort key stand in [ranked] in the order of [source]. *)
Definition ties_keep_order {A} (key : A -> Z * Z) (source ranked : list A) : Prop :=
  forall k,
    List.filter (fun a => key_eqb (key a) k) ranked =
    List.filter (fun a => key_eqb (key a) k) source.

(** What a stable sort of a selection gives. *)
Record ranking {A} (key : A -> Z * Z) (selected : A -> bool) (table ranked : list A)
    : Prop := {
  rk_members : forall a, In a ranked <-> In a table /\ selected a = true;
  rk_perm : Permutation ranked (List.filter selected table);
  rk_sorted : StronglySorted (fun a b => key_le (key a) (key b)) ranked;
  rk_ties : ties_keep_order key (List.filter selected table) ranked
}.

(** *** [reset_provider_errors] *)

(** The assignments to the four side tables, in the order of the method. *)
Definition reset_tables (name : string) (self : manager) : manager :=
  let self := with_provider_failures (dict_set name 0 (provider_failures self)) self in
  let self := with_last_error (dict_set name None (last_error self)) self in
  let self := with_last_failure_time (dict_set name None (last_failure_time self)) self in
  with_provider_enabled (dict_set name true (provider_enabled self)) self.

(** The branch for one provider name. *)
Definition reset_named (provider_name : string) (self : manager) : manager :=
  if dict_mem provider_name (providers self) then
    let self := update_provider provider_name (set_error_count 0) self in
    let self := update_provider provider_name (set_consecutive_failures 0) self in
    let self := reset_tables provider_name self in
    update_provider provider_name (set_available true) self
  else self.

(** The body of the loop over [self.providers.items()]: the provider is made
    available again only when it has a client. *)
Definition reset_entry (name : string) (self : manager) : manager :=
  let self := update_provider name (set_error_count 0) self in
  let self := update_provider name (set_consecutive_failures 0) self in
  let self := reset_tables name self in
  match dict_get name (providers self) with
  | Some provider =>
      if truthy (client provider) then update_provider name (set_available true) self
      else self
  | None => self
  end.

(** [reset_provider_errors(provider_name=None)]: an empty name is falsy and
    resets every provider, like [None]. *)
Definition reset_provider_errors (self : manager) (provider_name : option string)
    : manager :=
  match provider_name with
  | Some name =>
      if negb (String.eqb name "") then reset_named name self
      else foldl (fun m name => reset_entry name m) self (dict_keys (providers self))
  | None => foldl (fun m name => reset_entry name m) self (dict_keys (providers self))
  end.

(** *** Generation *)

Definition set_current_model_index (n : Z) (p : provider) : provider :=
  {| client := client p; available := available p; priority := priority p;
     error_count := error_count p; model := model p; models := models p;
     current_model_index := n; max_errors := max_errors p;
     last_success := last_success p;
     consecutive_failures := consecutive_failures p;
     p_last_failure_time := p_last_failure_time p |}.

Section Generation.

Variable float_repr : float -> string.
Variable env : environment.

(** The clients and the HTTP library are outside these sources.  A call is
    given by what it returns or raises:
    [client.generate_content(prompt, ...)] by its [response.text] for the
    client, the prompt and [max_output_tokens];
    [client.generate(prompt, max_tokens=...)] by its result;
    [client.chat.completions.create(...)] by [choices[0].message.content] for
    the client, the model, the user prompt and [max_tokens];
    [requests.post(url, headers=..., json=..., timeout=60)] by the status code
    and the outcome of [response.json()], for the URL, the [Authorization]
    header, the inputs and [max_new_tokens]. *)
Variable gemini_generate_content : PyVal -> string -> Z -> result PyVal.
Variable groq_generate : PyVal -> string -> Z -> result PyVal.
Variable openai_create : PyVal -> option string -> string -> Z -> result PyVal.
Variable requests_post : string -> string -> string -> Z -> result (Z * result PyVal).
(** The text of the exception raised when no provider is left (it starts
    with a symbol above code point 255). *)
Variable no_provider_message : string.

(** The log line [f"... gerou {len(content)} caracteres"], then
    [return content]. *)
Definition logged (content : PyVal) : result PyVal :=
  let* _ := py_len content in
  Ok content.

Definition _generate_with_gemini (self : manager) (prompt : string) (max_tokens : Z)
    : result PyVal :=
  let* gemini := item "gemini" (providers self) in
  let* text := gemini_generate_content (client gemini) prompt (Z.min max_tokens 8192) in
  if truthy text then logged text
  else Raise (Exn "Exception" "Resposta vazia do Gemini 2.5 Pro").

Definition _generate_with_groq (self : manager) (prompt : string) (max_tokens : Z)
    : result PyVal :=
  let* groq := item "groq" (providers self) in
  let* content := groq_generate (client groq) prompt (Z.min max_tokens 8192) in
  if truthy content then logged content
  else Raise (Exn "Exception" "Resposta vazia do Groq").

Definition _generate_with_openai (self : manager) (prompt : string) (max_tokens : Z)
    : result PyVal :=
  let* openai := item "openai" (providers self) in
  let* content :=
    openai_create (client openai) (model openai) prompt (Z.min max_tokens 4096) in
  if truthy content then logged content
  else Raise (Exn "Exception" "Resposta vazia do OpenAI").

(** The [try] block of [_generate_with_huggingface] for one model:
    [Some content] when it returns, [None] when it ends without returning. *)
Definition huggingface_request (config : provider) (model prompt : string)
    (max_tokens : Z) : result (option PyVal) :=
  let* base_url := subscript (client config) "base_url" in
  let url := str float_repr base_url +:+ model in
  let* api_key := subscript (client config) "api_key" in
  let authorization := "Bearer " +:+ str float_repr api_key in
  let* response := requests_post url authorization prompt (Z.min max_tokens 1024) in
  if fst response =? 200 then
    let* res_json := snd response in
    let* first := subscript_index res_json 0 in
    let* content := get_method first "generated_text" (PStr "") in
    if truthy content then
      let* content := logged content in
      Ok (Some content)
    else Ok None
  else Ok None.

(** What a call of [_generate_with_huggingface] leaves: the manager, the
    models it tried in order, and its result. *)
Record huggingface_outcome := {
  hf_after : manager;
  hf_tried : list string;
  hf_result : result PyVal
}.

(** The loop [for _ in range(len(config['models']))], with the turns that
    are left. *)
Fixpoint huggingface_loop (turns : nat) (self : manager) (tried : list string)
    (prompt : string) (max_tokens : Z) : huggingface_outcome :=
  match turns with
  | O =>
      {| hf_after := self; hf_tried := tried;
         hf_result := Raise (Exn "Exception" "Todos os modelos HuggingFace falharam") |}
  | S turns =>
      match dict_get "huggingface" (providers self) with
      | None =>
          {| hf_after := self; hf_tried := tried;
             hf_result := Raise (Exn "KeyError" "'huggingface'") |}
      | Some config =>
          let model_index := current_model_index config in
          match list_index (models config) model_index with
          | None =>
              {| hf_after := self; hf_tried := tried;
                 hf_result := Raise (Exn "IndexError" "list index out of range") |}
          | Some model =>
              let self :=
                update_provider "huggingface"
                  (set_current_model_index
                     ((model_index + 1) mod Z.of_nat (length (models config))))
                  self in
              match huggingface_request config model prompt max_tokens with
              | Ok (Some content) =>
                  {| hf_after := self; hf_tried := tried ++ [model];
                     hf_result := Ok content |}
              | _ => huggingface_loop turns self (tried ++ [model]) prompt max_tokens
              end
          end
      end
  end.

Definition _generate_with_huggingface (self : manager) (prompt : string)
    (max_tokens : Z) : huggingface_outcome :=
  match dict_get "huggingface" (providers self) with
  | None =>
      {| hf_after := self; hf_tried := [];
         hf_result := Raise (Exn "KeyError" "'huggingface'") |}
  | Some config => huggingface_loop (length (models config)) self [] prompt max_tokens
  end.

(** [_call_provider]: the state it leaves and its result. *)
Definition _call_provider (self : manager) (provider_name prompt : string)
    (max_tokens : Z) : manager * result PyVal :=
  if String.eqb provider_name "gemini" then
    (self, _generate_with_gemini self prompt max_tokens)
  else if String.eqb provider_name "groq" then
    (self, _generate_with_groq self prompt max_tokens)
  else if String.eqb provider_name "openai" then
    (self, _generate_with_openai self prompt max_tokens)
  else if String.eqb provider_name "huggingface" then
    let r := _generate_with_huggingface self prompt max_tokens in
    (hf_after r, hf_result r)
  else (self, Ok PNone).

(** The clock readings of a call of [generate_analysis]: in
    [get_best_provider], in [_record_success], and the two of
    [_handle_provider_failure]. *)
Record clock := {
  at_selection : float;
  at_success : float;
  at_failure : float;
  at_fallback : float
}.

(** What [_handle_provider_failure] returns: a provider name or [None]. *)
Definition name_or_none (name : option string) : PyVal :=
  match name with Some n => PStr n | None => PNone end.

(** The [try] of [generate_analysis] on one provider: the call, then
    [_record_success] or the [except] branch, whose answer is [on_failure] of
    the outcome of [_handle_provider_failure]. *)
Definition try_provider (self : manager) (provider prompt : string) (max_tokens : Z)
    (empty_message : string) (on_failure : failure_outcome -> PyVal) (t : clock)
    : result (manager * PyVal) :=
  let called := _call_provider self provider prompt max_tokens in
  let failure (e : exn) :=
    let* out := _handle_provider_failure env (fst called) provider e
                  (at_failure t) (at_fallback t) in
    Ok (after out, on_failure out) in
  match snd called with
  | Ok result =>
      if truthy result then Ok (_record_success (fst called) provider (at_success t), result)
      else failure (Exn "Exception" empty_message)
  | Raise e => failure e
  end.

(** [generate_analysis(prompt, max_tokens, provider)]: the providers it
    called, and the state and value it returns, or its exception. *)
Definition generate_analysis (self : manager) (prompt : string) (max_tokens : Z)
    (provider : option string) (t : clock) : list string * result (manager * PyVal) :=
  let requested :=
    match provider with
    | Some name => if String.eqb name "" then None else Some name
    | None => None
    end in
  match requested with
  | Some provider =>
      match dict_get provider (providers self) with
      | Some config =>
          if available config then
            match item provider (provider_enabled self) with
            | Raise e => ([], Raise e)
            | Ok true =>
                ([provider],
                 try_provider self provider prompt max_tokens "Resposta vazia"
                   (fun _ => PNone) t)
            | Ok false => ([], Ok (self, PNone))
            end
          else ([], Ok (self, PNone))
      | None => ([], Ok (self, PNone))
      end
  | None =>
      match get_best_provider env self (at_selection t) with
      | Raise e => ([], Raise e)
      | Ok (self, best) =>
          match best with
          | Some provider_name =>
              if String.eqb provider_name "" then
                ([], Raise (Exn "Exception" no_provider_message))
              else
                ([provider_name],
                 try_provider self provider_name prompt max_tokens
                   "Resposta vazia do provedor"
                   (fun out => name_or_none (next_provider out)) t)
          | None => ([], Raise (Exn "Exception" no_provider_message))
          end
      end
  end.

End Generation.

(** The models [_generate_with_huggingface] goes through from index [i]. *)
Definition rotation {A} (i : nat) (l : list A) : list A := drop i l ++ take i l.

(** *** The state of one provider *)

(** The entries of a provider name in the five tables. *)
Definition view (self : manager) (name : string) :=
  (dict_get name (providers self), dict_get name (provider_failures self),
   dict_get name (last_error self), dict_get name (last_failure_time self),
   dict_get name (provider_enabled self)).

(** The entries of a provider with no failure on record. *)
Definition fresh_view (p : provider) :=
  (Some p, Some 0, Some (@None string), Some (@None float), Some true).

(** A provider dict with its two counters at zero. *)
Definition cleared (p : provider) : provider :=
  set_consecutive_failures 0 (set_error_count 0 p).

(** What the loop of [reset_provider_errors] makes of a provider dict. *)
Definition revived (p : provider) : provider :=
  if truthy (client p) then set_available true (cleared p) else cleared p.

(** The model at a position of the rotation, and the models tried in [k]
    turns from position [i]. *)
Definition model_at (models : list string) (i : Z) : string :=
  default "" (list_index models (i mod Z.of_nat (length models))).

Definition tried_from (models : list string) (i : Z) (k : nat) : list string :=
  map (fun d => model_at models (i + d)) (range k).

(** The value [_handle_provider_failure] hands back: [None] or the name of
    another provider. *)
Definition names_another (self : manager) (name : string) (value : PyVal) : Prop :=
  value = PNone \/
  exists n, value = PStr n /\ n <> name /\ In n (dict_keys (providers self)).

End AIManager.

(** ** services/google_api_rotation.py *)

Module GoogleAPIRotation.
Import Py.

(** One value of [self.key_usage].  [last_request_time] and
    [average_response_time] start as the int [0], which the arithmetic reads
    as [0.0]; [last_reset_date] is a date, given by its day number. *)
Record usage := {
  requests_today : Z;
  last_request_time : float;
  is_blocked : bool;
  block_until : option float;
  last_reset_date : Z;
  total_requests : Z;
  success_rate : float;
  average_response_time : float
}.

(** The attributes of a [GoogleAPIRotation].  An entry of [api_keys] is a
    dict of strings.  [current_index] is an attribute that [__init__] does
    not create and no method of the class creates: [None] is its absence.
    ([daily_reset_time], which no method reads, is left out.) *)
Record rotation := {
  api_keys : list (dict string);
  current_key_index : Z;
  key_usage : dict usage;
  max_requests_per_key : Z;
  cooldown_period : Z;
  current_index : option Z
}.

Definition with_current_key_index (i : Z) (self : rotation) : rotation :=
  {| api_keys := api_keys self; current_key_index := i; key_usage := key_usage self;
     max_requests_per_key := max_requests_per_key self;
     cooldown_period := cooldown_period self; current_index := current_index self |}.

Definition with_key_usage (u : dict usage) (self : rotation) : rotation :=
  {| api_keys := api_keys self; current_key_index := current_key_index self;
     key_usage := u; max_requests_per_key := max_requests_per_key self;
     cooldown_period := cooldown_period self; current_index := current_index self |}.

Definition with_current_index (i : option Z) (self : rotation) : rotation :=
  {| api_keys := api_keys self; current_key_index := current_key_index self;
     key_usage := key_usage self; max_requests_per_key := max_requests_per_key self;
     cooldown_period := cooldown_period self; current_index := i |}.

Definition set_block (blocked : bool) (until : option float) (u : usage) : usage :=
  {| requests_today := requests_today u; last_request_time := last_request_time u;
     is_blocked := blocked; block_until := until;
     last_reset_date := last_reset_date u; total_requests := total_requests u;
     success_rate := success_rate u;
     average_response_time := average_response_time u |}.

Section Environment.

(** [os.getenv]: [None] for a variable that is not set. *)
Variable getenv : string -> option string.

(** [key_config['api_key'] and key_config['cx']] *)
Definition both_set (api_key cx : option string) : option (string * string) :=
  match api_key, cx with
  | Some k, Some c =>
      if negb (String.eqb k "") && negb (String.eqb c "") then Some (k, c) else None
  | _, _ => None
  end.

Definition key_config (api_key cx name : string) : dict string :=
  dict_of [("api_key", api_key); ("cx", cx); ("name", name)].

Definition google_keys : list (option string * option string * string) :=
  [(getenv "GOOGLE_SEARCH_API_KEY", getenv "GOOGLE_SEARCH_CX", "primary");
   (getenv "GOOGLE_SEARCH_API_KEY_2", getenv "GOOGLE_SEARCH_CX_2", "secondary");
   (getenv "GOOGLE_SEARCH_API_KEY_3", getenv "GOOGLE_SEARCH_CX_3", "tertiary")].

Definition _load_api_keys : list (dict string) :=
  let api_keys :=
    flat_map (fun '(api_key, cx, name) =>
                match both_set api_key cx with
                | Some (k, c) => [key_config k c name]
                | None => []
                end) google_keys in
  match api_keys with
  | [] =>
      match both_set (getenv "GOOGLE_API_KEY") (getenv "GOOGLE_CX") with
      | Some (default_key, default_cx) => [key_config default_key default_cx "default"]
      | None => []
      end
  | _ => api_keys
  end.

End Environment.

(** The float literals [0.9], [0.1] and [0.3], as the doubles Python reads
    them. *)
Definition f0_9 : float := 0x1.ccccccccccccdp-1.
Definition f0_1 : float := 0x1.999999999999ap-4.
Definition f0_3 : float := 0x1.3333333333333p-2.

Definition new_usage (current_date : Z) : usage :=
  {| requests_today := 0; last_request_time := 0; is_blocked := false;
     block_until := None; last_reset_date := current_date; total_requests := 0;
     success_rate := 1; average_response_time := 0 |}.

(** The loop of [_initialize_usage_tracking]. *)
Fixpoint initialize_usage (current_date : Z) (keys : list (dict string))
    (key_usage : dict usage) : result (dict usage) :=
  match keys with
  | [] => Ok key_usage
  | key_config :: rest =>
      let* key_name := item "name" key_config in
      initialize_usage current_date rest (dict_set key_name (new_usage current_date) key_usage)
  end.

Definition _initialize_usage_tracking (self : rotation) (current_date : Z)
    : result rotation :=
  let* key_usage := initialize_usage current_date (api_keys self) (key_usage self) in
  Ok (with_key_usage key_usage self).

Definition __init__ (getenv : string -> option string) (current_date : Z)
    : result rotation :=
  _initialize_usage_tracking
    {| api_keys := _load_api_keys getenv; current_key_index := 0; key_usage := [];
       max_requests_per_key := 100; cooldown_period := 3600; current_index := None |}
    current_date.

(** [bool(usage['block_until'])] *)
Definition until_set (until : option float) : bool :=
  match until with
  | Some t => negb (PrimFloat.eqb t 0)
  | None => false
  end.

(** [current_time < usage['block_until']], read only where [block_until] is
    truthy. *)
Definition before (current_time : float) (until : option float) : bool :=
  match until with
  | Some t => PrimFloat.ltb current_time t
  | None => false
  end.

(** The daily limit and the one-second spacing of [_is_key_available]. *)
Definition within_limits (self : rotation) (usage : usage) (current_time : float) : bool :=
  if max_requests_per_key self <=? requests_today usage then false
  else if PrimFloat.ltb (PrimFloat.sub current_time (last_request_time usage)) 1 then false
  else true.

(** [_is_key_available]; it removes a block that has expired. *)
Definition _is_key_available (self : rotation) (key_name : string) (current_time : float)
    : result (rotation * bool) :=
  let* usage := item key_name (key_usage self) in
  if is_blocked usage && until_set (block_until usage) then
    if before current_time (block_until usage) then Ok (self, false)
    else
      let usage := set_block false None usage in
      Ok (with_key_usage (dict_set key_name usage (key_usage self)) self,
          within_limits self usage current_time)
  else Ok (self, within_limits self usage current_time).

(** [(a) % (b)] on ints *)
Definition py_mod (a b : Z) : result Z :=
  if b =? 0 then Raise (Exn "ZeroDivisionError" "integer modulo by zero")
  else Ok (a mod b).

Definition _rotate_to_next_key (self : rotation) : result rotation :=
  let* i := py_mod (current_key_index self + 1) (Z.of_nat (length (api_keys self))) in
  Ok (with_current_key_index i self).

(** [self.api_keys[i]] *)
Definition key_at (self : rotation) (i : Z) : result (dict string) :=
  match list_index (api_keys self) i with
  | Some key_config => Ok key_config
  | None => Raise (Exn "IndexError" "list index out of range")
  end.

(** The loop of [_get_least_used_key]; [min_usage] is [None] for
    [float('inf')], below which every int lies. *)
Fixpoint least_used (self : rotation) (keys : list (dict string)) (i : Z)
    (min_usage : option Z) (least_used_index : Z) : result Z :=
  match keys with
  | [] => Ok least_used_index
  | key_config :: rest =>
      let* key_name := item "name" key_config in
      let* u := item key_name (key_usage self) in
      let usage := requests_today u in
      let smaller := match min_usage with Some m => usage <? m | None => true end in
      if smaller then least_used self rest (i + 1) (Some usage) i
      else least_used self rest (i + 1) min_usage least_used_index
  end.

Definition _get_least_used_key (self : rotation) : result (rotation * option (dict string)) :=
  match api_keys self with
  | [] => Ok (self, None)
  | _ =>
      let* least_used_index := least_used self (api_keys self) 0 None 0 in
      let self := with_current_key_index least_used_index self in
      let* key_config := key_at self least_used_index in
      Ok (self, Some key_config)
  end.

Definition reset_usage (current_date : Z) (u : usage) : usage :=
  if last_reset_date u <? current_date then
    {| requests_today := 0; last_request_time := last_request_time u;
       is_blocked := false; block_until := None; last_reset_date := current_date;
       total_requests := total_requests u; success_rate := success_rate u;
       average_response_time := average_response_time u |}
  else u.

Definition _reset_daily_counters_if_needed (self : rotation) (current_date : Z) : rotation :=
  with_key_usage (map (fun '(key_name, u) => (key_name, reset_usage current_date u))
                    (key_usage self)) self.

(** The [while attempts < len(self.api_keys)] loop of
    [get_current_api_config]: [remaining] counts the turns that are left, and
    the turn number [attempts] reads the clock at [time_time attempts]. *)
Fixpoint find_available (time_time : nat -> float) (remaining attempts : nat)
    (self : rotation) : result (rotation * option (dict string)) :=
  match remaining with
  | O => _get_least_used_key self
  | S remaining =>
      let* current_config := key_at self (current_key_index self) in
      let* key_name := item "name" current_config in
      let* usage := item key_name (key_usage self) in
      let* checked := _is_key_available self key_name (time_time attempts) in
      let self := fst checked in
      if snd checked then Ok (self, Some current_config)
      else
        let* self := _rotate_to_next_key self in
        find_available time_time remaining (S attempts) self
  end.

Definition get_current_api_config (self : rotation) (current_date : Z)
    (time_time : nat -> float) : result (rotation * option (dict string)) :=
  match api_keys self with
  | [] => Ok (self, None)
  | _ =>
      let self := _reset_daily_counters_if_needed self current_date in
      find_available time_time (length (api_keys self)) 0 self
  end.

Definition record_request (self : rotation) (key_name : string) (success : bool)
    (response_time current_time : float) : rotation :=
  match dict_get key_name (key_usage self) with
  | None => self
  | Some usage =>
      let rate :=
        if success
        then PrimFloat.add (PrimFloat.mul (success_rate usage) f0_9) (PrimFloat.mul 1 f0_1)
        else PrimFloat.add (PrimFloat.mul (success_rate usage) f0_9) (PrimFloat.mul 0 f0_1) in
      let average :=
        PrimFloat.add (PrimFloat.mul (average_response_time usage) f0_9)
          (PrimFloat.mul response_time f0_1) in
      let low := PrimFloat.ltb rate f0_3 in
      let usage :=
        {| requests_today := requests_today usage + 1;
           last_request_time := current_time;
           is_blocked := if low then true else is_blocked usage;
           block_until :=
             if low
             then Some (PrimFloat.add current_time
                          (ComponentOrchestrator.float_of_Z (cooldown_period self)))
             else block_until usage;
           last_reset_date := last_reset_date usage;
           total_requests := total_requests usage + 1;
           success_rate := rate;
           average_response_time := average |} in
      with_key_usage (dict_set key_name usage (key_usage self)) self
  end.

Definition record_rate_limit_hit (self : rotation) (key_name : string)
    (current_time : float) : result rotation :=
  match dict_get key_name (key_usage self) with
  | None => Ok self
  | Some usage =>
      let until :=
        PrimFloat.add current_time
          (ComponentOrchestrator.float_of_Z (cooldown_period self * 2)) in
      let self :=
        with_key_usage (dict_set key_name (set_block true (Some until) usage) (key_usage self))
          self in
      _rotate_to_next_key self
  end.

(** [force_rotate]; its log line reads the name of the new current key. *)
Definition force_rotate (self : rotation) : result rotation :=
  let* self := _rotate_to_next_key self in
  let* key_config := key_at self (current_key_index self) in
  let* _ := item "name" key_config in
  Ok self.

Definition unblock_all_keys (self : rotation) : rotation :=
  with_key_usage (map (fun '(key_name, u) => (key_name, set_block false None u))
                    (key_usage self)) self.

(** [get_next_api_key] returns a pair; [None] in it is Python's [None]. *)
Definition get_next_api_key (self : rotation)
    : result (rotation * (option string * option string)) :=
  match api_keys self with
  | [] => Ok (self, (None, None))
  | _ =>
      match current_index self with
      | None =>
          Raise (Exn "AttributeError"
                   "'GoogleAPIRotation' object has no attribute 'current_index'")
      | Some current_index =>
          let* key_data := key_at self current_index in
          let* next := py_mod (current_index + 1) (Z.of_nat (length (api_keys self))) in
          Ok (with_current_index (Some next) self,
              (dict_get "api_key" key_data, dict_get "search_engine_id" key_data))
      end
  end.

(** The class has no method [mark_key_invalid]: a call raises. *)
Definition mark_key_invalid (self : rotation) (key : option string) : result rotation :=
  Raise (Exn "AttributeError"
           "'GoogleAPIRotation' object has no attribute 'mark_key_invalid'").

Definition get_next_api_keys (self : rotation)
    : result (rotation * (option string * option string)) :=
  get_next_api_key self.

(** *** States of a rotation *)

(** A key config whose name has an entry in [key_usage]. *)
Definition tracked (self : rotation) (key_config : dict string) : bool :=
  match dict_get "name" key_config with
  | Some key_name => dict_mem key_name (key_usage self)
  | None => false
  end.

(** Every key is tracked and the current index points into the keys;
    without keys nothing is tracked. *)
Definition consistent (self : rotation) : bool :=
  forallb (tracked self) (api_keys self)
  && match api_keys self with
     | [] => match key_usage self with [] => true | _ => false end
     | _ => (0 <=? current_key_index self)
            && (current_key_index self <? Z.of_nat (length (api_keys self)))
     end.

(** The states the methods of the class produce. *)
Inductive reachable (getenv : string -> option string) : rotation -> Prop :=
| reach_init current_date self :
    __init__ getenv current_date = Ok self -> reachable getenv self
| reach_config self current_date time_time self' r :
    reachable getenv self ->
    get_current_api_config self current_date time_time = Ok (self', r) ->
    reachable getenv self'
| reach_available self key_name current_time self' b :
    reachable getenv self ->
    _is_key_available self key_name current_time = Ok (self', b) ->
    reachable getenv self'
| reach_rotate self self' :
    reachable getenv self -> _rotate_to_next_key self = Ok self' -> reachable getenv self'
| reach_least_used self self' r :
    reachable getenv self -> _get_least_used_key self = Ok (self', r) ->
    reachable getenv self'
| reach_request self key_name success response_time current_time :
    reachable getenv self ->
    reachable getenv (record_request self key_name success response_time current_time)
| reach_rate_limit self key_name current_time self' :
    reachable getenv self ->
    record_rate_limit_hit self key_name current_time = Ok self' ->
    reachable getenv self'
| reach_reset self current_date :
    reachable getenv self ->
    reachable getenv (_reset_daily_counters_if_needed self current_date)
| reach_force self self' :
    reachable getenv self -> force_rotate self = Ok self' -> reachable getenv self'
| reach_unblock self :
    reachable getenv self -> reachable getenv (unblock_all_keys self)
| reach_next self self' r :
    reachable getenv self -> get_next_api_key self = Ok (self', r) ->
    reachable getenv self'.

(** [requests_today] of a key config. *)
Definition requests_of (self : rotation) (key_config : dict string) : Z :=
  match dict_get "name" key_config with
  | Some key_name =>
      match dict_get key_name (key_usage self) with
      | Some u => requests_today u
      | None => 0
      end
  | None => 0
  end.

(** A sequence of [record_request] calls for one key: the success flag, the
    response time and the clock reading of each. *)
Definition record_requests (self : rotation) (key_name : string)
    (calls : list (bool * float * float)) : rotation :=
  fold_left (fun self '(success, response_time, current_time) =>
               record_request self key_name success response_time current_time)
    calls self.

(** [force_rotate], [n] times. *)
Fixpoint force_rotations (n : nat) (self : rotation) : result rotation :=
  match n with
  | O => Ok self
  | S n => let* self := force_rotate self in force_rotations n self
  end.

(** A key config as [_load_api_keys] builds it. *)
Definition loaded_key (key_config : dict string) : Prop :=
  exists api_key cx name,
    key_config = [("api_key", api_key); ("cx", cx); ("name", name)]
    /\ api_key <> "" /\ cx <> "".

(** The success rate after a failed request, and whether a key is blocked
    after [n] failed requests in a row. *)
Definition fail_rate (rate : float) : float :=
  PrimFloat.add (PrimFloat.mul rate f0_9) (PrimFloat.mul 0 f0_1).

Fixpoint blocked_after (n : nat) (rate : float) (blocked : bool) : bool :=
  match n with
  | O => blocked
  | S n =>
      let rate := fail_rate rate in
      blocked_after n rate (if PrimFloat.ltb rate f0_3 then true else blocked)
  end.

(** Failed requests, given by their response times and clock readings. *)
Definition failures (calls : list (float * float)) : list (bool * float * float) :=
  map (fun '(response_time, current_time) => (false, response_time, current_time)) calls.

End GoogleAPIRotation.

(** ** services/production_search_manager.py *)

Module ProductionSearchManager.
Import Py.

(** One value of [self.providers]; [config] holds the keys the ordering does
    not read ([client], [api_key], [cse_id], [base_url]). *)
Record search_provider := {
  enabled : bool;
  priority : Z;
  error_count : Z;
  max_errors : Z;
  config : dict PyVal
}.

(** [bool(x)] for a string of the environment or [None]. *)
Definition is_set (x : option string) : bool :=
  match x with
  | Some s => negb (String.eqb s "")
  | None => false
  end.

Definition opt_str (x : option string) : PyVal :=
  match x with Some s => PStr s | None => PNone end.

(** What [__init__] reads from the process environment: the answer of
    [exa_client.is_available()] and three variables. *)
Record environment := {
  exa_available : bool;
  GOOGLE_SEARCH_KEY : option string;
  GOOGLE_CSE_ID : option string;
  SERPER_API_KEY : option string
}.

Definition __init__ (env : environment) : dict search_provider :=
  [("exa", {| enabled := exa_available env; priority := 1; error_count := 0;
              max_errors := 3; config := [("client", PObj "exa_client" "exa_client" true)] |});
   ("google", {| enabled := is_set (GOOGLE_SEARCH_KEY env) && is_set (GOOGLE_CSE_ID env);
                 priority := 2; error_count := 0; max_errors := 3;
                 config := [("api_key", opt_str (GOOGLE_SEARCH_KEY env));
                            ("cse_id", opt_str (GOOGLE_CSE_ID env));
                            ("base_url", PStr "https://www.googleapis.com/customsearch/v1")] |});
   ("serper", {| enabled := is_set (SERPER_API_KEY env); priority := 3; error_count := 0;
                 max_errors := 3;
                 config := [("api_key", opt_str (SERPER_API_KEY env));
                            ("base_url", PStr "https://google.serper.dev/search")] |});
   ("bing", {| enabled := true; priority := 4; error_count := 0; max_errors := 5;
               config := [("base_url", PStr "https://www.bing.com/search")] |})].

(** [_is_provider_available]: an unknown name reads the defaults
    [enabled=False], so it is not available. *)
Definition _is_provider_available (providers : dict search_provider)
    (provider_name : string) : bool :=
  match dict_get provider_name providers with
  | Some provider => enabled provider && (error_count provider <? max_errors provider)
  | None => false
  end.

Definition sort_key (np : string * search_provider) : Z * Z :=
  (priority (snd np), error_count (snd np)).

Definition _get_provider_order (providers : dict search_provider) : list string :=
  let available_providers :=
    List.filter (fun np => _is_provider_available providers (fst np)) providers in
  map fst (AIManager.sort_by sort_key available_providers).

Definition _record_provider_error (providers : dict search_provider)
    (provider_name : string) : dict search_provider :=
  match dict_get provider_name providers with
  | Some p =>
      dict_set provider_name
        {| enabled := enabled p; priority := priority p;
           error_count := error_count p + 1; max_errors := max_errors p;
           config := config p |}
        providers
  | None => providers
  end.


(** *** The searches

    The state of a manager: [providers] as above, the cache, the rotation of
    the Google keys and the rate limits. *)

(** One value of [self.rate_limits]; [last_request] starts as the int [0]. *)
Record rate_limit := {
  last_request : float;
  delay : float;
  requests_count : Z;
  daily_limit : Z
}.

(** One value of [self.cache]. *)
Record cache_entry := {
  results : PyVal;
  timestamp : float;
  provider : string
}.

Record manager := {
  providers : dict search_provider;
  cache : dict cache_entry;
  cache_ttl : Z;
  google_api_rotation : GoogleAPIRotation.rotation;
  rate_limits : dict rate_limit
}.

Definition with_providers (p : dict search_provider) (self : manager) : manager :=
  {| providers := p; cache := cache self; cache_ttl := cache_ttl self;
     google_api_rotation := google_api_rotation self; rate_limits := rate_limits self |}.

Definition with_cache (c : dict cache_entry) (self : manager) : manager :=
  {| providers := providers self; cache := c; cache_ttl := cache_ttl self;
     google_api_rotation := google_api_rotation self; rate_limits := rate_limits self |}.

Definition with_rotation (r : GoogleAPIRotation.rotation) (self : manager) : manager :=
  {| providers := providers self; cache := cache self; cache_ttl := cache_ttl self;
     google_api_rotation := r; rate_limits := rate_limits self |}.

Definition with_rate_limits (l : dict rate_limit) (self : manager) : manager :=
  {| providers := providers self; cache := cache self; cache_ttl := cache_ttl self;
     google_api_rotation := google_api_rotation self; rate_limits := l |}.

(** [self.headers] *)
Definition headers : dict PyVal :=
  [("User-Agent", PStr "Mozilla/5.0 (Windows NT 10.0; Win64; x64) AppleWebKit/537.36 (KHTML, like Gecko) Chrome/120.0.0.0 Safari/537.36");
   ("Accept", PStr "text/html,application/xhtml+xml,application/xml;q=0.9,image/webp,*/*;q=0.8");
   ("Accept-Language", PStr "pt-BR,pt;q=0.9,en;q=0.8");
   ("Accept-Encoding", PStr "gzip, deflate, br");
   ("DNT", PStr "1");
   ("Connection", PStr "keep-alive")].

(** [self.rate_limits] as [__init__] sets it: no entry for ['serper'] or
    ['bing']. *)
Definition initial_rate_limits : dict rate_limit :=
  [("google", {| last_request := 0; delay := 1; requests_count := 0; daily_limit := 100 |});
   ("exa", {| last_request := 0; delay := 0.5; requests_count := 0; daily_limit := 1000 |});
   ("duckduckgo",
     {| last_request := 0; delay := 2; requests_count := 0; daily_limit := 500 |});
   ("fallback",
     {| last_request := 0; delay := GoogleAPIRotation.f0_1; requests_count := 0;
        daily_limit := 10000 |})].

Definition _can_make_request (self : manager) (provider_name : string)
    (current_time : float) : bool :=
  match dict_get provider_name (rate_limits self) with
  | None => true
  | Some provider_limits =>
      if daily_limit provider_limits <=? requests_count provider_limits then false
      else if PrimFloat.ltb (PrimFloat.sub current_time (last_request provider_limits))
                (delay provider_limits)
      then false
      else true
  end.

Definition _update_request_time (self : manager) (provider_name : string)
    (current_time : float) : manager :=
  match dict_get provider_name (rate_limits self) with
  | None => self
  | Some l =>
      with_rate_limits
        (dict_set provider_name
           {| last_request := current_time; delay := delay l;
              requests_count := requests_count l + 1; daily_limit := daily_limit l |}
           (rate_limits self))
        self
  end.

(** [_record_provider_error] on the manager. *)
Definition record_error (self : manager) (provider_name : string) : manager :=
  with_providers (_record_provider_error (providers self) provider_name) self.

Definition reset_error_count (p : search_provider) : search_provider :=
  {| enabled := enabled p; priority := priority p; error_count := 0;
     max_errors := max_errors p; config := config p |}.

(** [reset_provider_errors]: [None] or an empty name resets every provider. *)
Definition reset_provider_errors (self : manager) (provider_name : option string) : manager :=
  match provider_name with
  | Some name =>
      if negb (String.eqb name "") then
        match dict_get name (providers self) with
        | Some p => with_providers (dict_set name (reset_error_count p) (providers self)) self
        | None => self
        end
      else
        with_providers (map (fun '(n, p) => (n, reset_error_count p)) (providers self)) self
  | None =>
      with_providers (map (fun '(n, p) => (n, reset_error_count p)) (providers self)) self
  end.

Definition clear_cache (self : manager) : manager := with_cache [] self.

(** [for item in x]: the items of a list, the keys of a dict, the characters
    of a string. *)
Definition py_iter (x : PyVal) : result (list PyVal) :=
  match x with
  | PList l => Ok l
  | PDict d => Ok (map PStr (dict_keys d))
  | PStr s => Ok (map (fun c => PStr (String c EmptyString)) (list_ascii_of_string s))
  | _ => Raise (Exn "TypeError"
                  ("'" +:+ type_name (type_of x) +:+ "' object is not iterable"))
  end.

(** The result dict built for one item of an answer. *)
Definition result_entry (source : string) (item : PyVal) : result PyVal :=
  let* title := get_method item "title" (PStr "") in
  let* url := get_method item "link" (PStr "") in
  let* snippet := get_method item "snippet" (PStr "") in
  Ok (PDict [("title", title); ("url", url); ("snippet", snippet);
             ("source", PStr source)]).

Fixpoint collect (source : string) (items : list PyVal) : result (list PyVal) :=
  match items with
  | [] => Ok []
  | item :: rest =>
      let* entry := result_entry source item in
      let* entries := collect source rest in
      Ok (entry :: entries)
  end.

(** The results read off a JSON answer, under the key [field]. *)
Definition results_of (source field : string) (data : PyVal) : result PyVal :=
  let* items := get_method data field (PList []) in
  let* items := py_iter items in
  let* entries := collect source items in
  Ok (PList entries).

(** [l[:n]] *)
Definition slice_to {A} (l : list A) (n : Z) : list A :=
  if 0 <=? n then firstn (Z.to_nat n) l
  else firstn (Z.to_nat (Z.of_nat (length l) + n)) l.

(** What an HTTP call answers: the status code, what [response.json()]
    returns or raises, and the body. *)
Record response := {
  status_code : Z;
  json : result PyVal;
  content : string
}.

(** What the Bing loop reads of one [li.b_algo] element: the text of its
    [h2] with the [href] of the link inside (['']: no [href]; [None]: no
    link), and the text of its [p]. *)
Record bing_item := {
  heading : option (string * option string);
  paragraph : option string
}.

Definition bing_entry (item : bing_item) : list PyVal :=
  match heading item with
  | Some (title, Some url) =>
      let snippet := match paragraph item with Some text => text | None => "" end in
      if negb (String.eqb url "") && negb (String.eqb title "") && String.prefix "http" url
      then [PDict [("title", PStr title); ("url", PStr url); ("snippet", PStr snippet);
                   ("source", PStr "bing")]]
      else []
  | _ => []
  end.

(** The clock readings of one [search_with_fallback]: at the cache check, in
    [_can_make_request] and [_update_request_time] of a provider, and when a
    result is stored. *)
Record readings := {
  at_cache_check : float;
  at_limit_check : string -> float;
  at_request : string -> float;
  at_store : float
}.

Section Searches.

Variable float_repr : float -> string.

(** The network and the libraries: [requests.get(url, params=...)],
    [requests.post(url, json=..., headers=...)], [urllib.parse.quote_plus]
    and the [li.b_algo] elements BeautifulSoup finds in a page. *)
Variable requests_get : PyVal -> dict PyVal -> result response.
Variable requests_post : PyVal -> PyVal -> dict PyVal -> result response.
Variable quote_plus : string -> string.
Variable find_all_b_algo : response -> result (list bing_item).

Definition _search_google (self : manager) (query : string) (max_results : Z)
    (t : readings) : manager * result PyVal :=
  match item "google" (providers self) with
  | Raise e => (self, Raise e)
  | Ok provider =>
      if negb (_can_make_request self "google" (at_limit_check t "google"))
      then (self, Ok (PList []))
      else
        let self := _update_request_time self "google" (at_request t "google") in
        match GoogleAPIRotation.get_next_api_keys (google_api_rotation self) with
        | Raise e => (self, Raise e)
        | Ok (rotation, (current_key, current_cse_id)) =>
            let self := with_rotation rotation self in
            if negb (is_set current_key) || negb (is_set current_cse_id) then
              (record_error self "google",
               Raise (Exn "Exception" ("Google API keys n" +:+ chr 227 +:+ "o configuradas")))
            else
              let params :=
                [("key", opt_str current_key); ("cx", opt_str current_cse_id);
                 ("q", PStr query); ("num", PInt (Z.min max_results 10));
                 ("lr", PStr "lang_pt"); ("gl", PStr "br"); ("safe", PStr "off")] in
              match (let* base_url := item "base_url" (config provider) in
                     requests_get base_url params) with
              | Raise e => (self, Raise e)
              | Ok response =>
                  if status_code response =? 200 then
                    (self, let* data := json response in results_of "google" "items" data)
                  else if status_code response =? 403 then
                    if is_set current_key then
                      (self,
                       let* _ := GoogleAPIRotation.mark_key_invalid
                                   (google_api_rotation self) current_key in
                       Raise (Exn "Exception" ("Google API key inv" +:+ chr 225 +:+ "lida (403)")))
                    else (self, Ok PNone)
                  else
                    (record_error self "google",
                     Raise (Exn "Exception"
                              ("Google API retornou status "
                               +:+ str_of_Z (status_code response))))
              end
        end
  end.

Definition _search_serper (self : manager) (query : string) (max_results : Z)
    (t : readings) : manager * result PyVal :=
  match item "serper" (providers self) with
  | Raise e => (self, Raise e)
  | Ok provider =>
      if negb (_can_make_request self "serper" (at_limit_check t "serper"))
      then (self, Ok (PList []))
      else
        let self := _update_request_time self "serper" (at_request t "serper") in
        match (let* api_key := item "api_key" (config provider) in
               let headers :=
                 dict_update headers
                   [("X-API-KEY", api_key); ("Content-Type", PStr "application/json")] in
               let payload :=
                 PDict [("q", PStr query); ("gl", PStr "br"); ("hl", PStr "pt");
                        ("num", PInt max_results)] in
               let* base_url := item "base_url" (config provider) in
               requests_post base_url payload headers) with
        | Raise e => (self, Raise e)
        | Ok response =>
            if status_code response =? 200 then
              (self, let* data := json response in results_of "serper" "organic" data)
            else
              (record_error self "serper",
               Raise (Exn "Exception"
                        ("Serper API retornou status " +:+ str_of_Z (status_code response))))
        end
  end.

Definition _search_bing (self : manager) (query : string) (max_results : Z)
    (t : readings) : manager * result PyVal :=
  if negb (_can_make_request self "bing" (at_limit_check t "bing"))
  then (self, Ok (PList []))
  else
    let self := _update_request_time self "bing" (at_request t "bing") in
    match (let* provider := item "bing" (providers self) in
           let* base_url := item "base_url" (config provider) in
           let search_url :=
             str float_repr base_url +:+ "?q=" +:+ quote_plus query
             +:+ "&cc=br&setlang=pt-br&count=" +:+ str_of_Z max_results in
           requests_get (PStr search_url) []) with
    | Raise e => (self, Raise e)
    | Ok response =>
        if status_code response =? 200 then
          (self,
           let* result_items := find_all_b_algo response in
           Ok (PList (flat_map bing_entry (slice_to result_items max_results))))
        else
          (record_error self "bing",
           Raise (Exn "Exception"
                    ("Bing retornou status " +:+ str_of_Z (status_code response))))
    end.

(** [f"{query}_{max_results}"] *)
Definition cache_key (query : string) (max_results : Z) : string :=
  query +:+ "_" +:+ str_of_Z max_results.

(** The branch of the loop for a provider name; [None] is its
    [else: continue]. *)
Definition search_by (provider_name : string) (self : manager) (query : string)
    (max_results : Z) (t : readings) : option (manager * result PyVal) :=
  if String.eqb provider_name "google" then Some (_search_google self query max_results t)
  else if String.eqb provider_name "serper"
  then Some (_search_serper self query max_results t)
  else if String.eqb provider_name "bing" then Some (_search_bing self query max_results t)
  else None.

(** One turn of the loop for an available provider: the manager after it,
    and the results when the turn returns them. *)
Definition search_turn (provider_name : string) (self : manager) (query : string)
    (max_results : Z) (t : readings) : manager * option PyVal :=
  match search_by provider_name self query max_results t with
  | None => (self, None)
  | Some (self, Ok results) =>
      if truthy results then
        (with_cache
           (dict_set (cache_key query max_results)
              {| results := results; timestamp := at_store t; provider := provider_name |}
              (cache self))
           self,
         Some results)
      else (self, None)
  | Some (self, Raise e) => (record_error self provider_name, None)
  end.

(** The [for provider_name in self._get_provider_order()] loop; the first
    component lists the providers whose search method was called. *)
Fixpoint search_loop (order : list string) (self : manager) (query : string)
    (max_results : Z) (t : readings) : list string * manager * PyVal :=
  match order with
  | [] => ([], self, PList [])
  | provider_name :: rest =>
      if negb (_is_provider_available (providers self) provider_name)
      then search_loop rest self query max_results t
      else
        let called :=
          match search_by provider_name self query max_results t with
          | Some _ => [provider_name]
          | None => []
          end in
        match search_turn provider_name self query max_results t with
        | (self, Some results) => (called, self, results)
        | (self, None) =>
            let '(log, self, results) := search_loop rest self query max_results t in
            (called ++ log, self, results)
        end
  end.

Definition cached (self : manager) (query : string) (max_results : Z)
    (current_time : float) : option PyVal :=
  match dict_get (cache_key query max_results) (cache self) with
  | Some cache_data =>
      if PrimFloat.ltb (PrimFloat.sub current_time (timestamp cache_data))
           (ComponentOrchestrator.float_of_Z (cache_ttl self))
      then Some (results cache_data)
      else None
  | None => None
  end.

Definition search_with_fallback (self : manager) (query : string) (max_results : Z)
    (t : readings) : list string * manager * PyVal :=
  match cached self query max_results (at_cache_check t) with
  | Some results => ([], self, results)
  | None =>
      search_loop (_get_provider_order (providers self)) self query max_results t
  end.

End Searches.

(** [error_count] of a provider, [0] for an unknown name. *)
Definition errors_of (self : manager) (provider_name : string) : Z :=
  match dict_get provider_name (providers self) with
  | Some p => error_count p
  | None => 0
  end.

(** The providers [search_with_fallback] has a branch for. *)
Definition handled (provider_name : string) : bool :=
  String.eqb provider_name "google" || String.eqb provider_name "serper"
  || String.eqb provider_name "bing".

(** The arguments of the Serper request. *)
Definition serper_payload (query : string) (max_results : Z) : PyVal :=
  PDict [("q", PStr query); ("gl", PStr "br"); ("hl", PStr "pt");
         ("num", PInt max_results)].

Definition serper_headers (api_key : PyVal) : dict PyVal :=
  dict_update headers [("X-API-KEY", api_key); ("Content-Type", PStr "application/json")].

(** The URL of the Bing request. *)
Definition bing_url (float_repr : float -> string) (quote_plus : string -> string)
    (base_url : PyVal) (query : string) (max_results : Z) : PyVal :=
  PStr (str float_repr base_url +:+ "?q=" +:+ quote_plus query
        +:+ "&cc=br&setlang=pt-br&count=" +:+ str_of_Z max_results).

(** [_record_provider_error] for one provider, [k] times. *)
Fixpoint record_errors (k : nat) (self : manager) (provider_name : string) : manager :=
  match k with
  | O => self
  | S k => record_errors k (record_error self provider_name) provider_name
  end.

End ProductionSearchManager.

(** ** services/production_content_extractor.py *)

Module ProductionContentExtractor.
Import Py.

(** [self.strategies] *)
Definition strategies : list string :=
  ["jina_reader"; "trafilatura"; "mercury_parser"; "requests_html";
   "beautiful_soup"; "simple_requests"].

Section Chain.

(** The six extraction methods fetch from the network: each is given by what
    it returns ([Optional[str]]) or raises for a URL. *)
Variable _extract_with_jina_reader : string -> result (option string).
Variable _extract_with_trafilatura : string -> result (option string).
Variable _extract_with_mercury_parser : string -> result (option string).
Variable _extract_with_requests_html : string -> result (option string).
Variable _extract_with_bs4 : string -> result (option string).
Variable _extract_with_simple_requests : string -> result (option string).

Definition _execute_strategy (strategy url : string) : result (option string) :=
  if String.eqb strategy "jina_reader" then _extract_with_jina_reader url
  else if String.eqb strategy "trafilatura" then _extract_with_trafilatura url
  else if String.eqb strategy "mercury_parser" then _extract_with_mercury_parser url
  else if String.eqb strategy "requests_html" then _extract_with_requests_html url
  else if String.eqb strategy "beautiful_soup" then _extract_with_bs4 url
  else if String.eqb strategy "simple_requests" then _extract_with_simple_requests url
  else Ok None.

(** [content and len(content.strip()) > 100] *)
Definition valid_content (content : option string) : bool :=
  match content with
  | Some c => negb (String.eqb c "") && (100 <? len (strip c))
  | None => false
  end.

(** One [try] of the chain: the content when the strategy returned a valid
    one, [None] when it returned something else or raised. *)
Definition attempt (strategy url : string) : option string :=
  match _execute_strategy strategy url with
  | Ok content => if valid_content content then content else None
  | Raise _ => None
  end.

(** The [for strategy in self.strategies] loop; the second component lists
    the strategies that were executed. *)
Fixpoint run_strategies (l : list string) (url : string) : option string * list string :=
  match l with
  | [] => (None, [])
  | strategy :: rest =>
      match attempt strategy url with
      | Some content => (Some content, [strategy])
      | None =>
          let r := run_strategies rest url in
          (fst r, strategy :: snd r)
      end
  end.

Definition extract_content_trace (url : string) (strategy_preference : option string)
    : option string * list string :=
  let preferred :=
    match strategy_preference with
    | Some p =>
        if negb (String.eqb p "") && existsb (String.eqb p) strategies then Some p
        else None
    | None => None
    end in
  match preferred with
  | Some p =>
      match attempt p url with
      | Some content => (Some content, [p])
      | None =>
          let r := run_strategies strategies url in
          (fst r, p :: snd r)
      end
  | None => run_strategies strategies url
  end.

(** A strategy fails when it raises, returns [None] or an empty string, or
    returns a text whose stripped length is at most 100. *)
Definition strategy_fails (strategy url : string) : Prop :=
  match _execute_strategy strategy url with
  | Raise _ => True
  | Ok None => True
  | Ok (Some c) => c = "" \/ len (strip c) <= 100
  end.

Definition strategy_yields (strategy url content : string) : Prop :=
  _execute_strategy strategy url = Ok (Some content) /\ content <> "" /\ 100 < len (strip content).

Definition extract_content (url : string) (strategy_preference : option string)
    : option string :=
  fst (extract_content_trace url strategy_preference).

End Chain.

End ProductionContentExtractor.

(** ** services/super_orchestrator.py *)

Module SuperOrchestrator.
Import Py ComponentOrchestrator.

(** [def execute_synchronized_analysis(self, data, session_id,
    progress_callback=None)]: the names a call may pass by keyword, and the
    ones it must pass. *)
Definition execute_synchronized_analysis_params : list string :=
  ["data"; "session_id"; "progress_callback"].

Definition execute_synchronized_analysis_required : list string :=
  ["data"; "session_id"].

(** Binding the keywords of a call to a [def] that has no [**kwargs]; the
    message names the function as Python 3.10 and later do. *)
Definition bind_keywords (qualname : string) (params required keywords : list string)
    : result unit :=
  match find (fun k => negb (existsb (String.eqb k) params)) keywords with
  | Some k =>
      Raise (Exn "TypeError"
               (qualname +:+ "() got an unexpected keyword argument '" +:+ k +:+ "'"))
  | None =>
      match find (fun k => negb (existsb (String.eqb k) keywords)) required with
      | Some k =>
          Raise (Exn "TypeError"
                   (qualname +:+ "() missing 1 required positional argument: '" +:+ k +:+ "'"))
      | None => Ok tt
      end
  end.

Section Analysis.

Variable float_repr : float -> string.
Variable salvar_etapa : string -> PyVal -> string -> result unit.
Variable time_time : float.
(** The module-level [component_orchestrator], with its registrations. *)
Variable component_orchestrator : orchestrator.
(** [services.auto_save_manager.salvar_erro] *)
Variable salvar_erro : string -> exn -> result unit.
(** [_check_all_services_status] asks services that are outside these
    sources. *)
Variable _check_all_services_status : result PyVal.
(** The texts of the first two progress messages (they start with a symbol
    above code point 255). *)
Variable fase1_message fase2_message : string.
(** FASE 3 to FASE 6 and the returned dict: they call [master_orchestrator],
    [enhanced_orchestrator] and the consolidation helpers with the service
    status and the component report. *)
Variable later_phases :
  dict PyVal -> string -> ProgressCallback -> PyVal -> PyVal -> result PyVal.
(** [_generate_emergency_fallback(data, session_id)] *)
Variable _generate_emergency_fallback : dict PyVal -> string -> PyVal.

Definition call_progress (progress_callback : ProgressCallback) (step : Z)
    (message : string) : list event * result unit :=
  match progress_callback with
  | Some f => ([EvProgress step message], f step message)
  | None => ([], Ok tt)
  end.

(** The [try] block of [execute_synchronized_analysis] (the bookkeeping in
    [self.execution_state] is left out). *)
Definition synchronized_analysis_try (data : dict PyVal) (session_id : string)
    (progress_callback : ProgressCallback) : list event * result PyVal :=
  let started :=
    PDict [("data", PDict data); ("session_id", PStr session_id);
           ("orchestrators",
             PList [PStr "master"; PStr "component"; PStr "enhanced";
                    PStr "search_coordinator"; PStr "production_search"]);
           ("services",
             PList [PStr "ai_manager"; PStr "content_extractor"; PStr "mental_drivers";
                    PStr "visual_proofs"; PStr "anti_objection"; PStr "pre_pitch";
                    PStr "future_prediction"; PStr "supadata"; PStr "websailor"])] in
  let log0 := [EvSave "super_orchestrator_iniciado" started "analise_completa"] in
  match salvar_etapa "super_orchestrator_iniciado" started "analise_completa" with
  | Raise e => (log0, Raise e)
  | Ok _ =>
      let p1 := call_progress progress_callback 1 fase1_message in
      let log1 := log0 ++ fst p1 in
      match snd p1 with
      | Raise e => (log1, Raise e)
      | Ok _ =>
          match _check_all_services_status with
          | Raise e => (log1, Raise e)
          | Ok service_status =>
              let p2 := call_progress progress_callback 2 fase2_message in
              let log2 := log1 ++ fst p2 in
              match snd p2 with
              | Raise e => (log2, Raise e)
              | Ok _ =>
                  let run :=
                    execute_components float_repr salvar_etapa time_time
                      component_orchestrator data progress_callback in
                  let log3 := log2 ++ fst run in
                  match snd run with
                  | Raise e => (log3, Raise e)
                  | Ok component_results =>
                      (log3,
                       later_phases data session_id progress_callback
                         service_status component_results)
                  end
              end
          end
      end
  end.

(** [execute_synchronized_analysis]: an exception of the [try] block is
    saved and answered by the emergency fallback. *)
Definition execute_synchronized_analysis (data : dict PyVal) (session_id : string)
    (progress_callback : ProgressCallback) : list event * result PyVal :=
  let r := synchronized_analysis_try data session_id progress_callback in
  match snd r with
  | Ok report => (fst r, Ok report)
  | Raise e =>
      match salvar_erro "super_orchestrator_critico" e with
      | Raise e' => (fst r, Raise e')
      | Ok _ => (fst r, Ok (_generate_emergency_fallback data session_id))
      end
  end.

(** A call [super_orchestrator.execute_synchronized_analysis(k1=..., ...)]
    with the given keyword names. *)
Definition call_execute_synchronized_analysis (keywords : list string)
    (data : dict PyVal) (session_id : string) (progress_callback : ProgressCallback)
    : list event * result PyVal :=
  match bind_keywords "SuperOrchestrator.execute_synchronized_analysis"
          execute_synchronized_analysis_params
          execute_synchronized_analysis_required keywords with
  | Raise e => ([], Raise e)
  | Ok _ => execute_synchronized_analysis data session_id progress_callback
  end.

End Analysis.

(** *** FASE 3: the success rate read off the component report *)

(** The statements between [component_orchestrator.execute_components] and
    [if success_rate < 50]. *)
Definition component_success_rate (component_results : PyVal) : result PyVal :=
  let* has_stats :=
    (if truthy component_results then py_in "execution_stats" component_results
     else Ok false) in
  if has_stats : bool then
    let* execution_stats := subscript component_results "execution_stats" in
    get_method execution_stats "success_rate" (PInt 0)
  else
    let* has_successful :=
      (if truthy component_results then py_in "successful_components" component_results
       else Ok false) in
    if has_successful : bool then
      let* components := get_method component_results "components" (PDict []) in
      let* total_components := py_len components in
      let* successful := get_method component_results "successful_components" (PDict []) in
      let* successful_components := py_len successful in
      Ok (if 0 <? total_components
          then PFloat (PrimFloat.mul
                         (PrimFloat.div (float_of_Z successful_components)
                            (float_of_Z total_components))
                         (float_of_Z 100))
          else PInt 0)
    else Ok (PInt 0).

Section Phases.

(** What follows the success rate: the master or the enhancing branch,
    FASE 4 to FASE 6 and the returned dict, with the rate as last argument. *)
Variable remaining_phases :
  dict PyVal -> string -> ProgressCallback -> PyVal -> PyVal -> PyVal -> result PyVal.

(** The code of [execute_synchronized_analysis] after FASE 2. *)
Definition phases_3_to_6 (data : dict PyVal) (session_id : string)
    (progress_callback : ProgressCallback) (service_status component_results : PyVal)
    : result PyVal :=
  let* success_rate := component_success_rate component_results in
  remaining_phases data session_id progress_callback service_status component_results
    success_rate.

End Phases.

(** *** [_generate_emergency_fallback] *)

(** [[{'numero': i+1, 'nome': f'Driver {i+1}', 'descricao': ...}
      for i in range(19)]] *)
Definition fallback_drivers (descricao : string) : PyVal :=
  PList
    (map (fun i => PDict [("numero", PInt (i + 1));
                          ("nome", PStr ("Driver " +:+ str_of_Z (i + 1)));
                          ("descricao", PStr descricao)])
       (range 19)).

Definition failure_entry (message : string) : PyVal := PDict [("error", PStr message)].

Definition _generate_emergency_fallback (data : dict PyVal) (session_id : string) : PyVal :=
  let unspecified := PStr ("N" +:+ chr 227 +:+ "o especificado") in
  PDict
    [("success", PBool false);
     ("session_id", PStr session_id);
     ("error", PStr ("Falha cr" +:+ chr 237 +:+ "tica no Super Orchestrator"));
     ("fallback_report",
       PDict
         [("segmento", default unspecified (dict_get "segmento" data));
          ("produto", default unspecified (dict_get "produto" data));
          ("status",
            PStr ("An" +:+ chr 225 +:+ "lise b" +:+ chr 225 +:+ "sica de emerg"
                  +:+ chr 234 +:+ "ncia"));
          ("components",
            PDict
              [("web_search", failure_entry "Falha na pesquisa web");
               ("social_analysis", failure_entry ("Falha na an" +:+ chr 225 +:+ "lise social"));
               ("mental_drivers", PDict [("drivers", fallback_drivers "Fallback")]);
               ("visual_proofs", failure_entry "Falha nas provas visuais");
               ("anti_objection",
                 failure_entry ("Falha no sistema anti-obje" +:+ chr 231 +:+ chr 227 +:+ "o"));
               ("pre_pitch", failure_entry ("Falha no pr" +:+ chr 233 +:+ "-pitch"));
               ("future_predictions",
                 failure_entry ("Falha nas predi" +:+ chr 231 +:+ chr 245 +:+ "es"));
               ("avatar_detalhado", failure_entry "Falha no avatar detalhado");
               ("funil_vendas", failure_entry "Falha no funil de vendas");
               ("analise_concorrencia",
                 failure_entry ("Falha na an" +:+ chr 225 +:+ "lise de concorr" +:+ chr 234
                         +:+ "ncia"));
               ("plano_acao", failure_entry ("Falha no plano de a" +:+ chr 231 +:+ chr 227 +:+ "o"));
               ("posicionamento", failure_entry "Falha no posicionamento")])]);
     ("sync_status", PStr "EMERGENCY_FALLBACK")].

(** *** [_check_all_services_status] *)

(** [service_status in ['available', 'ready']] *)
Definition is_ready (service_status : PyVal) : bool :=
  eq_str "available" service_status || eq_str "ready" service_status.

(** The loop over [status.items()]: the services counted as available and
    the services counted. *)
Definition count_services (status : dict PyVal) : Z * Z :=
  fold_left
    (fun counts category_services =>
       let category := fst category_services in
       let services := snd category_services in
       if negb (String.eqb category "overall_health") && isinstance services T_dict then
         match services with
         | PDict d =>
             fold_left
               (fun c service =>
                  (if is_ready (snd service) then fst c + 1 else fst c, snd c + 1))
               d counts
         | _ => counts
         end
       else counts)
    status (0, 0).

(** The grade for [(available_services / total_services) * 100]. *)
Definition health_grade (available_services total_services : Z) : string :=
  let health_percentage :=
    PrimFloat.mul
      (PrimFloat.div (float_of_Z available_services) (float_of_Z total_services))
      (float_of_Z 100) in
  if PrimFloat.leb (float_of_Z 70) health_percentage then "excellent"
  else if PrimFloat.leb (float_of_Z 50) health_percentage then "good"
  else if PrimFloat.leb (float_of_Z 30) health_percentage then "fair"
  else "poor".

(** [_check_all_services_status]; [ai_manager] is the state of the
    module-level manager, whose [get_provider_status] has no failure path. *)
Definition _check_all_services_status (ai_manager : AIManager.manager) : PyVal :=
  let status :=
    [("ai_providers", PDict (AIManager.get_provider_status ai_manager));
     ("search_engines",
       PDict (dict_of (map (fun engine => (engine, PStr "available"))
                         ["exa"; "google"; "serper"; "bing"])));
     ("content_extractors",
       PDict [("jina_reader", PStr "needs_key"); ("basic_extraction", PStr "available")]);
     ("social_platforms", PDict []);
     ("overall_health", PStr "unknown")] in
  let counts := count_services status in
  let available_services := fst counts in
  let total_services := snd counts in
  PDict
    (if 0 <? total_services
     then dict_set "overall_health"
            (PStr (health_grade available_services total_services)) status
     else status).

Definition overall_health (status : PyVal) : PyVal := dict_field "overall_health" status.

(** *** [_register_all_components] *)

(** The twelve bound methods [self._execute_...] the registrations pass. *)
Record component_methods := {
  _execute_web_search : Executor;
  _execute_social_analysis : Executor;
  _execute_mental_drivers : Executor;
  _execute_visual_proofs : Executor;
  _execute_anti_objection : Executor;
  _execute_pre_pitch : Executor;
  _execute_future_predictions : Executor;
  _execute_avatar_detalhado : Executor;
  _execute_funil_vendas : Executor;
  _execute_analise_concorrencia : Executor;
  _execute_plano_acao : Executor;
  _execute_posicionamento : Executor
}.

(** The class [dict], as the value of a ['type'] rule. *)
Definition type_dict : PyVal := PObj "<class 'dict'>" "<class 'dict'>" true.

Definition sized_dict : dict PyVal := [("type", type_dict); ("min_size", PInt 1)].

Definition registration_of (name : string) (executor : Executor)
    (dependencies : list string) (validation_rules : dict PyVal) (required : bool)
    : registration :=
  {| reg_name := name; reg_executor := executor; reg_dependencies := Some dependencies;
     reg_validation_rules := Some validation_rules; reg_required := required |}.

(** The calls of [_register_all_components], in their order. *)
Definition registrations (self : component_methods) : list registration :=
  [registration_of "web_search" (_execute_web_search self) [] sized_dict true;
   registration_of "social_analysis" (_execute_social_analysis self)
     ["web_search"] sized_dict true;
   registration_of "mental_drivers" (_execute_mental_drivers self)
     ["web_search"; "social_analysis"]
     [("type", type_dict); ("required_fields", PList [PStr "drivers"]); ("min_size", PInt 1)]
     true;
   registration_of "visual_proofs" (_execute_visual_proofs self)
     ["mental_drivers"] sized_dict true;
   registration_of "anti_objection" (_execute_anti_objection self)
     ["mental_drivers"] sized_dict true;
   registration_of "pre_pitch" (_execute_pre_pitch self)
     ["mental_drivers"; "anti_objection"] sized_dict true;
   registration_of "future_predictions" (_execute_future_predictions self)
     ["web_search"; "social_analysis"] sized_dict true;
   registration_of "avatar_detalhado" (_execute_avatar_detalhado self)
     ["web_search"; "social_analysis"] sized_dict true;
   registration_of "funil_vendas" (_execute_funil_vendas self)
     ["mental_drivers"; "anti_objection"] sized_dict false;
   registration_of "analise_concorrencia" (_execute_analise_concorrencia self)
     ["web_search"] sized_dict false;
   registration_of "plano_acao" (_execute_plano_acao self)
     ["mental_drivers"; "future_predictions"] sized_dict false;
   registration_of "posicionamento" (_execute_posicionamento self)
     ["analise_concorrencia"; "avatar_detalhado"] sized_dict false].

Definition _register_all_components (self : component_methods)
    (component_orchestrator : orchestrator) : orchestrator :=
  fold_left register (registrations self) component_orchestrator.

(** [dep] stands in [order] before the first [name]. *)
Fixpoint precedes (dep name : string) (order : list string) : bool :=
  match order with
  | [] => false
  | x :: rest =>
      if String.eqb x name then false
      else if String.eqb x dep then existsb (String.eqb name) rest
      else precedes dep name rest
  end.

(** Every declared dependency of every registered component stands before
    the component in the execution order. *)
Definition dependencies_first (self : orchestrator) : Prop :=
  Forall
    (fun entry =>
       Forall (fun dep => precedes dep (fst entry) (execution_order self) = true)
         (dependencies (snd entry)))
    (component_registry self).

(** *** [self.execution_state] and [get_session_progress] *)

(** The entry [execute_synchronized_analysis] creates for its session. *)
Definition initial_session_state (start_time : float) : dict PyVal :=
  [("status", PStr "running"); ("start_time", PFloat start_time);
   ("components_completed", PList []); ("errors", PList [])].

(** [self.execution_state[session_id][k] = v] for an entry that exists. *)
Definition set_in_session (session_id k : string) (v : PyVal)
    (execution_state : dict (dict PyVal)) : dict (dict PyVal) :=
  match dict_get session_id execution_state with
  | Some session_state =>
      dict_set session_id (dict_set k v session_state) execution_state
  | None => execution_state
  end.

Section ExecutionState.

Variable float_repr : float -> string.
Variable salvar_etapa : string -> PyVal -> string -> result unit.
Variable time_time : float.
Variable component_orchestrator : orchestrator.
Variable salvar_erro : string -> exn -> result unit.
Variable _check_all_services_status : result PyVal.
Variable fase1_message fase2_message : string.
(** What follows the success rate, as in [phases_3_to_6], with one more
    piece of information: whether the run got to the statements after FASE 6
    that set the session to ['completed']. *)
Variable remaining_phases_state :
  dict PyVal -> string -> ProgressCallback -> PyVal -> PyVal -> PyVal ->
  bool * result PyVal.

Definition remaining_phases (data : dict PyVal) (session_id : string)
    (progress_callback : ProgressCallback)
    (service_status component_results success_rate : PyVal) : result PyVal :=
  snd (remaining_phases_state data session_id progress_callback service_status
         component_results success_rate).

(** Whether the [try] block got to [self.execution_state[session_id]['status']
    = 'completed']. *)
Definition reached_completed (data : dict PyVal) (session_id : string)
    (progress_callback : ProgressCallback) : bool :=
  match snd (synchronized_analysis_try float_repr salvar_etapa time_time
               component_orchestrator _check_all_services_status
               fase1_message fase2_message
               (fun _ _ _ _ component_results => Ok component_results)
               data session_id progress_callback),
        _check_all_services_status with
  | Ok component_results, Ok service_status =>
      match component_success_rate component_results with
      | Ok success_rate =>
          fst (remaining_phases_state data session_id progress_callback service_status
                 component_results success_rate)
      | Raise _ => false
      end
  | _, _ => false
  end.

(** [self.execution_state] after [execute_synchronized_analysis]: the entry
    of the session is created at the start, set to ['completed'] at the end
    of the [try] block, and set to ['failed'] by the [except] block once
    [salvar_erro] has returned. *)
Definition execution_state_after (execution_state : dict (dict PyVal))
    (data : dict PyVal) (session_id : string) (progress_callback : ProgressCallback)
    (start_time execution_time : float) : dict (dict PyVal) :=
  let state := dict_set session_id (initial_session_state start_time) execution_state in
  let state :=
    if reached_completed data session_id progress_callback
    then set_in_session session_id "execution_time" (PFloat execution_time)
           (set_in_session session_id "status" (PStr "completed") state)
    else state in
  match snd (synchronized_analysis_try float_repr salvar_etapa time_time
               component_orchestrator _check_all_services_status
               fase1_message fase2_message (phases_3_to_6 remaining_phases)
               data session_id progress_callback) with
  | Ok _ => state
  | Raise e =>
      match salvar_erro "super_orchestrator_critico" e with
      | Raise _ => state
      | Ok _ =>
          set_in_session session_id "error" (PStr (exn_str e))
            (set_in_session session_id "status" (PStr "failed") state)
      end
  end.

End ExecutionState.

(** [min(a, 95)] for a float [a] *)
Definition at_most_95 (a : float) : PyVal :=
  if PrimFloat.ltb (float_of_Z 95) a then PInt 95 else PFloat a.

(** [get_session_progress]; an exception in it is answered with [None]. *)
Definition get_session_progress (execution_state : dict (dict PyVal))
    (session_id : string) : PyVal :=
  match dict_get session_id execution_state with
  | None => PNone
  | Some session_state =>
      if negb (truthy (PDict session_state)) then PNone
      else
        let total_components := 12 in
        match py_len (default (PList []) (dict_get "components_completed" session_state)) with
        | Raise _ => PNone
        | Ok completed =>
            let percentage :=
              at_most_95
                (PrimFloat.mul
                   (PrimFloat.div (float_of_Z completed) (float_of_Z total_components))
                   (float_of_Z 100)) in
            PDict
              [("completed",
                 PBool (eq_str "completed" (default PNone (dict_get "status" session_state))));
               ("percentage", percentage);
               ("current_step",
                 PStr ("Processando componente " +:+ str_of_Z (completed + 1) +:+ "/"
                       +:+ str_of_Z total_components));
               ("total_steps", PInt total_components);
               ("estimated_time",
                 PStr (str_of_Z (Z.max 0 ((total_components - completed) * 2)) +:+ "m"))]
        end
  end.

End SuperOrchestrator.

(** ** routes/analysis.py *)

Module AnalysisRoutes.
Import Py ComponentOrchestrator.

(** A Flask answer: the JSON body and the HTTP status. *)
Record response := { body : PyVal; status_code : Z }.

(** [v == s] for a string literal [s]. *)
Definition is_str (v : PyVal) (s : string) : bool :=
  match v with PStr x => String.eqb x s | _ => false end.

Definition sessao : string := "Sess" +:+ chr 227 +:+ "o".
Definition nao : string := "n" +:+ chr 227 +:+ "o".

Definition not_found : response :=
  {| body := PDict [("error", PStr (sessao +:+ " " +:+ nao +:+ " encontrada"))];
     status_code := 404 |}.

(** The [except Exception as e] answer of the handlers. *)
Definition server_error (e : exn) : response :=
  {| body := PDict [("error", PStr (exn_str e))]; status_code := 500 |}.

(** The status a client sees; an exception that leaves the view is answered
    by Flask with 500. *)
Definition http_status (r : result response) : Z :=
  match r with Ok resp => status_code resp | Raise _ => 500 end.

(** The status of a session in the table. *)
Definition status_in (sessions : gmap string (dict PyVal)) (session_id : string)
    : option PyVal :=
  match sessions !! session_id with
  | Some session => dict_get "status" session
  | None => None
  end.

Section Handlers.

Variable float_repr : float -> string.
Variable salvar_etapa : string -> PyVal -> string -> result unit.
Variable salvar_erro : string -> exn -> result unit.
Variable time_time : float.
Variable component_orchestrator : orchestrator.
Variable _check_all_services_status : result PyVal.
Variable fase1_message fase2_message : string.
Variable later_phases :
  dict PyVal -> string -> ProgressCallback -> PyVal -> PyVal -> result PyVal.
Variable _generate_emergency_fallback : dict PyVal -> string -> PyVal.
(** [auto_save_manager.obter_info_sessao] reads the persisted session. *)
Variable obter_info_sessao : string -> result PyVal.

(** [pause_session]; [now] is [datetime.now().isoformat()]. *)
Definition pause_session (active_sessions : gmap string (dict PyVal))
    (session_id now : string) : gmap string (dict PyVal) * response :=
  match active_sessions !! session_id with
  | None => (active_sessions, not_found)
  | Some session =>
      match item "status" session with
      | Raise e => (active_sessions, server_error e)
      | Ok status =>
          if negb (is_str status "running") then
            (active_sessions,
             {| body := PDict [("error",
                  PStr (sessao +:+ " " +:+ nao +:+ " est" +:+ chr 225 +:+ " em execu"
                        +:+ chr 231 +:+ chr 227 +:+ "o"))];
                status_code := 400 |})
          else
            let session := dict_set "status" (PStr "paused") session in
            let session := dict_set "paused_at" (PStr now) session in
            let active_sessions := <[session_id := session]> active_sessions in
            match salvar_etapa "sessao_pausada"
                    (PDict [("session_id", PStr session_id);
                            ("paused_at", PStr now);
                            ("reason", PStr "User requested pause")]) "logs" with
            | Raise e => (active_sessions, server_error e)
            | Ok _ =>
                (active_sessions,
                 {| body := PDict [("success", PBool true);
                                   ("message", PStr (sessao +:+ " pausada com sucesso"));
                                   ("session_id", PStr session_id);
                                   ("status", PStr "paused")];
                    status_code := 200 |})
            end
      end
  end.

(** [resume_session] *)
Definition resume_session (active_sessions : gmap string (dict PyVal))
    (session_id now : string) : gmap string (dict PyVal) * response :=
  match active_sessions !! session_id with
  | None => (active_sessions, not_found)
  | Some session =>
      match item "status" session with
      | Raise e => (active_sessions, server_error e)
      | Ok status =>
          if negb (is_str status "paused") then
            (active_sessions,
             {| body := PDict [("error",
                  PStr (sessao +:+ " " +:+ nao +:+ " est" +:+ chr 225 +:+ " pausada"))];
                status_code := 400 |})
          else
            let session := dict_set "status" (PStr "running") session in
            let session := dict_set "resumed_at" (PStr now) session in
            let session := dict_set "paused_at" PNone session in
            let active_sessions := <[session_id := session]> active_sessions in
            match salvar_etapa "sessao_resumida"
                    (PDict [("session_id", PStr session_id);
                            ("resumed_at", PStr now);
                            ("reason", PStr "User requested resume")]) "logs" with
            | Raise e => (active_sessions, server_error e)
            | Ok _ =>
                (active_sessions,
                 {| body := PDict [("success", PBool true);
                                   ("message", PStr (sessao +:+ " resumida com sucesso"));
                                   ("session_id", PStr session_id);
                                   ("status", PStr "running")];
                    status_code := 200 |})
            end
      end
  end.

(** The loop of [continue_session] that looks for the saved request. *)
Fixpoint find_original_data (etapas : dict PyVal) : result PyVal :=
  match etapas with
  | [] => Ok PNone
  | (etapa_nome, etapa_data) :: rest =>
      if contains "requisicao_analise" etapa_nome
      then get_method etapa_data "dados" (PDict [])
      else find_original_data rest
  end.

(** [x.items()] *)
Definition items_method (x : PyVal) : result (dict PyVal) :=
  match x with
  | PDict d => Ok d
  | _ => Raise (Exn "AttributeError"
                  ("'" +:+ type_name (type_of x) +:+ "' object has no attribute 'items'"))
  end.

(** What [continue_session] reads of the persisted session: the ['dados'] of
    the first step whose name contains ['requisicao_analise']. *)
Definition saved_request (session_info : PyVal) : result PyVal :=
  let* etapas := get_method session_info "etapas" (PDict []) in
  let* l := items_method etapas in
  find_original_data l.

(** The dict [continue_session] hands to the orchestrator: it is built from
    the saved request alone. *)
Definition analysis_data (original_data : PyVal) : result (dict PyVal) :=
  let* segmento := get_method original_data "segmento" PNone in
  let* produto := get_method original_data "produto" PNone in
  let* publico := get_method original_data "publico_alvo" (PStr "") in
  let* objetivos := get_method original_data "objetivos_estrategicos" (PStr "") in
  let* contexto := get_method original_data "contexto_adicional" (PStr "") in
  let* query :=
    get_method original_data "query"
      (PStr ("mercado de " +:+ str float_repr (py_or produto segmento)
             +:+ " no brasil desde 2022")) in
  Ok [("segmento", segmento); ("produto", produto); ("publico", publico);
      ("objetivos", objetivos); ("contexto", contexto); ("query", query)].

(** The closure [progress_callback] of [continue_session]. *)
Definition continue_progress_callback (now : string) : ProgressCallback :=
  Some (fun step message =>
          salvar_etapa "progresso_continuacao"
            (PDict [("step", PInt step); ("message", PStr message);
                    ("timestamp", PStr now)]) "logs").

(** The keywords of the call in [continue_session]. *)
Definition continue_keywords : list string :=
  ["data"; "session_id"; "progress_callback"; "continue_from_saved"].

(** The [try] block of [continue_session]: the sessions, what the run did,
    and the answer or the exception. *)
Definition continue_session_try (active_sessions : gmap string (dict PyVal))
    (session_id now later : string)
    : gmap string (dict PyVal) * list event * result response :=
  match obter_info_sessao session_id with
  | Raise e => (active_sessions, [], Raise e)
  | Ok session_info =>
      if negb (truthy session_info) then (active_sessions, [], Ok not_found)
      else
        match saved_request session_info with
        | Raise e => (active_sessions, [], Raise e)
        | Ok original_data =>
            if negb (truthy original_data) then
              (active_sessions, [],
               Ok {| body := PDict [("error",
                       PStr ("Dados originais " +:+ nao +:+ " encontrados"))];
                     status_code := 400 |})
            else
              let active_sessions :=
                <[session_id :=
                    [("status", PStr "running"); ("data", original_data);
                     ("continued_at", PStr now); ("original_session", PBool true)]]>
                  active_sessions in
              match analysis_data original_data with
              | Raise e => (active_sessions, [], Raise e)
              | Ok data =>
                  let run :=
                    SuperOrchestrator.call_execute_synchronized_analysis
                      float_repr salvar_etapa time_time component_orchestrator
                      salvar_erro _check_all_services_status
                      fase1_message fase2_message later_phases
                      _generate_emergency_fallback
                      continue_keywords data session_id
                      (continue_progress_callback now) in
                  match snd run with
                  | Raise e => (active_sessions, fst run, Raise e)
                  | Ok resultado =>
                      let active_sessions :=
                        match active_sessions !! session_id with
                        | Some session =>
                            <[session_id :=
                                dict_set "completed_at" (PStr later)
                                  (dict_set "status" (PStr "completed") session)]>
                              active_sessions
                        | None => active_sessions
                        end in
                      (active_sessions, fst run,
                       Ok {| body :=
                               PDict [("success", PBool true);
                                      ("session_id", PStr session_id);
                                      ("message",
                                        PStr ("An" +:+ chr 225 +:+ "lise continuada e conclu"
                                              +:+ chr 237 +:+ "da com sucesso!"));
                                      ("data", resultado)];
                             status_code := 200 |})
                  end
              end
        end
  end.

(** [continue_session]: the [except] branch marks the session, saves the
    error and answers 500; an exception inside it leaves the view.  (The
    handler also deletes the session from [_active_sessions], a second table
    that no handler fills.) *)
Definition continue_session (active_sessions : gmap string (dict PyVal))
    (session_id now later : string)
    : gmap string (dict PyVal) * list event * result response :=
  let r := continue_session_try active_sessions session_id now later in
  let active_sessions := fst (fst r) in
  match snd r with
  | Ok resp => r
  | Raise e =>
      if negb (String.eqb session_id "") then
        match active_sessions !! session_id with
        | None => (active_sessions, snd (fst r),
                   Raise (Exn "KeyError" (repr_str session_id)))
        | Some session =>
            let session := dict_set "status" (PStr "error") session in
            let session := dict_set "error" (PStr (exn_str e)) session in
            let session := dict_set "error_at" (PStr later) session in
            let active_sessions := <[session_id := session]> active_sessions in
            match salvar_erro "erro_continuacao_sessao" e with
            | Raise e' => (active_sessions, snd (fst r), Raise e')
            | Ok _ => (active_sessions, snd (fst r), Ok (server_error e))
            end
        end
      else
        match salvar_erro "erro_geral_continuacao_sessao" e with
        | Raise e' => (active_sessions, snd (fst r), Raise e')
        | Ok _ => (active_sessions, snd (fst r), Ok (server_error e))
        end
  end.

End Handlers.

(** *** [analyze] *)

Section Analyze.

Variable float_repr : float -> string.
Variable salvar_etapa : string -> PyVal -> string -> result unit.
Variable salvar_erro : string -> exn -> result unit.
Variable time_time : float.
Variable component_orchestrator : orchestrator.
Variable _check_all_services_status : result PyVal.
Variable fase1_message fase2_message : string.
Variable later_phases :
  dict PyVal -> string -> ProgressCallback -> PyVal -> PyVal -> result PyVal.
Variable _generate_emergency_fallback : dict PyVal -> string -> PyVal.
(** [auto_save_manager.iniciar_sessao()] *)
Variable iniciar_sessao : result string.

(** The closure [send_progress_update] of [analyze]. *)
Definition send_progress_update (now : string) : ProgressCallback :=
  Some (fun step message =>
          salvar_etapa "progresso"
            (PDict [("step", PInt step); ("message", PStr message);
                    ("timestamp", PStr now)]) "logs").

(** The keywords of the call in [analyze]. *)
Definition analyze_keywords : list string := ["data"; "session_id"; "progress_callback"].

(** The dict [analyze] hands to the orchestrator; [timestamp] is
    [time.time()]. *)
Definition complete_analysis_data
    (segmento_negocio produto_servico publico_alvo objetivos_estrategicos
       contexto_adicional query : PyVal)
    (session_id : string) (timestamp : float) : dict PyVal :=
  [("segmento", segmento_negocio);
   ("produto", produto_servico);
   ("query", query);
   ("session_id", PStr session_id);
   ("timestamp", PFloat timestamp);
   ("context_data",
     PDict [("segmento", segmento_negocio); ("produto", produto_servico);
            ("query", query); ("publico", publico_alvo);
            ("objetivos", objetivos_estrategicos); ("contexto", contexto_adicional)]);
   ("avatar_data",
     PDict [("nome", PStr ("Avatar " +:+ str float_repr segmento_negocio));
            ("segmento", segmento_negocio);
            ("dores_viscerais",
              PList [PStr ("Dificuldades em " +:+ str float_repr segmento_negocio);
                     PStr ("Falta de crescimento sustent" +:+ chr 225 +:+ "vel");
                     PStr ("Press" +:+ chr 227 +:+ "o da concorr" +:+ chr 234 +:+ "ncia")]);
            ("desejos_secretos",
              PList [PStr ("Dominar o mercado de " +:+ str float_repr segmento_negocio);
                     PStr ("Crescimento acelerado e sustent" +:+ chr 225 +:+ "vel");
                     PStr ("Ser refer" +:+ chr 234 +:+ "ncia no setor")])])].

(** The statements of [analyze] from the first save to the second: they
    read the request and give the dict for the orchestrator. *)
Definition read_request (data : PyVal) (session_id : string) (timestamp : float)
    : result (dict PyVal) :=
  let* _ := salvar_etapa "requisicao_analise" data "analise_completa" in
  let* segmento_negocio := get_method data "segmento" PNone in
  let* produto_servico := get_method data "produto" PNone in
  let* publico_alvo := get_method data "publico_alvo" (PStr "") in
  let* objetivos_estrategicos := get_method data "objetivos_estrategicos" (PStr "") in
  let* contexto_adicional := get_method data "contexto_adicional" (PStr "") in
  let* query :=
    get_method data "query"
      (PStr ("mercado de " +:+ str float_repr (py_or produto_servico segmento_negocio)
             +:+ " no brasil desde 2022")) in
  let* _ := salvar_etapa "query_preparada" (PDict [("query", query)]) "pesquisa_web" in
  Ok (complete_analysis_data segmento_negocio produto_servico publico_alvo
        objetivos_estrategicos contexto_adicional query session_id timestamp).

Definition analysis_done (session_id : string) (processing_time resultado : PyVal)
    : response :=
  {| body :=
       PDict [("success", PBool true);
              ("session_id", PStr session_id);
              ("message",
                PStr ("An" +:+ chr 225 +:+ "lise COMPLETA conclu" +:+ chr 237
                      +:+ "da com sucesso!"));
              ("processing_time", processing_time);
              ("data", resultado)];
     status_code := 200 |}.

(** The [try] block of [analyze] for the JSON body [data] of the request:
    the sessions, what the run did, the session id once it is assigned, and
    the answer or the exception.  [now] and [later] are the values of
    [datetime.now().isoformat()] before and after the run. *)
Definition analyze_try (active_sessions : gmap string (dict PyVal)) (data : PyVal)
    (now later : string) (timestamp : float)
    : gmap string (dict PyVal) * list event * option string * result response :=
  if negb (truthy data) then
    (active_sessions, [], None,
     Ok {| body := PDict [("error", PStr ("Dados n" +:+ chr 227 +:+ "o fornecidos"))];
           status_code := 400 |})
  else
    match iniciar_sessao with
    | Raise e => (active_sessions, [], None, Raise e)
    | Ok session_id =>
        match read_request data session_id timestamp with
        | Raise e => (active_sessions, [], Some session_id, Raise e)
        | Ok analysis_data =>
            let active_sessions :=
              <[session_id :=
                  [("status", PStr "running"); ("data", data);
                   ("started_at", PStr now); ("paused_at", PNone)]]>
                active_sessions in
            let run :=
              SuperOrchestrator.call_execute_synchronized_analysis
                float_repr salvar_etapa time_time component_orchestrator
                salvar_erro _check_all_services_status
                fase1_message fase2_message later_phases
                _generate_emergency_fallback
                analyze_keywords analysis_data session_id
                (send_progress_update now) in
            match snd run with
            | Raise e => (active_sessions, fst run, Some session_id, Raise e)
            | Ok resultado =>
                let active_sessions :=
                  match active_sessions !! session_id with
                  | Some session =>
                      <[session_id :=
                          dict_set "completed_at" (PStr later)
                            (dict_set "status" (PStr "completed") session)]>
                        active_sessions
                  | None => active_sessions
                  end in
                match (let* metadata := get_method resultado "metadata" (PDict []) in
                       get_method metadata "processing_time_formatted" (PStr "N/A")) with
                | Raise e => (active_sessions, fst run, Some session_id, Raise e)
                | Ok processing_time =>
                    (active_sessions, fst run, Some session_id,
                     Ok (analysis_done session_id processing_time resultado))
                end
            end
        end
    end.

Definition analysis_failed (session_id : option string) (e : exn) : response :=
  {| body :=
       PDict [("success", PBool false);
              ("session_id", match session_id with Some s => PStr s | None => PNone end);
              ("error", PStr (exn_str e));
              ("message",
                PStr ("Erro na an" +:+ chr 225 +:+ "lise. Dados intermedi" +:+ chr 225
                      +:+ "rios foram salvos."))];
     status_code := 500 |}.

(** [analyze]: the [except] branch marks the session when there is one
    (a session that is not in the table yet raises [KeyError] there), saves
    the error and answers 500.  (As in [continue_session], the deletions from
    [_active_sessions] act on a table that no handler fills.) *)
Definition analyze (active_sessions : gmap string (dict PyVal)) (data : PyVal)
    (now later : string) (timestamp : float)
    : gmap string (dict PyVal) * list event * result response :=
  let r := analyze_try active_sessions data now later timestamp in
  let active_sessions := fst (fst (fst r)) in
  let log := snd (fst (fst r)) in
  let session_id := snd (fst r) in
  match snd r with
  | Ok resp => (active_sessions, log, Ok resp)
  | Raise e =>
      match session_id with
      | Some s =>
          if negb (String.eqb s "") then
            match active_sessions !! s with
            | None => (active_sessions, log, Raise (Exn "KeyError" (repr_str s)))
            | Some session =>
                let session := dict_set "status" (PStr "error") session in
                let session := dict_set "error" (PStr (exn_str e)) session in
                let session := dict_set "error_at" (PStr later) session in
                let active_sessions := <[s := session]> active_sessions in
                match salvar_erro "erro_analise" e with
                | Raise e' => (active_sessions, log, Raise e')
                | Ok _ => (active_sessions, log, Ok (analysis_failed session_id e))
                end
            end
          else
            match salvar_erro "erro_geral_analise" e with
            | Raise e' => (active_sessions, log, Raise e')
            | Ok _ => (active_sessions, log, Ok (analysis_failed session_id e))
            end
      | None =>
          match salvar_erro "erro_geral_analise" e with
          | Raise e' => (active_sessions, log, Raise e')
          | Ok _ => (active_sessions, log, Ok (analysis_failed session_id e))
          end
      end
  end.

End Analyze.

End AnalysisRoutes.

(** * Concrete data

    The inputs on which the properties below are tried. *)

(** ** Runs of the scheduler *)

Module Runs.
Import Py ComponentOrchestrator.

(** An environment in which every save returns. *)
Definition print_float (f : float) : string := "0.0".
Definition save_returns (etapa : string) (dados : PyVal) (categoria : string) : result unit :=
  Ok tt.
Definition save_error_returns (etapa : string) (e : exn) : result unit := Ok tt.
Definition clock : float := 1700000000%float.

(** The job of the spec's scenarios. *)
Definition fitness_job : dict PyVal :=
  [("segmento", PStr "fitness"); ("produto", PStr "coaching app")].

Definition returns (v : PyVal) : Executor := fun _ => Ok v.
Definition raises (message : string) : Executor := fun _ => Raise (Exn "RuntimeError" message).

Definition component (name : string) (ex : Executor) (deps : list string) : registration :=
  {| reg_name := name; reg_executor := ex; reg_dependencies := Some deps;
     reg_validation_rules := None; reg_required := true |}.

(** [web_search] succeeds with a list, [avatar] raises, [drivers] returns a
    dict. *)
Definition pipeline : list registration :=
  [component "web_search" (returns (PList [PStr "result"])) [];
   component "avatar" (raises "provider down") ["web_search"];
   component "drivers" (returns (PDict [("drivers", PList [])])) ["avatar"]].

(** The fallback payload of [_execute_mental_drivers]. *)
Definition fallback_payload : dict PyVal :=
  [("error", PStr "generator failed"); ("fallback_used", PBool true);
   ("drivers_basicos", PList [])].

Definition fallback_pipeline : list registration :=
  [component "mental_drivers" (returns (PDict fallback_payload)) []].

(** A dependent component registered before its dependency. *)
Definition reversed_pipeline : list registration :=
  [component "social_analysis" (returns (PDict [("posts", PInt 3)])) ["web_search"];
   component "web_search" (returns (PDict [("hits", PInt 5)])) []].

(** A component that depends on itself. *)
Definition self_cycle : orchestrator :=
  register_component __init__ "a" (returns PNone) (Some ["a"]) None true.

Definition run (regs : list registration) (cb : ProgressCallback) : list event * result PyVal :=
  execute_components print_float save_returns clock (register_all regs) fitness_job cb.

(** A progress callback that returns, as the ones the callers pass. *)
Definition shows_progress : ProgressCallback := Some (fun step message => Ok tt).

Definition report_of (r : list event * result PyVal) : PyVal :=
  match snd r with Ok report => report | Raise _ => PNone end.

End Runs.

(** ** Runs of the provider managers *)

Module ProviderRuns.
Import Py AIManager.

(** A process where only the Gemini key is configured. *)
Definition gemini_only : environment :=
  {| HAS_GEMINI := true; HAS_OPENAI := true; HAS_GROQ_CLIENT := true;
     gemini_key := true; openai_key := false; groq_enabled := false; hf_key := None |}.

Definition started : manager := __init__ gemini_only.

Definition rate_limit_error : exn := Exn "Exception" "429 Too Many Requests".
Definition empty_answer_error : exn := Exn "Exception" "Resposta vazia do provedor".

Definition state_after (r : result failure_outcome) : manager :=
  match r with Ok out => after out | Raise _ => started end.

(** The manager after Gemini answered 429 at second 100. *)
Definition rate_limited : manager :=
  state_after (_handle_provider_failure gemini_only started "gemini" rate_limit_error
                 100%float 102%float).

End ProviderRuns.

(** ** Runs of the extraction chain *)

Module ChainRuns.
Import Py ProductionContentExtractor.

Fixpoint repeat_char (c : ascii) (n : nat) : string :=
  match n with O => EmptyString | S m => String c (repeat_char c m) end.

(** A text of exactly 100 characters and one of 101. *)
Definition hundred : string := repeat_char "a" 100.
Definition hundred_one : string := repeat_char "a" 101.

Definition nothing (url : string) : result (option string) := Ok None.
Definition failing (url : string) : result (option string) :=
  Raise (Exn "ConnectionError" "connection refused").
Definition giving (text : string) (url : string) : result (option string) := Ok (Some text).

End ChainRuns.

(** ** Sessions *)

Module SessionRuns.
Import Py AnalysisRoutes.

Definition save_returns (etapa : string) (dados : PyVal) (categoria : string) : result unit :=
  Ok tt.

Definition one_session (status : string) : gmap string (dict PyVal) :=
  {[ "session_1" := [("status", PStr status); ("started_at", PStr "2025-01-01T10:00:00")] ]}.

End SessionRuns.

(** ** A persisted session and its continuation *)

Module ContinueRuns.
Import Py ComponentOrchestrator AnalysisRoutes.

(** The persisted session: the saved request and the checkpoint of a
    [web_search] that succeeded. *)
Definition persisted : PyVal :=
  PDict
    [("etapas",
       PDict
         [("requisicao_analise", PDict [("dados", PDict Runs.fitness_job)]);
          ("componente_web_search",
            PDict [("dados", PDict [("hits", PInt 5)])])])].

Definition obter_info_sessao (session_id : string) : result PyVal :=
  if String.eqb session_id "session_1" then Ok persisted else Ok PNone.

(** [web_search] succeeded before; [avatar] is the component to retry. *)
Definition registered : orchestrator :=
  register_all
    [Runs.component "web_search" (Runs.returns (PDict [("hits", PInt 5)])) [];
     Runs.component "avatar" (Runs.returns (PDict [("avatar", PStr "ok")])) ["web_search"]].

Definition services : result PyVal := Ok (PDict [("overall_health", PStr "unknown")]).

End ContinueRuns.

(** ** The registered pipeline *)

Module PipelineRuns.
Import Py ComponentOrchestrator SuperOrchestrator.

(** Twelve executors that return an empty dict. *)
Definition idle_methods : component_methods :=
  {| _execute_web_search := Runs.returns (PDict []);
     _execute_social_analysis := Runs.returns (PDict []);
     _execute_mental_drivers := Runs.returns (PDict []);
     _execute_visual_proofs := Runs.returns (PDict []);
     _execute_anti_objection := Runs.returns (PDict []);
     _execute_pre_pitch := Runs.returns (PDict []);
     _execute_future_predictions := Runs.returns (PDict []);
     _execute_avatar_detalhado := Runs.returns (PDict []);
     _execute_funil_vendas := Runs.returns (PDict []);
     _execute_analise_concorrencia := Runs.returns (PDict []);
     _execute_plano_acao := Runs.returns (PDict []);
     _execute_posicionamento := Runs.returns (PDict []) |}.

End PipelineRuns.

(** ** Prepared requests *)

Module PreparedRuns.
Import Py ComponentOrchestrator.

(** The base data of the fitness job. *)
Definition prepared_job : dict PyVal :=
  match _prepare_base_data Runs.print_float Runs.fitness_job with
  | Ok base => base
  | Raise _ => []
  end.

End PreparedRuns.

(** ** Calls of the AI providers *)

Module GenerationRuns.
Import Py AIManager.

(** A process where the Gemini key and the Groq client are configured. *)
Definition gemini_and_groq : environment :=
  {| HAS_GEMINI := true; HAS_OPENAI := true; HAS_GROQ_CLIENT := true;
     gemini_key := true; openai_key := false; groq_enabled := true; hf_key := None |}.

Definition started : manager := __init__ gemini_and_groq.

(** The manager after three failures of Gemini at second 100 that are not
    rate limits. *)
Definition failed_thrice : manager :=
  fold_left
    (fun self (_ : unit) =>
       match _handle_provider_failure gemini_and_groq self "gemini"
               ProviderRuns.empty_answer_error 100%float 100%float with
       | Ok out => after out
       | Raise _ => self
       end)
    [tt; tt; tt] started.

(** Gemini answers 429, Groq answers with a text. *)
Definition gemini_limited (client : PyVal) (prompt : string) (max_output_tokens : Z)
    : result PyVal :=
  Raise (Exn "Exception" "429 Too Many Requests").

Definition groq_answers (client : PyVal) (prompt : string) (max_tokens : Z) : result PyVal :=
  Ok (PStr "analysis by groq").

Definition openai_down (client : PyVal) (model : option string) (prompt : string)
    (max_tokens : Z) : result PyVal :=
  Raise (Exn "Exception" "connection refused").

Definition no_network (url authorization inputs : string) (max_new_tokens : Z)
    : result (Z * result PyVal) :=
  Raise (Exn "ConnectionError" "connection refused").

Definition readings : clock :=
  {| at_selection := 100%float; at_success := 101%float;
     at_failure := 101%float; at_fallback := 103%float |}.

Definition generate (provider : option string) : list string * result (manager * PyVal) :=
  generate_analysis Runs.print_float gemini_and_groq gemini_limited groq_answers
    openai_down no_network "no provider" started "prompt" 8192 provider readings.

(** The value a call returned. *)
Definition returned (r : list string * result (manager * PyVal)) : option PyVal :=
  match snd r with Ok sv => Some (snd sv) | Raise _ => None end.

(** A manager whose HuggingFace provider is configured, with its two
    models. *)
Definition hf_client : PyVal :=
  PDict [("api_key", PStr "hf_key");
         ("base_url", PStr "https://api-inference.huggingface.co/models/")].

Definition hf_ready : manager :=
  update_provider "huggingface" (enable_with hf_client) ProviderRuns.started.

(** The first model is loading (503), the second answers. *)
Definition zephyr_loading (url authorization inputs : string) (max_new_tokens : Z)
    : result (Z * result PyVal) :=
  if String.eqb url
       "https://api-inference.huggingface.co/models/HuggingFaceH4/zephyr-7b-beta"
  then Ok (503, Ok PNone)
  else Ok (200, Ok (PList [PDict [("generated_text", PStr "analysis by flan")]])).

End GenerationRuns.

(** ** Searches and the rotation of the Google keys *)

Module SearchRuns.
Import Py.

(** A process environment with two Google keys. *)
Definition two_keys (name : string) : option string :=
  if String.eqb name "GOOGLE_SEARCH_API_KEY" then Some "key-1"
  else if String.eqb name "GOOGLE_SEARCH_CX" then Some "cx-1"
  else if String.eqb name "GOOGLE_SEARCH_API_KEY_2" then Some "key-2"
  else if String.eqb name "GOOGLE_SEARCH_CX_2" then Some "cx-2"
  else None.

Definition no_keys (name : string) : option string := None.

(** The rotation [__init__] builds on day 20000. *)
Definition rotation_started : GoogleAPIRotation.rotation :=
  {| GoogleAPIRotation.api_keys := GoogleAPIRotation._load_api_keys two_keys;
     GoogleAPIRotation.current_key_index := 0;
     GoogleAPIRotation.key_usage :=
       [("primary", GoogleAPIRotation.new_usage 20000);
        ("secondary", GoogleAPIRotation.new_usage 20000)];
     GoogleAPIRotation.max_requests_per_key := 100;
     GoogleAPIRotation.cooldown_period := 3600;
     GoogleAPIRotation.current_index := None |}.

Definition used_usage (requests : Z) : GoogleAPIRotation.usage :=
  {| GoogleAPIRotation.requests_today := requests;
     GoogleAPIRotation.last_request_time := 1700000000;
     GoogleAPIRotation.is_blocked := false;
     GoogleAPIRotation.block_until := None;
     GoogleAPIRotation.last_reset_date := 20000;
     GoogleAPIRotation.total_requests := requests;
     GoogleAPIRotation.success_rate := 1;
     GoogleAPIRotation.average_response_time := 0.5 |}.

(** Later that day: 98 requests with the first key, 3 with the second. *)
Definition rotation_used : GoogleAPIRotation.rotation :=
  GoogleAPIRotation.with_key_usage
    [("primary", used_usage 98); ("secondary", used_usage 3)] rotation_started.

(** Two more requests with the first key: one fails, one succeeds. *)
Definition two_calls : list (bool * float * float) :=
  [(false, 0.5%float, 1700000100%float); (true, 0.25%float, 1700000200%float)].

Definition every_second (attempts : nat) : float :=
  PrimFloat.add 1700000300 (PrimFloat.of_uint63 (Uint63.of_Z (Z.of_nat attempts))).

(** A manager whose Serper key is set and whose Google key is not. *)
Definition serper_entry : ProductionSearchManager.search_provider :=
  {| ProductionSearchManager.enabled := true; ProductionSearchManager.priority := 3;
     ProductionSearchManager.error_count := 0; ProductionSearchManager.max_errors := 3;
     ProductionSearchManager.config :=
       [("api_key", PStr "serper-key");
        ("base_url", PStr "https://google.serper.dev/search")] |}.

Definition bing_entry : ProductionSearchManager.search_provider :=
  {| ProductionSearchManager.enabled := true; ProductionSearchManager.priority := 4;
     ProductionSearchManager.error_count := 0; ProductionSearchManager.max_errors := 5;
     ProductionSearchManager.config := [("base_url", PStr "https://www.bing.com/search")] |}.

Definition google_entry (enabled : bool) : ProductionSearchManager.search_provider :=
  {| ProductionSearchManager.enabled := enabled; ProductionSearchManager.priority := 2;
     ProductionSearchManager.error_count := 0; ProductionSearchManager.max_errors := 3;
     ProductionSearchManager.config :=
       [("api_key", if enabled then PStr "google-key" else PNone);
        ("cse_id", if enabled then PStr "cse" else PNone);
        ("base_url", PStr "https://www.googleapis.com/customsearch/v1")] |}.

Definition exa_entry : ProductionSearchManager.search_provider :=
  {| ProductionSearchManager.enabled := true; ProductionSearchManager.priority := 1;
     ProductionSearchManager.error_count := 0; ProductionSearchManager.max_errors := 3;
     ProductionSearchManager.config := [("client", PObj "exa_client" "exa_client" true)] |}.

Definition started : ProductionSearchManager.manager :=
  {| ProductionSearchManager.providers :=
       [("exa", exa_entry); ("google", google_entry true); ("serper", serper_entry);
        ("bing", bing_entry)];
     ProductionSearchManager.cache := [];
     ProductionSearchManager.cache_ttl := 3600;
     ProductionSearchManager.google_api_rotation := rotation_started;
     ProductionSearchManager.rate_limits := ProductionSearchManager.initial_rate_limits |}.

Definition worn (p : ProductionSearchManager.search_provider)
    : ProductionSearchManager.search_provider :=
  {| ProductionSearchManager.enabled := ProductionSearchManager.enabled p;
     ProductionSearchManager.priority := ProductionSearchManager.priority p;
     ProductionSearchManager.error_count := ProductionSearchManager.max_errors p;
     ProductionSearchManager.max_errors := ProductionSearchManager.max_errors p;
     ProductionSearchManager.config := ProductionSearchManager.config p |}.

(** The same manager once Google, Serper and Bing have used up their
    errors: Exa is the only provider left. *)
Definition only_exa : ProductionSearchManager.manager :=
  ProductionSearchManager.with_providers
    [("exa", exa_entry); ("google", worn (google_entry true));
     ("serper", worn serper_entry); ("bing", worn bing_entry)]
    started.

Definition at_noon : ProductionSearchManager.readings :=
  {| ProductionSearchManager.at_cache_check := 1700000000;
     ProductionSearchManager.at_limit_check := fun _ => 1700000001%float;
     ProductionSearchManager.at_request := fun _ => 1700000002%float;
     ProductionSearchManager.at_store := 1700000003 |}.

(** A network that answers every request with a status 500. *)
Definition server_error : ProductionSearchManager.response :=
  {| ProductionSearchManager.status_code := 500;
     ProductionSearchManager.json := Raise (Exn "JSONDecodeError" "Expecting value");
     ProductionSearchManager.content := "Internal Server Error" |}.

Definition get_fails (url : PyVal) (params : dict PyVal)
    : result ProductionSearchManager.response := Ok server_error.

Definition post_fails (url json : PyVal) (headers : dict PyVal)
    : result ProductionSearchManager.response := Ok server_error.

Definition quote (s : string) : string := s.

(** A network on which Serper answers with one organic result. *)
Definition serper_answers (url json : PyVal) (headers : dict PyVal)
    : result ProductionSearchManager.response :=
  Ok {| ProductionSearchManager.status_code := 200;
        ProductionSearchManager.json :=
          Ok (PDict
                [("organic",
                   PList [PDict [("title", PStr "Coaching apps in Brazil");
                                 ("link", PStr "https://example.com/coaching");
                                 ("snippet", PStr "Market overview")]])]);
        ProductionSearchManager.content := "" |}.

Definition no_items (r : ProductionSearchManager.response)
    : result (list ProductionSearchManager.bing_item) := Ok [].

End SearchRuns.

(** ** Requests for an analysis *)

Module AnalyzeRuns.
Import Py ComponentOrchestrator.

(** Later phases that would report a success. *)
Definition would_succeed (data : dict PyVal) (session_id : string) (cb : ProgressCallback)
    (service_status component_results success_rate : PyVal) : result PyVal :=
  Ok (PDict [("success", PBool true); ("sync_status", PStr "PERFECT_SYNC")]).

End AnalyzeRuns.

(** * Properties *)

(** Unfolds the field projections of a manager after an update. *)
Ltac cbn_manager :=
  cbn [AIManager.providers AIManager.provider_failures AIManager.last_error
       AIManager.provider_enabled AIManager.last_failure_time AIManager.max_failures
       AIManager.with_providers AIManager.with_provider_failures
       AIManager.with_last_error AIManager.with_provider_enabled
       AIManager.with_last_failure_time] in *.


(** ** Dicts *)

Section DictFacts.
Import Py.
Context {V : Type}.
Implicit Types (k : string) (v : V) (d : dict V).

Lemma dict_get_set_eq k v d : dict_get k (dict_set k v d) = Some v.
Proof.
  induction d as [|[k' v'] d IH]; simpl.
  - now rewrite String.eqb_refl.
  - destruct (String.eqb k k') eqn:E; simpl.
    + now rewrite String.eqb_refl.
    + now rewrite E.
Qed.

Lemma dict_get_set_ne k k' v d :
  k <> k' -> dict_get k' (dict_set k v d) = dict_get k' d.
Proof.
  intros Hne. induction d as [|[k0 v0] d IH]; simpl.
  - destruct (String.eqb k' k) eqn:E; [|reflexivity].
    apply String.eqb_eq in E. congruence.
  - destruct (String.eqb k k0) eqn:E; simpl.
    + apply String.eqb_eq in E. subst k0.
      destruct (String.eqb k' k) eqn:E'; [|reflexivity].
      apply String.eqb_eq in E'. congruence.
    + now rewrite IH.
Qed.

Lemma dict_get_None k d : dict_get k d = None <-> ~ In k (dict_keys d).
Proof.
  induction d as [|[k' v'] d IH]; simpl; [tauto|].
  destruct (String.eqb k k') eqn:E.
  - apply String.eqb_eq in E. subst. split; [discriminate|tauto].
  - apply String.eqb_neq in E. rewrite IH. split; [intros H [?|?]; [congruence|tauto]|tauto].
Qed.

Lemma dict_get_Some_In k v d : dict_get k d = Some v -> In (k, v) d.
Proof.
  induction d as [|[k' v'] d IH]; simpl; [discriminate|].
  destruct (String.eqb k k') eqn:E.
  - apply String.eqb_eq in E. intros [= ->]. subst. now left.
  - intros H. right. auto.
Qed.

Lemma dict_set_fresh k v d : ~ In k (dict_keys d) -> dict_set k v d = d ++ [(k, v)].
Proof.
  induction d as [|[k' v'] d IH]; simpl; [reflexivity|].
  intros Hnotin. destruct (String.eqb k k') eqn:E.
  - apply String.eqb_eq in E. subst k'. exfalso. apply Hnotin. now left.
  - rewrite IH; [reflexivity|]. intros Hin. apply Hnotin. now right.
Qed.

Lemma dict_set_set k v v' d : dict_set k v (dict_set k v' d) = dict_set k v d.
Proof.
  induction d as [|[k0 v0] d IH]; simpl.
  - now rewrite String.eqb_refl.
  - destruct (String.eqb k k0) eqn:E; simpl.
    + now rewrite String.eqb_refl.
    + now rewrite E, IH.
Qed.

Lemma dict_keys_set k v d :
  dict_keys (dict_set k v d) =
  if existsb (String.eqb k) (dict_keys d) then dict_keys d else dict_keys d ++ [k].
Proof.
  induction d as [|[k0 v0] d IH]; simpl; [reflexivity|].
  destruct (String.eqb k k0) eqn:E; simpl.
  - apply String.eqb_eq in E. now subst.
  - rewrite IH. now destruct (existsb _ _).
Qed.

Lemma existsb_eqb_In k (l : list string) : existsb (String.eqb k) l = true <-> In k l.
Proof.
  rewrite existsb_exists. split.
  - intros (x & Hin & E). apply String.eqb_eq in E. now subst.
  - intros Hin. exists k. split; [assumption|apply String.eqb_refl].
Qed.

Lemma dict_keys_set_NoDup k v d :
  List.NoDup (dict_keys d) -> List.NoDup (dict_keys (dict_set k v d)).
Proof.
  intros Hnd. rewrite dict_keys_set.
  destruct (existsb (String.eqb k) (dict_keys d)) eqn:E; [assumption|].
  apply List.NoDup_app; [assumption| |].
  - constructor; [intros []|constructor].
  - intros x Hin [<-|[]]. apply existsb_eqb_In in Hin. congruence.
Qed.

End DictFacts.

(** ** Result normalisation and validation *)

Section Normalisation.
Import Py ComponentOrchestrator.
Variable float_repr : float -> string.

(** C8.  [_normalize_component_result] maps a list to
    [{success: True, data: list, total_items: len, component: name}], leaves a
    dict as it is, and maps any other value to
    [{success: False, data: str(value), component: name, converted: True}]. *)
Theorem normalize_component_result_cases (component_name : string) (result : PyVal) :
  match result with
  | PList l =>
      _normalize_component_result float_repr component_name result =
      PDict [("success", PBool true); ("data", PList l);
             ("total_items", PInt (Z.of_nat (length l)));
             ("component", PStr component_name)]
  | PDict d =>
      _normalize_component_result float_repr component_name result = PDict d
  | _ =>
      _normalize_component_result float_repr component_name result =
      PDict [("success", PBool false); ("data", PStr (str float_repr result));
             ("component", PStr component_name); ("converted", PBool true)]
  end.
Proof. destruct result; reflexivity. Qed.

Lemma normalize_is_dict (component_name : string) (result : PyVal) :
  exists d, _normalize_component_result float_repr component_name result = PDict d.
Proof. destruct result; simpl; eauto. Qed.

End Normalisation.

(** ** The loop of [execute_components] *)

Section RunFacts.
Import Py ComponentOrchestrator.
Variable float_repr : float -> string.
Variable salvar_etapa : string -> PyVal -> string -> result unit.
Variable time_time : float.
Variable progress_callback : ProgressCallback.
Variable base_data : dict PyVal.

#[local] Abbreviation run_component :=
  (run_component float_repr salvar_etapa progress_callback base_data).
#[local] Abbreviation turn := (turn float_repr salvar_etapa progress_callback base_data).
#[local] Abbreviation entry_of :=
  (entry_of float_repr salvar_etapa progress_callback base_data).
#[local] Abbreviation events_of :=
  (events_of float_repr salvar_etapa progress_callback base_data).
#[local] Abbreviation entries :=
  (entries float_repr salvar_etapa progress_callback base_data).
#[local] Abbreviation events :=
  (events float_repr salvar_etapa progress_callback base_data).
#[local] Abbreviation callback_returns := (callback_returns progress_callback).

Lemma run_component_eq (st : loop_state) (item : string * Executor) :
  run_component st item =
  {| results := dict_set (fst item) (entry_of (components_executed st) item) (results st);
     components_executed := components_executed st + 1;
     log := log st ++ events_of (components_executed st) item |}.
Proof.
  destruct item as [name f], st as [res n lg].
  unfold entry_of, events_of, turn, ComponentOrchestrator.run_component, on_exception.
  cbn [fst snd results components_executed log].
  destruct progress_callback as [cb|]; cbn [fst snd].
  - destruct (cb (n + 1) _) as [[]|e]; cbn [results log dict_set dict_get];
      rewrite ?String.eqb_refl; cbn [default]; rewrite ?app_nil_l.
    2: { reflexivity. }
    destruct (f _) as [r|e]; cbn [results log dict_set dict_get];
      rewrite ?String.eqb_refl; cbn [default].
    2: { now rewrite <- app_assoc. }
    destruct (_validate_component_result _ _ _); cbn [results log dict_set dict_get];
      rewrite ?String.eqb_refl; cbn [default].
    2: { now rewrite <- app_assoc. }
    destruct (salvar_etapa _ _ _) as [[]|e]; cbn [results log dict_set dict_get];
      rewrite ?String.eqb_refl; cbn [default results log];
      rewrite ?dict_set_set, <- ?app_assoc; reflexivity.
  - destruct (f _) as [r|e]; cbn [results log dict_set dict_get];
      rewrite ?String.eqb_refl; cbn [default]; rewrite ?app_nil_l.
    2: { reflexivity. }
    destruct (_validate_component_result _ _ _); cbn [results log dict_set dict_get];
      rewrite ?String.eqb_refl; cbn [default].
    2: { reflexivity. }
    destruct (salvar_etapa _ _ _) as [[]|e]; cbn [results log dict_set dict_get];
      rewrite ?String.eqb_refl; cbn [default results log];
      rewrite ?dict_set_set, <- ?app_assoc; reflexivity.
Qed.

Lemma dict_keys_entries (n : Z) (items : dict Executor) :
  dict_keys (entries n items) = dict_keys items.
Proof.
  revert n. induction items as [|item rest IH]; intros n; simpl; [reflexivity|].
  now rewrite IH.
Qed.

Lemma fold_run_component (items : dict Executor) (st : loop_state) :
  List.NoDup (dict_keys (results st) ++ dict_keys items) ->
  fold_left run_component items st =
  {| results := results st ++ entries (components_executed st) items;
     components_executed := components_executed st + Z.of_nat (length items);
     log := log st ++ events (components_executed st) items |}.
Proof.
  revert st. induction items as [|item rest IH]; intros st Hnd.
  - destruct st. cbn. now rewrite !app_nil_r, Z.add_0_r.
  - cbn [fold_left]. rewrite run_component_eq.
    assert (Hfresh : ~ In (fst item) (dict_keys (results st))).
    { cbn in Hnd. apply NoDup_remove_2 in Hnd. intros Hin. apply Hnd.
      apply in_or_app. now left. }
    rewrite (dict_set_fresh _ _ _ Hfresh). rewrite IH.
    + cbn [results components_executed log entries events length].
      f_equal.
      * now rewrite <- app_assoc.
      * lia.
      * now rewrite <- app_assoc.
    + cbn [results]. unfold dict_keys in *. rewrite map_app, <- app_assoc. exact Hnd.
Qed.

Lemma run_components_eq (items : dict Executor) :
  List.NoDup (dict_keys items) ->
  run_components float_repr salvar_etapa progress_callback base_data items =
  {| results := entries 0 items;
     components_executed := Z.of_nat (length items);
     log := events 0 items |}.
Proof.
  intros Hnd. unfold run_components. now rewrite fold_run_component.
Qed.

(** Every entry of the result map is a dict. *)
Lemma entry_of_is_dict (n : Z) (item : string * Executor) :
  exists d, entry_of n item = PDict d.
Proof.
  destruct item as [name f].
  unfold entry_of, turn, ComponentOrchestrator.run_component, on_exception, error_result.
  cbn [fst snd results components_executed log].
  destruct progress_callback as [cb|]; cbn [fst snd];
    [destruct (cb (n + 1) _) as [[]|e]|];
    cbn [results dict_set dict_get]; rewrite ?String.eqb_refl; cbn [default]; eauto;
    (destruct (f _) as [r|e];
     cbn [results dict_set dict_get]; rewrite ?String.eqb_refl; cbn [default]; eauto;
     destruct (normalize_is_dict float_repr name r) as [d Hd]; rewrite Hd;
     destruct (_validate_component_result _ _ _);
     cbn [results dict_set dict_get]; rewrite ?String.eqb_refl; cbn [default]; eauto;
     destruct (salvar_etapa _ _ _) as [[]|e];
     cbn [results dict_set dict_get]; rewrite ?String.eqb_refl; cbn [default]; eauto).
Qed.

(** An executor that appears as invoked in a turn's log is the turn's own,
    on the prepared input, after the callback returned. *)
Lemma events_of_invoke (n : Z) (item : string * Executor) (c : string) (input : PyVal) :
  In (EvInvoke c input) (events_of n item) ->
  c = fst item /\
  input = PDict (_prepare_component_data base_data (fst item)) /\
  callback_returns n (fst item).
Proof.
  destruct item as [name f].
  unfold events_of, turn, callback_returns, ComponentOrchestrator.run_component, on_exception.
  cbn [fst snd results components_executed log].
  destruct progress_callback as [cb|]; cbn [fst snd].
  - destruct (cb (n + 1) _) as [u|e]; cbn [log app].
    2: { intros [H|[]]. discriminate. }
    destruct (f _) as [r|e]; cbn [log app].
    2: { intros [H|[H|[]]]; [discriminate|]. injection H as <- <-. eauto. }
    destruct (_validate_component_result _ _ _); cbn [log app].
    2: { intros [H|[H|[]]]; [discriminate|]. injection H as <- <-. eauto. }
    destruct (salvar_etapa _ _ _) as [[]|e]; cbn [log app];
      (intros [H|[H|[H|[]]]]; [discriminate| |discriminate]; injection H as <- <-; eauto).
  - destruct (f _) as [r|e]; cbn [log app].
    2: { intros [H|[]]. injection H as <- <-. auto. }
    destruct (_validate_component_result _ _ _); cbn [log app].
    2: { intros [H|[]]. injection H as <- <-. auto. }
    destruct (salvar_etapa _ _ _) as [[]|e]; cbn [log app];
      (intros [H|[H|[]]]; [|discriminate]; injection H as <- <-; auto).
Qed.

Lemma events_invoke_key (n : Z) (items : dict Executor) (c : string) (input : PyVal) :
  In (EvInvoke c input) (events n items) -> In c (dict_keys items).
Proof.
  revert n. induction items as [|item rest IH]; intros n; cbn [events]; [intros []|].
  intros Hin. apply in_app_or in Hin as [Hin|Hin].
  - apply events_of_invoke in Hin as [-> _]. now left.
  - right. eauto.
Qed.

(** The entry of a turn whose executor raised. *)
Lemma entry_of_raise (n : Z) (name : string) (f : Executor) (e : exn) :
  callback_returns n name ->
  f (PDict (_prepare_component_data base_data name)) = Raise e ->
  entry_of n (name, f) = error_result (exn_str e) name.
Proof.
  unfold callback_returns, entry_of, turn, ComponentOrchestrator.run_component, on_exception.
  cbn [fst snd results components_executed log].
  intros Hcb Hf. destruct progress_callback as [cb|]; cbn [fst snd].
  - destruct Hcb as [u ->]. rewrite Hf. cbn. now rewrite String.eqb_refl.
  - rewrite Hf. cbn. now rewrite String.eqb_refl.
Qed.

End RunFacts.

(** ** Registration and the report *)

Section ReportFacts.
Import Py ComponentOrchestrator.
Variable float_repr : float -> string.
Variable salvar_etapa : string -> PyVal -> string -> result unit.
Variable time_time : float.

Lemma dict_update_fresh {V} (d acc : dict V) :
  List.NoDup (dict_keys acc ++ dict_keys d) -> dict_update acc d = acc ++ d.
Proof.
  unfold dict_update. revert acc.
  induction d as [|[k v] d IH]; intros acc Hnd; cbn [fold_left].
  - now rewrite app_nil_r.
  - cbn [fst snd]. rewrite dict_set_fresh.
    + rewrite IH.
      * now rewrite <- app_assoc.
      * unfold dict_keys in *. rewrite map_app, <- app_assoc. exact Hnd.
    + cbn in Hnd. apply NoDup_remove_2 in Hnd. intros Hin. apply Hnd.
      apply in_or_app. now left.
Qed.

Lemma get_method_dict (v : PyVal) (k : string) :
  is_dict v -> get_method v k PNone = Ok (dict_field k v).
Proof. intros [d ->]. reflexivity. Qed.

Lemma count_successful_ok (values : list PyVal) :
  Forall is_dict values ->
  count_successful values =
  Ok (Z.of_nat (length (List.filter (fun v => negb (truthy (dict_field "error" v))) values))).
Proof.
  induction 1 as [|v values Hv _ IH]; [reflexivity|].
  cbn [count_successful]. rewrite (get_method_dict _ _ Hv). cbn [bind]. rewrite IH.
  cbn [bind List.filter]. destruct (truthy _); cbn [negb length]; f_equal; lia.
Qed.

Lemma components_status_ok (items : dict PyVal) :
  List.NoDup (dict_keys items) -> Forall is_dict (dict_values items) ->
  components_status items = Ok (map (fun kv => (fst kv, status_of (snd kv))) items).
Proof.
  induction items as [|[k v] items IH]; intros Hnd Hd; [reflexivity|].
  cbn in Hnd, Hd. apply NoDup_cons_iff in Hnd as [Hfresh Hnd].
  apply Forall_cons_iff in Hd as [Hv Hd].
  cbn [components_status]. rewrite (get_method_dict _ _ Hv). cbn [bind].
  rewrite (IH Hnd Hd). cbn [bind map fst snd]. f_equal.
  rewrite dict_update_fresh; [reflexivity|].
  cbn. constructor.
  - unfold dict_keys. now rewrite map_map.
  - unfold dict_keys. rewrite map_map. exact Hnd.
Qed.

Lemma entries_are_dicts cb base (n : Z) (items : dict Executor) :
  Forall is_dict (dict_values (entries float_repr salvar_etapa cb base n items)).
Proof.
  revert n. induction items as [|item rest IH]; intros n.
  - constructor.
  - cbn [entries dict_values map snd]. constructor; [apply entry_of_is_dict|apply IH].
Qed.

(** A run whose data can be prepared and whose final save returns yields a
    report: its [results] are the entries of the loop, its
    [components_status] their statuses. *)
Lemma execute_components_ok (self : orchestrator) (data base : dict PyVal)
    (cb : ProgressCallback) :
  List.NoDup (dict_keys (components self)) ->
  _prepare_base_data float_repr data = Ok base ->
  (forall report, salvar_etapa "component_orchestrator_report" report "analise_completa" = Ok tt) ->
  exists report,
    execute_components float_repr salvar_etapa time_time self data cb =
      (events float_repr salvar_etapa cb base 0 (components self)
         ++ [EvSave "component_orchestrator_report" report "analise_completa"],
       Ok report) /\
    report_results report = entries float_repr salvar_etapa cb base 0 (components self) /\
    report_status report =
      map (fun kv => (fst kv, status_of (snd kv)))
        (entries float_repr salvar_etapa cb base 0 (components self)).
Proof.
  intros Hnd Hprep Hsave. unfold execute_components. rewrite Hprep.
  rewrite (run_components_eq _ _ _ _ _ Hnd). cbn [results log].
  rewrite count_successful_ok by apply entries_are_dicts. cbn [bind].
  rewrite components_status_ok.
  2: { now rewrite dict_keys_entries. }
  2: { apply entries_are_dicts. }
  cbn [bind]. rewrite Hsave. eexists. split; [reflexivity|]. split; reflexivity.
Qed.

(** Without the hypothesis on the final save the log is the same up to the
    last event. *)
Lemma execute_components_invoked (self : orchestrator) (data base : dict PyVal)
    (cb : ProgressCallback) :
  List.NoDup (dict_keys (components self)) ->
  _prepare_base_data float_repr data = Ok base ->
  invoked (fst (execute_components float_repr salvar_etapa time_time self data cb)) =
  invoked (events float_repr salvar_etapa cb base 0 (components self)).
Proof.
  intros Hnd Hprep. unfold execute_components. rewrite Hprep.
  rewrite (run_components_eq _ _ _ _ _ Hnd). cbn [results log].
  rewrite count_successful_ok by apply entries_are_dicts. cbn [bind].
  rewrite components_status_ok.
  2: { now rewrite dict_keys_entries. }
  2: { apply entries_are_dicts. }
  cbn [bind]. destruct (salvar_etapa _ _ _); cbn [fst];
    unfold invoked; rewrite omap_app; cbn; now rewrite app_nil_r.
Qed.

End ReportFacts.

(** ** Registered components and their execution *)

Section Scheduling.
Import Py ComponentOrchestrator.
Variable float_repr : float -> string.
Variable salvar_etapa : string -> PyVal -> string -> result unit.
Variable time_time : float.

Lemma register_aligned (self : orchestrator) (r : registration) :
  aligned self -> aligned (register self r).
Proof.
  intros (Hnd & Hreg & Hord). unfold aligned, register, register_component.
  cbn [components component_registry execution_order].
  split; [now apply dict_keys_set_NoDup|].
  rewrite !dict_keys_set, Hreg, Hord. split; reflexivity.
Qed.

Lemma fold_register_aligned (regs : list registration) (self : orchestrator) :
  aligned self -> aligned (fold_left register regs self).
Proof.
  revert self. induction regs as [|r regs IH]; intros self H; [exact H|].
  cbn [fold_left]. apply IH. now apply register_aligned.
Qed.

Lemma register_all_aligned (regs : list registration) : aligned (register_all regs).
Proof.
  apply fold_register_aligned. repeat split; constructor.
Qed.

Lemma fold_register_order (regs : list registration) (self : orchestrator) :
  execution_order (fold_left register regs self) =
  fold_left
    (fun seen name => if existsb (String.eqb name) seen then seen else seen ++ [name])
    (map reg_name regs) (execution_order self).
Proof.
  revert self. induction regs as [|r regs IH]; intros self; [reflexivity|].
  cbn [fold_left map]. now rewrite IH.
Qed.

Lemma invoked_app (l1 l2 : list event) : invoked (l1 ++ l2) = invoked l1 ++ invoked l2.
Proof. apply omap_app. Qed.

(** With a callback that returns, a turn invokes its executor. *)
Lemma invoked_events_of cb base (n : Z) (item : string * Executor) :
  callback_returns cb n (fst item) ->
  invoked (events_of float_repr salvar_etapa cb base n item) = [fst item].
Proof.
  destruct item as [name f].
  unfold callback_returns, events_of, turn, run_component, on_exception.
  cbn [fst snd results components_executed log].
  intros Hcb. destruct cb as [g|]; cbn [fst snd].
  - destruct Hcb as [u ->].
    destruct (f _) as [r|e]; [|reflexivity].
    destruct (_validate_component_result _ _ _); [|reflexivity].
    destruct (salvar_etapa _ _ _) as [[]|e]; reflexivity.
  - destruct (f _) as [r|e]; [|reflexivity].
    destruct (_validate_component_result _ _ _); [|reflexivity].
    destruct (salvar_etapa _ _ _) as [[]|e]; reflexivity.
Qed.

Lemma invoked_events cb base (n : Z) (items : dict Executor) :
  (forall m name, callback_returns cb m name) ->
  invoked (events float_repr salvar_etapa cb base n items) = dict_keys items.
Proof.
  intros Hcb. revert n. induction items as [|item rest IH]; intros n; [reflexivity|].
  cbn [events]. rewrite invoked_app.
  rewrite (invoked_events_of cb base n item (Hcb _ _)), IH. reflexivity.
Qed.

(** The entry of a component whose executor was invoked and raised. *)
Lemma entries_invoke_raise cb base (n : Z) (items : dict Executor)
    (name : string) (f : Executor) (input : PyVal) (e : exn) :
  List.NoDup (dict_keys items) ->
  In (name, f) items ->
  In (EvInvoke name input) (events float_repr salvar_etapa cb base n items) ->
  f input = Raise e ->
  dict_get name (entries float_repr salvar_etapa cb base n items) =
  Some (error_result (exn_str e) name).
Proof.
  revert n. induction items as [|[k g] rest IH]; intros n Hnd Hin Hev Hf; [destruct Hin|].
  cbn in Hnd. apply NoDup_cons_iff in Hnd as [Hfresh Hnd].
  cbn [events entries dict_get fst] in *.
  apply in_app_or in Hev as [Hev|Hev].
  - apply events_of_invoke in Hev as (-> & -> & Hcb). cbn [fst] in *.
    rewrite String.eqb_refl. f_equal.
    destruct Hin as [Heq|Hin].
    + injection Heq as ->. now apply entry_of_raise.
    + exfalso. apply Hfresh. change k with (fst (k, f)). now apply in_map.
  - pose proof (events_invoke_key _ _ _ _ _ _ _ _ Hev) as Hkey.
    destruct (String.eqb name k) eqn:E.
    + apply String.eqb_eq in E. subst k. contradiction.
    + destruct Hin as [Heq|Hin].
      * injection Heq as -> ->. now rewrite String.eqb_refl in E.
      * now apply IH.
Qed.

(** With a callback that returns, a turn invokes its executor on the
    prepared data. *)
Lemma events_of_invokes cb base (n : Z) (name : string) (f : Executor) :
  callback_returns cb n name ->
  In (EvInvoke name (PDict (_prepare_component_data base name)))
     (events_of float_repr salvar_etapa cb base n (name, f)).
Proof.
  unfold callback_returns, events_of, turn, run_component, on_exception.
  cbn [fst snd results components_executed log].
  intros Hcb. destruct cb as [g|]; cbn [fst snd].
  - destruct Hcb as [u ->].
    destruct (f _) as [r|e]; cbn [log]; [|rewrite !in_app_iff; cbn; tauto].
    destruct (_validate_component_result _ _ _); cbn [log];
      [|rewrite !in_app_iff; cbn; tauto].
    destruct (salvar_etapa _ _ _) as [[]|e]; cbn [log]; rewrite !in_app_iff; cbn; tauto.
  - destruct (f _) as [r|e]; cbn [log]; [|rewrite !in_app_iff; cbn; tauto].
    destruct (_validate_component_result _ _ _); cbn [log];
      [|rewrite !in_app_iff; cbn; tauto].
    destruct (salvar_etapa _ _ _) as [[]|e]; cbn [log]; rewrite !in_app_iff; cbn; tauto.
Qed.

(** The turn of the component at position [i] comes, whatever the turns
    before it did: its executor is invoked as soon as its own call of the
    callback returns. *)
Lemma events_nth_invokes cb base (n : Z) (items : dict Executor)
    (i : nat) (name : string) (f : Executor) :
  nth_error items i = Some (name, f) ->
  callback_returns cb (n + Z.of_nat i) name ->
  In (EvInvoke name (PDict (_prepare_component_data base name)))
     (events float_repr salvar_etapa cb base n items).
Proof.
  revert n i. induction items as [|item rest IH]; intros n i Hnth Hcb.
  - destruct i; discriminate.
  - cbn [events]. apply in_or_app. destruct i as [|i].
    + left. cbn in Hnth. injection Hnth as ->. rewrite Z.add_0_r in Hcb.
      now apply events_of_invokes.
    + right. apply (IH (n + 1) i Hnth).
      replace (n + 1 + Z.of_nat i) with (n + Z.of_nat (S i)) by lia. exact Hcb.
Qed.

(** C2.  For components registered by [register_component] calls, a run of
    [execute_components] whose input can be prepared and whose report can be
    saved returns a report whose [results] map has exactly the registered
    names as keys, each once, whatever the progress callback and the
    executors do.  The entry of a component whose executor was invoked and
    raised [e] is the dict [{error: str(e), component: name}].  The loop goes
    on after a failure: the executor of the component at position [i] is
    invoked on its prepared data as soon as its own call of the progress
    callback returns, whatever the components before it did, and if it raises
    [e] its entry is [{error: str(e), component: name}]; with a progress
    callback that always returns (or none) the executors invoked are exactly
    the registered ones, in order. *)
Theorem execute_components_report_totality (regs : list registration)
    (data base : dict PyVal) (cb : ProgressCallback) :
  _prepare_base_data float_repr data = Ok base ->
  (forall report,
     salvar_etapa "component_orchestrator_report" report "analise_completa" = Ok tt) ->
  exists log report,
    execute_components float_repr salvar_etapa time_time (register_all regs) data cb =
      (log, Ok report) /\
    dict_keys (report_results report) = dict_keys (component_registry (register_all regs)) /\
    List.NoDup (dict_keys (report_results report)) /\
    (forall name f input e,
       In (name, f) (components (register_all regs)) ->
       In (EvInvoke name input) log ->
       f input = Raise e ->
       dict_get name (report_results report) =
         Some (PDict [("error", PStr (exn_str e)); ("component", PStr name)])) /\
    (forall i name f,
       nth_error (components (register_all regs)) i = Some (name, f) ->
       callback_returns cb (Z.of_nat i) name ->
       In (EvInvoke name (PDict (_prepare_component_data base name))) log /\
       forall e,
         f (PDict (_prepare_component_data base name)) = Raise e ->
         dict_get name (report_results report) =
           Some (PDict [("error", PStr (exn_str e)); ("component", PStr name)])) /\
    ((forall n name, callback_returns cb n name) ->
     invoked log = dict_keys (component_registry (register_all regs))).
Proof.
  intros Hprep Hsave.
  destruct (register_all_aligned regs) as (Hnd & Hreg & _).
  destruct (execute_components_ok float_repr salvar_etapa time_time
              (register_all regs) data base cb Hnd Hprep Hsave)
    as (report & Hrun & Hres & _).
  eexists _, report. split; [exact Hrun|]. rewrite Hres, dict_keys_entries, Hreg.
  assert (Hraise : forall name f input e,
             In (name, f) (components (register_all regs)) ->
             In (EvInvoke name input)
                (events float_repr salvar_etapa cb base 0 (components (register_all regs))) ->
             f input = Raise e ->
             dict_get name
               (entries float_repr salvar_etapa cb base 0 (components (register_all regs))) =
             Some (PDict [("error", PStr (exn_str e)); ("component", PStr name)])).
  { intros name f input e Hin Hev Hf.
    now apply (entries_invoke_raise cb base 0 _ name f input e). }
  split; [reflexivity|]. split; [exact Hnd|]. split; [|split].
  - intros name f input e Hin Hev Hf.
    apply in_app_or in Hev as [Hev|[Hev|[]]]; [|discriminate].
    now apply (Hraise name f input e).
  - intros i name f Hnth Hcb.
    assert (Hev : In (EvInvoke name (PDict (_prepare_component_data base name)))
                    (events float_repr salvar_etapa cb base 0
                       (components (register_all regs)))).
    { now apply (events_nth_invokes cb base 0 _ i name f). }
    split; [apply in_or_app; now left|].
    intros e Hf.
    apply (Hraise name f (PDict (_prepare_component_data base name)) e);
      [|exact Hev|exact Hf].
    now apply nth_error_In with i.
  - intros Hcb. rewrite invoked_app. cbn. rewrite app_nil_r.
    now apply invoked_events.
Qed.

Lemma first_seen_order (regs : list registration) :
  execution_order (register_all regs) = first_seen (map reg_name regs).
Proof. unfold register_all. now rewrite fold_register_order. Qed.

(** C1, as the code has it.  [register_component] stores every registration,
    whatever its dependency list: the entry and the executor are in the
    registry afterwards.  [execute_components] invokes the executors in the
    order in which their names were first registered (the order of
    [self.components], which is also [self.execution_order]); the dependency
    lists and the names play no part. *)
Theorem registration_order_is_execution_order (regs : list registration)
    (data base : dict PyVal) (cb : ProgressCallback) :
  _prepare_base_data float_repr data = Ok base ->
  (forall n name, callback_returns cb n name) ->
  (forall self name ex deps rules req,
     dict_get name (component_registry (register_component self name ex deps rules req)) =
       Some {| executor := ex; dependencies := default [] deps;
               validation_rules := default [] rules; required := req;
               status := "pending" |} /\
     dict_get name (components (register_component self name ex deps rules req)) = Some ex) /\
  invoked (fst (execute_components float_repr salvar_etapa time_time
                  (register_all regs) data cb)) =
    execution_order (register_all regs) /\
  execution_order (register_all regs) = first_seen (map reg_name regs).
Proof.
  intros Hprep Hcb. split; [|split].
  - intros self name ex deps rules req. cbn [register_component component_registry components].
    split; apply dict_get_set_eq.
  - destruct (register_all_aligned regs) as (Hnd & _ & Hord).
    rewrite (execute_components_invoked _ _ _ _ _ base cb Hnd Hprep), Hord.
    now apply invoked_events.
  - apply first_seen_order.
Qed.

Lemma dict_get_map_values {A B} (g : A -> B) (k : string) (d : dict A) :
  dict_get k (map (fun kv => (fst kv, g (snd kv))) d) = option_map g (dict_get k d).
Proof.
  induction d as [|[k' v] d IH]; [reflexivity|]. cbn [map dict_get fst snd].
  now destruct (String.eqb k k').
Qed.

Lemma dict_keys_map_values {A B} (g : A -> B) (d : dict A) :
  dict_keys (map (fun kv => (fst kv, g (snd kv))) d) = dict_keys d.
Proof. induction d as [|[k v] d IH]; [reflexivity|]. cbn. now f_equal. Qed.

(** The turn of a registered component, found in the result map and in the
    log of the loop. *)
Lemma entries_lookup cb base (n : Z) (items : dict Executor) (name : string) (f : Executor) :
  List.NoDup (dict_keys items) ->
  In (name, f) items ->
  exists m,
    dict_get name (entries float_repr salvar_etapa cb base n items) =
      Some (entry_of float_repr salvar_etapa cb base m (name, f)) /\
    (forall ev, In ev (events_of float_repr salvar_etapa cb base m (name, f)) ->
                In ev (events float_repr salvar_etapa cb base n items)).
Proof.
  revert n. induction items as [|[k g] rest IH]; intros n Hnd Hin; [destruct Hin|].
  cbn in Hnd. apply NoDup_cons_iff in Hnd as [Hfresh Hnd].
  cbn [events entries dict_get fst].
  destruct Hin as [Heq|Hin].
  - injection Heq as -> ->. rewrite String.eqb_refl. exists n. split; [reflexivity|].
    intros ev Hev. apply in_or_app. now left.
  - destruct (String.eqb name k) eqn:E.
    + apply String.eqb_eq in E. subst k. exfalso. apply Hfresh.
      change name with (fst (name, f)). now apply in_map.
    + destruct (IH (n + 1) Hnd Hin) as (m & Hget & Hev). exists m. split; [exact Hget|].
      intros ev H. apply in_or_app. right. auto.
Qed.

Lemma status_of_cases (entry : PyVal) :
  status_of entry = PStr "success" \/ status_of entry = PStr "failed".
Proof. unfold status_of. destruct (truthy _); auto. Qed.

(** A call of [execute_synchronized_analysis] that reaches its component
    phase invokes the executor of every registered component, in registration
    order; the phase reads no checkpoint, and the status it reports for a
    component is ['success'] or ['failed']. *)
Lemma synchronized_analysis_invokes_registered (regs : list registration)
    (data base : dict PyVal) (session_id : string) (cb : ProgressCallback)
    (salvar_erro : string -> exn -> result unit)
    (_check_all_services_status : result PyVal) (service_status : PyVal)
    (fase1_message fase2_message : string)
    (later_phases :
       dict PyVal -> string -> ProgressCallback -> PyVal -> PyVal -> result PyVal)
    (_generate_emergency_fallback : dict PyVal -> string -> PyVal) :
  _prepare_base_data float_repr data = Ok base ->
  (forall started,
     salvar_etapa "super_orchestrator_iniciado" started "analise_completa" = Ok tt) ->
  (forall report,
     salvar_etapa "component_orchestrator_report" report "analise_completa" = Ok tt) ->
  _check_all_services_status = Ok service_status ->
  (forall f, cb = Some f -> forall n message, f n message = Ok tt) ->
  invoked (fst (SuperOrchestrator.execute_synchronized_analysis float_repr salvar_etapa
                  time_time (register_all regs) salvar_erro _check_all_services_status
                  fase1_message fase2_message later_phases
                  _generate_emergency_fallback data session_id cb)) =
    dict_keys (component_registry (register_all regs)) /\
  exists log report,
    execute_components float_repr salvar_etapa time_time (register_all regs) data cb =
      (log, Ok report) /\
    dict_keys (report_status report) = dict_keys (component_registry (register_all regs)) /\
    forall name s,
      In (name, s) (report_status report) -> s = PStr "success" \/ s = PStr "failed".
Proof.
  intros Hprep Hstart Hsave Hsvc Hcb.
  destruct (register_all_aligned regs) as (Hnd & Hreg & _).
  assert (Hret : forall n name, callback_returns cb n name).
  { intros n name. unfold callback_returns. destruct cb as [f|]; [|exact I].
    exists tt. now apply Hcb. }
  destruct (execute_components_ok float_repr salvar_etapa time_time
              (register_all regs) data base cb Hnd Hprep Hsave)
    as (report & Hrun & _ & Hstatus).
  split.
  - unfold SuperOrchestrator.execute_synchronized_analysis,
      SuperOrchestrator.synchronized_analysis_try, SuperOrchestrator.call_progress.
    rewrite Hstart, Hsvc, Hrun. cbn [fst snd].
    assert (Hinv :
      invoked (events float_repr salvar_etapa cb base 0 (components (register_all regs)))
      = dict_keys (component_registry (register_all regs))).
    { rewrite Hreg. now apply invoked_events. }
    destruct cb as [f|]; cbn [fst snd].
    + rewrite !(Hcb f eq_refl). cbn [fst snd].
      destruct (later_phases _ _ _ _ _); [|destruct (salvar_erro _ _)]; cbn [fst];
        rewrite !invoked_app, Hinv; cbn; now rewrite app_nil_r.
    + destruct (later_phases _ _ _ _ _); [|destruct (salvar_erro _ _)]; cbn [fst];
        rewrite !invoked_app, Hinv; cbn; now rewrite app_nil_r.
  - eexists _, report. split; [exact Hrun|]. rewrite Hstatus. split.
    + now rewrite dict_keys_map_values, dict_keys_entries, Hreg.
    + intros name s Hin. apply in_map_iff in Hin as ([k v] & Heq & _).
      injection Heq as _ <-. apply status_of_cases.
Qed.

End Scheduling.

(** ** Validation of component results *)

Section Validation.
Import Py ComponentOrchestrator.
Variable float_repr : float -> string.
Variable salvar_etapa : string -> PyVal -> string -> result unit.
Variable time_time : float.

(** The turn of a component whose result passes validation and is saved. *)
Lemma entry_of_accepted cb base (n : Z) (name : string) (f : Executor) (r : PyVal) :
  callback_returns cb n name ->
  f (PDict (_prepare_component_data base name)) = Ok r ->
  _validate_component_result name (_normalize_component_result float_repr name r) T_dict = true ->
  salvar_etapa ("componente_" +:+ name) (_normalize_component_result float_repr name r)
    "analise_completa" = Ok tt ->
  entry_of float_repr salvar_etapa cb base n (name, f) =
    _normalize_component_result float_repr name r /\
  In (EvSave ("componente_" +:+ name) (_normalize_component_result float_repr name r)
        "analise_completa")
     (events_of float_repr salvar_etapa cb base n (name, f)).
Proof.
  unfold callback_returns, entry_of, events_of, turn, run_component.
  cbn [fst snd results components_executed log].
  intros Hcb Hf Hv Hs. destruct cb as [g|]; cbn [fst snd].
  - destruct Hcb as [u ->]. rewrite Hf, Hv, Hs. cbn [results log dict_set dict_get].
    rewrite String.eqb_refl. split; [reflexivity|].
    apply in_or_app. right. now left.
  - rewrite Hf, Hv, Hs. cbn [results log dict_set dict_get].
    rewrite String.eqb_refl. split; [reflexivity|].
    apply in_or_app. right. now left.
Qed.

(** C10.  [_validate_component_result] (with the default expected type)
    accepts every list, rejects every value that is neither a dict nor a list,
    and rejects a dict exactly when it has a truthy ['error'] and no truthy
    ['fallback_used'].  So a fallback payload with a truthy ['error'] and a
    truthy ['fallback_used'] passes the validator, and [execute_components]
    takes it through the branch of a successful component: the payload is
    stored unchanged as the component's result and saved as its checkpoint
    ["componente_<name>"]. *)
Theorem validate_component_result_cases :
  (forall (component_name : string) (result : PyVal),
     match result with
     | PList _ => _validate_component_result component_name result T_dict = true
     | PDict d =>
         _validate_component_result component_name result T_dict =
         negb (truthy (default PNone (dict_get "error" d))
               && negb (truthy (default PNone (dict_get "fallback_used" d))))
     | _ => _validate_component_result component_name result T_dict = false
     end) /\
  (forall (regs : list registration) (data base : dict PyVal) (cb : ProgressCallback)
          (name : string) (f : Executor) (d : dict PyVal),
     _prepare_base_data float_repr data = Ok base ->
     (forall report,
        salvar_etapa "component_orchestrator_report" report "analise_completa" = Ok tt) ->
     salvar_etapa ("componente_" +:+ name) (PDict d) "analise_completa" = Ok tt ->
     (forall n, callback_returns cb n name) ->
     In (name, f) (components (register_all regs)) ->
     f (PDict (_prepare_component_data base name)) = Ok (PDict d) ->
     truthy (default PNone (dict_get "error" d)) = true ->
     truthy (default PNone (dict_get "fallback_used" d)) = true ->
     _validate_component_result name (PDict d) T_dict = true /\
     exists log report,
       execute_components float_repr salvar_etapa time_time (register_all regs) data cb =
         (log, Ok report) /\
       dict_get name (report_results report) = Some (PDict d) /\
       In (EvSave ("componente_" +:+ name) (PDict d) "analise_completa") log).
Proof.
  split.
  - intros component_name result. destruct result; reflexivity.
  - intros regs data base cb name f d Hprep Hsave Hsave1 Hcb Hin Hf Herr Hfb.
    destruct (register_all_aligned regs) as (Hnd & _ & _).
    destruct (execute_components_ok float_repr salvar_etapa time_time
                (register_all regs) data base cb Hnd Hprep Hsave)
      as (report & Hrun & Hres & Hstatus).
    destruct (entries_lookup float_repr salvar_etapa cb base 0 _ name f Hnd Hin)
      as (m & Hget & Hev).
    assert (Hvalid :
      _validate_component_result name
        (_normalize_component_result float_repr name (PDict d)) T_dict = true).
    { unfold _validate_component_result. cbn. now rewrite Herr, Hfb. }
    destruct (entry_of_accepted cb base m name f (PDict d) (Hcb m) Hf Hvalid Hsave1)
      as [Hentry Hsaved].
    cbn [_normalize_component_result isinstance type_of py_type_eqb orb andb negb]
      in Hentry, Hsaved, Hvalid.
    split; [exact Hvalid|].
    eexists _, report. split; [exact Hrun|]. rewrite Hres. split.
    + now rewrite Hget, Hentry.
    + apply in_or_app. left. now apply Hev.
Qed.

End Validation.

(** ** The scheduler on concrete pipelines *)

Section RunExamples.
Import Py ComponentOrchestrator Runs.

Lemma execute_components_report_totality_witness :
  exists log report,
    run pipeline shows_progress = (log, Ok report) /\
    dict_keys (report_results report) = dict_keys (component_registry (register_all pipeline)) /\
    List.NoDup (dict_keys (report_results report)) /\
    (forall name f input e,
       In (name, f) (components (register_all pipeline)) ->
       In (EvInvoke name input) log ->
       f input = Raise e ->
       dict_get name (report_results report) =
         Some (PDict [("error", PStr (exn_str e)); ("component", PStr name)])) /\
    (forall i name f,
       nth_error (components (register_all pipeline)) i = Some (name, f) ->
       callback_returns shows_progress (Z.of_nat i) name ->
       In (EvInvoke name (PDict (_prepare_component_data PreparedRuns.prepared_job name))) log /\
       forall e,
         f (PDict (_prepare_component_data PreparedRuns.prepared_job name)) = Raise e ->
         dict_get name (report_results report) =
           Some (PDict [("error", PStr (exn_str e)); ("component", PStr name)])) /\
    ((forall n name, callback_returns shows_progress n name) ->
     invoked log = dict_keys (component_registry (register_all pipeline))).
Proof.
  eapply (execute_components_report_totality print_float save_returns clock
            pipeline fitness_job PreparedRuns.prepared_job shows_progress).
  - vm_compute. reflexivity.
  - intros report. reflexivity.
Defined.

(** The run of the three components with the progress callback: the executor
    of [avatar] raises, [drivers] is invoked after it. *)
Example pipeline_with_progress :
  invoked (fst (run pipeline shows_progress)) = ["web_search"; "avatar"; "drivers"] /\
  dict_get "avatar" (report_results (report_of (run pipeline shows_progress))) =
    Some (PDict [("error", PStr "provider down"); ("component", PStr "avatar")]).
Proof. vm_compute. split; reflexivity. Qed.

Example pipeline_results :
  report_results (report_of (run pipeline None)) =
  [("web_search",
     PDict [("success", PBool true); ("data", PList [PStr "result"]);
            ("total_items", PInt 1); ("component", PStr "web_search")]);
   ("avatar", PDict [("error", PStr "provider down"); ("component", PStr "avatar")]);
   ("drivers", PDict [("drivers", PList [])])].
Proof. vm_compute. reflexivity. Qed.

Lemma registration_order_is_execution_order_witness :
  (forall self name ex deps rules req,
     dict_get name (component_registry (register_component self name ex deps rules req)) =
       Some {| executor := ex; dependencies := default [] deps;
               validation_rules := default [] rules; required := req;
               status := "pending" |} /\
     dict_get name (components (register_component self name ex deps rules req)) = Some ex) /\
  invoked (fst (run reversed_pipeline None)) = execution_order (register_all reversed_pipeline) /\
  execution_order (register_all reversed_pipeline) =
    first_seen (map reg_name reversed_pipeline).
Proof.
  eapply (registration_order_is_execution_order print_float save_returns clock
            reversed_pipeline fitness_job _ None).
  - vm_compute. reflexivity.
  - intros n name. exact I.
Defined.

(** C1 fails on the code: a registration that makes the graph cyclic is
    stored like any other, and a component registered before its dependency
    runs before it. *)
Lemma dependency_order_counterexample :
  (option_map dependencies (dict_get "a" (component_registry self_cycle)) = Some ["a"]
   /\ dict_keys (components self_cycle) = ["a"]) /\
  (option_map dependencies
     (dict_get "social_analysis" (component_registry (register_all reversed_pipeline)))
     = Some ["web_search"]
   /\ invoked (fst (run reversed_pipeline None)) = ["social_analysis"; "web_search"]).
Proof. vm_compute. repeat split. Qed.

Lemma validate_component_result_cases_witness :
  _validate_component_result "mental_drivers" (PDict fallback_payload) T_dict = true /\
  exists log report,
    run fallback_pipeline shows_progress = (log, Ok report) /\
    dict_get "mental_drivers" (report_results report) = Some (PDict fallback_payload) /\
    In (EvSave ("componente_" +:+ "mental_drivers") (PDict fallback_payload) "analise_completa")
       log.
Proof.
  eapply (proj2 (validate_component_result_cases print_float save_returns clock)
            fallback_pipeline fitness_job _ shows_progress "mental_drivers"
            (returns (PDict fallback_payload)) fallback_payload).
  - vm_compute. reflexivity.
  - intros report. reflexivity.
  - reflexivity.
  - intros n. exists tt. reflexivity.
  - vm_compute. now left.
  - reflexivity.
  - reflexivity.
  - reflexivity.
Defined.

(** The run of the fallback payload of [_execute_mental_drivers]: what the
    loop logs is the progress call, the executor and the checkpoint of a
    successful component, then the report. *)
Example fallback_payload_run :
  map (fun ev => match ev with
                 | EvProgress _ _ => "progress"
                 | EvInvoke c _ => c
                 | EvSave etapa _ _ => etapa
                 end)
      (fst (run fallback_pipeline shows_progress)) =
  ["progress"; "mental_drivers"; "componente_mental_drivers";
   "component_orchestrator_report"].
Proof. vm_compute. reflexivity. Qed.

End RunExamples.

(** ** The AI manager: invariants of its state *)

Section ManagerFacts.
Import Py AIManager.

Lemma dict_keys_set_known {V} (k : string) (v : V) (d : dict V) :
  In k (dict_keys d) -> dict_keys (dict_set k v d) = dict_keys d.
Proof.
  intros Hin. rewrite dict_keys_set.
  now rewrite (proj2 (existsb_eqb_In k (dict_keys d)) Hin).
Qed.

Lemma set_keys_aligned {V} (k : string) (v : V) (d : dict V) (keys : list string) :
  dict_keys d = keys -> In k keys -> dict_keys (dict_set k v d) = keys.
Proof. intros <- Hin. now apply dict_keys_set_known. Qed.

Lemma dict_get_known {V} (k : string) (d : dict V) :
  In k (dict_keys d) -> exists v, dict_get k d = Some v.
Proof.
  intros Hin. destruct (dict_get k d) eqn:E; [eauto|].
  apply dict_get_None in E. contradiction.
Qed.

Lemma dict_get_keys {V} (k : string) (v : V) (d : dict V) :
  dict_get k d = Some v -> In k (dict_keys d).
Proof.
  intros H. apply dict_get_Some_In in H. change k with (fst (k, v)). now apply in_map.
Qed.

Lemma dict_set_Forall {V} (P : string * V -> Prop) (k : string) (v : V) (d : dict V) :
  P (k, v) -> Forall P d -> Forall P (dict_set k v d).
Proof.
  intros Hv. induction 1 as [|[k' v'] d Hx Hd IH]; cbn [dict_set].
  - now repeat constructor.
  - destruct (String.eqb k k'); constructor; auto.
Qed.

(** A step that rewrites one provider dict without touching its
    ['last_failure_time'] keeps the invariant. *)
Lemma update_provider_invariant (name : string) (f : provider -> provider) (self : manager) :
  (forall p, p_last_failure_time (f p) = p_last_failure_time p) ->
  invariant self -> invariant (update_provider name f self).
Proof.
  intros Hf [Hnd Hfa Her Hen Hti Hno]. unfold update_provider.
  destruct (dict_get name (providers self)) as [p|] eqn:E; [|now split].
  pose proof (dict_get_keys _ _ _ E) as Hin.
  split; cbn_manager; rewrite ?(dict_keys_set_known _ _ _ Hin); try assumption.
  apply dict_set_Forall; [|assumption]. cbn [snd]. rewrite Hf.
  apply dict_get_Some_In in E.
  rewrite List.Forall_forall in Hno. exact (Hno _ E).
Qed.

Lemma init_invariant (env : environment) : invariant (__init__ env).
Proof.
  unfold __init__, initialize_providers.
  destruct (hf_key env) as [key|].
  all: repeat match goal with
         | |- invariant (if ?b then _ else _) => destruct b
         | |- invariant (update_provider _ _ _) =>
             apply update_provider_invariant; [reflexivity|]
         end.
  all: split; try reflexivity.
  all: try (repeat constructor).
  all: cbn; intros H; repeat (destruct H as [H|H]; [discriminate|]); exact H.
Qed.

Lemma update_provider_keys (name : string) (f : provider -> provider) (self : manager) :
  dict_keys (providers (update_provider name f self)) = dict_keys (providers self).
Proof.
  unfold update_provider. destruct (dict_get name (providers self)) eqn:E; [|reflexivity].
  cbn_manager. apply dict_keys_set_known. eapply dict_get_keys; eauto.
Qed.

Lemma update_provider_get (name : string) (f : provider -> provider) (self : manager)
    (p : provider) :
  dict_get name (providers self) = Some p ->
  dict_get name (providers (update_provider name f self)) = Some (f p).
Proof.
  intros E. unfold update_provider. rewrite E. cbn_manager. apply dict_get_set_eq.
Qed.

Lemma update_provider_tables (name : string) (f : provider -> provider) (self : manager) :
  provider_failures (update_provider name f self) = provider_failures self /\
  last_error (update_provider name f self) = last_error self /\
  provider_enabled (update_provider name f self) = provider_enabled self /\
  last_failure_time (update_provider name f self) = last_failure_time self /\
  max_failures (update_provider name f self) = max_failures self.
Proof.
  unfold update_provider. destruct (dict_get name (providers self)); repeat split.
Qed.

Lemma record_success_invariant (self : manager) (name : string) (now : float) :
  invariant self -> invariant (_record_success self name now).
Proof.
  intros Hinv. unfold _record_success, dict_mem.
  destruct (dict_get name (providers self)) as [p|] eqn:E; [|exact Hinv].
  pose proof (dict_get_keys _ _ _ E) as Hin.
  apply update_provider_invariant; [reflexivity|].
  assert (Hinv0 : invariant (update_provider name (set_consecutive_failures 0) self))
    by now apply update_provider_invariant.
  assert (Hin0 : In name (dict_keys (providers
                   (update_provider name (set_consecutive_failures 0) self))))
    by now rewrite update_provider_keys.
  destruct Hinv0 as [Hnd Hfa Her Hen Hti Hno].
  split; cbn_manager; try assumption; now apply set_keys_aligned.
Qed.

Lemma dict_update_In {V} (u acc : dict V) (k : string) (v : V) :
  In (k, v) (dict_update acc u) -> In (k, v) acc \/ In (k, v) u.
Proof.
  unfold dict_update. revert acc. induction u as [|[k' v'] u IH]; intros acc; cbn [fold_left].
  - auto.
  - intros H. apply IH in H as [H|H]; [|now right; right].
    cbn [fst snd] in H.
    assert (Hset : forall d, In (k, v) (dict_set k' v' d) -> In (k, v) d \/ (k, v) = (k', v')).
    { clear. induction d as [|[k0 v0] d IHd]; cbn [dict_set].
      - intros [H|[]]; auto.
      - destruct (String.eqb k' k0).
        + intros [H|H]; [now right|left; now right].
        + intros [H|H]; [left; now left|]. apply IHd in H as [H|H]; auto. left. now right. }
    apply Hset in H as [H|H]; [now left|]. right. left. now symmetry.
Qed.

(** C9, as the code has it.  [_record_success] on a registered provider
    re-enables it, resets its consecutive-failure counters (the manager's and
    the provider dict's) to zero, clears its last error and last failure time
    and stamps [last_success]; [error_count] and every other provider are left
    alone.  The manager keeps no [total_successes] and no [requests_today]:
    the status it reports for a provider has the nine keys of
    [status_keys]. *)
Theorem record_success_effect (self : manager) (provider_name : string)
    (now : float) (p : provider) :
  dict_get provider_name (providers self) = Some p ->
  dict_get provider_name (provider_enabled (_record_success self provider_name now)) = Some true /\
  dict_get provider_name (provider_failures (_record_success self provider_name now)) = Some 0 /\
  dict_get provider_name (last_error (_record_success self provider_name now)) = Some None /\
  dict_get provider_name (last_failure_time (_record_success self provider_name now)) = Some None /\
  dict_get provider_name (providers (_record_success self provider_name now)) =
    Some (set_last_success (Some now) (set_consecutive_failures 0 p)) /\
  (forall other,
     other <> provider_name ->
     dict_get other (providers (_record_success self provider_name now)) =
       dict_get other (providers self) /\
     dict_get other (provider_enabled (_record_success self provider_name now)) =
       dict_get other (provider_enabled self) /\
     dict_get other (provider_failures (_record_success self provider_name now)) =
       dict_get other (provider_failures self)) /\
  (forall name status,
     In (name, status) (get_provider_status (_record_success self provider_name now)) ->
     exists d, status = PDict d /\ dict_keys d = status_keys).
Proof.
  intros E. unfold _record_success, dict_mem. rewrite E.
  set (s1 := update_provider provider_name (set_consecutive_failures 0) self).
  assert (E1 : dict_get provider_name (providers s1) = Some (set_consecutive_failures 0 p))
    by now apply update_provider_get.
  destruct (update_provider_tables provider_name (set_consecutive_failures 0) self)
    as (T1 & T2 & T3 & T4 & _). fold s1 in T1, T2, T3, T4.
  repeat split.
  - unfold update_provider. cbn_manager. rewrite E1. cbn_manager. apply dict_get_set_eq.
  - unfold update_provider. cbn_manager. rewrite E1. cbn_manager. apply dict_get_set_eq.
  - unfold update_provider. cbn_manager. rewrite E1. cbn_manager. apply dict_get_set_eq.
  - unfold update_provider. cbn_manager. rewrite E1. cbn_manager. apply dict_get_set_eq.
  - unfold update_provider at 1. cbn_manager. rewrite E1. cbn_manager. apply dict_get_set_eq.
  - unfold update_provider at 1. cbn_manager. rewrite E1. cbn_manager.
    rewrite dict_get_set_ne by congruence.
    unfold s1, update_provider. rewrite E. cbn_manager.
    now rewrite dict_get_set_ne by congruence.
  - unfold update_provider at 1. cbn_manager. rewrite E1. cbn_manager.
    rewrite dict_get_set_ne by congruence. now rewrite T3.
  - unfold update_provider at 1. cbn_manager. rewrite E1. cbn_manager.
    rewrite dict_get_set_ne by congruence. now rewrite T1.
  - intros name status Hin. unfold get_provider_status, dict_of in Hin.
    apply dict_update_In in Hin as [[]|Hin].
    apply in_map_iff in Hin as (np & Heq & _). injection Heq as _ <-.
    eexists. split; reflexivity.
Qed.

(** *** Selection on a state that satisfies the invariant *)

Lemma cooldown_expired_no_key (t : float) (p : provider) :
  p_last_failure_time p = None -> cooldown_expired t p = false.
Proof. unfold cooldown_expired. now intros ->. Qed.

Lemma provider_no_key (self : manager) (name : string) (p : provider) :
  invariant self -> dict_get name (providers self) = Some p ->
  p_last_failure_time p = None.
Proof.
  intros Hinv E. apply dict_get_Some_In in E.
  pose proof (inv_no_key _ Hinv) as Hno. rewrite List.Forall_forall in Hno.
  exact (Hno _ E).
Qed.

Lemma rehabilitate_id (self : manager) (t : float) (name : string) :
  invariant self -> rehabilitate t name self = self.
Proof.
  intros Hinv. unfold rehabilitate.
  destruct (dict_get name (providers self)) as [p|] eqn:E; [|reflexivity].
  rewrite (cooldown_expired_no_key t p (provider_no_key _ _ _ Hinv E)).
  now rewrite andb_false_r.
Qed.

Lemma rehabilitate_best_id (env : environment) (self : manager) (t : float) (name : string) :
  invariant self -> rehabilitate_best env t name self = self.
Proof.
  intros Hinv. unfold rehabilitate_best.
  destruct (dict_get name (providers self)) as [p|] eqn:E; [|reflexivity].
  rewrite (cooldown_expired_no_key t p (provider_no_key _ _ _ Hinv E)).
  now rewrite andb_false_r.
Qed.

Lemma foldl_fixed {A B} (f : A -> B -> A) (a : A) (l : list B) :
  (forall b, f a b = a) -> foldl f a l = a.
Proof. intros H. induction l as [|b l IH]; cbn; [reflexivity|]. now rewrite H. Qed.

Lemma item_Some {V} (k : string) (d : dict V) (v : V) :
  dict_get k d = Some v -> item k d = Ok v.
Proof. unfold item. now intros ->. Qed.

Lemma item_enabled (self : manager) (np : string * provider) :
  invariant self -> In np (providers self) ->
  item (fst np) (provider_enabled self) = Ok (enabled_of self (fst np)).
Proof.
  intros Hinv Hin. unfold enabled_of.
  destruct (dict_get_known (fst np) (provider_enabled self)) as [v Hv].
  { rewrite (inv_enabled _ Hinv). now apply in_map. }
  rewrite Hv. now apply item_Some.
Qed.

Lemma item_failures (self : manager) (np : string * provider) :
  invariant self -> In np (providers self) ->
  item (fst np) (provider_failures self) = Ok (failures_of self (fst np)).
Proof.
  intros Hinv Hin. unfold failures_of.
  destruct (dict_get_known (fst np) (provider_failures self)) as [v Hv].
  { rewrite (inv_failures _ Hinv). now apply in_map. }
  rewrite Hv. now apply item_Some.
Qed.

Lemma is_candidate_pure (self : manager) (np : string * provider) :
  invariant self -> In np (providers self) ->
  is_candidate self np = Ok (candidate self np).
Proof.
  intros Hinv Hin. unfold is_candidate, candidate.
  destruct (available (snd np)); [|reflexivity].
  rewrite (item_enabled _ _ Hinv Hin). cbn [bind andb].
  destruct (enabled_of self (fst np)); [|reflexivity].
  now rewrite (item_failures _ _ Hinv Hin).
Qed.

Lemma is_enabled_pure (self : manager) (np : string * provider) :
  invariant self -> In np (providers self) ->
  is_enabled self np = Ok (usable self np).
Proof.
  intros Hinv Hin. unfold is_enabled, usable.
  destruct (available (snd np)); [|reflexivity].
  now rewrite (item_enabled _ _ Hinv Hin).
Qed.

Lemma sort_key_pure (self : manager) (np : string * provider) :
  invariant self -> In np (providers self) ->
  sort_key self np = Ok (rank self np).
Proof.
  intros Hinv Hin. unfold sort_key, rank. now rewrite (item_failures _ _ Hinv Hin).
Qed.

Lemma filter_r_pure {A} (cond : A -> result bool) (g : A -> bool) (l : list A) :
  (forall x, In x l -> cond x = Ok (g x)) -> filter_r cond l = Ok (List.filter g l).
Proof.
  induction l as [|x l IH]; intros H; [reflexivity|].
  cbn [filter_r List.filter]. rewrite (H x) by now left. cbn [bind].
  rewrite IH by (intros y Hy; apply H; now right). cbn [bind].
  now destruct (g x).
Qed.

Lemma insert_by_map {A B} (h : A -> B) (key : B -> Z * Z) (x : A) (l : list A) :
  insert_by key (h x) (map h l) = map h (insert_by (fun a => key (h a)) x l).
Proof.
  induction l as [|y l IH]; [reflexivity|]. cbn [map insert_by].
  destruct (key_lt _ _); cbn [map]; [now rewrite IH|reflexivity].
Qed.

Lemma sort_by_map {A B} (h : A -> B) (key : B -> Z * Z) (l : list A) :
  sort_by key (map h l) = map h (sort_by (fun a => key (h a)) l).
Proof.
  induction l as [|x l IH]; [reflexivity|].
  unfold sort_by in *. cbn [map foldr]. now rewrite IH, insert_by_map.
Qed.

Lemma with_keys_pure {A} (key : A -> result (Z * Z)) (g : A -> Z * Z) (l : list A) :
  (forall x, In x l -> key x = Ok (g x)) ->
  with_keys key l = Ok (map (fun x => (g x, x)) l).
Proof.
  induction l as [|x l IH]; intros H; [reflexivity|].
  cbn [with_keys map]. rewrite (H x) by now left. cbn [bind].
  now rewrite IH by (intros y Hy; apply H; now right).
Qed.

Lemma sort_with_pure {A} (key : A -> result (Z * Z)) (g : A -> Z * Z) (l : list A) :
  (forall x, In x l -> key x = Ok (g x)) -> sort_with key l = Ok (sort_by g l).
Proof.
  intros H. unfold sort_with. rewrite (with_keys_pure key g l H). cbn [bind].
  rewrite (sort_by_map (fun x => (g x, x)) fst). cbn [fst].
  rewrite map_map. cbn [snd]. now rewrite map_id.
Qed.

(** What [_get_next_available_provider] returns on such a state. *)
Lemma get_next_available_provider_eq (self : manager) (exclude : list string) (t : float) :
  invariant self ->
  _get_next_available_provider self exclude t =
  Ok (self,
      head (map fst
              (sort_by (rank self)
                 (List.filter
                    (fun np => negb (existsb (String.eqb (fst np)) exclude)
                               && candidate self np)
                    (providers self))))).
Proof.
  intros Hinv. unfold _get_next_available_provider.
  rewrite foldl_fixed by (intros; now apply rehabilitate_id).
  rewrite (filter_r_pure _
             (fun np => negb (existsb (String.eqb (fst np)) exclude) && candidate self np)).
  2: { intros np Hin. destruct (existsb _ exclude); [reflexivity|].
       now apply is_candidate_pure. }
  cbn [bind].
  destruct (List.filter _ _) as [|np l] eqn:E; [reflexivity|].
  rewrite (sort_with_pure _ (rank self)); [reflexivity|].
  intros x Hx. apply sort_key_pure; [assumption|].
  rewrite <- E in Hx. now apply filter_In in Hx as [Hx _].
Qed.

Lemma backoff_time_values (k : Z) :
  0 <= k -> backoff_time k = if k <? 5 then 120 * 2 ^ k else 3600.
Proof.
  intros Hk. unfold backoff_time. destruct (k <? 5) eqn:E.
  - apply Z.ltb_lt in E.
    assert (H : k = 0 \/ k = 1 \/ k = 2 \/ k = 3 \/ k = 4) by lia.
    destruct H as [->|[->|[->|[->| ->]]]]; reflexivity.
  - apply Z.ltb_ge in E.
    assert (H : Z.min k 6 = 5 \/ Z.min k 6 = 6) by lia.
    destruct H as [-> | ->]; reflexivity.
Qed.

(** Recording a failure keeps the tables aligned. *)
Lemma handle_provider_failure_invariant (env : environment) (self : manager)
    (provider_name : string) (error : exn) (now later : float) (out : failure_outcome) :
  invariant self ->
  _handle_provider_failure env self provider_name error now later = Ok out ->
  invariant (after out).
Proof.
  intros Hinv. unfold _handle_provider_failure.
  destruct (dict_get provider_name (provider_failures self)) as [k0|] eqn:Hk0.
  2: { unfold item. rewrite Hk0. discriminate. }
  assert (Hin : In provider_name (dict_keys (providers self))).
  { rewrite <- (inv_failures _ Hinv). eapply dict_get_keys; eauto. }
  destruct (dict_get_known _ _ Hin) as [p Hp].
  rewrite (item_Some _ _ _ Hk0). cbn [bind].
  cbn_manager. rewrite (item_Some _ _ _ Hp). cbn [bind].
  set (s1 := with_last_error _ _).
  assert (Hinv1 : invariant s1).
  { destruct Hinv as [Hnd Hfa Her Hen Hti Hno].
    split; cbn_manager; try assumption; now apply set_keys_aligned. }
  set (s2 := update_provider provider_name _ s1).
  assert (Hinv2 : invariant s2) by (apply update_provider_invariant; [reflexivity|exact Hinv1]).
  assert (Hin2 : In provider_name (dict_keys (providers s2))).
  { unfold s2. now rewrite update_provider_keys. }
  assert (Hinv3 :
    invariant
      (with_last_failure_time
         (dict_set provider_name (Some now) (last_failure_time s2))
         (with_provider_enabled (dict_set provider_name false (provider_enabled s2)) s2))).
  { destruct Hinv2 as [Hnd Hfa Her Hen Hti Hno].
    split; cbn_manager; try assumption; now apply set_keys_aligned. }
  destruct (is_rate_limit (exn_str error)); cbn [fst snd];
    [|destruct (max_failures s2 <=? k0 + 1); cbn [fst snd]];
    rewrite get_next_available_provider_eq by assumption;
    cbn [bind fst snd]; intros [= <-]; cbn [after]; assumption.
Qed.

(** C4, as the code has it.  [_handle_provider_failure] on a registered
    provider with [k0] consecutive failures raises the count to [k = k0 + 1].
    When the error text is a rate-limit one (it contains ["429"],
    ["Too Many Requests"] or, in any case, ["rate limit"]) the provider is
    disabled and the back-off the method computes, which goes to its log line,
    is [min(120 * 2^min(k, 6), 3600)]: 240, 480, 960 and 1920 seconds for
    [k] = 1..4 and 3600 from [k] = 5 on.  For any other error no back-off is
    computed: the provider is disabled once [k] reaches [max_failures] and is
    left as it was below that. *)
Theorem handle_provider_failure_backoff (env : environment) (self : manager)
    (provider_name : string) (error : exn) (now later : float) (k0 : Z) :
  invariant self ->
  dict_get provider_name (provider_failures self) = Some k0 ->
  0 <= k0 ->
  exists out,
    _handle_provider_failure env self provider_name error now later = Ok out /\
    dict_get provider_name (provider_failures (after out)) = Some (k0 + 1) /\
    (is_rate_limit (exn_str error) = true ->
       dict_get provider_name (provider_enabled (after out)) = Some false /\
       logged_backoff out = Some (Z.min (120 * 2 ^ Z.min (k0 + 1) 6) 3600) /\
       logged_backoff out = Some (if k0 + 1 <? 5 then 120 * 2 ^ (k0 + 1) else 3600)) /\
    (is_rate_limit (exn_str error) = false ->
       logged_backoff out = None /\
       dict_get provider_name (provider_enabled (after out)) =
         if max_failures self <=? k0 + 1 then Some false
         else dict_get provider_name (provider_enabled self)).
Proof.
  intros Hinv Hk0 Hpos.
  assert (Hin : In provider_name (dict_keys (providers self))).
  { rewrite <- (inv_failures _ Hinv). eapply dict_get_keys; eauto. }
  destruct (dict_get_known _ _ Hin) as [p Hp].
  unfold _handle_provider_failure. rewrite (item_Some _ _ _ Hk0). cbn [bind].
  cbn_manager. rewrite (item_Some _ _ _ Hp). cbn [bind].
  set (s1 := with_last_error _ _).
  assert (Hinv1 : invariant s1).
  { destruct Hinv as [Hnd Hfa Her Hen Hti Hno].
    split; cbn_manager; try assumption; now apply set_keys_aligned. }
  set (s2 := update_provider provider_name _ s1).
  assert (Hinv2 : invariant s2) by (apply update_provider_invariant; [reflexivity|exact Hinv1]).
  assert (Hin2 : In provider_name (dict_keys (providers s2))).
  { unfold s2. now rewrite update_provider_keys. }
  destruct (update_provider_tables provider_name (set_error_count (error_count p + 1)) s1)
    as (T1 & _ & T3 & _ & T5). fold s2 in T1, T3, T5.
  assert (F2 : dict_get provider_name (provider_failures s2) = Some (k0 + 1)).
  { rewrite T1. unfold s1. cbn_manager. apply dict_get_set_eq. }
  assert (E2 : provider_enabled s2 = provider_enabled self) by (now rewrite T3).
  assert (M2 : max_failures s2 = max_failures self) by (now rewrite T5).
  destruct (is_rate_limit (exn_str error)) eqn:Erl; cbn [fst snd].
  - rewrite get_next_available_provider_eq.
    2: { destruct Hinv2 as [Hnd Hfa Her Hen Hti Hno].
         split; cbn_manager; try assumption; now apply set_keys_aligned. }
    cbn [bind fst snd]. eexists. split; [reflexivity|].
    cbn [after logged_backoff]. cbn_manager. split; [exact F2|]. split; [|discriminate].
    intros _. split; [apply dict_get_set_eq|]. split; [reflexivity|].
    f_equal. apply backoff_time_values. lia.
  - rewrite M2. destruct (max_failures self <=? k0 + 1) eqn:Emax; cbn [fst snd].
    + rewrite get_next_available_provider_eq.
      2: { destruct Hinv2 as [Hnd Hfa Her Hen Hti Hno].
           split; cbn_manager; try assumption; now apply set_keys_aligned. }
      cbn [bind fst snd]. eexists. split; [reflexivity|].
      cbn [after logged_backoff]. cbn_manager. split; [exact F2|]. split; [discriminate|].
      intros _. split; [reflexivity|]. apply dict_get_set_eq.
    + rewrite get_next_available_provider_eq by exact Hinv2.
      cbn [bind fst snd]. eexists. split; [reflexivity|].
      cbn [after logged_backoff]. split; [exact F2|]. split; [discriminate|].
      intros _. split; [reflexivity|]. now rewrite E2.
Qed.

End ManagerFacts.

(** ** The stable sort of the provider managers *)

Section SortFacts.
Import Py AIManager.
Context {A : Type} (key : A -> Z * Z).

Lemma key_lt_spec (a b : Z * Z) :
  key_lt a b = true <-> fst a < fst b \/ (fst a = fst b /\ snd a < snd b).
Proof.
  unfold key_lt. rewrite orb_true_iff, andb_true_iff, !Z.ltb_lt, Z.eqb_eq. tauto.
Qed.

Lemma key_lt_false (a b : Z * Z) : key_lt a b = false <-> key_le b a.
Proof.
  unfold key_le. destruct (key_lt a b) eqn:E.
  - apply key_lt_spec in E. split; [discriminate|]. lia.
  - split; [intros _|reflexivity].
    assert (H : ~ (fst a < fst b \/ (fst a = fst b /\ snd a < snd b))).
    { intros H. apply key_lt_spec in H. congruence. }
    lia.
Qed.

Lemma key_eqb_spec (a b : Z * Z) : key_eqb a b = true <-> a = b.
Proof.
  unfold key_eqb. rewrite andb_true_iff, !Z.eqb_eq.
  destruct a, b; cbn. split; [intros [-> ->]; reflexivity|intros [= -> ->]; auto].
Qed.

Lemma insert_by_In (x y : A) (l : list A) :
  In y (insert_by key x l) <-> y = x \/ In y l.
Proof.
  induction l as [|z l IH]; cbn [insert_by].
  - cbn. intuition congruence.
  - destruct (key_lt (key z) (key x)); cbn [In]; [rewrite IH|]; intuition congruence.
Qed.

Lemma insert_by_sorted (x : A) (l : list A) :
  StronglySorted (fun a b => key_le (key a) (key b)) l ->
  StronglySorted (fun a b => key_le (key a) (key b)) (insert_by key x l).
Proof.
  induction 1 as [|z l Hs IH Hz]; cbn [insert_by].
  - repeat constructor.
  - destruct (key_lt (key z) (key x)) eqn:E.
    + constructor; [exact IH|]. apply List.Forall_forall. intros y Hy.
      apply insert_by_In in Hy as [->|Hy].
      * apply key_lt_spec in E. unfold key_le. lia.
      * rewrite List.Forall_forall in Hz. auto.
    + apply key_lt_false in E. constructor; [now constructor|].
      constructor; [exact E|]. rewrite List.Forall_forall in *.
      intros y Hy. specialize (Hz y Hy). unfold key_le in *. lia.
Qed.

Lemma sort_by_sorted (l : list A) :
  StronglySorted (fun a b => key_le (key a) (key b)) (sort_by key l).
Proof.
  induction l as [|x l IH]; [constructor|]. now apply insert_by_sorted.
Qed.

Lemma sort_by_In (y : A) (l : list A) : In y (sort_by key l) <-> In y l.
Proof.
  induction l as [|x l IH]; [reflexivity|].
  unfold sort_by in *. cbn [foldr]. rewrite insert_by_In, IH. cbn. intuition congruence.
Qed.

Lemma insert_by_perm (x : A) (l : list A) : Permutation (insert_by key x l) (x :: l).
Proof.
  induction l as [|z l IH]; cbn [insert_by]; [reflexivity|].
  destruct (key_lt _ _); [|reflexivity].
  rewrite IH. apply perm_swap.
Qed.

Lemma sort_by_perm (l : list A) : Permutation (sort_by key l) l.
Proof.
  induction l as [|x l IH]; [reflexivity|].
  unfold sort_by in *. cbn [foldr]. rewrite insert_by_perm. now constructor.
Qed.

(** The sort is stable: the elements of one key keep their order. *)
Lemma insert_by_stable (k : Z * Z) (x : A) (l : list A) :
  List.filter (fun a => key_eqb (key a) k) (insert_by key x l) =
  List.filter (fun a => key_eqb (key a) k) (x :: l).
Proof.
  induction l as [|z l IH]; [reflexivity|]. cbn [insert_by].
  destruct (key_lt (key z) (key x)) eqn:E; [|reflexivity].
  cbn [List.filter] in *. rewrite IH.
  destruct (key_eqb (key z) k) eqn:Ez, (key_eqb (key x) k) eqn:Ex; try reflexivity.
  apply key_eqb_spec in Ez, Ex. apply key_lt_spec in E. rewrite Ez, Ex in E. lia.
Qed.

Lemma sort_by_stable (k : Z * Z) (l : list A) :
  List.filter (fun a => key_eqb (key a) k) (sort_by key l) =
  List.filter (fun a => key_eqb (key a) k) l.
Proof.
  induction l as [|x l IH]; [reflexivity|].
  unfold sort_by in *. cbn [foldr]. rewrite insert_by_stable.
  cbn [List.filter]. now rewrite IH.
Qed.

End SortFacts.

(** ** Provider selection *)

Section SelectionFacts.
Import Py AIManager.

(** The reset step of [get_best_provider] for one name: the state stays
    aligned, the provider dicts keep their availability and priority, and the
    other names keep their entries. *)
Lemma reset_failures_ok (name : string) (m : manager) :
  invariant m ->
  exists m',
    reset_failures name m = Ok m' /\ invariant m' /\
    max_failures m' = max_failures m /\
    (forall other p,
       dict_get other (providers m) = Some p ->
       exists p', dict_get other (providers m') = Some p' /\
                  available p' = available p /\ priority p' = priority p) /\
    (forall other,
       other <> name ->
       enabled_of m' other = enabled_of m other /\
       failures_of m' other = failures_of m other) /\
    (forall p,
       dict_get name (providers m) = Some p ->
       if available p && (0 <? failures_of m name)
       then enabled_of m' name = true /\ failures_of m' name = 0
       else enabled_of m' name = enabled_of m name /\
            failures_of m' name = failures_of m name).
Proof.
  intros Hinv. unfold reset_failures.
  destruct (dict_get name (providers m)) as [p|] eqn:E.
  2: { exists m. split; [reflexivity|]. split; [exact Hinv|]. split; [reflexivity|].
       split; [eauto|]. split; [auto|]. intros p0 H. discriminate H. }
  destruct (available p) eqn:Eav; cbn [negb].
  2: { exists m. split; [reflexivity|]. split; [exact Hinv|]. split; [reflexivity|].
       split; [eauto|]. split; [auto|].
       intros p0 [= <-]. rewrite Eav. cbn. auto. }
  pose proof (dict_get_keys _ _ _ E) as Hin.
  pose proof (item_failures m (name, p) Hinv (dict_get_Some_In _ _ _ E)) as Hitem.
  cbn [fst] in Hitem. rewrite Hitem. cbn [bind].
  destruct (0 <? failures_of m name) eqn:Epos.
  2: { exists m. split; [reflexivity|]. split; [exact Hinv|]. split; [reflexivity|].
       split; [eauto|]. split; [auto|].
       intros p0 [= <-]. rewrite Eav. cbn. auto. }
  set (m1 := update_provider name (set_error_count 0) m).
  assert (Hinv1 : invariant m1) by (now apply update_provider_invariant).
  assert (Hin1 : In name (dict_keys (providers m1))) by (unfold m1; now rewrite update_provider_keys).
  destruct (update_provider_tables name (set_error_count 0) m) as (T1 & T2 & T3 & T4 & T5).
  fold m1 in T1, T2, T3, T4, T5.
  eexists. split; [reflexivity|]. split; [|split; [|split; [|split]]].
  - destruct Hinv1 as [Hnd Hfa Her Hen Hti Hno].
    split; cbn_manager; try assumption; now apply set_keys_aligned.
  - cbn_manager. exact T5.
  - intros other p0 Hp0. cbn_manager. unfold m1, update_provider. rewrite E. cbn_manager.
    destruct (String.eqb_spec name other) as [->|Hne].
    + rewrite dict_get_set_eq. rewrite E in Hp0. injection Hp0 as <-. eauto.
    + rewrite dict_get_set_ne by assumption. eauto.
  - intros other Hne. unfold enabled_of, failures_of. cbn_manager.
    rewrite !dict_get_set_ne by congruence. now rewrite T1, T3.
  - intros p0 [= <-]. rewrite Eav. cbn [andb].
    unfold enabled_of, failures_of. cbn_manager. now rewrite !dict_get_set_eq.
Qed.

Lemma reset_all_ok (names : list string) (m : manager) :
  invariant m -> List.NoDup names ->
  exists m',
    reset_all names m = Ok m' /\ invariant m' /\
    max_failures m' = max_failures m /\
    (forall other p,
       dict_get other (providers m) = Some p ->
       exists p', dict_get other (providers m') = Some p' /\
                  available p' = available p /\ priority p' = priority p) /\
    (forall name p,
       In name names ->
       dict_get name (providers m) = Some p ->
       available p = true -> 0 < failures_of m name ->
       enabled_of m' name = true /\ failures_of m' name = 0) /\
    (forall name,
       ~ In name names ->
       enabled_of m' name = enabled_of m name /\
       failures_of m' name = failures_of m name).
Proof.
  revert m. induction names as [|name names IH]; intros m Hinv Hnd.
  - exists m. split; [reflexivity|]. split; [exact Hinv|]. split; [reflexivity|].
    split; [eauto|]. split; [intros name p []|auto].
  - apply NoDup_cons_iff in Hnd as [Hfresh Hnd]. cbn [reset_all].
    destruct (reset_failures_ok name m Hinv) as (m1 & -> & Hinv1 & Hmax1 & Hp1 & Ho1 & Hn1).
    cbn [bind].
    destruct (IH m1 Hinv1 Hnd) as (m' & -> & Hinv' & Hmax' & Hp' & Hin' & Hout').
    exists m'. split; [reflexivity|]. split; [exact Hinv'|]. split; [congruence|].
    split; [|split].
    + intros other p Hp. destruct (Hp1 other p Hp) as (p1 & Hg1 & Ha1 & Hr1).
      destruct (Hp' other p1 Hg1) as (p2 & Hg2 & Ha2 & Hr2).
      exists p2. repeat split; congruence.
    + intros n p [<-|Hn] Hp Hav Hpos.
      * destruct (Hout' name Hfresh) as [-> ->].
        specialize (Hn1 p Hp). rewrite Hav in Hn1.
        apply Z.ltb_lt in Hpos. now rewrite Hpos in Hn1.
      * assert (Hne : n <> name) by (intros ->; contradiction).
        destruct (Ho1 n Hne) as [He Hf].
        destruct (Hp1 n p Hp) as (p1 & Hg1 & Ha1 & _).
        apply (Hin' n p1 Hn Hg1); [congruence|]. now rewrite Hf.
    + intros n Hnot.
      assert (Hne : n <> name) by (intros ->; apply Hnot; now left).
      destruct (Ho1 n Hne) as [He Hf].
      destruct (Hout' n) as [He' Hf']; [intros H; apply Hnot; now right|].
      split; congruence.
Qed.

Lemma sort_by_ranking {A} (key : A -> Z * Z) (selected : A -> bool) (table : list A) :
  ranking key selected table (sort_by key (List.filter selected table)).
Proof.
  split.
  - intros a. now rewrite sort_by_In, filter_In.
  - apply sort_by_perm.
  - apply sort_by_sorted.
  - intros k. apply sort_by_stable.
Qed.

(** The ranked list of [get_best_provider] on an aligned state. *)
Lemma ranked_providers_eq (env : environment) (self : manager) (t : float) :
  invariant self ->
  match List.filter (candidate self) (providers self) with
  | [] =>
      exists self',
        reset_all (dict_keys (providers self)) self = Ok self' /\
        invariant self' /\
        ranked_providers env self t =
          Ok (self', sort_by (rank self') (List.filter (usable self') (providers self')))
  | _ =>
      ranked_providers env self t =
        Ok (self, sort_by (rank self) (List.filter (candidate self) (providers self)))
  end.
Proof.
  intros Hinv. unfold ranked_providers.
  rewrite foldl_fixed by (intros; now apply rehabilitate_best_id).
  rewrite (filter_r_pure _ (candidate self))
    by (intros np Hin; now apply is_candidate_pure).
  cbn [bind].
  destruct (List.filter (candidate self) (providers self)) as [|np l] eqn:E.
  - destruct (reset_all_ok (dict_keys (providers self)) self Hinv (inv_nodup _ Hinv))
      as (self' & Hreset & Hinv' & _).
    exists self'. split; [exact Hreset|]. split; [exact Hinv'|].
    rewrite Hreset. cbn [bind].
    rewrite (filter_r_pure _ (usable self'))
      by (intros np Hin; now apply is_enabled_pure).
    cbn [bind fst snd].
    destruct (List.filter (usable self') (providers self')) as [|np l] eqn:E'; [reflexivity|].
    rewrite (sort_with_pure _ (rank self')); [reflexivity|].
    intros x Hx. apply sort_key_pure; [assumption|].
    rewrite <- E' in Hx. now apply filter_In in Hx as [Hx _].
  - cbn [bind fst snd].
    rewrite (sort_with_pure _ (rank self)); [reflexivity|].
    intros x Hx. apply sort_key_pure; [assumption|].
    rewrite <- E in Hx. now apply filter_In in Hx as [Hx _].
Qed.

(** The selection as the code has it.  On a manager whose tables are aligned,
    [get_best_provider] returns the first of a ranked list and leaves a state
    [self'].  The list holds providers that are available and enabled in
    [self'], in ascending order of (priority, consecutive failures); providers
    with the same pair keep the order of the [providers] dict (not the order
    of their names).  When some provider is available, enabled and below
    [max_failures], the state is unchanged and the list holds exactly those.
    When none is, the method first resets the counters: every available
    provider with recorded failures is enabled again, whatever the time since
    its failure, and is in the list.  [_get_provider_order] of the search
    manager returns the names of the providers that are enabled and below
    their [max_errors], in ascending order of (priority, error count), ties
    in dict order. *)
Theorem provider_selection_order (env : environment) (self : manager) (t : float) :
  invariant self ->
  (exists self' ranked,
     ranked_providers env self t = Ok (self', ranked) /\
     get_best_provider env self t = Ok (self', head (map fst ranked)) /\
     invariant self' /\
     (forall np, In np ranked -> In np (providers self') /\ usable self' np = true) /\
     StronglySorted (fun a b => key_le (rank self' a) (rank self' b)) ranked /\
     (List.filter (candidate self) (providers self) <> [] ->
        self' = self /\ ranking (rank self) (candidate self) (providers self) ranked) /\
     (List.filter (candidate self) (providers self) = [] ->
        ranking (rank self') (usable self') (providers self') ranked /\
        forall name p,
          dict_get name (providers self) = Some p ->
          available p = true -> 0 < failures_of self name ->
          In name (map fst ranked))) /\
  (forall providers : dict ProductionSearchManager.search_provider,
     exists ranked,
       ProductionSearchManager._get_provider_order providers = map fst ranked /\
       ranking ProductionSearchManager.sort_key
         (fun np => ProductionSearchManager._is_provider_available providers (fst np))
         providers ranked).
Proof.
  intros Hinv. split.
  - pose proof (ranked_providers_eq env self t Hinv) as H.
    destruct (List.filter (candidate self) (providers self)) as [|np0 l0] eqn:E.
    + destruct H as (self' & Hreset & Hinv' & Hranked).
      pose proof (sort_by_ranking (rank self') (usable self') (providers self')) as Hrk.
      eexists self', _. split; [exact Hranked|].
      split; [unfold get_best_provider; now rewrite Hranked|].
      split; [exact Hinv'|].
      split; [intros np Hnp; now apply (rk_members _ _ _ _ Hrk)|].
      split; [exact (rk_sorted _ _ _ _ Hrk)|].
      split; [congruence|]. intros _. split; [exact Hrk|].
      intros name p Hp Hav Hpos.
      destruct (reset_all_ok (dict_keys (providers self)) self Hinv (inv_nodup _ Hinv))
        as (m' & Hreset' & _ & _ & Hkeep & Hon & _).
      rewrite Hreset in Hreset'. injection Hreset' as <-.
      destruct (Hkeep name p Hp) as (p' & Hp' & Hav' & _).
      destruct (Hon name p (dict_get_keys _ _ _ Hp) Hp Hav Hpos) as [Hen _].
      change name with (fst (name, p')). apply in_map.
      apply (rk_members _ _ _ _ Hrk). split; [now apply dict_get_Some_In|].
      unfold usable. cbn [fst snd]. now rewrite Hav', Hav, Hen.
    + rewrite <- E in *.
      pose proof (sort_by_ranking (rank self) (candidate self) (providers self)) as Hrk.
      eexists self, _. split; [exact H|].
      split; [unfold get_best_provider; now rewrite H|].
      split; [exact Hinv|].
      split.
      { intros np Hnp. apply (rk_members _ _ _ _ Hrk) in Hnp as [Hin Hc].
        split; [exact Hin|]. unfold candidate in Hc. unfold usable.
        now apply andb_true_iff in Hc as [Hc _]. }
      split; [exact (rk_sorted _ _ _ _ Hrk)|].
      split; [intros _; split; [reflexivity|exact Hrk]|].
      intros Hnil. rewrite Hnil in E. discriminate E.
  - intros providers. eexists. split; [reflexivity|]. apply sort_by_ranking.
Qed.

Lemma get_best_provider_invariant (env : environment) (self self' : manager)
    (t : float) (best : option string) :
  invariant self -> get_best_provider env self t = Ok (self', best) -> invariant self'.
Proof.
  intros Hinv. unfold get_best_provider.
  pose proof (ranked_providers_eq env self t Hinv) as H.
  destruct (List.filter (candidate self) (providers self)).
  - destruct H as (m & _ & Hm & ->). cbn [bind fst]. now intros [= <- _].
  - rewrite H. cbn [bind fst]. now intros [= <- _].
Qed.

(** Every state the manager goes through satisfies the invariant. *)
Lemma reachable_invariant (env : environment) (self : manager) :
  reachable env self -> invariant self.
Proof.
  induction 1 as [|self name now _ IH|self name error now later out _ IH Hout
                  |self self' t best _ IH Hbest].
  - apply init_invariant.
  - now apply record_success_invariant.
  - eapply handle_provider_failure_invariant; eauto.
  - eapply get_best_provider_invariant; eauto.
Qed.

End SelectionFacts.

(** ** The provider managers on concrete states *)

Section ProviderExamples.
Import Py AIManager ProviderRuns.

Lemma rate_limited_invariant : invariant rate_limited.
Proof.
  unfold rate_limited.
  destruct (_handle_provider_failure gemini_only started "gemini" rate_limit_error
              100%float 102%float) as [out|e] eqn:E; cbn [state_after].
  - eapply handle_provider_failure_invariant; [apply init_invariant|exact E].
  - apply init_invariant.
Qed.

Lemma handle_provider_failure_backoff_witness :
  exists out,
    _handle_provider_failure gemini_only started "gemini" rate_limit_error
      100%float 102%float = Ok out /\
    dict_get "gemini" (provider_failures (after out)) = Some (0 + 1) /\
    (is_rate_limit (exn_str rate_limit_error) = true ->
       dict_get "gemini" (provider_enabled (after out)) = Some false /\
       logged_backoff out = Some (Z.min (120 * 2 ^ Z.min (0 + 1) 6) 3600) /\
       logged_backoff out = Some (if 0 + 1 <? 5 then 120 * 2 ^ (0 + 1) else 3600)) /\
    (is_rate_limit (exn_str rate_limit_error) = false ->
       logged_backoff out = None /\
       dict_get "gemini" (provider_enabled (after out)) =
         if max_failures started <=? 0 + 1 then Some false
         else dict_get "gemini" (provider_enabled started)).
Proof.
  apply (handle_provider_failure_backoff gemini_only started "gemini" rate_limit_error
           100%float 102%float 0).
  - apply init_invariant.
  - reflexivity.
  - lia.
Defined.

Example first_rate_limit_backoff :
  option_map logged_backoff
    (match _handle_provider_failure gemini_only started "gemini" rate_limit_error
             100%float 102%float with
     | Ok out => Some out
     | Raise _ => None
     end) = Some (Some 240).
Proof. vm_compute. reflexivity. Qed.

(** C4 fails on the code for an error that is not a rate limit: after the
    first such failure ([k] = 1) the provider is not disabled for
    [min(30 * 2^1, 3600)] = 60 seconds; it stays enabled and no back-off is
    computed. *)
Lemma generic_failure_counterexample :
  exists out,
    _handle_provider_failure gemini_only started "gemini" empty_answer_error
      100%float 102%float = Ok out /\
    is_rate_limit (exn_str empty_answer_error) = false /\
    dict_get "gemini" (provider_failures (after out)) = Some 1 /\
    dict_get "gemini" (provider_enabled (after out)) = Some true /\
    logged_backoff out = None.
Proof. eexists. vm_compute. repeat split. Qed.

Lemma provider_selection_order_witness :
  (exists self' ranked,
     ranked_providers gemini_only rate_limited 103%float = Ok (self', ranked) /\
     get_best_provider gemini_only rate_limited 103%float =
       Ok (self', head (map fst ranked)) /\
     invariant self' /\
     (forall np, In np ranked -> In np (providers self') /\ usable self' np = true) /\
     StronglySorted (fun a b => key_le (rank self' a) (rank self' b)) ranked /\
     (List.filter (candidate rate_limited) (providers rate_limited) <> [] ->
        self' = rate_limited /\
        ranking (rank rate_limited) (candidate rate_limited) (providers rate_limited) ranked) /\
     (List.filter (candidate rate_limited) (providers rate_limited) = [] ->
        ranking (rank self') (usable self') (providers self') ranked /\
        forall name p,
          dict_get name (providers rate_limited) = Some p ->
          available p = true -> 0 < failures_of rate_limited name ->
          In name (map fst ranked))) /\
  (forall providers : dict ProductionSearchManager.search_provider,
     exists ranked,
       ProductionSearchManager._get_provider_order providers = map fst ranked /\
       ranking ProductionSearchManager.sort_key
         (fun np => ProductionSearchManager._is_provider_available providers (fst np))
         providers ranked).
Proof.
  apply (provider_selection_order gemini_only rate_limited 103%float).
  apply rate_limited_invariant.
Defined.

(** C7.  The selection at two states the manager reaches.  Gemini, the
    only configured provider, answered 429 at second 100 and was disabled; at
    second 103 [get_best_provider] finds no candidate, resets the counters of
    every provider whose [available] flag is set, which a failure never
    clears, and returns Gemini, three seconds into its cooldown.  With Gemini
    and Groq configured and Gemini disabled by three failures at second 100,
    the call at second 800 returns Groq: the loop that is to re-enable a
    provider 600 seconds after its failure tests the [available] flag and the
    [last_failure_time] of the provider's own dict, which failures leave
    alone, so Gemini, of higher priority and past its cooldown, stays
    disabled. *)
Lemma get_best_provider_ignores_cooldown :
  (dict_get "gemini" (provider_enabled rate_limited) = Some false /\
   dict_get "gemini" (last_failure_time rate_limited) = Some (Some 100%float) /\
   option_map snd
     (match get_best_provider gemini_only rate_limited 103%float with
      | Ok r => Some r
      | Raise _ => None
      end) = Some (Some "gemini")) /\
  (dict_get "gemini" (provider_enabled GenerationRuns.failed_thrice) = Some false /\
   dict_get "gemini" (last_failure_time GenerationRuns.failed_thrice)
     = Some (Some 100%float) /\
   option_map priority (dict_get "gemini" (providers GenerationRuns.failed_thrice))
     = Some 1 /\
   option_map priority (dict_get "groq" (providers GenerationRuns.failed_thrice))
     = Some 2 /\
   get_best_provider GenerationRuns.gemini_and_groq GenerationRuns.failed_thrice 800%float
     = Ok (GenerationRuns.failed_thrice, Some "groq")).
Proof. vm_compute. repeat split. Qed.

Lemma record_success_effect_witness :
  dict_get "gemini" (provider_enabled (_record_success rate_limited "gemini" 200%float))
    = Some true /\
  dict_get "gemini" (provider_failures (_record_success rate_limited "gemini" 200%float))
    = Some 0 /\
  dict_get "gemini" (last_error (_record_success rate_limited "gemini" 200%float))
    = Some None /\
  dict_get "gemini" (last_failure_time (_record_success rate_limited "gemini" 200%float))
    = Some None /\
  dict_get "gemini" (providers (_record_success rate_limited "gemini" 200%float)) =
    Some (set_last_success (Some 200%float)
            (set_consecutive_failures 0
               (set_error_count 1 (enable_with (a_client "GenerativeModel")
                                     (new_provider 1 (Some "gemini-2.0-flash-exp") [] 2))))) /\
  (forall other,
     other <> "gemini" ->
     dict_get other (providers (_record_success rate_limited "gemini" 200%float)) =
       dict_get other (providers rate_limited) /\
     dict_get other (provider_enabled (_record_success rate_limited "gemini" 200%float)) =
       dict_get other (provider_enabled rate_limited) /\
     dict_get other (provider_failures (_record_success rate_limited "gemini" 200%float)) =
       dict_get other (provider_failures rate_limited)) /\
  (forall name status,
     In (name, status) (get_provider_status (_record_success rate_limited "gemini" 200%float)) ->
     exists d, status = PDict d /\ dict_keys d = status_keys).
Proof.
  apply (record_success_effect rate_limited "gemini" 200%float).
  vm_compute. reflexivity.
Defined.

(** C9 fails on the code for the two counters: the manager has no
    [total_successes] and no [requests_today].  After a success the status of
    the provider has neither key, and the counter it does keep,
    [error_count], is unchanged. *)
Lemma success_counters_counterexample :
  exists before status,
    dict_get "gemini" (get_provider_status rate_limited) = Some (PDict before) /\
    dict_get "gemini" (get_provider_status (_record_success rate_limited "gemini" 200%float))
      = Some (PDict status) /\
    dict_keys status = status_keys /\
    dict_get "total_successes" status = None /\
    dict_get "requests_today" status = None /\
    dict_get "error_count" before = Some (PInt 1) /\
    dict_get "error_count" status = Some (PInt 1).
Proof. eexists _, _. vm_compute. repeat split. Qed.

End ProviderExamples.

(** ** The content extraction chain *)

Section ChainFacts.
Import Py ProductionContentExtractor.
Variable _extract_with_jina_reader : string -> result (option string).
Variable _extract_with_trafilatura : string -> result (option string).
Variable _extract_with_mercury_parser : string -> result (option string).
Variable _extract_with_requests_html : string -> result (option string).
Variable _extract_with_bs4 : string -> result (option string).
Variable _extract_with_simple_requests : string -> result (option string).

#[local] Abbreviation execute :=
  (_execute_strategy _extract_with_jina_reader _extract_with_trafilatura
     _extract_with_mercury_parser _extract_with_requests_html _extract_with_bs4
     _extract_with_simple_requests).
#[local] Abbreviation attempt_ :=
  (attempt _extract_with_jina_reader _extract_with_trafilatura
     _extract_with_mercury_parser _extract_with_requests_html _extract_with_bs4
     _extract_with_simple_requests).
#[local] Abbreviation strategy_fails :=
  (strategy_fails _extract_with_jina_reader _extract_with_trafilatura
     _extract_with_mercury_parser _extract_with_requests_html _extract_with_bs4
     _extract_with_simple_requests).
#[local] Abbreviation strategy_yields :=
  (strategy_yields _extract_with_jina_reader _extract_with_trafilatura
     _extract_with_mercury_parser _extract_with_requests_html _extract_with_bs4
     _extract_with_simple_requests).
#[local] Abbreviation run_ :=
  (run_strategies _extract_with_jina_reader _extract_with_trafilatura
     _extract_with_mercury_parser _extract_with_requests_html _extract_with_bs4
     _extract_with_simple_requests).

Lemma attempt_Some (strategy url content : string) :
  attempt_ strategy url = Some content <-> strategy_yields strategy url content.
Proof.
  unfold attempt, strategy_yields, valid_content.
  destruct (execute strategy url) as [[c|]|e].
  - destruct (String.eqb_spec c ""); cbn [negb andb].
    + split; [discriminate|]. intros ([= <-] & H & _). contradiction.
    + destruct (Z.ltb_spec 100 (len (strip c))).
      * split; [intros [= <-]; auto|]. now intros ([= <-] & _).
      * split; [discriminate|]. intros ([= <-] & _ & H'). lia.
  - split; [discriminate|]. now intros ([=] & _).
  - split; [discriminate|]. now intros ([=] & _).
Qed.

Lemma attempt_None (strategy url : string) :
  attempt_ strategy url = None <-> strategy_fails strategy url.
Proof.
  unfold attempt, strategy_fails, valid_content.
  destruct (execute strategy url) as [[c|]|e]; [|tauto|tauto].
  destruct (String.eqb_spec c ""); cbn [negb andb]; [tauto|].
  destruct (Z.ltb_spec 100 (len (strip c))).
  - split; [discriminate|]. intros [?|?]; [contradiction|lia].
  - tauto.
Qed.

Lemma run_strategies_spec (l : list string) (url : string) :
  match fst (run_ l url) with
  | Some content =>
      exists tried strategy rest,
        l = tried ++ strategy :: rest /\
        snd (run_ l url) = tried ++ [strategy] /\
        strategy_yields strategy url content /\
        Forall (fun s => strategy_fails s url) tried
  | None =>
      snd (run_ l url) = l /\ Forall (fun s => strategy_fails s url) l
  end.
Proof.
  induction l as [|s l IH]; cbn [run_strategies fst snd]; [split; constructor|].
  destruct (attempt_ s url) as [c|] eqn:E; cbn [fst snd].
  - exists [], s, l. split; [reflexivity|]. split; [reflexivity|].
    split; [now apply attempt_Some|constructor].
  - apply attempt_None in E.
    destruct (fst (run_ l url)) as [c|].
    + destruct IH as (tried & s' & rest & -> & Hsnd & Hy & Hf).
      exists (s :: tried), s', rest. rewrite Hsnd.
      split; [reflexivity|]. split; [reflexivity|]. split; [exact Hy|now constructor].
    + destruct IH as [-> Hf]. split; [reflexivity|now constructor].
Qed.

(** C5, as the code has it.  Without a preferred strategy [extract_content]
    runs the six strategies in their fixed order and returns the output of
    the first whose text is not empty and, stripped of surrounding
    whitespace, longer than 100 characters (the text is returned unstripped);
    every strategy before it was run and failed, none after it is run.  It
    returns [None] exactly when all six fail.  A strategy that raises counts
    as failed and the next one is tried. *)
Theorem extract_content_first_valid (url : string) :
  let r := extract_content_trace _extract_with_jina_reader _extract_with_trafilatura
             _extract_with_mercury_parser _extract_with_requests_html _extract_with_bs4
             _extract_with_simple_requests url None in
  extract_content _extract_with_jina_reader _extract_with_trafilatura
    _extract_with_mercury_parser _extract_with_requests_html _extract_with_bs4
    _extract_with_simple_requests url None = fst r /\
  match fst r with
  | Some content =>
      exists tried strategy rest,
        strategies = tried ++ strategy :: rest /\
        snd r = tried ++ [strategy] /\
        execute strategy url = Ok (Some content) /\
        content <> "" /\ 100 < len (strip content) /\
        Forall (fun s => strategy_fails s url) tried
  | None =>
      snd r = strategies /\ Forall (fun s => strategy_fails s url) strategies
  end /\
  (forall strategy e, execute strategy url = Raise e -> strategy_fails strategy url).
Proof.
  cbn zeta. split; [reflexivity|]. split.
  - unfold extract_content_trace. pose proof (run_strategies_spec strategies url) as H.
    destruct (fst (run_ strategies url)) as [c|]; [|exact H].
    destruct H as (tried & s & rest & H1 & H2 & (H3 & H4 & H5) & H6).
    exists tried, s, rest. auto 10.
  - intros strategy e H. unfold strategy_fails. now rewrite H.
Qed.

End ChainFacts.

Section ChainExamples.
Import Py ProductionContentExtractor ChainRuns.

(** C5 fails on the code at the boundary: a strategy that yields exactly 100
    characters does not win; with nothing better after it the chain returns
    [None].  With 101 characters it wins. *)
Lemma hundred_characters_counterexample :
  len (strip hundred) = 100 /\
  extract_content (giving hundred) nothing nothing nothing nothing nothing
    "https://example.com/a" None = None /\
  extract_content (giving hundred_one) nothing nothing nothing nothing nothing
    "https://example.com/a" None = Some hundred_one.
Proof. vm_compute. repeat split. Qed.

Example raising_strategy_is_skipped :
  extract_content_trace failing failing (giving hundred_one) nothing nothing nothing
    "https://example.com/a" None =
  (Some hundred_one, ["jina_reader"; "trafilatura"; "mercury_parser"]).
Proof. vm_compute. reflexivity. Qed.

End ChainExamples.

(** ** Pause and resume *)

Section SessionFacts.
Import Py AnalysisRoutes.
Variable salvar_etapa : string -> PyVal -> string -> result unit.

Lemma is_str_eq (v : PyVal) (s : string) : is_str v s = true <-> v = PStr s.
Proof.
  destruct v; cbn; try (split; [discriminate|intros [=]]).
  rewrite String.eqb_eq. split; [now intros ->|now intros [= ->]].
Qed.

(** C6, as the code has it.  [pause_session] answers 404 for a session that
    is not in [active_sessions], and 400 (not 409) for one whose status is
    not ['running']; both leave the table as it was.  For a running session
    it sets the status to ['paused'] and answers 200 when the pause record is
    saved.  It answers 200 only for a session that was running.
    [resume_session] is the same with ['paused'] and ['running'] exchanged.
    The only statuses the two handlers answer are 200, 400, 404 and 500. *)
Theorem pause_resume_status_codes (sessions : gmap string (dict PyVal))
    (session_id now : string) :
  let p := pause_session salvar_etapa sessions session_id now in
  let r := resume_session salvar_etapa sessions session_id now in
  (sessions !! session_id = None ->
     p = (sessions, not_found) /\ r = (sessions, not_found) /\ status_code not_found = 404) /\
  (forall st, status_in sessions session_id = Some st -> st <> PStr "running" ->
     fst p = sessions /\ status_code (snd p) = 400) /\
  (forall st, status_in sessions session_id = Some st -> st <> PStr "paused" ->
     fst r = sessions /\ status_code (snd r) = 400) /\
  (status_in sessions session_id = Some (PStr "running") ->
     status_in (fst p) session_id = Some (PStr "paused") /\
     ((forall dados, salvar_etapa "sessao_pausada" dados "logs" = Ok tt) ->
      status_code (snd p) = 200)) /\
  (status_in sessions session_id = Some (PStr "paused") ->
     status_in (fst r) session_id = Some (PStr "running") /\
     ((forall dados, salvar_etapa "sessao_resumida" dados "logs" = Ok tt) ->
      status_code (snd r) = 200)) /\
  (forall e,
     status_in sessions session_id = Some (PStr "running") ->
     salvar_etapa "sessao_pausada"
       (PDict [("session_id", PStr session_id); ("paused_at", PStr now);
               ("reason", PStr "User requested pause")]) "logs" = Raise e ->
     snd p = server_error e /\ status_code (server_error e) = 500) /\
  (forall e,
     status_in sessions session_id = Some (PStr "paused") ->
     salvar_etapa "sessao_resumida"
       (PDict [("session_id", PStr session_id); ("resumed_at", PStr now);
               ("reason", PStr "User requested resume")]) "logs" = Raise e ->
     snd r = server_error e /\ status_code (server_error e) = 500) /\
  (status_code (snd p) = 200 ->
     status_in sessions session_id = Some (PStr "running") /\
     status_in (fst p) session_id = Some (PStr "paused")) /\
  (status_code (snd r) = 200 ->
     status_in sessions session_id = Some (PStr "paused") /\
     status_in (fst r) session_id = Some (PStr "running")) /\
  In (status_code (snd p)) [200; 400; 404; 500] /\
  In (status_code (snd r)) [200; 400; 404; 500].
Proof.
  cbn zeta. unfold status_in, pause_session, resume_session, item.
  destruct (sessions !! session_id) as [session|] eqn:Es.
  2: { cbn. repeat split; try discriminate; auto. }
  destruct (dict_get "status" session) as [st|] eqn:Est.
  2: { cbn. repeat split; try discriminate; auto 10. }
  assert (Hp : dict_get "status"
                 (dict_set "paused_at" (PStr now) (dict_set "status" (PStr "paused") session))
               = Some (PStr "paused")).
  { rewrite dict_get_set_ne by discriminate. apply dict_get_set_eq. }
  assert (Hr : dict_get "status"
                 (dict_set "paused_at" PNone
                    (dict_set "resumed_at" (PStr now)
                       (dict_set "status" (PStr "running") session)))
               = Some (PStr "running")).
  { rewrite !dict_get_set_ne by discriminate. apply dict_get_set_eq. }
  split; [discriminate|].
  destruct (is_str st "running") eqn:Erun, (is_str st "paused") eqn:Epau;
    try (apply is_str_eq in Erun); try (apply is_str_eq in Epau); subst;
    try discriminate; cbn [negb fst snd status_code];
    repeat match goal with
      | |- context [salvar_etapa ?a ?b ?c] =>
          let E := fresh "E" in destruct (salvar_etapa a b c) as [[]|?] eqn:E
      end;
    cbn [fst snd status_code server_error]; rewrite ?lookup_insert_eq, ?Es, ?Est, ?Hp, ?Hr;
    repeat split; intros; subst;
    try congruence; try discriminate; auto 10;
    try (match goal with
         | H : forall dados, salvar_etapa _ dados _ = Ok tt, E : salvar_etapa _ _ _ = Raise _ |- _ =>
             rewrite H in E; discriminate E
         end);
    try (cbn; tauto);
    repeat match goal with H : Some _ = Some _ |- _ => injection H as H end; subst;
    cbn in *; congruence.
Qed.

End SessionFacts.

Section SessionExamples.
Import Py AnalysisRoutes SessionRuns.

(** C6 fails on the code for the status of a forbidden transition: pausing a
    completed session and resuming a running one are answered with 400, not
    409. *)
Lemma forbidden_transition_counterexample :
  status_code (snd (pause_session save_returns (one_session "completed")
                      "session_1" "2025-01-01T10:05:00")) = 400 /\
  status_code (snd (resume_session save_returns (one_session "running")
                      "session_1" "2025-01-01T10:05:00")) = 400.
Proof. vm_compute. split; reflexivity. Qed.

Example pause_then_resume :
  let paused := pause_session save_returns (one_session "running")
                  "session_1" "2025-01-01T10:05:00" in
  let resumed := resume_session save_returns (fst paused)
                   "session_1" "2025-01-01T10:06:00" in
  status_code (snd paused) = 200 /\ status_code (snd resumed) = 200 /\
  status_code (snd (pause_session save_returns (one_session "running")
                      "unknown" "2025-01-01T10:05:00")) = 404.
Proof. vm_compute. repeat split. Qed.

End SessionExamples.

Section MoreWitnesses.
Import Py AnalysisRoutes SessionRuns ProductionContentExtractor ChainRuns.

Lemma pause_resume_status_codes_witness :
  status_in (fst (pause_session save_returns (one_session "running")
                    "session_1" "2025-01-01T10:05:00")) "session_1" = Some (PStr "paused") /\
  status_code (snd (pause_session save_returns (one_session "running")
                      "session_1" "2025-01-01T10:05:00")) = 200.
Proof.
  pose proof (pause_resume_status_codes save_returns (one_session "running")
                "session_1" "2025-01-01T10:05:00") as H.
  cbn zeta in H. destruct H as (_ & _ & _ & H & _).
  destruct H as [Hstatus Hcode]; [vm_compute; reflexivity|].
  split; [exact Hstatus|]. apply Hcode. intros dados. reflexivity.
Defined.

Lemma extract_content_first_valid_witness :
  strategy_fails failing failing (giving hundred_one) nothing nothing nothing
    "jina_reader" "https://example.com/a" /\
  extract_content failing failing (giving hundred_one) nothing nothing nothing
    "https://example.com/a" None = Some hundred_one.
Proof.
  pose proof (extract_content_first_valid failing failing (giving hundred_one)
                nothing nothing nothing "https://example.com/a") as H.
  cbn zeta in H. destruct H as (_ & _ & H).
  split; [|vm_compute; reflexivity].
  apply (H "jina_reader" (Exn "ConnectionError" "connection refused")). reflexivity.
Defined.

End MoreWitnesses.

(** ** Continuing a persisted session *)

Section ContinueFacts.
Import Py ComponentOrchestrator AnalysisRoutes.

(** C3.  What [continue_session] does for a persisted session that holds a
    saved request: the call of [execute_synchronized_analysis] passes the
    keyword [continue_from_saved], which the method does not have, so it
    raises [TypeError] before the orchestrator does anything.  The handler
    answers 500 with the text of that error, the run has done nothing (no
    executor is invoked, no checkpoint is read or written) and the session is
    marked ['error'].  This holds whatever components are registered and
    whatever the services and the later phases would do. *)
Theorem continue_session_raises_type_error
    (float_repr : float -> string)
    (salvar_etapa : string -> PyVal -> string -> result unit)
    (salvar_erro : string -> exn -> result unit)
    (time_time : float) (component_orchestrator : orchestrator)
    (service_status : result PyVal) (fase1_message fase2_message : string)
    (later_phases :
       dict PyVal -> string -> ProgressCallback -> PyVal -> PyVal -> result PyVal)
    (_generate_emergency_fallback : dict PyVal -> string -> PyVal)
    (obter_info_sessao : string -> result PyVal)
    (active_sessions : gmap string (dict PyVal)) (session_id now later : string)
    (session_info original_data : PyVal) (data : dict PyVal) :
  obter_info_sessao session_id = Ok session_info ->
  truthy session_info = true ->
  saved_request session_info = Ok original_data ->
  truthy original_data = true ->
  analysis_data float_repr original_data = Ok data ->
  (forall nome e, salvar_erro nome e = Ok tt) ->
  let r :=
    continue_session float_repr salvar_etapa salvar_erro time_time component_orchestrator
      service_status fase1_message fase2_message later_phases
      _generate_emergency_fallback obter_info_sessao
      active_sessions session_id now later in
  snd r =
    Ok {| body :=
            PDict [("error",
              PStr ("SuperOrchestrator.execute_synchronized_analysis() got an unexpected "
                    +:+ "keyword argument 'continue_from_saved'"))];
          status_code := 500 |} /\
  snd (fst r) = [] /\
  (session_id <> "" -> status_in (fst (fst r)) session_id = Some (PStr "error")).
Proof.
  intros Hinfo Htruthy Hsaved Horig Hdata Herr. cbv zeta.
  unfold continue_session, continue_session_try.
  rewrite Hinfo, Htruthy, Hsaved, Horig, Hdata. cbn [negb].
  unfold SuperOrchestrator.call_execute_synchronized_analysis.
  change (SuperOrchestrator.bind_keywords "SuperOrchestrator.execute_synchronized_analysis"
            SuperOrchestrator.execute_synchronized_analysis_params
            SuperOrchestrator.execute_synchronized_analysis_required continue_keywords)
    with (Raise (Exn "TypeError"
                   ("SuperOrchestrator.execute_synchronized_analysis() got an unexpected "
                    +:+ "keyword argument 'continue_from_saved'")) : result unit).
  cbn [snd fst].
  destruct (String.eqb session_id "") eqn:E; cbn [negb].
  - rewrite Herr. cbn [snd fst]. repeat split.
    intros Hne. apply String.eqb_eq in E. contradiction.
  - rewrite lookup_insert_eq, Herr. cbn [snd fst]. repeat split.
    intros _. unfold status_in. rewrite lookup_insert_eq. reflexivity.
Qed.

Lemma continue_session_raises_type_error_witness :
  let r :=
    continue_session Runs.print_float Runs.save_returns Runs.save_error_returns Runs.clock
      ContinueRuns.registered ContinueRuns.services "fase 1" "fase 2"
      (SuperOrchestrator.phases_3_to_6 AnalyzeRuns.would_succeed)
      SuperOrchestrator._generate_emergency_fallback ContinueRuns.obter_info_sessao
      ∅ "session_1" "2025-01-02T09:00:00" "2025-01-02T09:00:01" in
  snd r =
    Ok {| body :=
            PDict [("error",
              PStr ("SuperOrchestrator.execute_synchronized_analysis() got an unexpected "
                    +:+ "keyword argument 'continue_from_saved'"))];
          status_code := 500 |} /\
  snd (fst r) = [] /\
  ("session_1" <> "" -> status_in (fst (fst r)) "session_1" = Some (PStr "error")).
Proof.
  apply (continue_session_raises_type_error Runs.print_float Runs.save_returns
           Runs.save_error_returns Runs.clock ContinueRuns.registered
           ContinueRuns.services "fase 1" "fase 2"
           (SuperOrchestrator.phases_3_to_6 AnalyzeRuns.would_succeed)
           SuperOrchestrator._generate_emergency_fallback ContinueRuns.obter_info_sessao
           ∅ "session_1" "2025-01-02T09:00:00" "2025-01-02T09:00:01"
           ContinueRuns.persisted (PDict Runs.fitness_job)
           [("segmento", PStr "fitness"); ("produto", PStr "coaching app");
            ("publico", PStr ""); ("objetivos", PStr ""); ("contexto", PStr "");
            ("query", PStr "mercado de coaching app no brasil desde 2022")]).
  - reflexivity.
  - reflexivity.
  - reflexivity.
  - reflexivity.
  - reflexivity.
  - reflexivity.
Defined.

End ContinueFacts.

(** * Further properties of the code *)

(** ** The phases after the component run *)

Section PhaseThree.
Import Py ComponentOrchestrator SuperOrchestrator.
Variable float_repr : float -> string.
Variable salvar_etapa : string -> PyVal -> string -> result unit.
Variable time_time : float.

(** The report of [execute_components] is a dict whose
    ['successful_components'] is a number and which has neither an
    ['execution_stats'] nor a ['components'] key. *)
Lemma report_shape (self : orchestrator) (data : dict PyVal) (cb : ProgressCallback)
    (report : PyVal) :
  snd (execute_components float_repr salvar_etapa time_time self data cb) = Ok report ->
  exists total successful rate results summary,
    report =
    PDict [("components_executed", PInt total);
           ("successful_components", PInt successful);
           ("success_rate", rate);
           ("results", results);
           ("execution_summary", summary)].
Proof.
  unfold execute_components.
  destruct (_prepare_base_data float_repr data) as [base|e]; [|discriminate].
  destruct (count_successful _) as [k|e]; cbn [bind]; [|discriminate].
  destruct (components_status _) as [st|e]; cbn [bind]; [|discriminate].
  destruct (salvar_etapa _ _ _) as [[]|e]; cbn [snd]; [|discriminate].
  intros [= <-]. eauto 10.
Qed.

Lemma report_success_rate (self : orchestrator) (data : dict PyVal) (cb : ProgressCallback)
    (report : PyVal) :
  snd (execute_components float_repr salvar_etapa time_time self data cb) = Ok report ->
  component_success_rate report =
  Raise (Exn "TypeError" "object of type 'int' has no len()").
Proof.
  intros H. destruct (report_shape _ _ _ _ H) as (n & k & rate & res & summary & ->).
  reflexivity.
Qed.

(** X1.  The report [execute_components] returns carries its count of
    successful components as a number, and FASE 3 of
    [execute_synchronized_analysis] takes [len()] of it: on every report the
    success-rate computation raises [TypeError].  So the [try] block of
    [execute_synchronized_analysis] never completes, whatever the components,
    the services and the later phases do: the method returns the emergency
    fallback (or the exception of [salvar_erro], when saving the error
    raises), never a ['PERFECT_SYNC'] result. *)
Theorem synchronized_analysis_ends_in_fallback
    (component_orchestrator : orchestrator)
    (salvar_erro : string -> exn -> result unit)
    (service_status : result PyVal) (fase1_message fase2_message : string)
    (remaining_phases :
       dict PyVal -> string -> ProgressCallback -> PyVal -> PyVal -> PyVal -> result PyVal)
    (data : dict PyVal) (session_id : string) (cb : ProgressCallback) :
  (forall report,
     snd (execute_components float_repr salvar_etapa time_time component_orchestrator
            data cb) = Ok report ->
     component_success_rate report =
     Raise (Exn "TypeError" "object of type 'int' has no len()")) /\
  exists e,
    snd (synchronized_analysis_try float_repr salvar_etapa time_time component_orchestrator
           service_status fase1_message fase2_message (phases_3_to_6 remaining_phases)
           data session_id cb) = Raise e /\
    snd (execute_synchronized_analysis float_repr salvar_etapa time_time
           component_orchestrator salvar_erro service_status fase1_message fase2_message
           (phases_3_to_6 remaining_phases) _generate_emergency_fallback
           data session_id cb) =
    match salvar_erro "super_orchestrator_critico" e with
    | Ok _ => Ok (_generate_emergency_fallback data session_id)
    | Raise e' => Raise e'
    end.
Proof.
  split; [intros report; apply report_success_rate|].
  unfold execute_synchronized_analysis.
  assert (H : exists e,
    snd (synchronized_analysis_try float_repr salvar_etapa time_time component_orchestrator
           service_status fase1_message fase2_message (phases_3_to_6 remaining_phases)
           data session_id cb) = Raise e).
  { unfold synchronized_analysis_try.
    destruct (salvar_etapa "super_orchestrator_iniciado" _ _) as [[]|e]; [|cbn; eauto].
    destruct (snd (call_progress cb 1 fase1_message)) as [[]|e]; [|cbn; eauto].
    destruct service_status as [status|e]; [|cbn; eauto].
    destruct (snd (call_progress cb 2 fase2_message)) as [[]|e]; [|cbn; eauto].
    destruct (snd (execute_components _ _ _ _ _ _)) as [report|e] eqn:E; [|cbn; eauto].
    cbn [snd]. unfold phases_3_to_6.
    rewrite (report_success_rate _ _ _ _ E). cbn [bind]. eauto. }
  destruct H as [e He]. exists e. split; [exact He|].
  rewrite He. now destruct (salvar_erro _ e).
Qed.

End PhaseThree.

(** ** The service check *)

Section ServiceStatus.
Import Py AIManager.

Lemma reset_failures_keys (name : string) (m m' : manager) :
  reset_failures name m = Ok m' -> dict_keys (providers m') = dict_keys (providers m).
Proof.
  unfold reset_failures.
  destruct (dict_get name (providers m)) as [p|]; [|now intros [= <-]].
  destruct (available p); cbn [negb]; [|now intros [= <-]].
  destruct (item name (provider_failures m)) as [k|e]; cbn [bind]; [|discriminate].
  destruct (0 <? k); [|now intros [= <-]].
  intros [= <-]. cbn_manager. apply update_provider_keys.
Qed.

Lemma reset_all_keys (names : list string) (m m' : manager) :
  reset_all names m = Ok m' -> dict_keys (providers m') = dict_keys (providers m).
Proof.
  revert m. induction names as [|name names IH]; intros m; cbn [reset_all].
  - now intros [= <-].
  - destruct (reset_failures name m) as [m1|e] eqn:E; cbn [bind]; [|discriminate].
    intros H. rewrite (IH _ H). now apply (reset_failures_keys name).
Qed.

Lemma get_best_provider_keys (env : environment) (self self' : manager) (t : float)
    (best : option string) :
  invariant self -> get_best_provider env self t = Ok (self', best) ->
  dict_keys (providers self') = dict_keys (providers self).
Proof.
  intros Hinv. unfold get_best_provider.
  pose proof (ranked_providers_eq env self t Hinv) as H.
  destruct (List.filter (candidate self) (providers self)).
  - destruct H as (m & Hreset & _ & ->). cbn [bind fst]. intros [= <- _].
    now apply reset_all_keys in Hreset.
  - rewrite H. cbn [bind fst]. now intros [= <- _].
Qed.

Lemma handle_provider_failure_keys (env : environment) (self : manager)
    (provider_name : string) (error : exn) (now later : float) (out : failure_outcome) :
  invariant self ->
  _handle_provider_failure env self provider_name error now later = Ok out ->
  dict_keys (providers (after out)) = dict_keys (providers self).
Proof.
  intros Hinv. unfold _handle_provider_failure.
  destruct (dict_get provider_name (provider_failures self)) as [k0|] eqn:Hk0.
  2: { unfold item. rewrite Hk0. discriminate. }
  assert (Hin : In provider_name (dict_keys (providers self))).
  { rewrite <- (inv_failures _ Hinv). eapply dict_get_keys; eauto. }
  destruct (dict_get_known _ _ Hin) as [p Hp].
  rewrite (item_Some _ _ _ Hk0). cbn [bind].
  cbn_manager. rewrite (item_Some _ _ _ Hp). cbn [bind].
  set (s1 := with_last_error _ _).
  assert (Hinv1 : invariant s1).
  { destruct Hinv as [Hnd Hfa Her Hen Hti Hno].
    split; cbn_manager; try assumption; now apply set_keys_aligned. }
  set (s2 := update_provider provider_name _ s1).
  assert (Hinv2 : invariant s2) by (apply update_provider_invariant; [reflexivity|exact Hinv1]).
  assert (Hkeys : dict_keys (providers s2) = dict_keys (providers self)).
  { unfold s2. now rewrite update_provider_keys. }
  assert (Hin2 : In provider_name (dict_keys (providers s2))) by now rewrite Hkeys.
  assert (Hinv3 :
    invariant
      (with_last_failure_time
         (dict_set provider_name (Some now) (last_failure_time s2))
         (with_provider_enabled (dict_set provider_name false (provider_enabled s2)) s2))).
  { destruct Hinv2 as [Hnd Hfa Her Hen Hti Hno].
    split; cbn_manager; try assumption; now apply set_keys_aligned. }
  destruct (is_rate_limit (exn_str error)); cbn [fst snd];
    [|destruct (max_failures s2 <=? k0 + 1); cbn [fst snd]];
    rewrite get_next_available_provider_eq by assumption;
    cbn [bind fst snd]; intros [= <-]; cbn [after]; cbn_manager; assumption.
Qed.

Lemma record_success_keys (self : manager) (name : string) (now : float) :
  dict_keys (providers (_record_success self name now)) = dict_keys (providers self).
Proof.
  unfold _record_success. destruct (dict_mem name (providers self)); [|reflexivity].
  rewrite update_provider_keys. cbn_manager. apply update_provider_keys.
Qed.

Lemma init_keys (env : environment) :
  dict_keys (providers (__init__ env)) = dict_keys initial_providers.
Proof.
  unfold __init__, initialize_providers.
  destruct (hf_key env) as [key|];
  repeat match goal with
         | |- context [if ?b then _ else _] => destruct b
         end;
    rewrite ?update_provider_keys; reflexivity.
Qed.

(** The manager keeps its four providers. *)
Lemma reachable_keys (env : environment) (self : manager) :
  reachable env self -> dict_keys (providers self) = dict_keys initial_providers.
Proof.
  induction 1 as [|self name now Hr IH|self name error now later out Hr IH Hout
                  |self self' t best Hr IH Hbest].
  - apply init_keys.
  - now rewrite record_success_keys.
  - rewrite (handle_provider_failure_keys env self name error now later out); auto.
    now apply reachable_invariant with (env := env).
  - rewrite (get_best_provider_keys env self self' t best); auto.
    now apply reachable_invariant with (env := env).
Qed.

(** X2.  Whatever the availability, the failures and the errors of the four
    AI providers (every method of the manager keeps these four names),
    [_check_all_services_status] counts ten services of which five are
    available: the four search engines and the basic extraction, each set to
    ['available'] by the method itself, while the entries of the AI providers
    are dicts and never count.  So the overall health it reports is always
    ['good']. *)
Theorem services_health_is_always_good (ai_manager : manager) :
  dict_keys (providers ai_manager) = dict_keys initial_providers ->
  SuperOrchestrator.count_services
    (match SuperOrchestrator._check_all_services_status ai_manager with
     | PDict status => status
     | _ => []
     end) = (5, 10) /\
  SuperOrchestrator.overall_health (SuperOrchestrator._check_all_services_status ai_manager)
  = PStr "good".
Proof.
  intros Hkeys.
  destruct (providers ai_manager) as [|[k1 p1] [|[k2 p2] [|[k3 p3] [|[k4 p4] [|x l]]]]] eqn:E;
    try discriminate Hkeys.
  injection Hkeys as -> -> -> ->.
  unfold SuperOrchestrator._check_all_services_status, get_provider_status. rewrite E.
  split; reflexivity.
Qed.

End ServiceStatus.

Section ServiceStatusExample.
Import Py AIManager ProviderRuns.

Lemma services_health_is_always_good_witness :
  SuperOrchestrator.count_services
    (match SuperOrchestrator._check_all_services_status rate_limited with
     | PDict status => status
     | _ => []
     end) = (5, 10) /\
  SuperOrchestrator.overall_health (SuperOrchestrator._check_all_services_status rate_limited)
  = PStr "good".
Proof.
  apply (services_health_is_always_good rate_limited).
  apply (reachable_keys gemini_only).
  unfold rate_limited, state_after.
  destruct (_handle_provider_failure gemini_only started "gemini" rate_limit_error
              100%float 102%float) as [out|e] eqn:E.
  - eapply reach_failure; [apply reach_init|exact E].
  - apply reach_init.
Defined.

End ServiceStatusExample.

(** ** The pipeline [SuperOrchestrator] registers *)

Section RegisteredPipeline.
Import Py ComponentOrchestrator SuperOrchestrator.
Variable float_repr : float -> string.
Variable salvar_etapa : string -> PyVal -> string -> result unit.
Variable time_time : float.

(** X3.  [_register_all_components] registers twelve components, and every
    dependency a registration declares is registered before the component
    that declares it.  Since [execute_components] follows the registration
    order, a run whose input can be prepared and whose progress callback
    returns invokes each executor after the executors of its declared
    dependencies, in the order listed; the components of the emergency
    fallback carry the same twelve names in the same order. *)
Theorem registered_pipeline_order (self : component_methods)
    (data base : dict PyVal) (cb : ProgressCallback) :
  _prepare_base_data float_repr data = Ok base ->
  (forall n name, callback_returns cb n name) ->
  let registered := _register_all_components self ComponentOrchestrator.__init__ in
  execution_order registered =
    ["web_search"; "social_analysis"; "mental_drivers"; "visual_proofs"; "anti_objection";
     "pre_pitch"; "future_predictions"; "avatar_detalhado"; "funil_vendas";
     "analise_concorrencia"; "plano_acao"; "posicionamento"] /\
  dependencies_first registered /\
  invoked (fst (execute_components float_repr salvar_etapa time_time registered data cb)) =
    execution_order registered /\
  (forall session_id,
     exists components,
       dict_field "components"
         (dict_field "fallback_report" (_generate_emergency_fallback data session_id)) =
         PDict components /\
       dict_keys components = execution_order registered).
Proof.
  intros Hprep Hcb registered.
  assert (Horder : execution_order registered =
    ["web_search"; "social_analysis"; "mental_drivers"; "visual_proofs"; "anti_objection";
     "pre_pitch"; "future_predictions"; "avatar_detalhado"; "funil_vendas";
     "analise_concorrencia"; "plano_acao"; "posicionamento"]) by reflexivity.
  split; [exact Horder|]. split; [|split].
  - unfold dependencies_first. rewrite Horder.
    repeat (constructor; [repeat (constructor; [reflexivity|])|]); constructor.
  - destruct (register_all_aligned (registrations self)) as (Hnd & _ & Hord).
    change (register_all (registrations self)) with registered in Hnd, Hord.
    rewrite (execute_components_invoked _ _ _ _ _ base cb Hnd Hprep), Hord.
    now apply invoked_events.
  - intros session_id. eexists. split; reflexivity.
Qed.

End RegisteredPipeline.

Section RegisteredPipelineExample.
Import Py ComponentOrchestrator SuperOrchestrator PipelineRuns.

Lemma registered_pipeline_order_witness :
  let registered := _register_all_components idle_methods ComponentOrchestrator.__init__ in
  execution_order registered =
    ["web_search"; "social_analysis"; "mental_drivers"; "visual_proofs"; "anti_objection";
     "pre_pitch"; "future_predictions"; "avatar_detalhado"; "funil_vendas";
     "analise_concorrencia"; "plano_acao"; "posicionamento"] /\
  dependencies_first registered /\
  invoked (fst (execute_components Runs.print_float Runs.save_returns Runs.clock registered
                  Runs.fitness_job None)) =
    execution_order registered /\
  (forall session_id,
     exists components,
       dict_field "components"
         (dict_field "fallback_report"
            (_generate_emergency_fallback Runs.fitness_job session_id)) =
         PDict components /\
       dict_keys components = execution_order registered).
Proof.
  eapply (registered_pipeline_order Runs.print_float Runs.save_returns Runs.clock
            idle_methods Runs.fitness_job _ None).
  - vm_compute. reflexivity.
  - intros n name. exact I.
Defined.

End RegisteredPipelineExample.

(** ** The status inquiries of the component orchestrator *)

Section StatusInquiries.
Import Py ComponentOrchestrator.

Lemma register_pending (self : orchestrator) (r : registration) :
  all_pending self -> all_pending (register self r).
Proof.
  intros H. unfold all_pending, register, register_component. cbn [component_registry].
  apply dict_set_Forall; [reflexivity|exact H].
Qed.

Lemma register_all_pending (regs : list registration) : all_pending (register_all regs).
Proof.
  unfold register_all.
  assert (H : all_pending ComponentOrchestrator.__init__) by constructor.
  revert H. generalize ComponentOrchestrator.__init__.
  induction regs as [|r regs IH]; intros self H; [exact H|].
  cbn [fold_left]. apply IH. now apply register_pending.
Qed.

Lemma In_dict_keys_set {V} (x k : string) (v : V) (d : dict V) :
  In x (dict_keys (dict_set k v d)) <-> x = k \/ In x (dict_keys d).
Proof.
  rewrite dict_keys_set. destruct (existsb (String.eqb k) (dict_keys d)) eqn:E.
  - apply existsb_eqb_In in E. split; [auto|]. intros [->|H]; assumption.
  - rewrite in_app_iff. cbn. split; [intros [H|[H|[]]]; auto|intros [H|H]; auto].
Qed.

Lemma registered_names (regs : list registration) (self : orchestrator) (x : string) :
  In x (dict_keys (component_registry (fold_left register regs self))) <->
  In x (dict_keys (component_registry self)) \/ In x (map reg_name regs).
Proof.
  revert self. induction regs as [|r regs IH]; intros self; cbn [fold_left map].
  - cbn. tauto.
  - rewrite IH. unfold register, register_component. cbn [component_registry].
    rewrite In_dict_keys_set. cbn. intuition.
Qed.

Lemma count_pending (s : string) (self : orchestrator) :
  all_pending self -> s <> "pending" -> count_with_status s self = 0.
Proof.
  unfold all_pending, count_with_status, dict_values. intros H Hs.
  induction H as [|[k c] l Hc _ IH]; [reflexivity|].
  cbn [map List.filter snd]. cbn [snd] in Hc. rewrite Hc.
  destruct (String.eqb_spec "pending" s) as [<-|_]; [congruence|exact IH].
Qed.

Lemma breakdown_pending (l : dict component_entry) (k : Z) :
  Forall (fun entry : string * component_entry => status (snd entry) = "pending") l ->
  fold_left
    (fun status_counts (entry : string * component_entry) =>
       let status := status (snd entry) in
       dict_set status (default 0 (dict_get status status_counts) + 1) status_counts)
    l [("pending", k)] = [("pending", k + Z.of_nat (length l))].
Proof.
  intros H. revert k. induction H as [|[n c] l Hc _ IH]; intros k.
  - cbn. now rewrite Z.add_0_r.
  - cbn [fold_left snd]. cbn [snd] in Hc. rewrite Hc. cbn [dict_get dict_set].
    cbn. rewrite IH. f_equal. f_equal. cbn [length]. lia.
Qed.

(** X4.  Nothing in the module changes the ['status'] of a registered
    component after [register_component] set it to ['pending']
    ([execute_components] keeps its results in a local dict and assigns no
    attribute).  So for any sequence of registrations [get_component_status]
    answers ['pending'] for a registered name and ['not_found'] for any other,
    [get_components_status] counts no successful and no failed component, and
    [get_execution_summary] reports every component under ['pending'], with a
    success rate computed from zero successes. *)
Theorem component_status_stays_pending (regs : list registration) (name : string) :
  let self := register_all regs in
  let total := Z.of_nat (length (component_registry self)) in
  get_component_status self name =
    (if existsb (String.eqb name) (map reg_name regs) then "pending" else "not_found") /\
  cs_total_components (get_components_status self) = total /\
  cs_successful_components (get_components_status self) = 0 /\
  cs_failed_components (get_components_status self) = 0 /\
  get_execution_summary self =
    PDict
      [("total_components", PInt total);
       ("status_breakdown",
         PDict (if total =? 0 then [] else [("pending", PInt total)]));
       ("success_rate",
         if total =? 0 then PInt 0
         else PFloat (PrimFloat.mul
                        (PrimFloat.div (float_of_Z 0) (float_of_Z total))
                        (float_of_Z 100)))].
Proof.
  intros self total.
  pose proof (register_all_pending regs) as Hp. fold self in Hp.
  assert (Hnames : forall x, In x (dict_keys (component_registry self)) <->
                             In x (map reg_name regs)).
  { intros x. unfold self, register_all. rewrite registered_names. cbn. tauto. }
  split; [|split; [|split; [|split]]].
  - unfold get_component_status.
    destruct (existsb (String.eqb name) (map reg_name regs)) eqn:Ex.
    + apply existsb_eqb_In, Hnames in Ex.
      destruct (dict_get_known _ _ Ex) as [c Hc]. rewrite Hc.
      apply dict_get_Some_In in Hc.
      unfold all_pending in Hp. rewrite List.Forall_forall in Hp. exact (Hp _ Hc).
    + destruct (dict_get name (component_registry self)) as [c|] eqn:Hc; [|reflexivity].
      apply dict_get_keys, Hnames, existsb_eqb_In in Hc. congruence.
  - reflexivity.
  - cbn [get_components_status cs_successful_components]. now apply count_pending.
  - cbn [get_components_status cs_failed_components]. now apply count_pending.
  - unfold get_execution_summary, status_breakdown. fold total.
    unfold all_pending in Hp. subst total.
    destruct (component_registry self) as [|[k c] l] eqn:E; [reflexivity|].
    apply Forall_cons_iff in Hp as [Hc Hl]. cbn [snd] in Hc.
    cbn [fold_left snd]. rewrite Hc. cbn [dict_get default dict_set].
    rewrite breakdown_pending by assumption.
    replace (Z.of_nat (length ((k, c) :: l))) with (0 + 1 + Z.of_nat (length l))
      by (cbn [length]; lia).
    destruct (0 + 1 + Z.of_nat (length l) =? 0) eqn:Ez; [apply Z.eqb_eq in Ez; lia|].
    reflexivity.
Qed.
End StatusInquiries.

(** ** The base data of a run *)

Section PrepareBaseData.
Import Py ComponentOrchestrator.
Variable float_repr : float -> string.

Lemma dict_set_same {V} (k : string) (v : V) (d : dict V) :
  dict_get k d = Some v -> dict_set k v d = d.
Proof.
  induction d as [|[k' v'] d IH]; cbn [dict_get dict_set]; [discriminate|].
  destruct (String.eqb k k') eqn:E.
  - apply String.eqb_eq in E. now intros [= ->]; subst.
  - intros H. now rewrite IH.
Qed.

Lemma dict_mem_get {V} (k : string) (d : dict V) :
  dict_mem k d = match dict_get k d with Some _ => true | None => false end.
Proof. reflexivity. Qed.

Lemma prepare_base_data_lookups (data : dict PyVal) :
  context_usable data ->
  exists base context avatar,
    _prepare_base_data float_repr data = Ok base /\
    dict_get "segmento" base = Some (chosen "segmento" "mercado" data) /\
    dict_get "produto" base = Some (chosen "produto" "produto" data) /\
    dict_get "context_data" base = Some (PDict context) /\
    dict_get "segmento" context = Some (chosen "segmento" "mercado" data) /\
    dict_get "produto" context = Some (chosen "produto" "produto" data) /\
    (forall k, k <> "segmento" -> k <> "produto" ->
               dict_get k context = dict_get k (context_of data)) /\
    dict_get "avatar_data" base = Some avatar /\
    truthy avatar = true /\
    (forall a, dict_get "avatar_data" data = Some a -> truthy a = true -> avatar = a) /\
    (forall k, k <> "segmento" -> k <> "produto" -> k <> "context_data" ->
               k <> "avatar_data" -> dict_get k base = dict_get k data).
Proof.
  intros Hctx. unfold _prepare_base_data. cbv zeta.
  set (S := chosen "segmento" "mercado" data).
  set (P := chosen "produto" "produto" data).
  assert (HS :
    (if truthy (default PNone (dict_get "segmento" data))
     then Ok (default PNone (dict_get "segmento" data))
     else get_method (default (PDict []) (dict_get "context_data" data))
            "segmento" (PStr "mercado")) = Ok S).
  { subst S. unfold chosen, context_of. unfold context_usable in Hctx. cbv zeta.
    destruct (truthy (default PNone (dict_get "segmento" data))); [reflexivity|].
    destruct (dict_get "context_data" data) as [[]|]; try contradiction; reflexivity. }
  rewrite HS. cbn [bind].
  assert (HP :
    (if truthy (default PNone (dict_get "produto" (dict_set "segmento" S data)))
     then Ok (default PNone (dict_get "produto" (dict_set "segmento" S data)))
     else get_method
            (default (PDict []) (dict_get "context_data" (dict_set "segmento" S data)))
            "produto" (PStr "produto")) = Ok P).
  { rewrite !dict_get_set_ne by discriminate.
    subst P. unfold chosen, context_of. unfold context_usable in Hctx. cbv zeta.
    destruct (truthy (default PNone (dict_get "produto" data))); [reflexivity|].
    destruct (dict_get "context_data" data) as [[]|]; try contradiction; reflexivity. }
  rewrite HP. cbn [bind].
  set (b2 := dict_set "produto" P (dict_set "segmento" S data)).
  assert (Hb2c : dict_get "context_data" b2 = dict_get "context_data" data).
  { unfold b2. now rewrite !dict_get_set_ne by discriminate. }
  set (c0 := context_of data).
  set (b3 := if dict_mem "context_data" b2 then b2 else dict_set "context_data" (PDict []) b2).
  assert (Hb3c : dict_get "context_data" b3 = Some (PDict c0)).
  { unfold b3. rewrite dict_mem_get, Hb2c. subst c0. unfold context_of.
    unfold context_usable in Hctx.
    destruct (dict_get "context_data" data) as [[]|] eqn:E; try contradiction.
    - now rewrite Hb2c.
    - now rewrite dict_get_set_eq. }
  rewrite Hb3c. cbn [default from_option id update_method bind].
  set (ctx := dict_update c0 [("segmento", S); ("produto", P)]).
  set (b4 := dict_set "context_data" (PDict ctx) b3).
  assert (Hb3 : forall k, k <> "context_data" -> dict_get k b3 = dict_get k b2).
  { intros k Hk. unfold b3. destruct (dict_mem "context_data" b2); [reflexivity|].
    now rewrite dict_get_set_ne by congruence. }
  assert (Hb4 : forall k, k <> "context_data" -> dict_get k b4 = dict_get k b2).
  { intros k Hk. unfold b4. rewrite dict_get_set_ne by congruence. now apply Hb3. }
  assert (Hb4c : dict_get "context_data" b4 = Some (PDict ctx)) by apply dict_get_set_eq.
  assert (Hb2a : dict_get "avatar_data" b4 = dict_get "avatar_data" data).
  { rewrite Hb4 by discriminate. unfold b2. now rewrite !dict_get_set_ne by discriminate. }
  match goal with
  | |- context [Ok (if ?c then dict_set "avatar_data" ?av b4 else b4)] =>
      set (cond := c); set (fresh_avatar := av)
  end.
  exists (if cond then dict_set "avatar_data" fresh_avatar b4 else b4), ctx,
    (if cond then fresh_avatar else default PNone (dict_get "avatar_data" data)).
  assert (Hother : forall k, k <> "avatar_data" ->
            dict_get k (if cond then dict_set "avatar_data" fresh_avatar b4 else b4)
            = dict_get k b4).
  { intros k Hk. destruct cond; [|reflexivity]. now rewrite dict_get_set_ne by congruence. }
  split; [reflexivity|].
  split. { rewrite Hother, Hb4 by discriminate. unfold b2.
           rewrite dict_get_set_ne by discriminate. apply dict_get_set_eq. }
  split. { rewrite Hother, Hb4 by discriminate. apply dict_get_set_eq. }
  split. { now rewrite Hother by discriminate. }
  split. { unfold ctx, dict_update. cbn [fold_left fst snd].
           rewrite dict_get_set_ne by discriminate. apply dict_get_set_eq. }
  split. { unfold ctx, dict_update. cbn [fold_left fst snd]. apply dict_get_set_eq. }
  split. { intros k H1 H2. unfold ctx, dict_update. cbn [fold_left fst snd].
           now rewrite !dict_get_set_ne by congruence. }
  assert (Hcond : cond = negb (truthy (default PNone (dict_get "avatar_data" data)))).
  { unfold cond. rewrite dict_mem_get, Hb2a.
    destruct (dict_get "avatar_data" data); cbn; reflexivity. }
  split. { destruct cond eqn:Ec.
           - apply dict_get_set_eq.
           - rewrite Hb2a. symmetry in Hcond. apply negb_false_iff in Hcond.
             destruct (dict_get "avatar_data" data); [reflexivity|discriminate Hcond]. }
  split. { destruct cond eqn:Ec; [reflexivity|].
           symmetry in Hcond. now apply negb_false_iff in Hcond. }
  split. { intros a Ha Hta. rewrite Ha in Hcond. cbn [default from_option id] in Hcond.
           rewrite Hta in Hcond. cbn in Hcond. rewrite Hcond. now rewrite Ha. }
  intros k H1 H2 H3 H4. rewrite Hother, Hb4 by assumption.
  unfold b2. now rewrite !dict_get_set_ne by congruence.
Qed.

Lemma prepare_base_data_raises (data : dict PyVal) (v : PyVal) :
  dict_get "context_data" data = Some v -> ~ is_dict v ->
  exists e, _prepare_base_data float_repr data = Raise e /\ exn_class e = "AttributeError".
Proof.
  intros Hv Hnd. unfold _prepare_base_data. cbv zeta.
  assert (Hget : forall k d, exists e,
            get_method v k d = Raise e /\ exn_class e = "AttributeError").
  { intros k d. destruct v; try (eexists; split; reflexivity).
    exfalso. apply Hnd. eexists. reflexivity. }
  assert (Hupd : forall u, exists e,
            update_method v u = Raise e /\ exn_class e = "AttributeError").
  { intros u. destruct v; try (eexists; split; reflexivity).
    exfalso. apply Hnd. eexists. reflexivity. }
  rewrite Hv. cbn [default from_option id].
  destruct (truthy (default PNone (dict_get "segmento" data))).
  2: { destruct (Hget "segmento" (PStr "mercado")) as (e & -> & He). cbn [bind]. eauto. }
  cbn [bind]. rewrite (dict_get_set_ne "segmento" "context_data") by discriminate.
  rewrite Hv. cbn [default from_option id].
  match goal with |- context [if truthy ?a then _ else _] => destruct (truthy a) end.
  2: { destruct (Hget "produto" (PStr "produto")) as (e & -> & He). cbn [bind]. eauto. }
  cbn [bind]. rewrite dict_mem_get.
  rewrite !(dict_get_set_ne _ "context_data") by discriminate.
  rewrite Hv.
  rewrite !(dict_get_set_ne _ "context_data") by discriminate.
  rewrite Hv. cbn [default from_option id].
  match goal with |- context [update_method v ?u] =>
    destruct (Hupd u) as (e & -> & He) end.
  cbn [bind]. eauto.
Qed.

(** X5.  [_prepare_base_data] fails exactly when the request has a
    ['context_data'] that is not a dict, and then with an [AttributeError].
    Otherwise it returns base data in which ['segmento'] and ['produto'] are
    the request's own values when truthy and else the context's (or the
    defaults ['mercado'] and ['produto']); ['context_data'] is a dict that
    carries these two values and keeps the other entries of the request's
    context; ['avatar_data'] is truthy, the request's own when that was
    truthy; every other key of the request is unchanged. *)
Theorem prepare_base_data_outcome (data : dict PyVal) :
  match dict_get "context_data" data with
  | Some (PDict _) | None =>
      exists base context avatar,
        _prepare_base_data float_repr data = Ok base /\
        dict_get "segmento" base = Some (chosen "segmento" "mercado" data) /\
        dict_get "produto" base = Some (chosen "produto" "produto" data) /\
        dict_get "context_data" base = Some (PDict context) /\
        dict_get "segmento" context = Some (chosen "segmento" "mercado" data) /\
        dict_get "produto" context = Some (chosen "produto" "produto" data) /\
        (forall k, k <> "segmento" -> k <> "produto" ->
                   dict_get k context = dict_get k (context_of data)) /\
        dict_get "avatar_data" base = Some avatar /\
        truthy avatar = true /\
        (forall a, dict_get "avatar_data" data = Some a -> truthy a = true -> avatar = a) /\
        (forall k, k <> "segmento" -> k <> "produto" -> k <> "context_data" ->
                   k <> "avatar_data" -> dict_get k base = dict_get k data)
  | Some _ =>
      exists e,
        _prepare_base_data float_repr data = Raise e /\ exn_class e = "AttributeError"
  end.
Proof.
  destruct (dict_get "context_data" data) as [v|] eqn:E.
  - destruct v;
      try (apply (prepare_base_data_raises data _ E); intros [d Hd]; discriminate Hd).
    apply prepare_base_data_lookups. unfold context_usable. now rewrite E.
  - apply prepare_base_data_lookups. unfold context_usable. now rewrite E.
Qed.

(** X6.  [_prepare_base_data] is idempotent: preparing data it has prepared
    returns them unchanged. *)
Theorem prepare_base_data_idempotent (data base : dict PyVal) :
  _prepare_base_data float_repr data = Ok base ->
  _prepare_base_data float_repr base = Ok base.
Proof.
  intros Hrun.
  assert (Hctx : context_usable data).
  { unfold context_usable. destruct (dict_get "context_data" data) as [v|] eqn:E; [|exact I].
    destruct v; try exact I;
      (destruct (prepare_base_data_raises data _ E) as (e & He & _);
       [intros [d Hd]; discriminate Hd|congruence]). }
  destruct (prepare_base_data_lookups data Hctx)
    as (base' & ctx & avatar & Hrun' & Bs & Bp & Bc & Cs & Cp & _ & Ba & Hta & _).
  rewrite Hrun in Hrun'. injection Hrun' as <-.
  set (S := chosen "segmento" "mercado" data) in *.
  set (P := chosen "produto" "produto" data) in *.
  unfold _prepare_base_data. cbv zeta.
  rewrite Bs, Bc. cbn [default from_option id get_method]. rewrite Cs.
  cbn [default from_option id].
  replace (if truthy S then Ok S else Ok S) with (Ok (A := PyVal) S)
    by now destruct (truthy S).
  cbn [bind]. rewrite (dict_set_same _ _ _ Bs).
  rewrite Bp, Bc. cbn [default from_option id get_method]. rewrite Cp.
  cbn [default from_option id].
  replace (if truthy P then Ok P else Ok P) with (Ok (A := PyVal) P)
    by now destruct (truthy P).
  cbn [bind]. rewrite (dict_set_same _ _ _ Bp).
  rewrite dict_mem_get, Bc. rewrite Bc.
  cbn [default from_option id update_method bind].
  unfold dict_update. cbn [fold_left fst snd].
  rewrite (dict_set_same _ _ _ Cs), (dict_set_same _ _ _ Cp), (dict_set_same _ _ _ Bc).
  rewrite dict_mem_get, Ba. cbn [default from_option id negb orb]. now rewrite Hta.
Qed.

End PrepareBaseData.

Section PrepareBaseDataExample.
Import Py ComponentOrchestrator PreparedRuns.

Lemma prepare_base_data_idempotent_witness :
  _prepare_base_data Runs.print_float prepared_job = Ok prepared_job.
Proof.
  apply (prepare_base_data_idempotent Runs.print_float Runs.fitness_job).
  vm_compute. reflexivity.
Defined.

End PrepareBaseDataExample.

(** ** The fallback payloads of the component orchestrator *)

Section LegacyFallbacks.
Import Py ComponentOrchestrator.
Variable float_repr : float -> string.

(** X7.  [execute_component_safely] hands back what the wrapped function
    returns, and answers an exception with the payload of
    [_create_component_fallback]: a dict with the exception's text under
    ['error'] and [fallback_used = True].  Normalisation leaves that payload
    unchanged and the validator accepts it for every component, while the
    report's status rule reads it as ['failed'] (as ['success'] only when the
    exception's text is empty). *)
Theorem execute_component_safely_outcome (component_name : string)
    (component_func : list PyVal -> dict PyVal -> result PyVal)
    (args : list PyVal) (kwargs : dict PyVal) (now : string) :
  let r := execute_component_safely component_name component_func args kwargs now in
  match component_func args kwargs with
  | Ok result => r = result
  | Raise e =>
      r = _create_component_fallback component_name (exn_str e) now /\
      dict_field "error" r = PStr (exn_str e) /\
      dict_field "fallback_used" r = PBool true /\
      (forall name, _normalize_component_result float_repr name r = r) /\
      (forall name, _validate_component_result name r T_dict = true) /\
      status_of r = PStr (if String.eqb (exn_str e) "" then "success" else "failed")
  end.
Proof.
  unfold execute_component_safely. cbv zeta.
  destruct (component_func args kwargs) as [result|e]; [reflexivity|].
  split; [reflexivity|]. split; [reflexivity|]. split; [reflexivity|].
  split; [intros name; reflexivity|]. split.
  - intros name. unfold _validate_component_result, _create_component_fallback. cbn.
    now destruct (String.eqb (exn_str e) "").
  - unfold status_of. cbn. now destruct (String.eqb (exn_str e) "").
Qed.

Variable generate_custom_drivers : PyVal -> PyVal -> PyVal -> result PyVal.

Lemma isinstance_dict (v : PyVal) : isinstance v T_dict = true -> is_dict v.
Proof. destruct v; try discriminate. intros _. eexists. reflexivity. Qed.

Lemma mental_drivers_try_dict (data : dict PyVal) (v : PyVal) :
  mental_drivers_try float_repr generate_custom_drivers data = Ok v -> is_dict v.
Proof.
  unfold mental_drivers_try. cbv zeta.
  repeat match goal with
         | |- (let* _ := ?r in _) = _ -> _ => destruct r; cbn [bind]; [|discriminate]
         end.
  match goal with |- context [isinstance ?r T_list] => destruct (isinstance r T_list) end.
  { intros [= <-]. eexists. reflexivity. }
  match goal with |- context [isinstance ?r T_dict] => destruct (isinstance r T_dict) eqn:E end.
  - intros [= <-]. now apply isinstance_dict.
  - intros [= <-]. eexists. reflexivity.
Qed.

Lemma mental_drivers_try_context (data : dict PyVal) :
  ~ context_usable data ->
  exists e, mental_drivers_try float_repr generate_custom_drivers data = Raise e /\
            (exn_class e = "AttributeError" \/ exn_class e = "TypeError").
Proof.
  unfold context_usable, mental_drivers_try. cbv zeta.
  destruct (dict_get "context_data" data) as [v|]; [|intros H; now destruct H].
  intros Hv. cbn [default from_option id].
  assert (Hget : forall k d, exists e,
            get_method v k d = Raise e /\ exn_class e = "AttributeError").
  { intros k d. destruct v; try (eexists; split; reflexivity). now destruct Hv. }
  assert (Hmap : exists e, mapping_items v = Raise e /\ exn_class e = "TypeError").
  { destruct v; try (eexists; split; reflexivity). now destruct Hv. }
  destruct (truthy (default PNone (dict_get "segmento" data))).
  2: { destruct (Hget "segmento" (PStr "mercado")) as (e & -> & He). cbn [bind]. eauto. }
  cbn [bind].
  destruct (truthy (default PNone (dict_get "produto" data))).
  2: { destruct (Hget "produto" (PStr "produto")) as (e & -> & He). cbn [bind]. eauto. }
  cbn [bind]. destruct Hmap as (e & -> & He). cbn [bind]. eauto.
Qed.

(** X8.  [_execute_mental_drivers] always returns a dict, which
    normalisation leaves unchanged.  When its [try] block raises, the result
    is the fallback payload with the exception's text and
    [fallback_used = True], which the validator accepts.  A request whose
    ['context_data'] is not a dict always takes that path, with an
    [AttributeError] or a [TypeError], before the driver generator is
    called. *)
Theorem mental_drivers_result (data : dict PyVal) :
  let r := ComponentOrchestrator._execute_mental_drivers float_repr generate_custom_drivers
             data in
  is_dict r /\
  _normalize_component_result float_repr "mental_drivers" r = r /\
  match mental_drivers_try float_repr generate_custom_drivers data with
  | Ok result => r = result
  | Raise e =>
      dict_field "error" r = PStr (exn_str e) /\
      dict_field "fallback_used" r = PBool true /\
      _validate_component_result "mental_drivers" r T_dict = true
  end /\
  match dict_get "context_data" data with
  | Some (PDict _) | None => True
  | Some _ =>
      exists e,
        mental_drivers_try float_repr generate_custom_drivers data = Raise e /\
        (exn_class e = "AttributeError" \/ exn_class e = "TypeError")
  end.
Proof.
  cbv zeta. unfold ComponentOrchestrator._execute_mental_drivers.
  assert (Hctx :
    match dict_get "context_data" data with
    | Some (PDict _) | None => True
    | Some _ =>
        exists e,
          mental_drivers_try float_repr generate_custom_drivers data = Raise e /\
          (exn_class e = "AttributeError" \/ exn_class e = "TypeError")
    end).
  { pose proof (mental_drivers_try_context data) as H. unfold context_usable in H.
    destruct (dict_get "context_data" data) as [[]|]; try exact I; apply H; tauto. }
  destruct (mental_drivers_try float_repr generate_custom_drivers data) as [v|e] eqn:E.
  - destruct (mental_drivers_try_dict data v E) as [d ->].
    split; [eexists; reflexivity|]. split; [reflexivity|]. split; [reflexivity|exact Hctx].
  - split; [eexists; reflexivity|]. split; [reflexivity|]. split; [|exact Hctx].
    split; [reflexivity|]. split; [reflexivity|].
    unfold _validate_component_result. cbn.
    now destruct (String.eqb (exn_str e) "").
Qed.

End LegacyFallbacks.

(** ** Resetting the AI providers *)

Section ResetFacts.
Import Py AIManager.

Lemma update_provider_get_ne (name other : string) (f : provider -> provider)
    (self : manager) :
  other <> name ->
  dict_get other (providers (update_provider name f self)) = dict_get other (providers self).
Proof.
  intros Hne. unfold update_provider.
  destruct (dict_get name (providers self)); [|reflexivity].
  cbn_manager. now rewrite dict_get_set_ne by congruence.
Qed.

Lemma reset_tables_invariant (name : string) (self : manager) :
  invariant self -> In name (dict_keys (providers self)) ->
  invariant (reset_tables name self).
Proof.
  intros [Hnd Hfa Her Hen Hti Hno] Hin. unfold reset_tables.
  split; cbn_manager; try assumption; now apply set_keys_aligned.
Qed.

Lemma reset_tables_providers (name : string) (self : manager) :
  providers (reset_tables name self) = providers self.
Proof. reflexivity. Qed.

Lemma reset_core (name : string) (self : manager) (p : provider) :
  invariant self -> dict_get name (providers self) = Some p ->
  let m :=
    reset_tables name
      (update_provider name (set_consecutive_failures 0)
         (update_provider name (set_error_count 0) self)) in
  invariant m /\
  dict_get name (providers m) = Some (cleared p) /\
  dict_get name (provider_failures m) = Some 0 /\
  dict_get name (last_error m) = Some None /\
  dict_get name (last_failure_time m) = Some None /\
  dict_get name (provider_enabled m) = Some true /\
  max_failures m = max_failures self /\
  (forall other, other <> name ->
     dict_get other (providers m) = dict_get other (providers self) /\
     dict_get other (provider_failures m) = dict_get other (provider_failures self) /\
     dict_get other (last_error m) = dict_get other (last_error self) /\
     dict_get other (last_failure_time m) = dict_get other (last_failure_time self) /\
     dict_get other (provider_enabled m) = dict_get other (provider_enabled self)).
Proof.
  intros Hinv Hp m.
  set (m1 := update_provider name (set_error_count 0) self).
  set (m2 := update_provider name (set_consecutive_failures 0) m1).
  assert (H1 : invariant m1) by now apply update_provider_invariant.
  assert (H2 : invariant m2) by now apply update_provider_invariant.
  assert (Hp1 : dict_get name (providers m1) = Some (set_error_count 0 p))
    by now apply update_provider_get.
  assert (Hp2 : dict_get name (providers m2) = Some (cleared p))
    by (unfold cleared, m2; now apply update_provider_get).
  destruct (update_provider_tables name (set_error_count 0) self) as (A1 & A2 & A3 & A4 & A5).
  destruct (update_provider_tables name (set_consecutive_failures 0) m1)
    as (B1 & B2 & B3 & B4 & B5).
  fold m1 in A1, A2, A3, A4, A5. fold m2 in B1, B2, B3, B4, B5.
  assert (Hin : In name (dict_keys (providers m2))) by (eapply dict_get_keys; eauto).
  split; [now apply reset_tables_invariant|].
  subst m. fold m1. fold m2. unfold reset_tables. cbn_manager.
  rewrite !dict_get_set_eq.
  repeat (split; [first [assumption|reflexivity|congruence]|]).
  intros other Hne.
  rewrite !dict_get_set_ne by congruence.
  unfold m2, m1. rewrite !update_provider_get_ne by assumption.
  fold m1. fold m2. now rewrite B1, B2, B3, B4, A1, A2, A3, A4.
Qed.

Lemma reset_core_view (name : string) (self : manager) (p : provider) :
  invariant self -> dict_get name (providers self) = Some p ->
  let m :=
    reset_tables name
      (update_provider name (set_consecutive_failures 0)
         (update_provider name (set_error_count 0) self)) in
  invariant m /\ max_failures m = max_failures self /\
  view m name = fresh_view (cleared p) /\
  (forall other, other <> name -> view m other = view self other).
Proof.
  intros Hinv Hp m.
  destruct (reset_core name self p Hinv Hp) as (Hi & E1 & E2 & E3 & E4 & E5 & Hm & Ho).
  fold m in Hi, E1, E2, E3, E4, E5, Hm, Ho.
  split; [exact Hi|]. split; [exact Hm|]. split.
  - unfold view, fresh_view. now rewrite E1, E2, E3, E4, E5.
  - intros other Hne. destruct (Ho other Hne) as (O1 & O2 & O3 & O4 & O5).
    unfold view. now rewrite O1, O2, O3, O4, O5.
Qed.

Lemma update_provider_view (name : string) (f : provider -> provider) (self : manager)
    (p : provider) :
  (forall q, p_last_failure_time (f q) = p_last_failure_time q) ->
  invariant self -> view self name = fresh_view p ->
  let m := update_provider name f self in
  invariant m /\ max_failures m = max_failures self /\
  view m name = fresh_view (f p) /\
  (forall other, other <> name -> view m other = view self other).
Proof.
  intros Hf Hinv Hv m.
  destruct (update_provider_tables name f self) as (A1 & A2 & A3 & A4 & A5).
  fold m in A1, A2, A3, A4, A5.
  unfold view, fresh_view in Hv. injection Hv as Hp H2 H3 H4 H5.
  split; [now apply update_provider_invariant|]. split; [exact A5|]. split.
  - unfold view, fresh_view. rewrite A1, A2, A3, A4, H2, H3, H4, H5. unfold m.
    now rewrite (update_provider_get name f self p Hp).
  - intros other Hne. unfold view. rewrite A1, A2, A3, A4. unfold m.
    now rewrite update_provider_get_ne.
Qed.

Lemma reset_entry_view (name : string) (self : manager) (p : provider) :
  invariant self -> dict_get name (providers self) = Some p ->
  invariant (reset_entry name self) /\
  max_failures (reset_entry name self) = max_failures self /\
  view (reset_entry name self) name = fresh_view (revived p) /\
  (forall other, other <> name -> view (reset_entry name self) other = view self other).
Proof.
  intros Hinv Hp. unfold reset_entry. cbv zeta.
  destruct (reset_core_view name self p Hinv Hp) as (Hi & Hm & Hv & Ho).
  set (m := reset_tables _ _) in *.
  assert (E : dict_get name (providers m) = Some (cleared p)).
  { unfold view, fresh_view in Hv. now injection Hv. }
  rewrite E. unfold revived. change (client (cleared p)) with (client p).
  destruct (truthy (client p)).
  - destruct (update_provider_view name (set_available true) m (cleared p)
                (fun q => eq_refl) Hi Hv) as (Hi' & Hm' & Hv' & Ho').
    split; [exact Hi'|]. split; [congruence|]. split; [exact Hv'|].
    intros other Hne. rewrite Ho' by assumption. now apply Ho.
  - split; [exact Hi|]. split; [exact Hm|]. split; [exact Hv|exact Ho].
Qed.

Lemma reset_named_view (name : string) (self : manager) (p : provider) :
  invariant self -> dict_get name (providers self) = Some p ->
  invariant (reset_named name self) /\
  max_failures (reset_named name self) = max_failures self /\
  view (reset_named name self) name = fresh_view (set_available true (cleared p)) /\
  (forall other, other <> name -> view (reset_named name self) other = view self other).
Proof.
  intros Hinv Hp. unfold reset_named, dict_mem. rewrite Hp. cbv zeta.
  destruct (reset_core_view name self p Hinv Hp) as (Hi & Hm & Hv & Ho).
  set (m := reset_tables _ _) in *.
  destruct (update_provider_view name (set_available true) m (cleared p)
              (fun q => eq_refl) Hi Hv) as (Hi' & Hm' & Hv' & Ho').
  split; [exact Hi'|]. split; [congruence|]. split; [exact Hv'|].
  intros other Hne. rewrite Ho' by assumption. now apply Ho.
Qed.

Lemma reset_entries_view (names : list string) (self : manager) :
  invariant self -> List.NoDup names ->
  (forall name, In name names -> In name (dict_keys (providers self))) ->
  let m := foldl (fun m name => reset_entry name m) self names in
  invariant m /\ max_failures m = max_failures self /\
  (forall name p, In name names -> dict_get name (providers self) = Some p ->
                  view m name = fresh_view (revived p)) /\
  (forall name, ~ In name names -> view m name = view self name).
Proof.
  revert self. induction names as [|name names IH]; intros self Hinv Hnd Hin m.
  - subst m. cbn. split; [exact Hinv|]. split; [reflexivity|].
    split; [intros name p []|reflexivity].
  - apply NoDup_cons_iff in Hnd as [Hfresh Hnd].
    destruct (dict_get_known name (providers self)) as [p Hp]; [apply Hin; now left|].
    destruct (reset_entry_view name self p Hinv Hp) as (Hi & Hm & Hv & Ho).
    assert (Hin' : forall n, In n names -> In n (dict_keys (providers (reset_entry name self)))).
    { intros n Hn. assert (Hne : n <> name) by (intros ->; contradiction).
      destruct (dict_get_known n (providers self)) as [q Hq]; [apply Hin; now right|].
      pose proof (Ho n Hne) as Hview. unfold view in Hview.
      injection Hview as Hq' _ _ _ _. rewrite Hq in Hq'. eapply dict_get_keys; eauto. }
    destruct (IH (reset_entry name self) Hi Hnd Hin') as (Hi2 & Hm2 & Hv2 & Ho2).
    subst m. cbn [foldl]. split; [exact Hi2|]. split; [congruence|]. split.
    + intros n q [<-|Hn] Hq.
      * rewrite Ho2 by assumption. rewrite Hp in Hq. now injection Hq as <-.
      * assert (Hne : n <> name) by (intros ->; contradiction).
        apply Hv2; [assumption|].
        pose proof (Ho n Hne) as Hview. unfold view in Hview.
        injection Hview as Hq' _ _ _ _. now rewrite Hq'.
    + intros n Hnot.
      assert (Hne : n <> name) by (intros ->; apply Hnot; now left).
      rewrite Ho2 by (intros H; apply Hnot; now right). now apply Ho.
Qed.

(** X9.  On a manager whose tables are aligned, [reset_provider_errors] with
    the name of a registered provider zeroes its counters, clears its error
    and failure time, enables it and marks it available whether or not it has
    a client, so that it is a candidate of the selection again; the other
    providers keep their entries.  Without a name (or with an empty one) every
    provider is reset in the same way, except that a provider that was not
    available becomes available only when it has a client. *)
Theorem reset_provider_errors_effect (self : manager) (name : string) (p : provider) :
  invariant self ->
  dict_get name (providers self) = Some p ->
  name <> "" ->
  (let one := reset_provider_errors self (Some name) in
   invariant one /\
   view one name = fresh_view (set_available true (cleared p)) /\
   (0 < max_failures self -> candidate one (name, set_available true (cleared p)) = true) /\
   (forall other, other <> name -> view one other = view self other)) /\
  (let every := reset_provider_errors self None in
   invariant every /\
   reset_provider_errors self (Some "") = every /\
   view every name = fresh_view (revived p) /\
   available (revived p) = available p || truthy (client p) /\
   (0 < max_failures self ->
    candidate every (name, revived p) = available p || truthy (client p))).
Proof.
  intros Hinv Hp Hname. split.
  - cbv zeta. unfold reset_provider_errors.
    destruct (String.eqb_spec name "") as [->|_]; [contradiction|]. cbn [negb].
    destruct (reset_named_view name self p Hinv Hp) as (Hi & Hm & Hv & Ho).
    split; [exact Hi|]. split; [exact Hv|]. split; [|exact Ho].
    intros Hmax. unfold candidate, enabled_of, failures_of. cbn [fst snd].
    unfold view, fresh_view in Hv. injection Hv as _ Hf _ _ He.
    rewrite He, Hf, Hm. cbn. now apply Z.ltb_lt.
  - cbv zeta. unfold reset_provider_errors. cbn [String.eqb negb].
    destruct (reset_entries_view (dict_keys (providers self)) self Hinv
                (inv_nodup _ Hinv) (fun _ H => H)) as (Hi & Hm & Hv & _).
    assert (Hin : In name (dict_keys (providers self))) by (eapply dict_get_keys; eauto).
    specialize (Hv name p Hin Hp).
    assert (Hav : available (revived p) = available p || truthy (client p)).
    { unfold revived. destruct (truthy (client p)); cbn; [now rewrite orb_true_r|].
      now rewrite orb_false_r. }
    split; [exact Hi|]. split; [reflexivity|]. split; [exact Hv|]. split; [exact Hav|].
    intros Hmax. unfold candidate, enabled_of, failures_of. cbn [fst snd].
    unfold view, fresh_view in Hv. injection Hv as _ Hf _ _ He.
    rewrite He, Hf, Hm, Hav. cbn. apply Z.ltb_lt in Hmax. rewrite Hmax.
    now rewrite !andb_true_r.
Qed.

End ResetFacts.

Section ResetExample.
Import Py AIManager ProviderRuns.

Lemma reset_provider_errors_effect_witness :
  let p := new_provider 2 (Some "llama3-70b-8192") [] 2 in
  (let one := reset_provider_errors rate_limited (Some "groq") in
   invariant one /\
   view one "groq" = fresh_view (set_available true (cleared p)) /\
   (0 < max_failures rate_limited ->
    candidate one ("groq", set_available true (cleared p)) = true) /\
   (forall other, other <> "groq" -> view one other = view rate_limited other)) /\
  (let every := reset_provider_errors rate_limited None in
   invariant every /\
   reset_provider_errors rate_limited (Some "") = every /\
   view every "groq" = fresh_view (revived p) /\
   available (revived p) = available p || truthy (client p) /\
   (0 < max_failures rate_limited ->
    candidate every ("groq", revived p) = available p || truthy (client p))).
Proof.
  apply (reset_provider_errors_effect rate_limited "groq" _ rate_limited_invariant);
    [reflexivity|discriminate].
Defined.

End ResetExample.

(** ** Generation with the AI providers *)

Section HuggingFaceRotation.
Import Py AIManager.
Variable float_repr : float -> string.
Variable requests_post : string -> string -> string -> Z -> result (Z * result PyVal).

#[local] Abbreviation hf_loop := (huggingface_loop float_repr requests_post).
#[local] Abbreviation hf_request := (huggingface_request float_repr requests_post).

Lemma list_index_in_range {A} (l : list A) (i : Z) :
  0 <= i < Z.of_nat (length l) -> exists x, list_index l i = Some x.
Proof.
  intros H. unfold list_index.
  replace ((0 <=? i) && (i <? Z.of_nat (length l))) with true
    by (symmetry; apply andb_true_iff; split; [apply Z.leb_le|apply Z.ltb_lt]; lia).
  destruct (nth_error l (Z.to_nat i)) eqn:E; [eauto|].
  apply nth_error_None in E. lia.
Qed.

Lemma range_S (k : nat) : range (S k) = 0 :: map (fun d => d + 1) (range k).
Proof.
  unfold range. cbn [seq map]. f_equal. rewrite <- seq_shift, !map_map.
  apply map_ext. intros a. lia.
Qed.

Lemma tried_from_S (ms : list string) (j : Z) (k : nat) :
  0 <= j < Z.of_nat (length ms) ->
  tried_from ms j (S k) =
  model_at ms j :: tried_from ms ((j + 1) mod Z.of_nat (length ms)) k.
Proof.
  intros Hj. unfold tried_from. rewrite range_S. cbn [map]. rewrite Z.add_0_r.
  f_equal. rewrite map_map. apply map_ext. intros d. unfold model_at. f_equal. f_equal.
  rewrite Z.add_mod_idemp_l by lia. f_equal. lia.
Qed.

Lemma logged_Ok (content content' : PyVal) : logged content = Ok content' -> content' = content.
Proof. unfold logged. destruct (py_len content); cbn [bind]; congruence. Qed.

Lemma huggingface_request_truthy (config : provider) (model prompt : string)
    (max_tokens : Z) (content : PyVal) :
  hf_request config model prompt max_tokens = Ok (Some content) -> truthy content = true.
Proof.
  unfold huggingface_request.
  destruct (subscript (client config) "base_url"); cbn [bind]; [|discriminate].
  destruct (subscript (client config) "api_key"); cbn [bind]; [|discriminate].
  destruct (requests_post _ _ _ _) as [[code json]|]; cbn [bind fst snd]; [|discriminate].
  destruct (code =? 200); [|discriminate].
  destruct json as [res_json|]; cbn [bind]; [|discriminate].
  destruct (subscript_index res_json 0) as [first|]; cbn [bind]; [|discriminate].
  destruct (get_method first "generated_text" (PStr "")) as [c|]; cbn [bind]; [|discriminate].
  destruct (truthy c) eqn:E; [|discriminate].
  destruct (logged c) as [c'|] eqn:L; cbn [bind]; [|discriminate].
  intros [= <-]. apply logged_Ok in L. now subst.
Qed.

Lemma update_provider_twice (name : string) (f g : provider -> provider) (self : manager)
    (p : provider) :
  dict_get name (providers self) = Some p ->
  g (f p) = g p ->
  update_provider name g (update_provider name f self) = update_provider name g self.
Proof.
  intros Hp Hgf. unfold update_provider. rewrite Hp. cbn_manager.
  rewrite dict_get_set_eq, dict_set_set, Hgf. reflexivity.
Qed.

Lemma huggingface_loop_rotation (turns : nat) (self : manager) (tried : list string)
    (prompt : string) (max_tokens : Z) (config : provider) :
  dict_get "huggingface" (providers self) = Some config ->
  0 <= current_model_index config < Z.of_nat (length (models config)) ->
  (0 < turns)%nat ->
  let n := Z.of_nat (length (models config)) in
  let i := current_model_index config in
  let r := hf_loop turns self tried prompt max_tokens in
  exists k : nat,
    (1 <= k <= turns)%nat /\
    hf_tried r = tried ++ tried_from (models config) i k /\
    hf_after r =
      update_provider "huggingface" (set_current_model_index ((i + Z.of_nat k) mod n)) self /\
    match hf_result r with
    | Ok content => truthy content = true
    | Raise e => k = turns /\ e = Exn "Exception" "Todos os modelos HuggingFace falharam"
    end.
Proof.
  revert self tried config.
  induction turns as [|turns IH]; intros self tried config Hc Hi Hturns; [lia|].
  cbv zeta. cbn [huggingface_loop]. rewrite Hc.
  destruct (list_index_in_range (models config) _ Hi) as [m Hm]. rewrite Hm.
  set (n := Z.of_nat (length (models config))) in *.
  set (i := current_model_index config) in *.
  assert (Hmodel : model_at (models config) i = m).
  { unfold model_at. fold n. rewrite Z.mod_small by lia. fold i in Hm. now rewrite Hm. }
  set (self1 := update_provider "huggingface" (set_current_model_index ((i + 1) mod n)) self).
  assert (Hc1 : dict_get "huggingface" (providers self1) =
                Some (set_current_model_index ((i + 1) mod n) config))
    by now apply update_provider_get.
  assert (Hone :
    exists k : nat,
      (1 <= k <= S turns)%nat /\
      tried ++ [m] = tried ++ tried_from (models config) i k /\
      self1 = update_provider "huggingface"
                (set_current_model_index ((i + Z.of_nat k) mod n)) self).
  { exists 1%nat. split; [lia|]. split; [|reflexivity].
    f_equal. rewrite tried_from_S by (fold n; fold i; lia). now rewrite Hmodel. }
  assert (Hrec :
    match hf_result (hf_loop turns self1 (tried ++ [m]) prompt max_tokens) with
    | Ok content => True
    | Raise _ => True
    end -> 
    exists k : nat,
      (1 <= k <= S turns)%nat /\
      hf_tried (hf_loop turns self1 (tried ++ [m]) prompt max_tokens) =
        tried ++ tried_from (models config) i k /\
      hf_after (hf_loop turns self1 (tried ++ [m]) prompt max_tokens) =
        update_provider "huggingface"
          (set_current_model_index ((i + Z.of_nat k) mod n)) self /\
      match hf_result (hf_loop turns self1 (tried ++ [m]) prompt max_tokens) with
      | Ok content => truthy content = true
      | Raise e => k = S turns /\ e = Exn "Exception" "Todos os modelos HuggingFace falharam"
      end).
  { intros _. destruct turns as [|turns'].
    - cbn [huggingface_loop hf_tried hf_after hf_result].
      destruct Hone as (k & Hk & Ht & Hs). exists 1%nat. split; [lia|].
      assert (k = 1%nat) by lia. subst k. split; [exact Ht|]. split; [exact Hs|].
      split; reflexivity.
    - assert (Hi1 : 0 <= current_model_index (set_current_model_index ((i + 1) mod n) config)
                    < Z.of_nat (length (models (set_current_model_index ((i + 1) mod n) config)))).
      { cbn [current_model_index models set_current_model_index]. fold n.
        apply Z.mod_pos_bound. lia. }
      destruct (IH self1 (tried ++ [m]) _ Hc1 Hi1 ltac:(lia)) as (k & Hk & Ht & Hs & Hr).
      cbn [current_model_index models set_current_model_index] in Ht, Hs. fold n in Ht, Hs.
      exists (S k). split; [lia|]. split; [|split].
      + rewrite Ht, <- app_assoc. f_equal. cbn [app].
        rewrite tried_from_S by (fold n; fold i; lia). fold n. fold i. now rewrite Hmodel.
      + rewrite Hs. unfold self1.
        rewrite (update_provider_twice _ _ _ _ config Hc) by reflexivity.
        f_equal. f_equal. rewrite Z.add_mod_idemp_l by lia. f_equal. lia.
      + destruct (hf_result _); [exact Hr|]. destruct Hr as [-> ->]. split; reflexivity. }
  destruct (hf_request config m prompt max_tokens) as [[content|]|e] eqn:Ereq.
  - cbn [hf_tried hf_after hf_result]. destruct Hone as (k & Hk & Ht & Hs).
    exists k. split; [exact Hk|]. split; [exact Ht|]. split; [exact Hs|].
    now apply huggingface_request_truthy in Ereq.
  - apply Hrec. now destruct (hf_result _).
  - apply Hrec. now destruct (hf_result _).
Qed.

Lemma set_current_model_index_same (config : provider) :
  set_current_model_index (current_model_index config) config = config.
Proof. now destruct config. Qed.

Lemma update_provider_same (name : string) (f : provider -> provider) (self : manager)
    (p : provider) :
  dict_get name (providers self) = Some p -> f p = p -> update_provider name f self = self.
Proof.
  intros Hp Hf. unfold update_provider. rewrite Hp, Hf, (dict_set_same _ _ _ Hp).
  now destruct self.
Qed.

(** X10.  [_generate_with_huggingface] goes through the models in rotation.
    From a model index within range it tries at least one and at most all of
    the models, each once, starting at the saved index and in list order
    (wrapping around), and it leaves the index just after the last model
    tried.  A returned content is truthy.  When every model failed it raises
    ['Todos os modelos HuggingFace falharam'] and the manager is as before the
    call: the index is back where it started. *)
Theorem huggingface_rotation (self : manager) (prompt : string) (max_tokens : Z)
    (config : provider) :
  dict_get "huggingface" (providers self) = Some config ->
  0 <= current_model_index config < Z.of_nat (length (models config)) ->
  let n := Z.of_nat (length (models config)) in
  let i := current_model_index config in
  let r := _generate_with_huggingface float_repr requests_post self prompt max_tokens in
  exists k : nat,
    (1 <= k <= length (models config))%nat /\
    hf_tried r = tried_from (models config) i k /\
    hf_after r =
      update_provider "huggingface" (set_current_model_index ((i + Z.of_nat k) mod n)) self /\
    0 <= (i + Z.of_nat k) mod n < n /\
    match hf_result r with
    | Ok content => truthy content = true
    | Raise e =>
        e = Exn "Exception" "Todos os modelos HuggingFace falharam" /\
        k = length (models config) /\
        hf_after r = self
    end.
Proof.
  intros Hc Hi. cbv zeta. unfold _generate_with_huggingface. rewrite Hc.
  destruct (huggingface_loop_rotation (length (models config)) self [] prompt max_tokens
              config Hc Hi ltac:(lia)) as (k & Hk & Ht & Hs & Hr).
  exists k. split; [exact Hk|]. split; [exact Ht|]. split; [exact Hs|].
  split; [apply Z.mod_pos_bound; lia|].
  destruct (hf_result _) as [content|e]; [exact Hr|].
  destruct Hr as [-> ->]. split; [reflexivity|]. split; [reflexivity|].
  rewrite Hs. apply (update_provider_same _ _ _ config Hc).
  replace ((current_model_index config + Z.of_nat (length (models config)))
           mod Z.of_nat (length (models config)))
    with (current_model_index config); [apply set_current_model_index_same|].
  replace (current_model_index config + Z.of_nat (length (models config)))
    with (current_model_index config + 1 * Z.of_nat (length (models config))) by lia.
  rewrite Z.mod_add by lia. symmetry. apply Z.mod_small. lia.
Qed.

End HuggingFaceRotation.

Section HuggingFaceExample.
Import Py AIManager GenerationRuns.

Lemma huggingface_rotation_witness :
  let r := _generate_with_huggingface Runs.print_float zephyr_loading hf_ready
             "prompt" 8192 in
  (exists k : nat,
     (1 <= k <= 2)%nat /\
     hf_tried r =
       tried_from ["HuggingFaceH4/zephyr-7b-beta"; "google/flan-t5-base"] 0 k /\
     hf_after r =
       update_provider "huggingface"
         (set_current_model_index ((0 + Z.of_nat k) mod 2)) hf_ready /\
     0 <= (0 + Z.of_nat k) mod 2 < 2 /\
     match hf_result r with
     | Ok content => truthy content = true
     | Raise e =>
         e = Exn "Exception" "Todos os modelos HuggingFace falharam" /\
         k = 2%nat /\
         hf_after r = hf_ready
     end) /\
  hf_tried r = ["HuggingFaceH4/zephyr-7b-beta"; "google/flan-t5-base"] /\
  hf_result r = Ok (PStr "analysis by flan").
Proof.
  split.
  - apply (huggingface_rotation Runs.print_float zephyr_loading hf_ready "prompt" 8192
             (enable_with hf_client
                (new_provider 4 None
                   ["HuggingFaceH4/zephyr-7b-beta"; "google/flan-t5-base"] 3))).
    + reflexivity.
    + cbn. lia.
  - vm_compute. split; reflexivity.
Defined.

End HuggingFaceExample.


Section GenerationFacts.
Import Py AIManager.
Variable float_repr : float -> string.
Variable env : environment.
Variable gemini_generate_content : PyVal -> string -> Z -> result PyVal.
Variable groq_generate : PyVal -> string -> Z -> result PyVal.
Variable openai_create : PyVal -> option string -> string -> Z -> result PyVal.
Variable requests_post : string -> string -> string -> Z -> result (Z * result PyVal).
Variable no_provider_message : string.

#[local] Abbreviation call_provider :=
  (_call_provider float_repr gemini_generate_content groq_generate openai_create
     requests_post).
#[local] Abbreviation generate :=
  (generate_analysis float_repr env gemini_generate_content groq_generate openai_create
     requests_post no_provider_message).

Lemma huggingface_loop_invariant (turns : nat) (self : manager) (tried : list string)
    (prompt : string) (max_tokens : Z) :
  invariant self ->
  invariant (hf_after (huggingface_loop float_repr requests_post turns self tried
                         prompt max_tokens)) /\
  dict_keys (providers (hf_after (huggingface_loop float_repr requests_post turns self
                                     tried prompt max_tokens))) =
  dict_keys (providers self).
Proof.
  revert self tried. induction turns as [|turns IH]; intros self tried Hinv;
    cbn [huggingface_loop]; [now split|].
  destruct (dict_get "huggingface" (providers self)) as [config|]; [|now split].
  destruct (list_index (models config) (current_model_index config)) as [m|]; [|now split].
  set (self1 := update_provider "huggingface" _ self).
  assert (H1 : invariant self1) by now apply update_provider_invariant.
  assert (K1 : dict_keys (providers self1) = dict_keys (providers self))
    by apply update_provider_keys.
  destruct (huggingface_request _ _ _ _ _ _) as [[content|]|e];
    cbn [hf_after]; [now split| |];
    (destruct (IH self1 (tried ++ [m]) H1) as [Hi Hk]; split; [exact Hi|congruence]).
Qed.

Lemma call_provider_invariant (self : manager) (name prompt : string) (max_tokens : Z) :
  invariant self ->
  invariant (fst (call_provider self name prompt max_tokens)) /\
  dict_keys (providers (fst (call_provider self name prompt max_tokens))) =
  dict_keys (providers self).
Proof.
  intros Hinv. unfold _call_provider.
  repeat (match goal with |- context [if ?b then _ else _] => destruct b end;
          [now split|]).
  match goal with |- context [if ?b then _ else _] => destruct b end; [|now split].
  cbn [fst]. unfold _generate_with_huggingface.
  destruct (dict_get "huggingface" (providers self)); [|now split].
  now apply huggingface_loop_invariant.
Qed.

Lemma head_In {A} (l : list A) (x : A) : head l = Some x -> In x l.
Proof. destruct l; [discriminate|]. intros [= ->]. now left. Qed.

Lemma handle_provider_failure_returns (self : manager) (name : string) (e : exn)
    (now later : float) :
  invariant self -> In name (dict_keys (providers self)) ->
  exists out,
    _handle_provider_failure env self name e now later = Ok out /\
    invariant (after out) /\
    dict_keys (providers (after out)) = dict_keys (providers self) /\
    (forall n, next_provider out = Some n ->
               n <> name /\ In n (dict_keys (providers self))).
Proof.
  intros Hinv Hin.
  assert (Hf : exists k0, dict_get name (provider_failures self) = Some k0).
  { apply dict_get_known. now rewrite (inv_failures _ Hinv). }
  destruct Hf as [k0 Hk0]. destruct (dict_get_known _ _ Hin) as [p Hp].
  destruct (_handle_provider_failure env self name e now later) as [out|e'] eqn:E.
  - exists out. split; [reflexivity|].
    split; [eapply handle_provider_failure_invariant; eauto|].
    split; [eapply handle_provider_failure_keys; eauto|].
    revert E. unfold _handle_provider_failure.
    rewrite (item_Some _ _ _ Hk0). cbn [bind]. cbn_manager.
    rewrite (item_Some _ _ _ Hp). cbn [bind].
    set (s1 := with_last_error _ _).
    assert (Hinv1 : invariant s1).
    { destruct Hinv as [Hnd Hfa Her Hen Hti Hno].
      split; cbn_manager; try assumption; now apply set_keys_aligned. }
    set (s2 := update_provider name _ s1).
    assert (Hinv2 : invariant s2) by (apply update_provider_invariant; [reflexivity|exact Hinv1]).
    assert (Hkeys : dict_keys (providers s2) = dict_keys (providers self)).
    { unfold s2. now rewrite update_provider_keys. }
    assert (Hin2 : In name (dict_keys (providers s2))) by now rewrite Hkeys.
    assert (Hinv3 :
      invariant
        (with_last_failure_time
           (dict_set name (Some now) (last_failure_time s2))
           (with_provider_enabled (dict_set name false (provider_enabled s2)) s2))).
    { destruct Hinv2 as [Hnd Hfa Her Hen Hti Hno].
      split; cbn_manager; try assumption; now apply set_keys_aligned. }
    assert (Hnext : forall (s : manager) n,
      dict_keys (providers s) = dict_keys (providers self) ->
      head (map fst
              (sort_by (rank s)
                 (List.filter
                    (fun np => negb (existsb (String.eqb (fst np)) [name])
                               && candidate s np)
                    (providers s)))) = Some n ->
      n <> name /\ In n (dict_keys (providers self))).
    { intros s n Hks Hhead.
      apply head_In, in_map_iff in Hhead as (np & <- & Hnp).
      apply sort_by_In, filter_In in Hnp as [Hnp Hc].
      apply andb_true_iff in Hc as [Hex _]. split.
      - intros Heq. cbn in Hex. rewrite Heq, String.eqb_refl in Hex. discriminate.
      - rewrite <- Hks. unfold dict_keys. now apply in_map. }
    destruct (is_rate_limit (exn_str e)); cbn [fst snd];
      [|destruct (max_failures s2 <=? k0 + 1); cbn [fst snd]];
      rewrite get_next_available_provider_eq by assumption;
      cbn [bind fst snd]; intros [= <-]; cbn [next_provider];
      intros n Hn; refine (Hnext _ n _ Hn); exact Hkeys.
  - exfalso. revert E. unfold _handle_provider_failure.
    rewrite (item_Some _ _ _ Hk0). cbn [bind]. cbn_manager.
    rewrite (item_Some _ _ _ Hp). cbn [bind].
    set (s1 := with_last_error _ _).
    assert (Hinv1 : invariant s1).
    { destruct Hinv as [Hnd Hfa Her Hen Hti Hno].
      split; cbn_manager; try assumption; now apply set_keys_aligned. }
    set (s2 := update_provider name _ s1).
    assert (Hinv2 : invariant s2) by (apply update_provider_invariant; [reflexivity|exact Hinv1]).
    assert (Hin2 : In name (dict_keys (providers s2))).
    { unfold s2. now rewrite update_provider_keys. }
    assert (Hinv3 :
      invariant
        (with_last_failure_time
           (dict_set name (Some now) (last_failure_time s2))
           (with_provider_enabled (dict_set name false (provider_enabled s2)) s2))).
    { destruct Hinv2 as [Hnd Hfa Her Hen Hti Hno].
      split; cbn_manager; try assumption; now apply set_keys_aligned. }
    destruct (is_rate_limit (exn_str e)); cbn [fst snd];
      [|destruct (max_failures s2 <=? k0 + 1); cbn [fst snd]];
      rewrite get_next_available_provider_eq by assumption;
      cbn [bind fst snd]; discriminate.
Qed.

Lemma get_best_provider_member (self self1 : manager) (t : float) (name : string) :
  invariant self ->
  get_best_provider env self t = Ok (self1, Some name) ->
  invariant self1 /\ In name (dict_keys (providers self1)) /\
  dict_keys (providers self1) = dict_keys (providers self).
Proof.
  intros Hinv Hbest.
  split; [eapply get_best_provider_invariant; eauto|].
  split; [|eapply get_best_provider_keys; eauto].
  revert Hbest. unfold get_best_provider.
  pose proof (ranked_providers_eq env self t Hinv) as H.
  destruct (List.filter (candidate self) (providers self)) eqn:E.
  - destruct H as (m & _ & _ & ->). cbn [bind fst snd]. intros [= <- Hhead].
    apply head_In, in_map_iff in Hhead as (np & <- & Hnp).
    apply sort_by_In, filter_In in Hnp as [Hnp _]. unfold dict_keys. now apply in_map.
  - rewrite H. cbn [bind fst snd]. intros [= <- Hhead].
    apply head_In, in_map_iff in Hhead as (np & <- & Hnp).
    change (insert_by (rank self) p (sort_by (rank self) l))
      with (sort_by (rank self) (p :: l)) in Hnp.
    apply sort_by_In in Hnp. rewrite <- E in Hnp. apply filter_In in Hnp as [Hnp _].
    unfold dict_keys. now apply in_map.
Qed.

#[local] Abbreviation try_ :=
  (try_provider float_repr env gemini_generate_content groq_generate openai_create
     requests_post).

Lemma try_provider_outcome (self : manager) (name prompt : string) (max_tokens : Z)
    (empty_message : string) (on_failure : failure_outcome -> PyVal) (t : clock) :
  invariant self -> In name (dict_keys (providers self)) ->
  exists self' value,
    try_ self name prompt max_tokens empty_message on_failure t = Ok (self', value) /\
    invariant self' /\
    dict_keys (providers self') = dict_keys (providers self) /\
    match snd (call_provider self name prompt max_tokens) with
    | Ok v =>
        if truthy v then value = v
        else exists out, value = on_failure out /\
                         forall n, next_provider out = Some n ->
                                   n <> name /\ In n (dict_keys (providers self))
    | Raise _ =>
        exists out, value = on_failure out /\
                    forall n, next_provider out = Some n ->
                              n <> name /\ In n (dict_keys (providers self))
    end.
Proof.
  intros Hinv Hin. unfold try_provider. cbv zeta.
  destruct (call_provider_invariant self name prompt max_tokens Hinv) as [Hi Hk].
  set (called := call_provider self name prompt max_tokens) in *.
  assert (Hin' : In name (dict_keys (providers (fst called)))) by now rewrite Hk.
  assert (Hfail : forall e,
    exists self' value,
      (let* out := _handle_provider_failure env (fst called) name e
                     (at_failure t) (at_fallback t) in
       Ok (after out, on_failure out)) = Ok (self', value) /\
      invariant self' /\
      dict_keys (providers self') = dict_keys (providers self) /\
      exists out, value = on_failure out /\
                  forall n, next_provider out = Some n ->
                            n <> name /\ In n (dict_keys (providers self))).
  { intros e.
    destruct (handle_provider_failure_returns (fst called) name e (at_failure t)
                (at_fallback t) Hi Hin') as (out & -> & Hio & Hko & Hn).
    cbn [bind]. exists (after out), (on_failure out).
    split; [reflexivity|]. split; [exact Hio|]. split; [congruence|].
    exists out. split; [reflexivity|]. intros n H. rewrite <- Hk. now apply Hn. }
  destruct (snd called) as [v|e].
  - destruct (truthy v) eqn:Ev.
    + exists (_record_success (fst called) name (at_success t)), v.
      split; [reflexivity|]. split; [now apply record_success_invariant|].
      split; [|reflexivity]. now rewrite record_success_keys.
    + destruct (Hfail (Exn "Exception" empty_message)) as (s' & value & H1 & H2 & H3 & H4).
      exists s', value. auto.
  - destruct (Hfail e) as (s' & value & H1 & H2 & H3 & H4). exists s', value. auto.
Qed.

(** X11.  [generate_analysis] with a requested provider never falls back to
    another one.  On a manager whose tables are aligned it returns without
    raising; it calls the requested provider, once, only when that provider
    is registered, available and enabled, and calls no other; and its value
    is the provider's own answer when that is truthy and [None] in every other
    case (unknown, unavailable or disabled provider, empty answer,
    exception). *)
Theorem generate_analysis_requested (self : manager) (name prompt : string)
    (max_tokens : Z) (t : clock) :
  invariant self ->
  name <> "" ->
  let r := generate self prompt max_tokens (Some name) t in
  exists self' value,
    snd r = Ok (self', value) /\
    invariant self' /\
    match dict_get name (providers self) with
    | Some config =>
        if available config && enabled_of self name then
          fst r = [name] /\
          match snd (call_provider self name prompt max_tokens) with
          | Ok v => if truthy v then value = v else value = PNone
          | Raise _ => value = PNone
          end
        else fst r = [] /\ self' = self /\ value = PNone
    | None => fst r = [] /\ self' = self /\ value = PNone
    end.
Proof.
  intros Hinv Hname. cbv zeta. unfold generate_analysis.
  destruct (String.eqb_spec name "") as [->|_]; [contradiction|].
  destruct (dict_get name (providers self)) as [config|] eqn:Hc.
  2: { exists self, PNone. auto. }
  destruct (available config); cbn [andb].
  2: { exists self, PNone. auto. }
  pose proof (item_enabled self (name, config) Hinv (dict_get_Some_In _ _ _ Hc)) as He.
  cbn [fst] in He. rewrite He.
  destruct (enabled_of self name).
  2: { exists self, PNone. auto. }
  cbn [fst snd].
  destruct (try_provider_outcome self name prompt max_tokens "Resposta vazia"
              (fun _ => PNone) t Hinv (dict_get_keys _ _ _ Hc))
    as (self' & value & Htry & Hi & _ & Hv).
  exists self', value. split; [exact Htry|]. split; [exact Hi|]. split; [reflexivity|].
  destruct (snd (call_provider self name prompt max_tokens)) as [v|e].
  - destruct (truthy v); [exact Hv|]. now destruct Hv as (out & -> & _).
  - now destruct Hv as (out & -> & _).
Qed.

(** X12.  [generate_analysis] without a requested provider (or with an empty
    name) calls the provider [get_best_provider] selects, and no other.  When
    that call returns a truthy answer the answer is returned.  When it raises
    or answers with something empty, the method returns what
    [_handle_provider_failure] returns, which is not a generated text: it is
    [None] or the name of another provider, and that provider is not called.
    When the selection finds no provider the method raises. *)
Theorem generate_analysis_fallback_answer (self : manager) (prompt : string)
    (max_tokens : Z) (t : clock) :
  invariant self ->
  ~ In "" (dict_keys (providers self)) ->
  let r := generate self prompt max_tokens None t in
  generate self prompt max_tokens (Some "") t = r /\
  match get_best_provider env self (at_selection t) with
  | Ok (self1, Some name) =>
      fst r = [name] /\
      exists self' value,
        snd r = Ok (self', value) /\
        invariant self' /\
        match snd (call_provider self1 name prompt max_tokens) with
        | Ok v => if truthy v then value = v else names_another self name value
        | Raise _ => names_another self name value
        end
  | Ok (self1, None) => r = ([], Raise (Exn "Exception" no_provider_message))
  | Raise _ => False
  end.
Proof.
  intros Hinv Hnonempty.
  cbv zeta. split; [reflexivity|]. unfold generate_analysis.
  destruct (get_best_provider env self (at_selection t)) as [[self1 [name|]]|e] eqn:Hb.
  - destruct (get_best_provider_member self self1 _ name Hinv Hb) as (Hi1 & Hin1 & Hk1).
    assert (Hne : name <> "").
    { intros ->. apply Hnonempty. now rewrite <- Hk1. }
    destruct (String.eqb_spec name "") as [->|_]; [contradiction|].
    cbn [fst snd]. split; [reflexivity|].
    destruct (try_provider_outcome self1 name prompt max_tokens "Resposta vazia do provedor"
                (fun out => name_or_none (next_provider out)) t Hi1 Hin1)
      as (self' & value & Htry & Hi & _ & Hv).
    exists self', value. split; [exact Htry|]. split; [exact Hi|].
    assert (Hnames : forall out,
      (forall n, next_provider out = Some n ->
                 n <> name /\ In n (dict_keys (providers self1))) ->
      names_another self name (name_or_none (next_provider out))).
    { intros out Hn. unfold names_another. destruct (next_provider out) as [n|]; [|now left].
      right. exists n. destruct (Hn n eq_refl) as [H1 H2].
      split; [reflexivity|]. split; [exact H1|]. now rewrite <- Hk1. }
    destruct (snd (call_provider self1 name prompt max_tokens)) as [v|e].
    + destruct (truthy v); [exact Hv|]. destruct Hv as (out & -> & Hn). now apply Hnames.
    + destruct Hv as (out & -> & Hn). now apply Hnames.
  - reflexivity.
  - unfold get_best_provider in Hb.
    pose proof (ranked_providers_eq env self (at_selection t) Hinv) as H.
    destruct (List.filter (candidate self) (providers self)).
    + destruct H as (m & _ & _ & H). rewrite H in Hb. discriminate Hb.
    + rewrite H in Hb. discriminate Hb.
Qed.

End GenerationFacts.

Section GenerationExamples.
Import Py AIManager GenerationRuns.

Lemma generate_analysis_requested_witness :
  (let r := generate (Some "gemini") in
   exists self' value,
     snd r = Ok (self', value) /\
     invariant self' /\
     match dict_get "gemini" (providers started) with
     | Some config =>
         if available config && enabled_of started "gemini" then
           fst r = ["gemini"] /\
           match snd (_call_provider Runs.print_float gemini_limited groq_answers
                        openai_down no_network started "gemini" "prompt" 8192) with
           | Ok v => if truthy v then value = v else value = PNone
           | Raise _ => value = PNone
           end
         else fst r = [] /\ self' = started /\ value = PNone
     | None => fst r = [] /\ self' = started /\ value = PNone
     end) /\
  fst (generate (Some "gemini")) = ["gemini"] /\
  returned (generate (Some "gemini")) = Some PNone /\
  returned (generate (Some "groq")) = Some (PStr "analysis by groq").
Proof.
  split.
  - apply (generate_analysis_requested Runs.print_float gemini_and_groq gemini_limited
             groq_answers openai_down no_network "no provider" started "gemini" "prompt"
             8192 readings).
    + apply init_invariant.
    + discriminate.
  - vm_compute. repeat split.
Defined.

Lemma generate_analysis_fallback_answer_witness :
  (let r := generate None in
   generate (Some "") = r /\
   match get_best_provider gemini_and_groq started (at_selection readings) with
   | Ok (self1, Some name) =>
       fst r = [name] /\
       exists self' value,
         snd r = Ok (self', value) /\
         invariant self' /\
         match snd (_call_provider Runs.print_float gemini_limited groq_answers
                      openai_down no_network self1 name "prompt" 8192) with
         | Ok v => if truthy v then value = v else names_another started name value
         | Raise _ => names_another started name value
         end
   | Ok (self1, None) => r = ([], Raise (Exn "Exception" "no provider"))
   | Raise _ => False
   end) /\
  fst (generate None) = ["gemini"] /\
  returned (generate None) = Some (PStr "groq").
Proof.
  split.
  - apply (generate_analysis_fallback_answer Runs.print_float gemini_and_groq
             gemini_limited groq_answers openai_down no_network "no provider" started
             "prompt" 8192 readings).
    + apply init_invariant.
    + vm_compute. intros [H|[H|[H|[H|[]]]]]; discriminate H.
  - vm_compute. split; reflexivity.
Defined.

End GenerationExamples.

(** ** The rotation of the Google keys *)

Section RotationFacts.
Import Py GoogleAPIRotation.

Lemma key_config_eq (api_key cx name : string) :
  key_config api_key cx name = [("api_key", api_key); ("cx", cx); ("name", name)].
Proof. reflexivity. Qed.

Lemma both_set_Some (a b : option string) (k c : string) :
  both_set a b = Some (k, c) -> k <> "" /\ c <> "".
Proof.
  unfold both_set. destruct a as [x|], b as [y|]; try discriminate.
  destruct (String.eqb_spec x ""), (String.eqb_spec y ""); cbn; try discriminate.
  intros [= <- <-]. now split.
Qed.

Lemma load_api_keys_loaded (getenv : string -> option string) :
  Forall loaded_key (_load_api_keys getenv).
Proof.
  unfold _load_api_keys, google_keys. cbn [flat_map].
  assert (H : forall a b n, Forall loaded_key
            (match both_set a b with Some (k, c) => [key_config k c n] | None => [] end)).
  { intros a b n. destruct (both_set a b) as [[k c]|] eqn:E; [|constructor].
    apply both_set_Some in E. constructor; [|constructor].
    exists k, c, n. now rewrite key_config_eq. }
  match goal with |- Forall _ (match ?l with _ => _ end) =>
    assert (Hl : Forall loaded_key l)
      by (repeat (apply Forall_app; split); first [apply H|constructor]);
    destruct l eqn:El; [|exact Hl] end.
  apply H.
Qed.

Lemma loaded_key_name (c : dict string) :
  loaded_key c -> exists name, dict_get "name" c = Some name.
Proof. intros (k & cx & n & -> & _). now exists n. Qed.

Lemma loaded_key_no_engine (c : dict string) :
  loaded_key c -> dict_get "search_engine_id" c = None.
Proof. now intros (k & cx & n & -> & _). Qed.

(** *** The invariant *)

Lemma consistent_spec (self : rotation) :
  consistent self = true <->
  Forall (fun c => tracked self c = true) (api_keys self) /\
  match api_keys self with
  | [] => key_usage self = []
  | _ => 0 <= current_key_index self < Z.of_nat (length (api_keys self))
  end.
Proof.
  unfold consistent. rewrite andb_true_iff, forallb_forall, List.Forall_forall.
  split; intros [H1 H2]; (split; [exact H1|]).
  - destruct (api_keys self); [now destruct (key_usage self)|].
    apply andb_true_iff in H2 as [Ha Hb]. apply Z.leb_le in Ha. apply Z.ltb_lt in Hb.
    now split.
  - destruct (api_keys self); [now rewrite H2|].
    apply andb_true_iff. split; [apply Z.leb_le|apply Z.ltb_lt]; lia.
Qed.

Lemma tracked_usage (self : rotation) (u : dict usage) (c : dict string) :
  (forall n, dict_mem n (key_usage self) = true -> dict_mem n u = true) ->
  tracked self c = true -> tracked (with_key_usage u self) c = true.
Proof.
  unfold tracked. intros H. cbn. destruct (dict_get "name" c); [apply H|easy].
Qed.

Lemma consistent_usage (self : rotation) (u : dict usage) :
  (forall n, dict_mem n (key_usage self) = true -> dict_mem n u = true) ->
  (key_usage self = [] -> u = []) ->
  consistent self = true -> consistent (with_key_usage u self) = true.
Proof.
  intros Hm He. rewrite !consistent_spec. cbn. intros [H1 H2]. split.
  - revert H1. apply List.Forall_impl. intros c. now apply tracked_usage.
  - destruct (api_keys self); [now apply He|exact H2].
Qed.

Lemma consistent_index (self : rotation) (i : Z) :
  (api_keys self <> [] -> 0 <= i < Z.of_nat (length (api_keys self))) ->
  consistent self = true -> consistent (with_current_key_index i self) = true.
Proof.
  intros Hi. rewrite !consistent_spec. cbn. intros [H1 H2]. split; [exact H1|].
  destruct (api_keys self); [exact H2|]. now apply Hi.
Qed.

Lemma dict_mem_set {V} (n k : string) (v : V) (d : dict V) :
  dict_mem n d = true -> dict_mem n (dict_set k v d) = true.
Proof.
  unfold dict_mem. destruct (String.eqb_spec k n) as [->|Hne].
  - now rewrite dict_get_set_eq.
  - now rewrite dict_get_set_ne.
Qed.

Lemma dict_set_nonempty {V} (k : string) (v : V) (d : dict V) : dict_set k v d <> [].
Proof. destruct d as [|[k' v'] r]; cbn; [easy|]. now destruct (String.eqb k k'). Qed.

Lemma consistent_set_usage (self : rotation) (key_name : string) (u u' : usage) :
  dict_get key_name (key_usage self) = Some u ->
  consistent self = true ->
  consistent (with_key_usage (dict_set key_name u' (key_usage self)) self) = true.
Proof.
  intros Hu. apply consistent_usage.
  - intros n. apply dict_mem_set.
  - intros E. now rewrite E in Hu.
Qed.

Lemma dict_mem_map_values {A B} (g : string -> A -> B) (k : string) (d : dict A) :
  dict_mem k (map (fun '(n, a) => (n, g n a)) d) = dict_mem k d.
Proof.
  unfold dict_mem. induction d as [|[n a] r IH]; [reflexivity|].
  cbn. now destruct (String.eqb k n).
Qed.

Lemma dict_get_map_usage {A B} (g : A -> B) (k : string) (d : dict A) :
  dict_get k (map (fun '(n, a) => (n, g a)) d) = option_map g (dict_get k d).
Proof.
  induction d as [|[n a] r IH]; [reflexivity|].
  cbn. now destruct (String.eqb k n).
Qed.

Lemma consistent_map_usage (self : rotation) (g : usage -> usage) :
  consistent self = true ->
  consistent (with_key_usage (map (fun '(n, u) => (n, g u)) (key_usage self)) self) = true.
Proof.
  apply consistent_usage.
  - intros n. now rewrite (dict_mem_map_values (fun _ => g)).
  - now intros ->.
Qed.

(** *** [__init__] *)

Lemma initialize_usage_ok (current_date : Z) (keys : list (dict string))
    (key_usage : dict usage) :
  Forall loaded_key keys ->
  exists key_usage',
    initialize_usage current_date keys key_usage = Ok key_usage' /\
    (forall n, dict_mem n key_usage = true -> dict_mem n key_usage' = true) /\
    Forall (fun c => match dict_get "name" c with
                     | Some n => dict_mem n key_usage' = true
                     | None => False
                     end) keys /\
    (keys = [] -> key_usage' = key_usage) /\
    (forall n u, dict_get n key_usage' = Some u ->
                 dict_get n key_usage = Some u \/ u = new_usage current_date).
Proof.
  intros H. revert key_usage. induction H as [|c keys Hc _ IH]; intros key_usage.
  - exists key_usage. cbn. repeat split; auto.
  - destruct Hc as (k & cx & n & -> & _). cbn.
    destruct (IH (dict_set n (new_usage current_date) key_usage))
      as (ku' & -> & Hm & Hall & _ & Hnew).
    exists ku'. split; [reflexivity|]. split; [|split; [|split]].
    + intros m Hm'. now apply Hm, dict_mem_set.
    + constructor; [|exact Hall]. cbn. apply Hm. unfold dict_mem.
      now rewrite dict_get_set_eq.
    + discriminate.
    + intros m u Hu. destruct (Hnew m u Hu) as [H'|H']; [|now right].
      destruct (String.eqb_spec n m) as [->|Hne].
      * rewrite dict_get_set_eq in H'. right. congruence.
      * rewrite dict_get_set_ne in H' by exact Hne. now left.
Qed.

Lemma init_ok (getenv : string -> option string) (current_date : Z) :
  exists self,
    __init__ getenv current_date = Ok self /\
    api_keys self = _load_api_keys getenv /\
    current_key_index self = 0 /\
    current_index self = None /\
    max_requests_per_key self = 100 /\
    cooldown_period self = 3600 /\
    consistent self = true /\
    (forall n u, dict_get n (key_usage self) = Some u -> u = new_usage current_date).
Proof.
  unfold __init__, _initialize_usage_tracking. cbn [api_keys key_usage].
  destruct (initialize_usage_ok current_date (_load_api_keys getenv) []
              (load_api_keys_loaded getenv)) as (ku & -> & _ & Hall & He & Hnew).
  cbn. eexists. split; [reflexivity|]. cbn. repeat split; try reflexivity.
  - apply consistent_spec. cbn. split.
    + revert Hall. apply List.Forall_impl. intros c. unfold tracked. cbn.
      now destruct (dict_get "name" c).
    + destruct (_load_api_keys getenv); [now apply He|]. cbn [length]. lia.
  - intros n u Hu. now destruct (Hnew n u Hu).
Qed.

(** *** The methods keep the invariant *)

Lemma is_key_available_ok (self : rotation) (key_name : string) (current_time : float)
    (u : usage) :
  dict_get key_name (key_usage self) = Some u ->
  consistent self = true ->
  exists self' b,
    _is_key_available self key_name current_time = Ok (self', b) /\
    consistent self' = true /\
    api_keys self' = api_keys self /\
    current_key_index self' = current_key_index self /\
    current_index self' = current_index self /\
    dict_keys (key_usage self') = dict_keys (key_usage self).
Proof.
  intros Hu Hc. unfold _is_key_available, item. rewrite Hu. cbn [bind].
  destruct (is_blocked u && until_set (block_until u)).
  - destruct (before current_time (block_until u)).
    + exists self, false. repeat split; auto.
    + eexists _, _. split; [reflexivity|]. cbn. repeat split.
      * now apply (consistent_set_usage self key_name u).
      * apply dict_keys_set_known. now apply dict_get_keys in Hu.
  - eexists _, _. split; [reflexivity|]. repeat split; auto.
Qed.

Lemma mod_range (a n : Z) : 0 < n -> 0 <= a mod n < n.
Proof. intros. now apply Z.mod_pos_bound. Qed.

Lemma rotate_ok (self : rotation) :
  api_keys self <> [] ->
  consistent self = true ->
  _rotate_to_next_key self =
    Ok (with_current_key_index
          ((current_key_index self + 1) mod Z.of_nat (length (api_keys self))) self) /\
  consistent (with_current_key_index
                ((current_key_index self + 1) mod Z.of_nat (length (api_keys self))) self)
  = true.
Proof.
  intros Hne Hc. unfold _rotate_to_next_key, py_mod.
  assert (Hlen : 0 < Z.of_nat (length (api_keys self))).
  { destruct (api_keys self); [easy|cbn [length]; lia]. }
  destruct (Z.eqb_spec (Z.of_nat (length (api_keys self))) 0) as [E|_]; [lia|].
  split; [reflexivity|]. apply consistent_index; [|exact Hc].
  intros _. now apply mod_range.
Qed.

Lemma list_index_in_bounds {A} (l : list A) (i : Z) :
  0 <= i < Z.of_nat (length l) -> exists x, list_index l i = Some x /\ In x l.
Proof.
  intros Hi. unfold list_index.
  destruct (Z.leb_spec 0 i); [|lia]. destruct (Z.ltb_spec i (Z.of_nat (length l))); [|lia].
  cbn. destruct (nth_error l (Z.to_nat i)) as [x|] eqn:E.
  - exists x. split; [reflexivity|]. now apply nth_error_In in E.
  - apply nth_error_None in E. lia.
Qed.

Lemma tracked_usage_of (self : rotation) (c : dict string) :
  tracked self c = true ->
  exists n u, dict_get "name" c = Some n /\ dict_get n (key_usage self) = Some u.
Proof.
  unfold tracked, dict_mem. destruct (dict_get "name" c) as [n|]; [|easy].
  destruct (dict_get n (key_usage self)) as [u|] eqn:E; [|easy].
  intros _. exists n, u. split; [reflexivity|exact E].
Qed.

Lemma least_used_ok (self : rotation) (keys : list (dict string)) (i : Z)
    (min_usage : option Z) (least_used_index : Z) :
  Forall (fun c => tracked self c = true) keys ->
  0 <= i ->
  (match min_usage with
   | None => least_used_index = 0 /\ i = 0
   | Some _ => 0 <= least_used_index < i
   end) ->
  exists j,
    least_used self keys i min_usage least_used_index = Ok j /\
    (keys = [] -> j = least_used_index) /\
    (0 <= j < i + Z.of_nat (length keys) \/ (keys = [] /\ i = 0 /\ j = 0)).
Proof.
  intros H. revert i min_usage least_used_index.
  induction H as [|c keys Hc _ IH]; intros i min_usage least_used_index Hi Hm.
  - exists least_used_index. cbn. split; [reflexivity|]. split; [easy|].
    destruct min_usage; [left; lia|right; easy].
  - destruct (tracked_usage_of self c Hc) as (n & u & Hn & Hu).
    cbn [least_used]. unfold item. rewrite Hn. cbn [bind]. rewrite Hu. cbn [bind].
    assert (Hnew : exists j,
              least_used self keys (i + 1) (Some (requests_today u)) i = Ok j /\
              0 <= j < i + 1 + Z.of_nat (length keys)).
    { destruct (IH (i + 1) (Some (requests_today u)) i) as (j & -> & _ & Hj); [lia|lia|].
      exists j. split; [reflexivity|]. destruct Hj as [Hj|(_ & Hj & _)]; lia. }
    assert (Hlen : i + Z.of_nat (length (c :: keys)) = i + 1 + Z.of_nat (length keys))
      by (cbn [length]; lia).
    rewrite Hlen.
    destruct min_usage as [m|].
    + destruct (requests_today u <? m).
      * destruct Hnew as (j & -> & Hj). exists j. split; [reflexivity|].
        split; [discriminate|]. now left.
      * destruct (IH (i + 1) (Some m) least_used_index) as (j & -> & _ & Hj); [lia|lia|].
        exists j. split; [reflexivity|]. split; [discriminate|]. left.
        destruct Hj as [Hj|(_ & Hj & _)]; lia.
    + destruct Hnew as (j & -> & Hj). exists j. split; [reflexivity|].
      split; [discriminate|]. now left.
Qed.

Lemma get_least_used_key_ok (self : rotation) :
  consistent self = true ->
  exists self' r,
    _get_least_used_key self = Ok (self', r) /\
    consistent self' = true /\
    api_keys self' = api_keys self /\
    key_usage self' = key_usage self /\
    current_index self' = current_index self /\
    match r with
    | None => api_keys self = [] /\ self' = self
    | Some c => key_at self' (current_key_index self') = Ok c /\ In c (api_keys self)
    end.
Proof.
  intros Hc. pose proof Hc as Hc'. apply consistent_spec in Hc' as [Ht Hi].
  unfold _get_least_used_key. destruct (api_keys self) as [|c0 l] eqn:El.
  - exists self, None. repeat split; auto.
  - rewrite <- El in *.
    destruct (least_used_ok self (api_keys self) 0 None 0 Ht) as (j & -> & _ & Hj);
      [lia|easy|].
    assert (Hj' : 0 <= j < Z.of_nat (length (api_keys self))).
    { destruct Hj as [Hj|(E & _)]; [lia|]. rewrite El in E. discriminate E. }
    cbn [bind]. unfold key_at. cbn [api_keys with_current_key_index].
    destruct (list_index_in_bounds (api_keys self) j Hj') as (c & Hcj & Hin).
    rewrite Hcj. cbn [bind]. eexists _, (Some c). split; [reflexivity|].
    cbn. repeat split; auto.
    + apply consistent_index; [intros _; exact Hj'|exact Hc].
    + now rewrite Hcj.
Qed.

Lemma key_at_in_bounds (self : rotation) :
  api_keys self <> [] ->
  consistent self = true ->
  exists c n u,
    key_at self (current_key_index self) = Ok c /\ In c (api_keys self) /\
    dict_get "name" c = Some n /\ dict_get n (key_usage self) = Some u.
Proof.
  intros Hne Hc. apply consistent_spec in Hc as [Ht Hi].
  assert (Hi' : 0 <= current_key_index self < Z.of_nat (length (api_keys self)))
    by (destruct (api_keys self); [easy|exact Hi]).
  destruct (list_index_in_bounds _ _ Hi') as (c & Hc & Hin).
  rewrite List.Forall_forall in Ht.
  destruct (tracked_usage_of self c (Ht c Hin)) as (n & u & Hn & Hu).
  exists c, n, u. unfold key_at. rewrite Hc. repeat split; auto.
Qed.

Lemma find_available_ok (time_time : nat -> float) (remaining attempts : nat)
    (self : rotation) :
  api_keys self <> [] ->
  consistent self = true ->
  exists self' c,
    find_available time_time remaining attempts self = Ok (self', Some c) /\
    consistent self' = true /\
    api_keys self' = api_keys self /\
    current_index self' = current_index self /\
    dict_keys (key_usage self') = dict_keys (key_usage self) /\
    In c (api_keys self) /\
    key_at self' (current_key_index self') = Ok c.
Proof.
  revert attempts self. induction remaining as [|remaining IH]; intros attempts self Hne Hc.
  - cbn [find_available].
    destruct (get_least_used_key_ok self Hc) as (self' & r & -> & Hc' & Hk & Hu & Hi & Hr).
    destruct r as [c|]; [|now destruct Hr].
    exists self', c. rewrite Hu. repeat split; auto; apply Hr.
  - cbn [find_available].
    destruct (key_at_in_bounds self Hne Hc) as (c & n & u & Hat & Hin & Hn & Hu).
    rewrite Hat. cbn [bind]. unfold item at 1. rewrite Hn. cbn [bind].
    unfold item at 1. rewrite Hu. cbn [bind].
    destruct (is_key_available_ok self n (time_time attempts) u Hu Hc)
      as (self1 & b & -> & Hc1 & Hk1 & Hx1 & Hi1 & Hu1).
    cbn [bind fst snd]. destruct b.
    + exists self1, c. repeat split; auto.
      unfold key_at in *. now rewrite Hk1, Hx1.
    + assert (Hne1 : api_keys self1 <> []) by now rewrite Hk1.
      destruct (rotate_ok self1 Hne1 Hc1) as [-> Hc2]. cbn [bind].
      destruct (IH (S attempts) _
                  (Hne1 : api_keys (with_current_key_index _ self1) <> []) Hc2)
        as (self' & c' & -> & H1 & H2 & H3 & H4 & H5 & H6).
      exists self', c'. cbn in H2, H3, H4, H5. unfold dict_keys in *.
      repeat split; auto; congruence.
Qed.

Lemma reset_daily_consistent (self : rotation) (current_date : Z) :
  consistent self = true ->
  consistent (_reset_daily_counters_if_needed self current_date) = true.
Proof. apply consistent_map_usage. Qed.

Lemma dict_keys_map_usage {A B} (g : A -> B) (d : dict A) :
  dict_keys (map (fun '(n, a) => (n, g a)) d) = dict_keys d.
Proof.
  unfold dict_keys. rewrite map_map. apply map_ext. now intros [n a].
Qed.

Lemma get_current_api_config_ok (self : rotation) (current_date : Z)
    (time_time : nat -> float) :
  consistent self = true ->
  exists self' r,
    get_current_api_config self current_date time_time = Ok (self', r) /\
    consistent self' = true /\
    api_keys self' = api_keys self /\
    current_index self' = current_index self /\
    dict_keys (key_usage self') = dict_keys (key_usage self) /\
    match r with
    | None => api_keys self = [] /\ self' = self
    | Some c => In c (api_keys self) /\ key_at self' (current_key_index self') = Ok c
    end.
Proof.
  intros Hc. unfold get_current_api_config.
  destruct (api_keys self) as [|c0 l] eqn:El.
  - exists self, None. repeat split; auto.
  - pose proof (reset_daily_consistent self current_date Hc) as Hc'.
    assert (Hne : api_keys (_reset_daily_counters_if_needed self current_date) <> [])
      by (cbn; now rewrite El).
    destruct (find_available_ok time_time
                (length (api_keys (_reset_daily_counters_if_needed self current_date))) 0
                _ Hne Hc') as (self' & c & -> & H1 & H2 & H3 & H4 & H5 & H6).
    exists self', (Some c).
    unfold _reset_daily_counters_if_needed in H2, H3, H4, H5.
    cbn [api_keys current_index key_usage with_key_usage] in H2, H3, H4, H5.
    rewrite dict_keys_map_usage in H4.
    rewrite El in *. repeat split; auto.
Qed.

Lemma record_request_consistent (self : rotation) (key_name : string) (success : bool)
    (response_time current_time : float) :
  consistent self = true ->
  consistent (record_request self key_name success response_time current_time) = true.
Proof.
  intros Hc. unfold record_request.
  destruct (dict_get key_name (key_usage self)) as [u|] eqn:Hu; [|exact Hc].
  now apply (consistent_set_usage self key_name u).
Qed.

Lemma usage_known_keys (self : rotation) (key_name : string) (u : usage) :
  consistent self = true ->
  dict_get key_name (key_usage self) = Some u ->
  api_keys self <> [].
Proof.
  intros Hc Hu E. apply consistent_spec in Hc as [_ Hi]. rewrite E in Hi.
  now rewrite Hi in Hu.
Qed.

Lemma record_rate_limit_hit_ok (self : rotation) (key_name : string)
    (current_time : float) :
  consistent self = true ->
  exists self',
    record_rate_limit_hit self key_name current_time = Ok self' /\
    consistent self' = true /\
    api_keys self' = api_keys self /\
    current_index self' = current_index self.
Proof.
  intros Hc. unfold record_rate_limit_hit.
  destruct (dict_get key_name (key_usage self)) as [u|] eqn:Hu.
  - pose proof (usage_known_keys self key_name u Hc Hu) as Hne.
    match goal with |- context [_rotate_to_next_key ?s] =>
      destruct (rotate_ok s) as [-> Hc'];
        [exact Hne|now apply (consistent_set_usage self key_name u)|] end.
    eexists. split; [reflexivity|]. split; [exact Hc'|]. split; reflexivity.
  - exists self. repeat split; auto.
Qed.

Lemma force_rotate_ok (self : rotation) :
  api_keys self <> [] ->
  consistent self = true ->
  force_rotate self =
    Ok (with_current_key_index
          ((current_key_index self + 1) mod Z.of_nat (length (api_keys self))) self).
Proof.
  intros Hne Hc. unfold force_rotate. destruct (rotate_ok self Hne Hc) as [-> Hc'].
  cbn [bind].
  destruct (key_at_in_bounds _ (Hne : api_keys (with_current_key_index _ self) <> []) Hc')
    as (c & n & u & -> & _ & Hn & _).
  cbn [bind]. unfold item. now rewrite Hn.
Qed.

Lemma force_rotate_empty (self : rotation) :
  api_keys self = [] ->
  force_rotate self = Raise (Exn "ZeroDivisionError" "integer modulo by zero").
Proof. intros E. unfold force_rotate, _rotate_to_next_key. now rewrite E. Qed.

Lemma get_next_api_key_same (self self' : rotation) r :
  get_next_api_key self = Ok (self', r) ->
  api_keys self' = api_keys self /\
  key_usage self' = key_usage self /\
  current_key_index self' = current_key_index self /\
  (current_index self = None -> self' = self).
Proof.
  unfold get_next_api_key. destruct (api_keys self) eqn:El.
  - intros [= <- <-]. auto.
  - destruct (current_index self) as [i|]; [|discriminate].
    destruct (key_at self i); [|discriminate]. cbn [bind].
    destruct (py_mod _ _); [|discriminate]. cbn [bind].
    intros [= <- <-]. cbn. repeat split; auto. discriminate.
Qed.

Lemma consistent_same (self self' : rotation) :
  api_keys self' = api_keys self ->
  key_usage self' = key_usage self ->
  current_key_index self' = current_key_index self ->
  consistent self = true -> consistent self' = true.
Proof.
  intros H1 H2 H3. unfold consistent, tracked. now rewrite H1, H2, H3.
Qed.

(** Every state the class produces has the keys of the environment, no
    attribute [current_index], and satisfies the invariant. *)
Lemma reachable_facts (getenv : string -> option string) (self : rotation) :
  reachable getenv self ->
  api_keys self = _load_api_keys getenv /\
  current_index self = None /\
  consistent self = true.
Proof.
  induction 1 as [d self Hinit
                 |self d clock self' r _ IH Hstep
                 |self n t self' b _ IH Hstep
                 |self self' _ IH Hstep
                 |self self' r _ IH Hstep
                 |self n ok rt t _ IH
                 |self n t self' _ IH Hstep
                 |self d _ IH
                 |self self' _ IH Hstep
                 |self _ IH
                 |self self' r _ IH Hstep].
  - destruct (init_ok getenv d) as (s & Hs & H1 & _ & H2 & _ & _ & H3 & _).
    rewrite Hinit in Hs. injection Hs as <-. auto.
  - destruct IH as (Hk & Hi & Hc).
    destruct (get_current_api_config_ok self d clock Hc) as (s & r' & Hs & H1 & H2 & H3 & _).
    rewrite Hstep in Hs. injection Hs as <- <-. repeat split; congruence.
  - destruct IH as (Hk & Hi & Hc). unfold _is_key_available, item in Hstep.
    destruct (dict_get n (key_usage self)) as [u|] eqn:Hu; [|discriminate].
    destruct (is_key_available_ok self n t u Hu Hc) as (s & b' & Hs & H1 & H2 & _ & H3 & _).
    unfold _is_key_available, item in Hs. rewrite Hu in Hs. rewrite Hstep in Hs.
    injection Hs as <- <-. repeat split; congruence.
  - destruct IH as (Hk & Hi & Hc). unfold _rotate_to_next_key, py_mod in Hstep.
    destruct (Z.eqb_spec (Z.of_nat (length (api_keys self))) 0) as [E|E]; [discriminate|].
    injection Hstep as <-. cbn. repeat split; auto.
    apply consistent_index; [|exact Hc]. intros _. apply mod_range. lia.
  - destruct IH as (Hk & Hi & Hc).
    destruct (get_least_used_key_ok self Hc) as (s & r' & Hs & H1 & H2 & _ & H3 & _).
    rewrite Hstep in Hs. injection Hs as <- <-. repeat split; congruence.
  - destruct IH as (Hk & Hi & Hc). split; [|split].
    + unfold record_request. now destruct (dict_get n (key_usage self)).
    + unfold record_request. now destruct (dict_get n (key_usage self)).
    + now apply record_request_consistent.
  - destruct IH as (Hk & Hi & Hc).
    destruct (record_rate_limit_hit_ok self n t Hc) as (s & Hs & H1 & H2 & H3).
    rewrite Hstep in Hs. injection Hs as <-. repeat split; congruence.
  - destruct IH as (Hk & Hi & Hc). repeat split; auto. now apply reset_daily_consistent.
  - destruct IH as (Hk & Hi & Hc).
    assert (Hd : api_keys self = [] \/ api_keys self <> [])
      by (destruct (api_keys self); [now left|now right]).
    destruct Hd as [El|Hne].
    + rewrite force_rotate_empty in Hstep by exact El. discriminate.
    + rewrite force_rotate_ok in Hstep by assumption.
      injection Hstep as <-. cbn. repeat split; auto.
      now apply rotate_ok.
  - destruct IH as (Hk & Hi & Hc). repeat split; auto.
    unfold unblock_all_keys. now apply consistent_map_usage.
  - destruct IH as (Hk & Hi & Hc).
    destruct (get_next_api_key_same self self' r Hstep) as (H1 & H2 & H3 & H4).
    rewrite (H4 Hi). auto.
Qed.

Lemma requests_of_tracked (self : rotation) (c : dict string) (n : string) (u : usage) :
  dict_get "name" c = Some n -> dict_get n (key_usage self) = Some u ->
  requests_of self c = requests_today u.
Proof. intros Hn Hu. unfold requests_of. now rewrite Hn, Hu. Qed.

Lemma least_used_spec (self : rotation) (keys : list (dict string)) (i : Z)
    (min_usage : option Z) (least_used_index : Z) :
  Forall (fun c => tracked self c = true) keys ->
  exists j,
    least_used self keys i min_usage least_used_index = Ok j /\
    ((j = least_used_index /\
      forall c, In c keys ->
                match min_usage with Some m => m <= requests_of self c | None => False end)
     \/
     exists (p : nat) (c : dict string),
       nth_error keys p = Some c /\ j = i + Z.of_nat p /\
       match min_usage with Some m => requests_of self c < m | None => True end /\
       (forall c', In c' keys -> requests_of self c <= requests_of self c') /\
       (forall (q : nat) c', (q < p)%nat -> nth_error keys q = Some c' ->
                             requests_of self c < requests_of self c')).
Proof.
  intros H. revert i min_usage least_used_index.
  induction H as [|c keys Hc _ IH]; intros i min_usage least_used_index.
  - exists least_used_index. split; [reflexivity|]. left. split; [reflexivity|]. intros c [].
  - destruct (tracked_usage_of self c Hc) as (n & u & Hn & Hu).
    pose proof (requests_of_tracked self c n u Hn Hu) as Hr.
    cbn [least_used]. unfold item. rewrite Hn. cbn [bind]. rewrite Hu. cbn [bind].
    assert (Hnew :
      match min_usage with Some m => requests_today u < m | None => True end ->
      exists j,
        least_used self keys (i + 1) (Some (requests_today u)) i = Ok j /\
        exists (p : nat) (c0 : dict string),
          nth_error (c :: keys) p = Some c0 /\ j = i + Z.of_nat p /\
          match min_usage with Some m => requests_of self c0 < m | None => True end /\
          (forall c', In c' (c :: keys) -> requests_of self c0 <= requests_of self c') /\
          (forall (q : nat) c', (q < p)%nat -> nth_error (c :: keys) q = Some c' ->
                                requests_of self c0 < requests_of self c')).
    { intros Hlt.
      destruct (IH (i + 1) (Some (requests_today u)) i) as (j & -> & [[-> Hall]|Hsome]).
      - exists i. split; [reflexivity|]. exists 0%nat, c. split; [reflexivity|].
        split; [lia|]. rewrite Hr. split; [exact Hlt|]. split.
        + intros c' [<-|Hin]; [lia|]. now apply Hall.
        + intros q c' Hq. lia.
      - destruct Hsome as (p & c0 & Hp & -> & Hlt0 & Hmin & Hfirst).
        exists (i + 1 + Z.of_nat p). split; [reflexivity|].
        exists (S p), c0. split; [exact Hp|]. split; [lia|]. split; [|split].
        + destruct min_usage as [m|]; [lia|exact I].
        + intros c' [<-|Hin]; [lia|]. now apply Hmin.
        + intros [|q] c' Hq Hnth.
          * injection Hnth as <-. lia.
          * apply (Hfirst q); [lia|exact Hnth]. }
    destruct min_usage as [m|].
    + destruct (Z.ltb_spec (requests_today u) m) as [Hlt|Hge].
      * destruct (Hnew Hlt) as (j & -> & Hj). exists j. split; [reflexivity|]. now right.
      * destruct (IH (i + 1) (Some m) least_used_index) as (j & -> & [[-> Hall]|Hsome]).
        -- exists least_used_index. split; [reflexivity|]. left. split; [reflexivity|].
           intros c' [<-|Hin]; [lia|]. now apply Hall.
        -- destruct Hsome as (p & c0 & Hp & -> & Hlt0 & Hmin & Hfirst).
           exists (i + 1 + Z.of_nat p). split; [reflexivity|]. right.
           exists (S p), c0. split; [exact Hp|]. split; [lia|]. split; [exact Hlt0|]. split.
           ++ intros c' [<-|Hin]; [lia|]. now apply Hmin.
           ++ intros [|q] c' Hq Hnth.
              ** injection Hnth as <-. lia.
              ** apply (Hfirst q); [lia|exact Hnth].
    + destruct (Hnew I) as (j & -> & Hj). exists j. split; [reflexivity|]. now right.
Qed.

Lemma list_index_In {A} (l : list A) (i : Z) (x : A) :
  list_index l i = Some x -> In x l.
Proof.
  unfold list_index. intros H.
  destruct ((0 <=? i) && (i <? Z.of_nat (length l))).
  - now apply nth_error_In in H.
  - destruct ((i <? 0) && (0 <=? Z.of_nat (length l) + i)); [|discriminate].
    now apply nth_error_In in H.
Qed.

Lemma list_index_nth {A} (l : list A) (p : nat) (x : A) :
  nth_error l p = Some x -> list_index l (Z.of_nat p) = Some x.
Proof.
  intros H. unfold list_index.
  assert (p < length l)%nat by (apply nth_error_Some; congruence).
  destruct (Z.leb_spec 0 (Z.of_nat p)); [|lia].
  destruct (Z.ltb_spec (Z.of_nat p) (Z.of_nat (length l))); [|lia].
  cbn. now rewrite Nat2Z.id.
Qed.

(** X13.  [_get_least_used_key] looks at the requests of the day only: it
    returns the first key of the list among those with the fewest requests
    today, makes it the current key, and changes nothing else; a block on
    that key does not count.  With no key it returns [None]. *)
Theorem least_used_key_is_first_minimum (self : rotation) :
  consistent self = true ->
  match api_keys self with
  | [] => _get_least_used_key self = Ok (self, None)
  | _ =>
      exists (p : nat) (c : dict string),
        nth_error (api_keys self) p = Some c /\
        _get_least_used_key self =
          Ok (with_current_key_index (Z.of_nat p) self, Some c) /\
        (forall c', In c' (api_keys self) -> requests_of self c <= requests_of self c') /\
        (forall (q : nat) c', (q < p)%nat -> nth_error (api_keys self) q = Some c' ->
                              requests_of self c < requests_of self c')
  end.
Proof.
  intros Hc. pose proof Hc as Hc'. apply consistent_spec in Hc' as [Ht _].
  unfold _get_least_used_key. destruct (api_keys self) as [|c0 l] eqn:El; [reflexivity|].
  rewrite <- El in *.
  destruct (least_used_spec self (api_keys self) 0 None 0 Ht) as (j & -> & [[_ Hall]|Hsome]).
  - destruct (Hall c0). rewrite El. now left.
  - destruct Hsome as (p & c & Hp & -> & _ & Hmin & Hfirst).
    exists p, c. split; [exact Hp|]. split; [|now split].
    cbn [bind]. unfold key_at. cbn [api_keys with_current_key_index].
    rewrite Z.add_0_l. now rewrite (list_index_nth _ _ _ Hp).
Qed.

(** X14.  On a rotation whose keys are tracked, [get_current_api_config]
    never raises and returns [None] only when no key is configured.  With
    keys it always hands one out, also when every key is blocked or has used
    up its day: the key it returns is one of the configured keys and is the
    current key afterwards. *)
Theorem current_api_config_is_a_key (self : rotation) (current_date : Z)
    (time_time : nat -> float) :
  consistent self = true ->
  exists self' r,
    get_current_api_config self current_date time_time = Ok (self', r) /\
    consistent self' = true /\
    api_keys self' = api_keys self /\
    match r with
    | None => api_keys self = [] /\ self' = self
    | Some c => In c (api_keys self) /\ key_at self' (current_key_index self') = Ok c
    end.
Proof.
  intros Hc.
  destruct (get_current_api_config_ok self current_date time_time Hc)
    as (self' & r & H & H1 & H2 & _ & _ & H3).
  now exists self', r.
Qed.

Lemma record_request_usage (self : rotation) (key_name : string) (success : bool)
    (response_time current_time : float) (u : usage) :
  dict_get key_name (key_usage self) = Some u ->
  exists u',
    dict_get key_name
      (key_usage (record_request self key_name success response_time current_time))
    = Some u' /\
    requests_today u' = requests_today u + 1 /\
    total_requests u' = total_requests u + 1 /\
    last_request_time u' = current_time /\
    last_reset_date u' = last_reset_date u.
Proof.
  intros Hu. unfold record_request. rewrite Hu. cbn. rewrite dict_get_set_eq.
  eexists. split; [reflexivity|]. cbn. auto.
Qed.

Lemma record_request_static (self : rotation) (key_name : string) (success : bool)
    (response_time current_time : float) :
  max_requests_per_key (record_request self key_name success response_time current_time)
  = max_requests_per_key self.
Proof. unfold record_request. now destruct (dict_get key_name (key_usage self)). Qed.

Lemma record_requests_usage (calls : list (bool * float * float)) (self : rotation)
    (key_name : string) (u : usage) :
  dict_get key_name (key_usage self) = Some u ->
  exists u',
    dict_get key_name (key_usage (record_requests self key_name calls)) = Some u' /\
    requests_today u' = requests_today u + Z.of_nat (length calls) /\
    total_requests u' = total_requests u + Z.of_nat (length calls) /\
    last_reset_date u' = last_reset_date u /\
    max_requests_per_key (record_requests self key_name calls) = max_requests_per_key self.
Proof.
  revert self u. induction calls as [|[[ok rt] t] calls IH]; intros self u Hu.
  - exists u. cbn. repeat split; auto; lia.
  - destruct (record_request_usage self key_name ok rt t u Hu) as (u1 & H1 & Hr & Ht & _ & Hd).
    destruct (IH _ u1 H1) as (u' & H' & Hr' & Ht' & Hd' & Hm').
    exists u'. unfold record_requests in *. cbn [fold_left].
    split; [exact H'|]. rewrite Hr', Ht', Hd', Hm', Hr, Ht, Hd, record_request_static.
    cbn [length]. repeat split; lia.
Qed.

Lemma exhausted_unavailable (self : rotation) (key_name : string) (u : usage)
    (current_time : float) :
  dict_get key_name (key_usage self) = Some u ->
  max_requests_per_key self <= requests_today u ->
  exists self', _is_key_available self key_name current_time = Ok (self', false).
Proof.
  intros Hu Hmax. unfold _is_key_available, item. rewrite Hu. cbn [bind].
  assert (Hw : forall u', requests_today u' = requests_today u ->
                          within_limits self u' current_time = false).
  { intros u' E. unfold within_limits. rewrite E.
    destruct (Z.leb_spec (max_requests_per_key self) (requests_today u)); [reflexivity|lia]. }
  destruct (is_blocked u && until_set (block_until u)).
  - destruct (before current_time (block_until u)); [now eexists|].
    rewrite Hw by reflexivity. now eexists.
  - rewrite Hw by reflexivity. now eexists.
Qed.

(** X15.  Every [record_request] for a tracked key counts one request of the
    day, whether it succeeded or not.  Once the count has reached
    [max_requests_per_key], [_is_key_available] refuses the key at every
    time of the day; [_reset_daily_counters_if_needed] on a later date sets
    the count back to zero and lifts any block, after which the key is
    available if a request is allowed at all and a second has passed since
    the last one. *)
Theorem daily_limit_lockout (self : rotation) (key_name : string) (u : usage)
    (calls : list (bool * float * float)) :
  dict_get key_name (key_usage self) = Some u ->
  let self' := record_requests self key_name calls in
  exists u',
    dict_get key_name (key_usage self') = Some u' /\
    requests_today u' = requests_today u + Z.of_nat (length calls) /\
    total_requests u' = total_requests u + Z.of_nat (length calls) /\
    (max_requests_per_key self <= requests_today u + Z.of_nat (length calls) ->
     forall current_time,
       exists after, _is_key_available self' key_name current_time = Ok (after, false)) /\
    (forall current_date current_time,
       last_reset_date u < current_date ->
       let renewed := _reset_daily_counters_if_needed self' current_date in
       _is_key_available renewed key_name current_time =
       Ok (renewed,
           (0 <? max_requests_per_key self)
           && negb (PrimFloat.ltb (PrimFloat.sub current_time (last_request_time u')) 1))).
Proof.
  intros Hu self'.
  destruct (record_requests_usage calls self key_name u Hu) as (u' & Hu' & Hr & Ht & Hd & Hm).
  fold self' in Hu', Hm. exists u'. split; [exact Hu'|]. split; [exact Hr|].
  split; [exact Ht|]. split.
  - intros Hmax t. apply (exhausted_unavailable self' key_name u'); [exact Hu'|].
    rewrite Hm, Hr. exact Hmax.
  - intros d t Hlt renewed. unfold _is_key_available, item.
    unfold renewed, _reset_daily_counters_if_needed. cbn [key_usage with_key_usage].
    rewrite dict_get_map_usage, Hu'. cbn [option_map bind].
    unfold reset_usage. rewrite Hd.
    destruct (Z.ltb_spec (last_reset_date u) d) as [_|]; [|lia].
    cbn [is_blocked andb]. unfold within_limits.
    cbn [max_requests_per_key with_key_usage requests_today last_request_time].
    rewrite Hm.
    destruct (Z.leb_spec (max_requests_per_key self) 0), (Z.ltb_spec 0 (max_requests_per_key self));
      try lia; cbn [andb]; [reflexivity|].
    now destruct (PrimFloat.ltb _ 1).
Qed.

(** X16.  For a cooldown period whose double is an int from 0 to below 2^63
    (the class sets 3600), [record_rate_limit_hit] for a tracked key blocks
    that key for twice the cooldown period, whatever its record, and moves the
    rotation to the next key, whichever key was hit.  Until the block ends
    [_is_key_available] refuses the key and leaves the state as it is; the
    usage of the other keys is untouched. *)
Theorem rate_limit_hit_blocks (self : rotation) (key_name : string) (u : usage)
    (current_time : float) :
  consistent self = true ->
  dict_get key_name (key_usage self) = Some u ->
  0 <= cooldown_period self * 2 < 2 ^ 63 ->
  let until :=
    PrimFloat.add current_time
      (ComponentOrchestrator.float_of_Z (cooldown_period self * 2)) in
  PrimFloat.eqb until 0 = false ->
  exists self',
    record_rate_limit_hit self key_name current_time = Ok self' /\
    dict_get key_name (key_usage self') = Some (set_block true (Some until) u) /\
    current_key_index self' =
      (current_key_index self + 1) mod Z.of_nat (length (api_keys self)) /\
    (forall other, other <> key_name ->
                   dict_get other (key_usage self') = dict_get other (key_usage self)) /\
    (forall later, PrimFloat.ltb later until = true ->
                   _is_key_available self' key_name later = Ok (self', false)).
Proof.
  intros Hc Hu _ until Hnz. unfold record_rate_limit_hit. rewrite Hu.
  pose proof (usage_known_keys self key_name u Hc Hu) as Hne.
  fold until.
  match goal with |- context [_rotate_to_next_key ?s] =>
    destruct (rotate_ok s) as [-> _];
      [exact Hne|now apply (consistent_set_usage self key_name u)|] end.
  eexists. split; [reflexivity|].
  cbn [key_usage current_key_index api_keys with_current_key_index with_key_usage].
  split; [apply dict_get_set_eq|]. split; [reflexivity|]. split.
  - intros other Hne'. apply dict_get_set_ne. congruence.
  - intros later Hlater. unfold _is_key_available, item.
    cbn [key_usage current_key_index api_keys with_current_key_index with_key_usage].
    rewrite dict_get_set_eq. cbn [bind is_blocked block_until set_block andb until_set before].
    now rewrite Hnz, Hlater.
Qed.

Lemma with_current_key_index_same (self : rotation) :
  with_current_key_index (current_key_index self) self = self.
Proof. now destruct self. Qed.

Lemma force_rotations_index (k : nat) (self : rotation) :
  api_keys self <> [] ->
  consistent self = true ->
  force_rotations k self =
    Ok (with_current_key_index
          ((current_key_index self + Z.of_nat k) mod Z.of_nat (length (api_keys self)))
          self).
Proof.
  intros Hne Hc.
  assert (Hlen : 0 < Z.of_nat (length (api_keys self)))
    by (destruct (api_keys self); [easy|cbn [length]; lia]).
  revert self Hne Hc Hlen. induction k as [|k IH]; intros self Hne Hc Hlen.
  - cbn [force_rotations]. rewrite Z.add_0_r, Z.mod_small, with_current_key_index_same.
    + reflexivity.
    + apply consistent_spec in Hc as [_ Hi]. destruct (api_keys self); [easy|exact Hi].
  - cbn [force_rotations]. rewrite force_rotate_ok by assumption. cbn [bind].
    rewrite IH.
    + cbn [current_key_index api_keys with_current_key_index]. f_equal.
      unfold with_current_key_index. cbn. f_equal.
      rewrite Zplus_mod_idemp_l. f_equal. lia.
    + exact Hne.
    + now apply rotate_ok.
    + exact Hlen.
Qed.

(** X17.  [force_rotate] moves the current key one place on and wraps
    around: after as many rotations as there are keys the rotation is back in
    the state it started from, and after [k] of them the current index is
    [(index + k) mod len(api_keys)].  With no key configured it raises
    [ZeroDivisionError]. *)
Theorem force_rotate_cycles (self : rotation) (k : nat) :
  consistent self = true ->
  match api_keys self with
  | [] => force_rotate self = Raise (Exn "ZeroDivisionError" "integer modulo by zero")
  | _ =>
      force_rotations k self =
        Ok (with_current_key_index
              ((current_key_index self + Z.of_nat k) mod Z.of_nat (length (api_keys self)))
              self) /\
      force_rotations (length (api_keys self)) self = Ok self
  end.
Proof.
  intros Hc. destruct (api_keys self) as [|c0 l] eqn:El.
  - now apply force_rotate_empty.
  - rewrite <- El. assert (Hne : api_keys self <> []) by now rewrite El.
    split; [now apply force_rotations_index|].
    rewrite force_rotations_index by assumption.
    apply consistent_spec in Hc as [_ Hi]. rewrite El in Hi. rewrite <- El in Hi.
    replace (current_key_index self + Z.of_nat (length (api_keys self)))
      with (current_key_index self + 1 * Z.of_nat (length (api_keys self))) by lia.
    rewrite Z.mod_add by lia. rewrite Z.mod_small by exact Hi.
    now rewrite with_current_key_index_same.
Qed.

Lemma next_api_key_reachable (getenv : string -> option string) (self : rotation) :
  reachable getenv self ->
  get_next_api_keys self =
    match _load_api_keys getenv with
    | [] => Ok (self, (None, None))
    | _ => Raise (Exn "AttributeError"
                    "'GoogleAPIRotation' object has no attribute 'current_index'")
    end.
Proof.
  intros Hr. destruct (reachable_facts getenv self Hr) as (Hk & Hi & _).
  unfold get_next_api_keys, get_next_api_key.
  rewrite Hk, Hi. now destruct (_load_api_keys getenv).
Qed.

(** X18.  No state the class produces lets [get_next_api_key] (or
    [get_next_api_keys]) hand out a key.  With no key configured it returns
    [(None, None)]; with keys it raises [AttributeError], because it reads
    [self.current_index], which no method of the class sets.  Were that
    attribute set from outside, the second component would still be [None]:
    the key dicts have a ['cx'] and no ['search_engine_id']. *)
Theorem next_api_key_never_complete (getenv : string -> option string) (self : rotation) :
  reachable getenv self ->
  get_next_api_keys self =
    match _load_api_keys getenv with
    | [] => Ok (self, (None, None))
    | _ => Raise (Exn "AttributeError"
                    "'GoogleAPIRotation' object has no attribute 'current_index'")
    end /\
  forall i,
    match get_next_api_keys (with_current_index (Some i) self) with
    | Ok (_, (_, search_engine_id)) => search_engine_id = None
    | Raise _ => True
    end.
Proof.
  intros Hr. split; [now apply next_api_key_reachable|].
  destruct (reachable_facts getenv self Hr) as (Hk & Hi & _).
  unfold get_next_api_keys, get_next_api_key.
  intros i.
  assert (Hin : forall c, list_index (api_keys self) i = Some c ->
                          dict_get "search_engine_id" c = None).
  { intros c Ec. apply loaded_key_no_engine.
    pose proof (load_api_keys_loaded getenv) as Hl. rewrite <- Hk in Hl.
    rewrite List.Forall_forall in Hl. apply Hl. now apply list_index_In in Ec. }
  unfold key_at. cbn [api_keys current_index with_current_index].
  destruct (api_keys self) as [|c0 l]; [reflexivity|].
  destruct (list_index (c0 :: l) i) as [c|] eqn:Ec; [|exact I]. cbn [bind].
  destruct (py_mod _ _); [|exact I]. cbn [bind].
  now apply Hin.
Qed.

End RotationFacts.


(** ** The searches of the production search manager *)

Section SearchFacts.
Import Py ProductionSearchManager.

Variable float_repr : float -> string.
Variable requests_post : PyVal -> PyVal -> dict PyVal -> result response.
Variable quote_plus : string -> string.
Variable find_all_b_algo : response -> result (list bing_item).

Lemma with_rotation_same (self : manager) :
  with_rotation (google_api_rotation self) self = self.
Proof. now destruct self. Qed.

Lemma update_request_time_static (self : manager) (name : string) (current_time : float) :
  providers (_update_request_time self name current_time) = providers self /\
  cache (_update_request_time self name current_time) = cache self /\
  cache_ttl (_update_request_time self name current_time) = cache_ttl self /\
  google_api_rotation (_update_request_time self name current_time)
  = google_api_rotation self.
Proof.
  unfold _update_request_time. now destruct (dict_get name (rate_limits self)).
Qed.

Lemma record_error_static (self : manager) (name : string) :
  cache (record_error self name) = cache self /\
  cache_ttl (record_error self name) = cache_ttl self.
Proof. split; reflexivity. Qed.

Lemma record_error_count (self : manager) (name : string) (p : search_provider) :
  dict_get name (providers self) = Some p ->
  errors_of (record_error self name) name = error_count p + 1 /\
  exists p',
    dict_get name (providers (record_error self name)) = Some p' /\
    error_count p' = error_count p + 1 /\
    enabled p' = enabled p /\ max_errors p' = max_errors p /\ priority p' = priority p.
Proof.
  intros Hp. unfold errors_of, record_error, _record_provider_error.
  cbn [providers with_providers]. rewrite Hp, dict_get_set_eq. split; [reflexivity|].
  eexists. split; [reflexivity|]. cbn. auto.
Qed.

Lemma errors_of_get (self : manager) (name : string) (p : search_provider) :
  dict_get name (providers self) = Some p -> errors_of self name = error_count p.
Proof. intros H. unfold errors_of. now rewrite H. Qed.

Lemma search_google_outcome (getenv : string -> option string)
    (requests_get : PyVal -> dict PyVal -> result response)
    (self : manager) (query : string) (max_results : Z) (t : readings) :
  GoogleAPIRotation.reachable getenv (google_api_rotation self) ->
  _search_google requests_get self query max_results t =
    match dict_get "google" (providers self) with
    | None => (self, Raise (Exn "KeyError" "'google'"))
    | Some _ =>
        if _can_make_request self "google" (at_limit_check t "google") then
          let self1 := _update_request_time self "google" (at_request t "google") in
          match GoogleAPIRotation._load_api_keys getenv with
          | [] =>
              (record_error self1 "google",
               Raise (Exn "Exception" ("Google API keys n" +:+ chr 227 +:+ "o configuradas")))
          | _ =>
              (self1,
               Raise (Exn "AttributeError"
                        "'GoogleAPIRotation' object has no attribute 'current_index'"))
          end
        else (self, Ok (PList []))
    end.
Proof.
  intros Hr. unfold _search_google, item.
  destruct (dict_get "google" (providers self)) as [p|]; [|reflexivity].
  destruct (_can_make_request self "google" (at_limit_check t "google")); [|reflexivity].
  cbn [negb]. cbv zeta.
  destruct (update_request_time_static self "google" (at_request t "google"))
    as (_ & _ & _ & Hrot).
  rewrite <- Hrot in Hr.
  rewrite (next_api_key_reachable getenv _ Hr).
  destruct (GoogleAPIRotation._load_api_keys getenv); [|reflexivity].
  cbn [is_set negb orb]. now rewrite with_rotation_same.
Qed.

(** X19.  [search_with_fallback] never gets a result from Google.  Whatever
    state the key rotation is in, the turn of the loop for ['google'] sends
    no request (its outcome does not depend on what [requests.get] would
    answer), returns no results and stores nothing in the cache.  When the
    rate limit lets the call through, it counts as a failure of the provider:
    two errors when no rotation key is configured, one when keys are. *)
Theorem google_is_never_queried (getenv : string -> option string)
    (requests_get requests_get' : PyVal -> dict PyVal -> result response)
    (self : manager) (query : string) (max_results : Z) (t : readings) :
  GoogleAPIRotation.reachable getenv (google_api_rotation self) ->
  let turn :=
    search_turn float_repr requests_get requests_post quote_plus find_all_b_algo
      "google" self query max_results t in
  search_turn float_repr requests_get' requests_post quote_plus find_all_b_algo
    "google" self query max_results t = turn /\
  snd turn = None /\
  cache (fst turn) = cache self /\
  errors_of (fst turn) "google" =
    errors_of self "google" +
    match dict_get "google" (providers self) with
    | None => 0
    | Some _ =>
        if _can_make_request self "google" (at_limit_check t "google") then
          match GoogleAPIRotation._load_api_keys getenv with
          | [] => 2
          | _ => 1
          end
        else 0
    end.
Proof.
  intros Hr turn. unfold turn, search_turn, search_by. cbn [String.eqb Ascii.eqb Bool.eqb].
  rewrite !(search_google_outcome getenv) by exact Hr.
  split; [reflexivity|].
  destruct (dict_get "google" (providers self)) as [p|] eqn:Hp.
  - destruct (_can_make_request self "google" (at_limit_check t "google")).
    + cbv zeta.
      destruct (update_request_time_static self "google" (at_request t "google"))
        as (Hprov & Hcache & _ & _).
      assert (Hp1 : dict_get "google"
                      (providers (_update_request_time self "google" (at_request t "google")))
                    = Some p) by now rewrite Hprov.
      destruct (GoogleAPIRotation._load_api_keys getenv).
      * cbn [fst snd]. split; [reflexivity|]. split; [now rewrite !(proj1 (record_error_static _ _))|].
        destruct (record_error_count _ "google" p Hp1) as (_ & p' & Hp' & Hc' & _).
        destruct (record_error_count _ "google" p' Hp') as (-> & _).
        rewrite (errors_of_get self "google" p Hp). lia.
      * cbn [fst snd]. split; [reflexivity|]. split; [now rewrite (proj1 (record_error_static _ _))|].
        destruct (record_error_count _ "google" p Hp1) as (-> & _).
        rewrite (errors_of_get self "google" p Hp). lia.
    + cbn. repeat split; lia.
  - cbn [fst snd]. split; [reflexivity|]. split; [reflexivity|].
    unfold errors_of, record_error, _record_provider_error. cbn [providers with_providers].
    rewrite Hp. cbn [providers]. rewrite Hp. lia.
Qed.

Lemma record_error_available (self : manager) (name : string) (p : search_provider) :
  dict_get name (providers self) = Some p ->
  _is_provider_available (providers self) name =
    enabled p && (error_count p <? max_errors p).
Proof. intros H. unfold _is_provider_available. now rewrite H. Qed.

(** X20.  One turn of [search_with_fallback] for Serper counts a failed
    answer twice.  When the request is allowed and Serper's entry has its key
    and URL, an answer with a status other than 200 adds two errors to the
    provider (one in [_search_serper], one in the [except] of the loop); a
    request that raises, or a 200 answer that cannot be read, adds one; a
    readable 200 answer adds none.  The turn returns results only from a
    readable 200 answer that is not empty. *)
Theorem serper_failure_counts (requests_get : PyVal -> dict PyVal -> result response)
    (self : manager) (query : string) (max_results : Z) (t : readings)
    (p : search_provider) (api_key base_url : PyVal) :
  dict_get "serper" (providers self) = Some p ->
  dict_get "api_key" (config p) = Some api_key ->
  dict_get "base_url" (config p) = Some base_url ->
  _can_make_request self "serper" (at_limit_check t "serper") = true ->
  let turn :=
    search_turn float_repr requests_get requests_post quote_plus find_all_b_algo
      "serper" self query max_results t in
  let answer :=
    requests_post base_url (serper_payload query max_results) (serper_headers api_key) in
  let read :=
    match answer with
    | Ok response =>
        if status_code response =? 200
        then Some (let* data := json response in results_of "serper" "organic" data)
        else None
    | Raise _ => None
    end in
  errors_of (fst turn) "serper" =
    error_count p +
    match answer, read with
    | Raise _, _ => 1
    | Ok _, Some (Ok _) => 0
    | Ok _, Some (Raise _) => 1
    | Ok _, None => 2
    end /\
  snd turn =
    match read with
    | Some (Ok results) => if truthy results then Some results else None
    | _ => None
    end.
Proof.
  intros Hp Hkey Hurl Hcan turn answer read.
  unfold turn, search_turn, search_by. cbn [String.eqb Ascii.eqb Bool.eqb].
  unfold _search_serper, item. rewrite Hp, Hcan, Hkey. cbn [negb bind].
  rewrite Hurl. cbn [bind].
  fold (serper_payload query max_results). fold (serper_headers api_key).
  fold answer. unfold read.
  destruct (update_request_time_static self "serper" (at_request t "serper"))
    as (Hprov & _ & _ & _).
  assert (Hp1 : dict_get "serper"
                  (providers (_update_request_time self "serper" (at_request t "serper")))
                = Some p) by now rewrite Hprov.
  destruct (record_error_count _ "serper" p Hp1) as (Hone & p' & Hp' & Hc' & _).
  destruct (record_error_count _ "serper" p' Hp') as (Htwo & _).
  pose proof (errors_of_get _ "serper" p Hp1) as Hzero.
  destruct answer as [response|e].
  - destruct (status_code response =? 200).
    + destruct (let* data := json response in results_of "serper" "organic" data)
        as [results|e].
      * destruct (truthy results); cbn [fst snd]; (split; [|reflexivity]).
        -- unfold errors_of. cbn [providers with_cache]. fold (errors_of
             (_update_request_time self "serper" (at_request t "serper")) "serper"). lia.
        -- lia.
      * cbn [fst snd]. split; [lia|reflexivity].
    + cbn [fst snd]. split; [lia|reflexivity].
  - cbn [fst snd]. split; [lia|reflexivity].
Qed.

(** X21.  The same for Bing: an answer with a status other than 200 adds two
    errors to the provider, a request that raises or a page that cannot be
    parsed adds one, a parsed 200 answer adds none.  The results of a parsed
    page are the entries with a title and an [http] link among the first
    [max_results] elements found. *)
Theorem bing_failure_counts (requests_get : PyVal -> dict PyVal -> result response)
    (self : manager) (query : string) (max_results : Z) (t : readings)
    (p : search_provider) (base_url : PyVal) :
  dict_get "bing" (providers self) = Some p ->
  dict_get "base_url" (config p) = Some base_url ->
  _can_make_request self "bing" (at_limit_check t "bing") = true ->
  let turn :=
    search_turn float_repr requests_get requests_post quote_plus find_all_b_algo
      "bing" self query max_results t in
  let answer :=
    requests_get (bing_url float_repr quote_plus base_url query max_results) [] in
  let read :=
    match answer with
    | Ok response =>
        if status_code response =? 200 then Some (find_all_b_algo response) else None
    | Raise _ => None
    end in
  errors_of (fst turn) "bing" =
    error_count p +
    match answer, read with
    | Raise _, _ => 1
    | Ok _, Some (Ok _) => 0
    | Ok _, Some (Raise _) => 1
    | Ok _, None => 2
    end /\
  snd turn =
    match read with
    | Some (Ok result_items) =>
        match flat_map bing_entry (slice_to result_items max_results) with
        | [] => None
        | results => Some (PList results)
        end
    | _ => None
    end.
Proof.
  intros Hp Hurl Hcan turn answer read.
  unfold turn, search_turn, search_by. cbn [String.eqb Ascii.eqb Bool.eqb].
  unfold _search_bing, item. rewrite Hcan. cbn [negb].
  destruct (update_request_time_static self "bing" (at_request t "bing"))
    as (Hprov & _ & _ & _).
  assert (Hp1 : dict_get "bing"
                  (providers (_update_request_time self "bing" (at_request t "bing")))
                = Some p) by now rewrite Hprov.
  rewrite Hp1. cbn [bind]. rewrite Hurl. cbn [bind].
  fold (bing_url float_repr quote_plus base_url query max_results).
  fold answer. unfold read.
  destruct (record_error_count _ "bing" p Hp1) as (Hone & p' & Hp' & Hc' & _).
  destruct (record_error_count _ "bing" p' Hp') as (Htwo & _).
  pose proof (errors_of_get _ "bing" p Hp1) as Hzero.
  destruct answer as [response|e].
  - destruct (status_code response =? 200).
    + destruct (find_all_b_algo response) as [result_items|e].
      * cbn [bind truthy].
        destruct (flat_map bing_entry (slice_to result_items max_results));
          cbn [fst snd]; (split; [|reflexivity]).
        -- lia.
        -- unfold errors_of. cbn [providers with_cache]. fold (errors_of
             (_update_request_time self "bing" (at_request t "bing")) "bing"). lia.
      * cbn [fst snd bind]. split; [lia|reflexivity].
    + cbn [fst snd]. split; [lia|reflexivity].
  - cbn [fst snd]. split; [lia|reflexivity].
Qed.

End SearchFacts.


Section CacheFacts.
Import Py ProductionSearchManager.

Lemma update_request_time_cache (self : manager) (name : string) (current_time : float) :
  cache (_update_request_time self name current_time) = cache self.
Proof. unfold _update_request_time. now destruct (dict_get name (rate_limits self)). Qed.

Lemma update_request_time_ttl (self : manager) (name : string) (current_time : float) :
  cache_ttl (_update_request_time self name current_time) = cache_ttl self.
Proof. unfold _update_request_time. now destruct (dict_get name (rate_limits self)). Qed.

Ltac search_cases :=
  repeat first
    [ progress cbn [fst snd cache cache_ttl with_rotation record_error with_providers negb]
    | rewrite update_request_time_cache
    | rewrite update_request_time_ttl
    | match goal with
      | |- context [match ?x with _ => _ end] => destruct x
      end ];
  auto.

Section Oracles.

Variable float_repr : float -> string.
Variable requests_get : PyVal -> dict PyVal -> result response.
Variable requests_post : PyVal -> PyVal -> dict PyVal -> result response.
Variable quote_plus : string -> string.
Variable find_all_b_algo : response -> result (list bing_item).

Lemma search_google_static (self : manager) (query : string) (max_results : Z)
    (t : readings) :
  cache (fst (_search_google requests_get self query max_results t)) = cache self /\
  cache_ttl (fst (_search_google requests_get self query max_results t)) = cache_ttl self.
Proof. unfold _search_google. split; search_cases. Qed.

Lemma search_serper_static (self : manager) (query : string) (max_results : Z)
    (t : readings) :
  cache (fst (_search_serper requests_post self query max_results t)) = cache self /\
  cache_ttl (fst (_search_serper requests_post self query max_results t)) = cache_ttl self.
Proof. unfold _search_serper. split; search_cases. Qed.

Lemma search_bing_static (self : manager) (query : string) (max_results : Z)
    (t : readings) :
  cache (fst (_search_bing float_repr requests_get quote_plus find_all_b_algo
                self query max_results t)) = cache self /\
  cache_ttl (fst (_search_bing float_repr requests_get quote_plus find_all_b_algo
                    self query max_results t)) = cache_ttl self.
Proof. unfold _search_bing. split; search_cases. Qed.

Lemma search_by_static (name : string) (self : manager) (query : string) (max_results : Z)
    (t : readings) (self1 : manager) (r : result PyVal) :
  search_by float_repr requests_get requests_post quote_plus find_all_b_algo
    name self query max_results t = Some (self1, r) ->
  cache self1 = cache self /\ cache_ttl self1 = cache_ttl self.
Proof.
  unfold search_by.
  destruct (String.eqb name "google").
  { intros [= E]. pose proof (search_google_static self query max_results t) as H.
    now rewrite E in H. }
  destruct (String.eqb name "serper").
  { intros [= E]. pose proof (search_serper_static self query max_results t) as H.
    now rewrite E in H. }
  destruct (String.eqb name "bing"); [|discriminate].
  intros [= E]. pose proof (search_bing_static self query max_results t) as H.
  now rewrite E in H.
Qed.

(** What a turn leaves in the cache. *)
Lemma search_turn_cache (name : string) (self : manager) (query : string)
    (max_results : Z) (t : readings) :
  let turn :=
    search_turn float_repr requests_get requests_post quote_plus find_all_b_algo
      name self query max_results t in
  cache_ttl (fst turn) = cache_ttl self /\
  match snd turn with
  | Some results =>
      truthy results = true /\
      cache (fst turn) =
        dict_set (cache_key query max_results)
          {| results := results; timestamp := at_store t; provider := name |}
          (cache self)
  | None => cache (fst turn) = cache self
  end.
Proof.
  cbv zeta. unfold search_turn.
  destruct (search_by float_repr requests_get requests_post quote_plus find_all_b_algo
              name self query max_results t) as [[self1 r]|] eqn:E.
  - destruct (search_by_static _ _ _ _ _ _ _ E) as [Hc Ht].
    destruct r as [results|e].
    + destruct (truthy results) eqn:Htr; cbn [fst snd cache cache_ttl with_cache].
      * now rewrite Hc.
      * now split.
    + cbn. now split.
  - cbn. now split.
Qed.

Lemma search_loop_cache (order : list string) (self : manager) (query : string)
    (max_results : Z) (t : readings) :
  let r :=
    search_loop float_repr requests_get requests_post quote_plus find_all_b_algo
      order self query max_results t in
  cache_ttl (snd (fst r)) = cache_ttl self /\
  if truthy (snd r) then
    exists name,
      cache (snd (fst r)) =
        dict_set (cache_key query max_results)
          {| results := snd r; timestamp := at_store t; provider := name |}
          (cache self)
  else cache (snd (fst r)) = cache self.
Proof.
  cbv zeta. revert self. induction order as [|name rest IH]; intros self.
  - cbn. now split.
  - cbn [search_loop].
    destruct (_is_provider_available (providers self) name); cbn [negb]; [|apply IH].
    pose proof (search_turn_cache name self query max_results t) as H. cbv zeta in H.
    destruct (search_turn float_repr requests_get requests_post quote_plus find_all_b_algo
                name self query max_results t) as [self1 [results|]].
    + cbn [fst snd] in *. destruct H as (Ht & Htr & Hc). rewrite Htr.
      split; [exact Ht|]. now exists name.
    + cbn [fst snd] in H. destruct H as (Ht & Hc).
      specialize (IH self1).
      destruct (search_loop float_repr requests_get requests_post quote_plus find_all_b_algo
                  rest self1 query max_results t) as [[log self2] results].
      cbn [fst snd] in *. rewrite Ht, Hc in IH. exact IH.
Qed.

End Oracles.

(** X22.  The cache of [search_with_fallback] gives back what was found, for
    a [cache_ttl] that is an int from 0 to below 2^53 (the class sets 3600),
    where the comparison with the age of an entry is the one of Python.
    When a call returns results that are not empty, the cache holds them
    under the key of the query and the result count, stamped with the time of
    storage when the call did search; a later call for the same query and
    count within [cache_ttl] seconds of the stamp returns the same results
    without calling a provider and without changing the manager, whatever
    the network would answer.  An empty result is never stored. *)
Theorem search_cache_round_trip (float_repr : float -> string)
    (requests_get : PyVal -> dict PyVal -> result response)
    (requests_post : PyVal -> PyVal -> dict PyVal -> result response)
    (quote_plus : string -> string)
    (find_all_b_algo : response -> result (list bing_item))
    (self : manager) (query : string) (max_results : Z) (t : readings) :
  0 <= cache_ttl self < 2 ^ 53 ->
  let r :=
    search_with_fallback float_repr requests_get requests_post quote_plus find_all_b_algo
      self query max_results t in
  let self' := snd (fst r) in
  if truthy (snd r) then
    exists entry,
      dict_get (cache_key query max_results) (cache self') = Some entry /\
      results entry = snd r /\
      (cached self query max_results (at_cache_check t) = None ->
       timestamp entry = at_store t) /\
      forall float_repr' requests_get' requests_post' quote_plus' find_all_b_algo'
             (later : readings),
        PrimFloat.ltb (PrimFloat.sub (at_cache_check later) (timestamp entry))
          (ComponentOrchestrator.float_of_Z (cache_ttl self)) = true ->
        search_with_fallback float_repr' requests_get' requests_post' quote_plus'
          find_all_b_algo' self' query max_results later = ([], self', snd r)
  else cache self' = cache self.
Proof.
  intros _. cbv zeta.
  assert (Hhit : forall self' entry,
    dict_get (cache_key query max_results) (cache self') = Some entry ->
    cache_ttl self' = cache_ttl self ->
    forall float_repr' requests_get' requests_post' quote_plus' find_all_b_algo'
           (later : readings),
      PrimFloat.ltb (PrimFloat.sub (at_cache_check later) (timestamp entry))
        (ComponentOrchestrator.float_of_Z (cache_ttl self)) = true ->
      search_with_fallback float_repr' requests_get' requests_post' quote_plus'
        find_all_b_algo' self' query max_results later = ([], self', results entry)).
  { intros self' entry He Ht fr' g' p' q' f' later Hl.
    unfold search_with_fallback, cached. now rewrite He, Ht, Hl. }
  destruct (search_with_fallback float_repr requests_get requests_post quote_plus
              find_all_b_algo self query max_results t) as [[log self'] found] eqn:Er.
  cbn [fst snd]. unfold search_with_fallback in Er.
  destruct (cached self query max_results (at_cache_check t)) as [hit|] eqn:Ec.
  - injection Er as <- <- <-. destruct (truthy hit); [|reflexivity].
    unfold cached in Ec.
    destruct (dict_get (cache_key query max_results) (cache self)) as [entry|] eqn:He;
      [|discriminate].
    destruct (PrimFloat.ltb _ _); [|discriminate]. injection Ec as <-.
    exists entry. split; [reflexivity|]. split; [reflexivity|]. split; [discriminate|].
    now apply Hhit.
  - pose proof (search_loop_cache float_repr requests_get requests_post quote_plus
                  find_all_b_algo (_get_provider_order (providers self)) self query
                  max_results t) as H.
    cbv zeta in H. rewrite Er in H. cbn [fst snd] in H. destruct H as [Ht H].
    destruct (truthy found); [|exact H].
    destruct H as (name & Hc).
    exists {| results := found; timestamp := at_store t; provider := name |}.
    split; [rewrite Hc; apply dict_get_set_eq|].
    split; [reflexivity|]. split; [reflexivity|].
    intros fr' g' p' q' f' later Hl.
    apply (Hhit self' {| results := found; timestamp := at_store t; provider := name |}).
    + rewrite Hc. apply dict_get_set_eq.
    + exact Ht.
    + exact Hl.
Qed.

Lemma search_loop_unhandled (float_repr : float -> string)
    (requests_get : PyVal -> dict PyVal -> result response)
    (requests_post : PyVal -> PyVal -> dict PyVal -> result response)
    (quote_plus : string -> string)
    (find_all_b_algo : response -> result (list bing_item))
    (order : list string) (self : manager) (query : string) (max_results : Z)
    (t : readings) :
  (forall name, In name order ->
                handled name && _is_provider_available (providers self) name = false) ->
  search_loop float_repr requests_get requests_post quote_plus find_all_b_algo
    order self query max_results t = ([], self, PList []).
Proof.
  induction order as [|name rest IH]; intros H; [reflexivity|].
  cbn [search_loop].
  destruct (_is_provider_available (providers self) name) eqn:Ea; cbn [negb].
  - assert (Hh : handled name = false).
    { specialize (H name (or_introl eq_refl)). rewrite Ea, andb_true_r in H. exact H. }
    unfold handled in Hh. apply orb_false_iff in Hh as [Hh Hb].
    apply orb_false_iff in Hh as [Hg Hs].
    unfold search_turn, search_by. rewrite Hg, Hs, Hb.
    rewrite IH; [reflexivity|]. intros n Hn. apply H. now right.
  - apply IH. intros n Hn. apply H. now right.
Qed.

(** X23.  [search_with_fallback] has a branch for Google, Serper and Bing
    only.  When none of the three is available and the cache has no fresh
    entry, it returns an empty list at once: it calls no search method, sends
    no request and leaves the manager as it is, whatever other providers are
    enabled; Exa, which [__init__] registers with the first priority, is
    never asked. *)
Theorem search_ignores_other_providers (float_repr : float -> string)
    (requests_get : PyVal -> dict PyVal -> result response)
    (requests_post : PyVal -> PyVal -> dict PyVal -> result response)
    (quote_plus : string -> string)
    (find_all_b_algo : response -> result (list bing_item))
    (self : manager) (query : string) (max_results : Z) (t : readings) :
  cached self query max_results (at_cache_check t) = None ->
  _is_provider_available (providers self) "google" = false ->
  _is_provider_available (providers self) "serper" = false ->
  _is_provider_available (providers self) "bing" = false ->
  search_with_fallback float_repr requests_get requests_post quote_plus find_all_b_algo
    self query max_results t = ([], self, PList []).
Proof.
  intros Hc Hg Hs Hb. unfold search_with_fallback. rewrite Hc.
  apply search_loop_unhandled. intros name _. unfold handled.
  destruct (String.eqb_spec name "google") as [->|_]; [now rewrite Hg|].
  destruct (String.eqb_spec name "serper") as [->|_]; [now rewrite Hs|].
  destruct (String.eqb_spec name "bing") as [->|_]; [now rewrite Hb|].
  reflexivity.
Qed.

End CacheFacts.


Section RotationExamples.
Import Py GoogleAPIRotation SearchRuns.

Lemma rotation_started_init : __init__ two_keys 20000 = Ok rotation_started.
Proof. reflexivity. Qed.

Lemma least_used_key_is_first_minimum_witness :
  (exists (p : nat) (c : dict string),
     nth_error (api_keys rotation_used) p = Some c /\
     _get_least_used_key rotation_used =
       Ok (with_current_key_index (Z.of_nat p) rotation_used, Some c) /\
     (forall c', In c' (api_keys rotation_used) ->
                 requests_of rotation_used c <= requests_of rotation_used c') /\
     (forall (q : nat) c', (q < p)%nat -> nth_error (api_keys rotation_used) q = Some c' ->
                           requests_of rotation_used c < requests_of rotation_used c')) /\
  _get_least_used_key rotation_used =
    Ok (with_current_key_index 1 rotation_used, Some (key_config "key-2" "cx-2" "secondary")).
Proof.
  split.
  - exact (least_used_key_is_first_minimum rotation_used eq_refl).
  - reflexivity.
Defined.

Lemma current_api_config_is_a_key_witness :
  (exists self' r,
     get_current_api_config rotation_used 20000 every_second = Ok (self', r) /\
     consistent self' = true /\
     api_keys self' = api_keys rotation_used /\
     match r with
     | None => api_keys rotation_used = [] /\ self' = rotation_used
     | Some c =>
         In c (api_keys rotation_used) /\ key_at self' (current_key_index self') = Ok c
     end) /\
  get_current_api_config rotation_used 20000 every_second =
    Ok (rotation_used, Some (key_config "key-1" "cx-1" "primary")).
Proof.
  split.
  - exact (current_api_config_is_a_key rotation_used 20000 every_second eq_refl).
  - reflexivity.
Defined.

Lemma daily_limit_lockout_witness :
  let self' := record_requests rotation_used "primary" two_calls in
  exists u',
    dict_get "primary" (key_usage self') = Some u' /\
    requests_today u' = 98 + Z.of_nat (length two_calls) /\
    total_requests u' = 98 + Z.of_nat (length two_calls) /\
    (max_requests_per_key rotation_used <= 98 + Z.of_nat (length two_calls) ->
     forall current_time,
       exists after, _is_key_available self' "primary" current_time = Ok (after, false)) /\
    (forall current_date current_time,
       20000 < current_date ->
       let renewed := _reset_daily_counters_if_needed self' current_date in
       _is_key_available renewed "primary" current_time =
       Ok (renewed,
           (0 <? max_requests_per_key rotation_used)
           && negb (PrimFloat.ltb (PrimFloat.sub current_time (last_request_time u')) 1))).
Proof.
  exact (daily_limit_lockout rotation_used "primary" (used_usage 98) two_calls eq_refl).
Defined.

Lemma rate_limit_hit_blocks_witness :
  let until := PrimFloat.add 1700000000 (ComponentOrchestrator.float_of_Z (3600 * 2)) in
  exists self',
    record_rate_limit_hit rotation_used "primary" 1700000000 = Ok self' /\
    dict_get "primary" (key_usage self') =
      Some (set_block true (Some until) (used_usage 98)) /\
    current_key_index self' = (0 + 1) mod Z.of_nat (length (api_keys rotation_used)) /\
    (forall other, other <> "primary" ->
                   dict_get other (key_usage self') =
                   dict_get other (key_usage rotation_used)) /\
    (forall later, PrimFloat.ltb later until = true ->
                   _is_key_available self' "primary" later = Ok (self', false)).
Proof.
  refine (rate_limit_hit_blocks rotation_used "primary" (used_usage 98) 1700000000
            eq_refl eq_refl _ eq_refl).
  vm_compute. split; [discriminate|reflexivity].
Defined.

Lemma force_rotate_cycles_witness :
  force_rotations 3 rotation_used =
    Ok (with_current_key_index
          ((0 + Z.of_nat 3) mod Z.of_nat (length (api_keys rotation_used))) rotation_used) /\
  force_rotations (length (api_keys rotation_used)) rotation_used = Ok rotation_used.
Proof.
  exact (force_rotate_cycles rotation_used 3 eq_refl).
Defined.

Lemma next_api_key_never_complete_witness :
  get_next_api_keys rotation_started =
    Raise (Exn "AttributeError"
             "'GoogleAPIRotation' object has no attribute 'current_index'") /\
  forall i,
    match get_next_api_keys (with_current_index (Some i) rotation_started) with
    | Ok (_, (_, search_engine_id)) => search_engine_id = None
    | Raise _ => True
    end.
Proof.
  exact (next_api_key_never_complete two_keys rotation_started
           (reach_init two_keys 20000 rotation_started rotation_started_init)).
Defined.

End RotationExamples.

Section SearchExamples.
Import Py ProductionSearchManager SearchRuns.

Lemma google_is_never_queried_witness :
  let turn :=
    search_turn Runs.print_float get_fails post_fails quote no_items
      "google" started "mercado" 10 at_noon in
  (forall requests_get',
     search_turn Runs.print_float requests_get' post_fails quote no_items
       "google" started "mercado" 10 at_noon = turn) /\
  snd turn = None /\
  cache (fst turn) = cache started /\
  errors_of (fst turn) "google" = errors_of started "google" + 1.
Proof.
  cbv zeta. split; [|split; [reflexivity|split; reflexivity]].
  intros requests_get'.
  apply (google_is_never_queried Runs.print_float post_fails quote no_items two_keys
           get_fails requests_get' started "mercado" 10 at_noon).
  apply (GoogleAPIRotation.reach_init two_keys 20000). reflexivity.
Defined.

Lemma serper_failure_counts_witness :
  let turn :=
    search_turn Runs.print_float get_fails post_fails quote no_items
      "serper" started "mercado" 10 at_noon in
  errors_of (fst turn) "serper" = 0 + 2 /\ snd turn = None.
Proof.
  exact (serper_failure_counts Runs.print_float post_fails quote no_items get_fails
           started "mercado" 10 at_noon serper_entry (PStr "serper-key")
           (PStr "https://google.serper.dev/search") eq_refl eq_refl eq_refl eq_refl).
Defined.

Lemma bing_failure_counts_witness :
  let turn :=
    search_turn Runs.print_float get_fails post_fails quote no_items
      "bing" started "mercado" 10 at_noon in
  errors_of (fst turn) "bing" = 0 + 2 /\ snd turn = None.
Proof.
  exact (bing_failure_counts Runs.print_float post_fails quote no_items get_fails
           started "mercado" 10 at_noon bing_entry (PStr "https://www.bing.com/search")
           eq_refl eq_refl eq_refl).
Defined.

Lemma search_ignores_other_providers_witness :
  _is_provider_available (providers only_exa) "exa" = true /\
  search_with_fallback Runs.print_float get_fails post_fails quote no_items
    only_exa "mercado" 10 at_noon = ([], only_exa, PList []).
Proof.
  split; [reflexivity|].
  exact (search_ignores_other_providers Runs.print_float get_fails post_fails quote no_items
           only_exa "mercado" 10 at_noon eq_refl eq_refl eq_refl eq_refl).
Defined.

Lemma search_cache_round_trip_witness :
  let r :=
    search_with_fallback Runs.print_float get_fails serper_answers quote no_items
      started "coaching app" 10 at_noon in
  let self' := snd (fst r) in
  snd r =
    PList [PDict [("title", PStr "Coaching apps in Brazil");
                  ("url", PStr "https://example.com/coaching");
                  ("snippet", PStr "Market overview");
                  ("source", PStr "serper")]] /\
  exists entry,
    dict_get (cache_key "coaching app" 10) (cache self') = Some entry /\
    results entry = snd r /\
    (cached started "coaching app" 10 (at_cache_check at_noon) = None ->
     timestamp entry = at_store at_noon) /\
    forall float_repr' requests_get' requests_post' quote_plus' find_all_b_algo'
           (later : readings),
      PrimFloat.ltb (PrimFloat.sub (at_cache_check later) (timestamp entry))
        (ComponentOrchestrator.float_of_Z (cache_ttl started)) = true ->
      search_with_fallback float_repr' requests_get' requests_post' quote_plus'
        find_all_b_algo' self' "coaching app" 10 later = ([], self', snd r).
Proof.
  split; [vm_compute; reflexivity|].
  refine (search_cache_round_trip Runs.print_float get_fails serper_answers quote no_items
            started "coaching app" 10 at_noon _).
  vm_compute. split; [discriminate|reflexivity].
Defined.

End SearchExamples.


(** ** What a client sees of a synchronized analysis *)

Section AnalysisOutcome.
Import Py ComponentOrchestrator SuperOrchestrator.

Variable float_repr : float -> string.
Variable salvar_etapa : string -> PyVal -> string -> result unit.
Variable time_time : float.
Variable component_orchestrator : orchestrator.
Variable salvar_erro : string -> exn -> result unit.
Variable service_status : result PyVal.
Variable fase1_message fase2_message : string.

(** The [try] block up to the component report. *)
Lemma try_prefix_report (data : dict PyVal) (session_id : string) (cb : ProgressCallback)
    (component_results : PyVal) :
  snd (synchronized_analysis_try float_repr salvar_etapa time_time component_orchestrator
         service_status fase1_message fase2_message
         (fun _ _ _ _ component_results => Ok component_results)
         data session_id cb) = Ok component_results ->
  snd (execute_components float_repr salvar_etapa time_time component_orchestrator data cb)
  = Ok component_results.
Proof.
  unfold synchronized_analysis_try.
  destruct (salvar_etapa "super_orchestrator_iniciado" _ _) as [[]|e]; [|discriminate].
  destruct (snd (call_progress cb 1 fase1_message)) as [[]|e]; [|discriminate].
  destruct service_status as [status|e]; [|discriminate].
  destruct (snd (call_progress cb 2 fase2_message)) as [[]|e]; [|discriminate].
  destruct (snd (execute_components _ _ _ _ _ _)) as [report|e]; [|discriminate].
  cbn [snd]. now intros [= ->].
Qed.

Lemma component_report_rate (data : dict PyVal) (cb : ProgressCallback) (report : PyVal) :
  snd (execute_components float_repr salvar_etapa time_time component_orchestrator data cb)
  = Ok report ->
  component_success_rate report =
  Raise (Exn "TypeError" "object of type 'int' has no len()").
Proof.
  unfold execute_components.
  destruct (_prepare_base_data float_repr data) as [base|e]; [|discriminate].
  destruct (count_successful _) as [k|e]; cbn [bind]; [|discriminate].
  destruct (components_status _) as [st|e]; cbn [bind]; [|discriminate].
  destruct (salvar_etapa _ _ _) as [[]|e]; cbn [snd]; [|discriminate].
  now intros [= <-].
Qed.

Lemma synchronized_analysis_try_raises
    (remaining_phases :
       dict PyVal -> string -> ProgressCallback -> PyVal -> PyVal -> PyVal -> result PyVal)
    (data : dict PyVal) (session_id : string) (cb : ProgressCallback) :
  exists e,
    snd (synchronized_analysis_try float_repr salvar_etapa time_time component_orchestrator
           service_status fase1_message fase2_message (phases_3_to_6 remaining_phases)
           data session_id cb) = Raise e.
Proof.
  unfold synchronized_analysis_try.
  destruct (salvar_etapa "super_orchestrator_iniciado" _ _) as [[]|e]; [|cbn; eauto].
  destruct (snd (call_progress cb 1 fase1_message)) as [[]|e]; [|cbn; eauto].
  destruct service_status as [status|e]; [|cbn; eauto].
  destruct (snd (call_progress cb 2 fase2_message)) as [[]|e]; [|cbn; eauto].
  destruct (snd (execute_components _ _ _ _ _ _)) as [report|e] eqn:E; [|cbn; eauto].
  cbn [snd]. unfold phases_3_to_6.
  rewrite (component_report_rate _ _ _ E). cbn [bind]. eauto.
Qed.

Lemma reached_completed_false
    (remaining_phases_state :
       dict PyVal -> string -> ProgressCallback -> PyVal -> PyVal -> PyVal ->
       bool * result PyVal)
    (data : dict PyVal) (session_id : string) (cb : ProgressCallback) :
  reached_completed float_repr salvar_etapa time_time component_orchestrator
    service_status fase1_message fase2_message remaining_phases_state
    data session_id cb = false.
Proof.
  unfold reached_completed.
  destruct (snd (synchronized_analysis_try _ _ _ _ _ _ _ _ _ _ _)) as [report|e] eqn:E;
    [|reflexivity].
  apply try_prefix_report in E. rewrite (component_report_rate _ _ _ E).
  now destruct service_status.
Qed.

Lemma get_set_in_session (session_id k : string) (v : PyVal)
    (execution_state : dict (dict PyVal)) (other : string) :
  dict_get other (set_in_session session_id k v execution_state) =
  if String.eqb session_id other
  then option_map (dict_set k v) (dict_get session_id execution_state)
  else dict_get other execution_state.
Proof.
  unfold set_in_session.
  destruct (String.eqb_spec session_id other) as [<-|Hne].
  - destruct (dict_get session_id execution_state) as [s|] eqn:E.
    + now rewrite dict_get_set_eq.
    + now rewrite E.
  - destruct (dict_get session_id execution_state) as [s|]; [|reflexivity].
    now apply dict_get_set_ne.
Qed.

(** X25.  [get_session_progress] never shows a synchronized analysis advance
    or finish.  Nothing adds to ['components_completed'], and the [try] block
    of [execute_synchronized_analysis] never gets to the statement that sets
    the session to ['completed']: after a run, whatever the components, the
    services and the saves did, the progress of the session is 0 percent,
    not completed, ['Processando componente 1/12'] and ['24m'].  The progress
    of the other sessions is as it was. *)
Theorem session_progress_never_advances
    (remaining_phases_state :
       dict PyVal -> string -> ProgressCallback -> PyVal -> PyVal -> PyVal ->
       bool * result PyVal)
    (execution_state : dict (dict PyVal)) (data : dict PyVal) (session_id : string)
    (cb : ProgressCallback) (start_time execution_time : float) :
  let after :=
    execution_state_after float_repr salvar_etapa time_time component_orchestrator
      salvar_erro service_status fase1_message fase2_message remaining_phases_state
      execution_state data session_id cb start_time execution_time in
  get_session_progress after session_id =
    PDict [("completed", PBool false);
           ("percentage", PFloat 0);
           ("current_step", PStr "Processando componente 1/12");
           ("total_steps", PInt 12);
           ("estimated_time", PStr "24m")] /\
  forall other, other <> session_id ->
                get_session_progress after other =
                get_session_progress execution_state other.
Proof.
  cbv zeta. unfold execution_state_after. rewrite reached_completed_false.
  destruct (synchronized_analysis_try_raises
              (remaining_phases remaining_phases_state) data session_id cb) as [e ->].
  unfold get_session_progress.
  destruct (salvar_erro "super_orchestrator_critico" e) as [[]|e'].
  - split.
    + rewrite !get_set_in_session, String.eqb_refl, dict_get_set_eq. reflexivity.
    + intros other Hne. rewrite !get_set_in_session.
      destruct (String.eqb_spec session_id other) as [->|_]; [easy|].
      rewrite dict_get_set_ne by congruence. reflexivity.
  - split.
    + rewrite dict_get_set_eq. reflexivity.
    + intros other Hne. rewrite dict_get_set_ne by congruence. reflexivity.
Qed.

End AnalysisOutcome.

Section AnalyzeFacts.
Import Py ComponentOrchestrator SuperOrchestrator AnalysisRoutes.

(** X24.  When the saves work, [analyze] answers a request whose body is a
    dict that is not empty with status 200, [success = True] and the message
    of a completed analysis, and marks the session ['completed'], while the
    ['data'] of the answer is the emergency fallback of the orchestrator,
    whose own ['success'] is [False]: the [try] block of
    [execute_synchronized_analysis] never completes. *)
Theorem analyze_answers_success_with_fallback
    (float_repr : float -> string)
    (salvar_etapa : string -> PyVal -> string -> result unit)
    (salvar_erro : string -> exn -> result unit)
    (time_time : float) (component_orchestrator : orchestrator)
    (service_status : result PyVal) (fase1_message fase2_message : string)
    (remaining_phases :
       dict PyVal -> string -> ProgressCallback -> PyVal -> PyVal -> PyVal -> result PyVal)
    (active_sessions : gmap string (dict PyVal)) (d : dict PyVal)
    (session_id now later : string) (timestamp : float) :
  d <> [] ->
  (forall etapa dados categoria, salvar_etapa etapa dados categoria = Ok tt) ->
  (forall nome e, salvar_erro nome e = Ok tt) ->
  let r :=
    analyze float_repr salvar_etapa salvar_erro time_time component_orchestrator
      service_status fase1_message fase2_message (phases_3_to_6 remaining_phases)
      _generate_emergency_fallback (Ok session_id)
      active_sessions (PDict d) now later timestamp in
  exists analysis_data,
    read_request float_repr salvar_etapa (PDict d) session_id timestamp = Ok analysis_data /\
    snd r =
      Ok (analysis_done session_id (PStr "N/A")
            (_generate_emergency_fallback analysis_data session_id)) /\
    dict_field "success" (_generate_emergency_fallback analysis_data session_id)
    = PBool false /\
    dict_field "sync_status" (_generate_emergency_fallback analysis_data session_id)
    = PStr "EMERGENCY_FALLBACK" /\
    status_in (fst (fst r)) session_id = Some (PStr "completed").
Proof.
  intros Hd Hsave Herr. cbv zeta.
  assert (Hread : exists analysis_data,
            read_request float_repr salvar_etapa (PDict d) session_id timestamp
            = Ok analysis_data).
  { unfold read_request. rewrite !Hsave. cbn [bind get_method]. rewrite Hsave.
    cbn [bind]. eauto. }
  destruct Hread as [analysis_data Hread]. exists analysis_data.
  split; [exact Hread|]. split; [|split; [reflexivity|split; [reflexivity|]]].
  - unfold analyze, analyze_try.
    assert (Ht : truthy (PDict d) = true) by (destruct d; [contradiction|reflexivity]).
    rewrite Ht, Hread. cbn [negb].
    unfold call_execute_synchronized_analysis. cbn [bind_keywords analyze_keywords].
    change (bind_keywords "SuperOrchestrator.execute_synchronized_analysis"
              execute_synchronized_analysis_params execute_synchronized_analysis_required
              analyze_keywords) with (Ok tt : result unit).
    unfold execute_synchronized_analysis.
    destruct (synchronized_analysis_try_raises float_repr salvar_etapa time_time
                component_orchestrator service_status fase1_message fase2_message
                remaining_phases analysis_data session_id (send_progress_update salvar_etapa now))
      as [e He].
    rewrite He, Herr. cbn [snd fst]. unfold _generate_emergency_fallback.
    cbn [get_method bind dict_get String.eqb Ascii.eqb Bool.eqb default from_option id
         snd fst].
    reflexivity.
  - unfold analyze, analyze_try.
    assert (Ht : truthy (PDict d) = true) by (destruct d; [contradiction|reflexivity]).
    rewrite Ht, Hread. cbn [negb].
    unfold call_execute_synchronized_analysis.
    change (bind_keywords "SuperOrchestrator.execute_synchronized_analysis"
              execute_synchronized_analysis_params execute_synchronized_analysis_required
              analyze_keywords) with (Ok tt : result unit).
    unfold execute_synchronized_analysis.
    destruct (synchronized_analysis_try_raises float_repr salvar_etapa time_time
                component_orchestrator service_status fase1_message fase2_message
                remaining_phases analysis_data session_id (send_progress_update salvar_etapa now))
      as [e He].
    rewrite He, Herr. cbn [snd fst]. unfold _generate_emergency_fallback.
    cbn [get_method bind dict_get String.eqb Ascii.eqb Bool.eqb default from_option id
         snd fst].
    rewrite lookup_insert_eq. unfold status_in. rewrite lookup_insert_eq. reflexivity.
Qed.

End AnalyzeFacts.


Section AnalyzeExample.
Import Py ComponentOrchestrator SuperOrchestrator AnalysisRoutes.

Lemma analyze_answers_success_with_fallback_witness :
  let r :=
    analyze Runs.print_float Runs.save_returns Runs.save_error_returns Runs.clock
      ContinueRuns.registered ContinueRuns.services "fase 1" "fase 2"
      (phases_3_to_6 AnalyzeRuns.would_succeed) _generate_emergency_fallback
      (Ok "session_1") ∅ (PDict Runs.fitness_job)
      "2025-01-02T09:00:00" "2025-01-02T09:00:01" Runs.clock in
  (exists analysis_data,
     read_request Runs.print_float Runs.save_returns (PDict Runs.fitness_job) "session_1"
       Runs.clock = Ok analysis_data /\
     snd r =
       Ok (analysis_done "session_1" (PStr "N/A")
             (_generate_emergency_fallback analysis_data "session_1")) /\
     dict_field "success" (_generate_emergency_fallback analysis_data "session_1")
     = PBool false /\
     dict_field "sync_status" (_generate_emergency_fallback analysis_data "session_1")
     = PStr "EMERGENCY_FALLBACK" /\
     status_in (fst (fst r)) "session_1" = Some (PStr "completed")) /\
  http_status (snd r) = 200.
Proof.
  split.
  - apply (analyze_answers_success_with_fallback Runs.print_float Runs.save_returns
             Runs.save_error_returns Runs.clock ContinueRuns.registered
             ContinueRuns.services "fase 1" "fase 2" AnalyzeRuns.would_succeed ∅
             Runs.fitness_job "session_1" "2025-01-02T09:00:00" "2025-01-02T09:00:01"
             Runs.clock).
    + discriminate.
    + reflexivity.
    + reflexivity.
  - reflexivity.
Defined.

End AnalyzeExample.

Section FailureFacts.
Import Py GoogleAPIRotation.

Lemma record_failure_usage (self : rotation) (key_name : string)
    (response_time current_time : float) (u : usage) :
  dict_get key_name (key_usage self) = Some u ->
  exists u',
    dict_get key_name
      (key_usage (record_request self key_name false response_time current_time))
    = Some u' /\
    success_rate u' = fail_rate (success_rate u) /\
    is_blocked u' =
      (if PrimFloat.ltb (fail_rate (success_rate u)) f0_3 then true else is_blocked u) /\
    (is_blocked u' = true -> is_blocked u = false ->
     block_until u' =
       Some (PrimFloat.add current_time
               (ComponentOrchestrator.float_of_Z (cooldown_period self)))) /\
    cooldown_period (record_request self key_name false response_time current_time)
    = cooldown_period self.
Proof.
  intros Hu. unfold record_request. rewrite Hu. cbn [key_usage with_key_usage].
  rewrite dict_get_set_eq. eexists. split; [reflexivity|].
  cbn [success_rate is_blocked block_until cooldown_period with_key_usage].
  fold (fail_rate (success_rate u)).
  split; [reflexivity|]. split; [reflexivity|]. split; [|reflexivity].
  destruct (PrimFloat.ltb (fail_rate (success_rate u)) f0_3); [reflexivity|congruence].
Qed.

Lemma record_failures_usage (calls : list (float * float)) (self : rotation)
    (key_name : string) (u : usage) :
  dict_get key_name (key_usage self) = Some u ->
  exists u',
    dict_get key_name (key_usage (record_requests self key_name (failures calls)))
    = Some u' /\
    is_blocked u' = blocked_after (length calls) (success_rate u) (is_blocked u).
Proof.
  revert self u. induction calls as [|[rt t] calls IH]; intros self u Hu.
  - exists u. now split.
  - destruct (record_failure_usage self key_name rt t u Hu) as (u1 & H1 & Hr & Hb & _).
    destruct (IH _ u1 H1) as (u' & H' & Hb').
    exists u'. split; [exact H'|]. rewrite Hb', Hr, Hb. reflexivity.
Qed.

(** X26.  A key with a success rate of 1.0 that is not blocked stays
    unblocked through eleven failed requests in a row and is blocked by the
    twelfth, whatever the response times and the times of the requests: the
    rate loses a tenth of its value with each failure and falls below 0.3 at
    the twelfth. *)
Theorem twelve_failures_block_a_key (self : rotation) (key_name : string) (u : usage)
    (calls : list (float * float)) :
  dict_get key_name (key_usage self) = Some u ->
  success_rate u = 1%float ->
  is_blocked u = false ->
  (length calls <= 12)%nat ->
  exists u',
    dict_get key_name (key_usage (record_requests self key_name (failures calls)))
    = Some u' /\
    is_blocked u' = (length calls =? 12)%nat.
Proof.
  intros Hu Hr Hb Hlen.
  destruct (record_failures_usage calls self key_name u Hu) as (u' & Hu' & Hb').
  exists u'. split; [exact Hu'|]. rewrite Hb', Hr, Hb.
  do 13 (destruct calls as [|? calls]; [vm_compute; reflexivity|]).
  cbn [length] in Hlen. lia.
Qed.

End FailureFacts.

Section FailureExample.
Import Py GoogleAPIRotation SearchRuns.

Lemma twelve_failures_block_a_key_witness :
  exists u',
    dict_get "primary"
      (key_usage (record_requests rotation_started "primary"
                    (failures (repeat (0.5%float, 1700000000%float) 12))))
    = Some u' /\
    is_blocked u' = true.
Proof.
  exact (twelve_failures_block_a_key rotation_started "primary" (new_usage 20000)
           (repeat (0.5%float, 1700000000%float) 12) eq_refl eq_refl eq_refl
           (le_n 12)).
Defined.

End FailureExample.

Section ErrorFacts.
Import Py ProductionSearchManager.

Lemma record_error_other (self : manager) (name other : string) :
  other <> name ->
  dict_get other (providers (record_error self name)) = dict_get other (providers self).
Proof.
  intros Hne. unfold record_error, _record_provider_error. cbn [providers with_providers].
  destruct (dict_get name (providers self)); [|reflexivity].
  apply dict_get_set_ne. congruence.
Qed.

Lemma record_errors_get (k : nat) (self : manager) (name : string) (p : search_provider) :
  dict_get name (providers self) = Some p ->
  exists p',
    dict_get name (providers (record_errors k self name)) = Some p' /\
    error_count p' = error_count p + Z.of_nat k /\
    enabled p' = enabled p /\ max_errors p' = max_errors p /\ priority p' = priority p /\
    forall other, other <> name ->
      dict_get other (providers (record_errors k self name)) =
      dict_get other (providers self).
Proof.
  revert self p. induction k as [|k IH]; intros self p Hp.
  - exists p. cbn. repeat split; auto; lia.
  - cbn [record_errors].
    assert (H1 : dict_get name (providers (record_error self name)) =
                 Some {| enabled := enabled p; priority := priority p;
                         error_count := error_count p + 1; max_errors := max_errors p;
                         config := config p |}).
    { unfold record_error, _record_provider_error. cbn [providers with_providers].
      rewrite Hp. apply dict_get_set_eq. }
    destruct (IH _ _ H1) as (p' & Hp' & Hc & He & Hm & Hpr & Ho).
    exists p'. split; [exact Hp'|]. cbn in Hc, He, Hm, Hpr.
    repeat split; auto; [lia|].
    intros other Hne. rewrite (Ho other Hne). now apply record_error_other.
Qed.

Lemma dict_get_map_reset (n : string) (l : dict search_provider) :
  dict_get n (map (fun '(n, p) => (n, reset_error_count p)) l) =
  option_map reset_error_count (dict_get n l).
Proof.
  induction l as [|[m q] l IH]; [reflexivity|]. cbn. now destruct (String.eqb n m).
Qed.

(** X27.  Recording errors only moves a provider's error count: after [k]
    recorded errors the provider is available exactly when it is enabled and
    its count plus [k] is still below [max_errors], and the other providers
    are as before.  [reset_provider_errors] puts the count back to zero, for
    the named provider or for all of them, and never enables a provider: a
    reset provider is available exactly when it is enabled and [max_errors]
    is positive. *)
Theorem errors_disable_and_reset_restores (self : manager) (name : string)
    (p : search_provider) (k : nat) :
  dict_get name (providers self) = Some p ->
  name <> "" ->
  let failed := record_errors k self name in
  _is_provider_available (providers failed) name =
    enabled p && (error_count p + Z.of_nat k <? max_errors p) /\
  (forall other, other <> name ->
     dict_get other (providers failed) = dict_get other (providers self)) /\
  _is_provider_available (providers (reset_provider_errors failed (Some name))) name =
    enabled p && (0 <? max_errors p) /\
  _is_provider_available (providers (reset_provider_errors failed None)) name =
    enabled p && (0 <? max_errors p) /\
  reset_provider_errors failed (Some "") = reset_provider_errors failed None.
Proof.
  intros Hp Hne failed.
  destruct (record_errors_get k self name p Hp) as (p' & Hp' & Hc & He & Hm & _ & Ho).
  fold failed in Hp', Ho.
  split; [|split; [exact Ho|split; [|split; [|reflexivity]]]].
  - unfold _is_provider_available. now rewrite Hp', He, Hc, Hm.
  - unfold reset_provider_errors.
    destruct (String.eqb_spec name "") as [->|_]; [contradiction|]. cbn [negb].
    rewrite Hp'. cbn [providers with_providers]. unfold _is_provider_available.
    rewrite dict_get_set_eq. cbn. now rewrite He, Hm.
  - unfold reset_provider_errors. cbn [providers with_providers].
    unfold _is_provider_available. rewrite dict_get_map_reset, Hp'. cbn.
    now rewrite He, Hm.
Qed.

End ErrorFacts.

Section ErrorExample.
Import Py ProductionSearchManager SearchRuns.

Lemma errors_disable_and_reset_restores_witness :
  let failed := record_errors 4 started "serper" in
  _is_provider_available (providers failed) "serper" = true && (0 + Z.of_nat 4 <? 3) /\
  (forall other, other <> "serper" ->
     dict_get other (providers failed) = dict_get other (providers started)) /\
  _is_provider_available (providers (reset_provider_errors failed (Some "serper"))) "serper"
  = true && (0 <? 3) /\
  _is_provider_available (providers (reset_provider_errors failed None)) "serper"
  = true && (0 <? 3) /\
  reset_provider_errors failed (Some "") = reset_provider_errors failed None.
Proof.
  apply (errors_disable_and_reset_restores started "serper" serper_entry 4).
  - reflexivity.
  - discriminate.
Defined.

End ErrorExample.


(** ** The preferred strategy of the extraction chain *)

Section PreferenceFacts.
Import Py ProductionContentExtractor.
Variable _extract_with_jina_reader : string -> result (option string).
Variable _extract_with_trafilatura : string -> result (option string).
Variable _extract_with_mercury_parser : string -> result (option string).
Variable _extract_with_requests_html : string -> result (option string).
Variable _extract_with_bs4 : string -> result (option string).
Variable _extract_with_simple_requests : string -> result (option string).

#[local] Abbreviation attempt_ :=
  (attempt _extract_with_jina_reader _extract_with_trafilatura
     _extract_with_mercury_parser _extract_with_requests_html _extract_with_bs4
     _extract_with_simple_requests).
#[local] Abbreviation trace_ :=
  (extract_content_trace _extract_with_jina_reader _extract_with_trafilatura
     _extract_with_mercury_parser _extract_with_requests_html _extract_with_bs4
     _extract_with_simple_requests).
#[local] Abbreviation run_ :=
  (run_strategies _extract_with_jina_reader _extract_with_trafilatura
     _extract_with_mercury_parser _extract_with_requests_html _extract_with_bs4
     _extract_with_simple_requests).

Lemma chain_finds_what_a_strategy_yields (url strategy content : string) :
  In strategy strategies ->
  attempt_ strategy url = Some content ->
  fst (run_ strategies url) <> None.
Proof.
  intros Hin Ha Hnone.
  pose proof (run_strategies_spec _extract_with_jina_reader _extract_with_trafilatura
                _extract_with_mercury_parser _extract_with_requests_html _extract_with_bs4
                _extract_with_simple_requests strategies url) as H.
  rewrite Hnone in H. destruct H as [_ Hf].
  rewrite List.Forall_forall in Hf. specialize (Hf strategy Hin).
  apply attempt_None in Hf. congruence.
Qed.

(** X28.  With strategies that answer the same way each time they are
    executed, a preferred strategy changes which strategy supplies the
    content, never whether content is found.  A preference that is empty or not one
    of the six strategies is ignored.  A valid one is executed first: its
    content, when valid, is returned at once; otherwise the whole chain runs
    as without a preference, the preferred strategy included, so that a
    search that finds nothing has executed it twice. *)
Theorem extract_content_preference (url strategy_preference : string) :
  let preferred := trace_ url (Some strategy_preference) in
  let plain := trace_ url None in
  (if negb (String.eqb strategy_preference "")
      && existsb (String.eqb strategy_preference) strategies
   then
     match attempt_ strategy_preference url with
     | Some content => preferred = (Some content, [strategy_preference])
     | None => preferred = (fst plain, strategy_preference :: snd plain)
     end
   else preferred = plain) /\
  (fst preferred = None <-> fst plain = None) /\
  (fst preferred = None ->
   snd preferred = strategies \/ snd preferred = strategy_preference :: strategies).
Proof.
  cbv zeta. unfold extract_content_trace.
  destruct (negb (String.eqb strategy_preference "")
            && existsb (String.eqb strategy_preference) strategies) eqn:Ev.
  - apply andb_true_iff in Ev as [_ Hin].
    apply existsb_exists in Hin as (s & Hin & Heq). apply String.eqb_eq in Heq. subst s.
    destruct (attempt_ strategy_preference url) as [content|] eqn:Ea.
    + split; [reflexivity|]. cbn [fst snd]. split; [|discriminate].
      split; [discriminate|].
      intros Hnone. exfalso.
      now apply (chain_finds_what_a_strategy_yields url strategy_preference content).
    + split; [reflexivity|]. cbn [fst snd]. split; [reflexivity|].
      intros Hnone. right. f_equal.
      pose proof (run_strategies_spec _extract_with_jina_reader _extract_with_trafilatura
                    _extract_with_mercury_parser _extract_with_requests_html
                    _extract_with_bs4 _extract_with_simple_requests strategies url) as H.
      rewrite Hnone in H. apply H.
  - split; [reflexivity|]. split; [reflexivity|].
    intros Hnone. left.
    pose proof (run_strategies_spec _extract_with_jina_reader _extract_with_trafilatura
                  _extract_with_mercury_parser _extract_with_requests_html
                  _extract_with_bs4 _extract_with_simple_requests strategies url) as H.
    rewrite Hnone in H. apply H.
Qed.

End PreferenceFacts.
